(** * CivicConnect: report lifecycle, bulk operations, search and statistics

    A shallow embedding of the server's report model
    ([report.model.js]), report controller ([report.controller.js]),
    admin controller ([admin.controller.js]), notification model
    ([notification.model.js]) and the public [register] handler
    ([auth.controller.js]); then of the field worker controller
    ([fieldworker.controller.js]) and the upload service
    ([upload.service.js]), of the session handlers and the
    authentication middleware ([auth.controller.js],
    [auth.middleware.js]), of the notification, user and admin routes, and
    of the two ledger programs: the chaincode [UserAuthContract] and the
    contract [AuthManager.sol].

    Conventions of the embedding.
    - A mongoose [ObjectId] is its canonical string; a [Date] is the
      number of milliseconds since the epoch.  An id that arrives in a
      request (a URL parameter, a member of the body) is a [string]:
      mongoose casts it where the schema has an [ObjectId], and the cast
      is a parameter of the development ([Mongoose]).
    - The order in which the store returns the hits of a sorted cursor is
      a parameter as well ([MongoDB]): it is a permutation of the hits,
      sorted when the sort path is one of the scalar paths of the schema,
      with the order of ties left open.
    - The three collections and a log of the database operations issued
      so far form the [World]; handlers run in a state monad over it whose
      results distinguish going on to the reply, [return next(new
      ApiError(..))], a refusal sent by a middleware and an exception that
      reaches the handler's [catch].
    - [new Date()] is the [now] argument of a handler: the clock is read
      once per request.
    - [await Promise.all(reports.map(async ...))] is run in the order of
      the array; the callbacks touch pairwise distinct documents. *)

From Stdlib Require Import String Ascii List ZArith Bool Lia Permutation Sorted.
From Stdlib Require Import OrderedTypeEx.
From Stdlib Require Import QArith Qround DecimalString.
Import ListNotations.

Local Open Scope string_scope.
Local Open Scope Z_scope.
Local Open Scope list_scope.

(** String concatenation, as in a template literal. *)
Notation "a ^^ b" := (String.append a b) (at level 60, right associativity).

(** ** JavaScript helpers *)

Definition str_nonempty (s : string) : bool :=
  match s with EmptyString => false | String _ _ => true end.

(** Truthiness of a value that is a string or [undefined]. *)
Definition truthy (o : option string) : bool :=
  match o with Some s => str_nonempty s | None => false end.

(** [x || d] for a string-or-undefined [x]. *)
Definition or_else (o : option string) (d : string) : string :=
  match o with
  | Some s => if str_nonempty s then s else d
  | None => d
  end.

(** [s.replace(c, d)] with string arguments of length one: only the first
    occurrence is replaced. *)
Fixpoint replace_first (c d : ascii) (s : string) : string :=
  match s with
  | EmptyString => EmptyString
  | String a rest =>
      if Ascii.eqb a c then String d rest else String a (replace_first c d rest)
  end.

(** [arr.includes(x)] on an array of strings. *)
Definition includes (l : list string) (x : string) : bool :=
  existsb (String.eqb x) l.

Definition dquote : string := String (ascii_of_nat 34) EmptyString.

(** A count inside a template literal. *)
Definition showNat (n : nat) : string := NilZero.string_of_uint (Nat.to_uint n).

(** ** Data model (report.model.js, notification.model.js) *)

Definition ObjectId := string.
Definition Date := Z.

Record TimelineEntry := mkEntry {
  te_status : string;
  te_timestamp : Date;
  te_comment : option string;
  te_updatedBy : ObjectId
}.

Record Feedback := mkFeedback {
  fb_rating : option Z;
  fb_comment : option string;
  fb_submittedAt : Date
}.

Record Image := mkImage {
  img_url : string;
  img_caption : string;
  img_uploadedAt : Date
}.

Record Report := mkReport {
  r_id : ObjectId;
  title : string;
  description : string;
  category : string;
  priority : string;
  status : string;
  city : option string;            (* location.address.city *)
  images : list Image;
  submittedBy : ObjectId;
  assignedTo : option ObjectId;    (* null when unassigned *)
  timeline : list TimelineEntry;
  feedback : option Feedback;
  createdAt : Date;
  updatedAt : Date
}.

Record User := mkUser {
  u_id : ObjectId;
  firstName : string;
  lastName : string;
  email : string;
  role : string
}.

Record Notification := mkNotification {
  recipient : ObjectId;
  n_type : string;
  n_title : string;
  message : string;
  relatedTo : option (string * ObjectId);   (* model name, id *)
  isRead : bool;
  readAt : option Date;
  n_priority : string;
  n_createdAt : Date;
  n_updatedAt : Date
}.

(** The [enum] of the schema paths [status] and [timeline.status]. *)
Definition validStatuses : list string :=
  ["submitted"; "in_review"; "assigned"; "in_progress"; "resolved"; "closed"].

(** ** The world and the handler monad *)

Inductive DbOp :=
| ReportFindById (id : ObjectId)
| ReportFind
| ReportCount
| ReportAggregate
| ReportSave (id : ObjectId)
| UserFindById (id : ObjectId)
| UserFindOne (mail : string)
| UserCreate (mail : string)
| NotificationCreate (to : ObjectId).

Record World := mkWorld {
  reports : list Report;
  users : list User;
  notifications : list Notification;
  oplog : list DbOp
}.

Inductive Result (A : Type) :=
| Done (a : A)                        (* the handler went on *)
| Next (msg : string) (code : Z)      (* return next(new ApiError(msg, code)) *)
| Refused (msg : string) (code : Z)   (* return res.status(code).json({success: false, message}) *)
| Thrown (name : string).             (* an exception, by its error name *)
Arguments Done {A} a.
Arguments Next {A} msg code.
Arguments Refused {A} msg code.
Arguments Thrown {A} name.

Definition M (A : Type) := World -> Result A * World.

Definition ret {A} (a : A) : M A := fun w => (Done a, w).

Definition bind {A B} (m : M A) (k : A -> M B) : M B :=
  fun w =>
    match m w with
    | (Done a, w') => k a w'
    | (Next msg c, w') => (Next msg c, w')
    | (Refused msg c, w') => (Refused msg c, w')
    | (Thrown n, w') => (Thrown n, w')
    end.

Notation "x <- m ;; k" := (bind m (fun x => k))
  (at level 61, m at next level, right associativity).
Notation "m ;;; k" := (bind m (fun _ => k))
  (at level 61, right associativity).

Definition next {A} (msg : string) (code : Z) : M A := fun w => (Next msg code, w).
Definition refuse {A} (msg : string) (code : Z) : M A := fun w => (Refused msg code, w).
Definition throw {A} (name : string) : M A := fun w => (Thrown name, w).
Definition logOp (op : DbOp) : M unit :=
  fun w => (Done tt, mkWorld (reports w) (users w) (notifications w) (oplog w ++ [op])).

(** [try { body } catch (error) { next(error) }] of the report and auth
    controllers forwards the exception unchanged, so the body is the
    handler.  The admin controller replaces it by a 500 [ApiError]. *)
Definition catch500 {A} (msg : string) (m : M A) : M A :=
  fun w =>
    match m w with
    | (Thrown _, w') => (Next msg 500, w')
    | other => other
    end.

(** A JSON reply: [res.status(code).json(body)]. *)
Record Reply (A : Type) := mkReply { code : Z; body : A }.
Arguments mkReply {A} code body.
Arguments code {A} r.
Arguments body {A} r.

(** ** What mongoose decides

    Mongoose casts a string to an [ObjectId] wherever the schema has one:
    in the conditions of [findById], [findOne], [find] and
    [countDocuments] (not in the pipeline of [aggregate]).  Which strings
    it accepts depends on the version of the [bson] package, so the cast
    is a parameter; [None] stands for the [CastError] it throws. *)
Class Mongoose := { castObjectId : string -> option ObjectId }.

(** ** Store primitives *)

(** A mongoose document in memory: its fields and the paths modified since
    it was loaded.  [save] validates the modified paths only. *)
Inductive Path := PStatus | PAssignedTo | PFeedback | PPushed (e : TimelineEntry).

Record Doc := mkDoc { fields : Report; modified : list Path }.

Definition validRating (f : option Feedback) : bool :=
  match f with
  | Some fb =>
      match fb_rating fb with
      | Some n => (1 <=? n) && (n <=? 5)
      | None => true
      end
  | None => true
  end.

Definition validPath (r : Report) (p : Path) : bool :=
  match p with
  | PStatus => includes validStatuses (status r)
  | PAssignedTo => true
  | PFeedback => validRating (feedback r)
  | PPushed e => includes validStatuses (te_status e)
  end.

(** [Report.findById(id)]: the string is cast, and the query is sent for
    the id it denotes. *)
Definition findById {mongoose : Mongoose} (id : string) : M (option Doc) :=
  match castObjectId id with
  | None => throw "CastError"
  | Some oid =>
      logOp (ReportFindById oid) ;;;
      fun w =>
        (Done (option_map (fun r => mkDoc r [])
                 (find (fun r => String.eqb (r_id r) oid) (reports w))), w)
  end.

Definition touch (now : Date) (r : Report) : Report :=
  mkReport (r_id r) (title r) (description r) (category r) (priority r)
    (status r) (city r) (images r) (submittedBy r) (assignedTo r)
    (timeline r) (feedback r) (createdAt r) now.

Definition replaceReport (r : Report) (l : list Report) : list Report :=
  map (fun r' => if String.eqb (r_id r') (r_id r) then r else r') l.

(** [doc.save()]: validation failure rejects with a [ValidationError] and
    writes nothing; otherwise the stored document is replaced and, the
    schema having [timestamps: true], [updatedAt] is refreshed. *)
Definition save (now : Date) (d : Doc) : M Doc :=
  if forallb (validPath (fields d)) (modified d) then
    logOp (ReportSave (r_id (fields d))) ;;;
    fun w =>
      let r := touch now (fields d) in
      (Done (mkDoc r []),
       mkWorld (replaceReport r (reports w)) (users w) (notifications w) (oplog w))
  else throw "ValidationError".

(** [Notification.createNotification(data)] and [Notification.create(data)]:
    the schema defaults fill [isRead], [readAt] and [priority]. *)
Definition createNotification (now : Date) (to : ObjectId) (ty ttl msg : string)
    (rel : option (string * ObjectId)) (prio : option string) : M unit :=
  logOp (NotificationCreate to) ;;;
  fun w =>
    let n := mkNotification to ty ttl msg rel false None
               (match prio with Some p => p | None => "normal" end) now now in
    (Done tt, mkWorld (reports w) (users w) (notifications w ++ [n]) (oplog w)).

(** [User.findById(id)] *)
Definition findUserById {mongoose : Mongoose} (id : string) : M (option User) :=
  match castObjectId id with
  | None => throw "CastError"
  | Some oid =>
      logOp (UserFindById oid) ;;;
      fun w => (Done (find (fun u => String.eqb (u_id u) oid) (users w)), w)
  end.

(** ** report.model.js: addTimelineEvent *)

Definition set_status (s : string) (d : Doc) : Doc :=
  let r := fields d in
  mkDoc (mkReport (r_id r) (title r) (description r) (category r) (priority r)
           s (city r) (images r) (submittedBy r) (assignedTo r)
           (timeline r) (feedback r) (createdAt r) (updatedAt r))
        (modified d ++ [PStatus]).

Definition set_assignedTo (a : ObjectId) (d : Doc) : Doc :=
  let r := fields d in
  mkDoc (mkReport (r_id r) (title r) (description r) (category r) (priority r)
           (status r) (city r) (images r) (submittedBy r) (Some a)
           (timeline r) (feedback r) (createdAt r) (updatedAt r))
        (modified d ++ [PAssignedTo]).

Definition set_feedback (f : Feedback) (d : Doc) : Doc :=
  let r := fields d in
  mkDoc (mkReport (r_id r) (title r) (description r) (category r) (priority r)
           (status r) (city r) (images r) (submittedBy r) (assignedTo r)
           (timeline r) (Some f) (createdAt r) (updatedAt r))
        (modified d ++ [PFeedback]).

Definition push_timeline (e : TimelineEntry) (d : Doc) : Doc :=
  let r := fields d in
  mkDoc (mkReport (r_id r) (title r) (description r) (category r) (priority r)
           (status r) (city r) (images r) (submittedBy r) (assignedTo r)
           (timeline r ++ [e]) (feedback r) (createdAt r) (updatedAt r))
        (modified d ++ [PPushed e]).

Definition addTimelineEvent (now : Date) (st : string) (comment : option string)
    (userId : ObjectId) (d : Doc) : M Doc :=
  let d1 := push_timeline (mkEntry st now comment userId) d in
  let d2 := set_status st d1 in
  save now d2.

(** ** The query language of the store

    The part of MongoDB's filter documents that the controllers build:
    equality, [$in], case-insensitive [$regex], [$exists], a
    [$gte]/[$lte] range, and a top-level [$or] of flat clauses. *)

Inductive Value :=
| VNull
| VStr (s : string)
| VId (o : ObjectId)
| VNum (n : Z)
| VDate (d : Date)
| VDoc.

Inductive Cond :=
| CEq (v : Value)
| CIn (vs : list Value)
| CRegex (pat : string)
| CExists (b : bool)
| CRange (gte lte : option Date).

Definition Filter := list (string * Cond).

Record Query := mkQuery { q_fields : Filter; q_or : option (list Filter) }.

Definition emptyQuery : Query := mkQuery [] None.

(** [query[key] = cond] on a JavaScript object: a later assignment to the
    same key replaces the earlier one. *)
Definition setField (k : string) (c : Cond) (q : Query) : Query :=
  mkQuery (filter (fun kc => negb (String.eqb (fst kc) k)) (q_fields q) ++ [(k, c)])
          (q_or q).

Definition setOr (cl : list Filter) (q : Query) : Query :=
  mkQuery (q_fields q) (Some cl).

Definition Value_eqb (a b : Value) : bool :=
  match a, b with
  | VNull, VNull => true
  | VStr x, VStr y => String.eqb x y
  | VId x, VId y => String.eqb x y
  | VNum x, VNum y => Z.eqb x y
  | VDate x, VDate y => Z.eqb x y
  | VDoc, VDoc => true
  | _, _ => false
  end.

(** The values found at a dotted path of a report: none when the path is
    missing, one per element when the path crosses an array.  A stored id
    is an [ObjectId], which no string equals. *)
Definition getPath (p : string) (r : Report) : list Value :=
  if String.eqb p "_id" then [VId (r_id r)]
  else if String.eqb p "title" then [VStr (title r)]
  else if String.eqb p "description" then [VStr (description r)]
  else if String.eqb p "category" then [VStr (category r)]
  else if String.eqb p "priority" then [VStr (priority r)]
  else if String.eqb p "status" then [VStr (status r)]
  else if String.eqb p "submittedBy" then [VId (submittedBy r)]
  else if String.eqb p "assignedTo" then
    [match assignedTo r with Some a => VId a | None => VNull end]
  else if String.eqb p "createdAt" then [VDate (createdAt r)]
  else if String.eqb p "updatedAt" then [VDate (updatedAt r)]
  else if String.eqb p "location.address.city" then
    match city r with Some c => [VStr c] | None => [] end
  else if String.eqb p "images.0" then
    match images r with [] => [] | _ :: _ => [VDoc] end
  else if String.eqb p "feedback.rating" then
    match feedback r with
    | Some f => match fb_rating f with Some n => [VNum n] | None => [] end
    | None => []
    end
  else if String.eqb p "timeline.status" then
    map (fun e => VStr (te_status e)) (timeline r)
  else [].

(** [{path: v}]: some value at the path equals [v]; [null] also matches a
    missing path. *)
Definition evalEq (v : Value) (vals : list Value) : bool :=
  match v with
  | VNull => match vals with [] => true | _ => existsb (Value_eqb VNull) vals end
  | _ => existsb (Value_eqb v) vals
  end.

Definition inRange (gte lte : option Date) (d : Date) : bool :=
  match gte with Some a => a <=? d | None => true end
  && match lte with Some b => d <=? b | None => true end.

(** ** Pagination and ordering of a cursor *)

Inductive IntParam := PAbsent | PNaN | PInt (n : Z).

(** [Math.ceil(total / limit)]; [None] stands for a non-finite result. *)
Definition ceilDiv (total limit : Z) : option Z :=
  if limit =? 0 then None else Some (- ((- total) / limit)).

(** The comparison order of BSON types. *)
Definition typeRank (v : Value) : Z :=
  match v with
  | VNull => 0 | VNum _ => 1 | VStr _ => 2 | VDoc => 3 | VId _ => 4 | VDate _ => 5
  end.

Definition Value_leb (a b : Value) : bool :=
  match a, b with
  | VNum x, VNum y => x <=? y
  | VStr x, VStr y => String.leb x y
  | VId x, VId y => String.leb x y
  | VDate x, VDate y => x <=? y
  | _, _ => typeRank a <=? typeRank b
  end.

(** The value a report is sorted by at a scalar path; a missing path
    sorts as [null]. *)
Definition sortKey (p : string) (r : Report) : Value := hd VNull (getPath p r).

(** The paths of the report schema that hold one scalar. *)
Definition scalarPaths : list string :=
  ["_id"; "title"; "description"; "category"; "priority"; "status"; "submittedBy";
   "assignedTo"; "createdAt"; "updatedAt"; "location.address.city"; "feedback.rating"].

(** [x] may come before [y] under [.sort({[sortBy]: dir})]: ascending when
    [dir] is [1], descending otherwise. *)
Definition sortedBefore (sortBy : string) (dir : Z) (x y : Report) : Prop :=
  (if dir =? 1 then Value_leb (sortKey sortBy x) (sortKey sortBy y)
   else Value_leb (sortKey sortBy y) (sortKey sortBy x)) = true.

(** ** What the store decides

    A cursor [find(q).sort({[sortBy]: dir}).skip(skip).limit(limit)],
    issued when the operation log is [c_log].  MongoDB returns the hits in
    an order of its choice among those the sort allows: documents with
    equal sort values come in no promised order, and the choice may differ
    from one query to the next.  A sort path the server does not accept
    makes the query fail ([None]). *)
Record Cursor := mkCursor {
  c_sortBy : string;
  c_dir : Z;
  c_skip : Z;
  c_limit : Z;
  c_log : list DbOp
}.

Class MongoDB := {
  sortCursor : Cursor -> list Report -> option (list Report);
  sortCursor_permutes :
    forall c hits ordered, sortCursor c hits = Some ordered -> Permutation hits ordered;
  sortCursor_sorts :
    forall c hits ordered,
      sortCursor c hits = Some ordered ->
      includes scalarPaths (c_sortBy c) = true ->
      Sorted (sortedBefore (c_sortBy c) (c_dir c)) ordered;
  sortCursor_accepts :
    forall c hits, includes scalarPaths (c_sortBy c) = true -> sortCursor c hits <> None
}.

Fixpoint insertBy (le : Report -> Report -> bool) (x : Report) (l : list Report)
    : list Report :=
  match l with
  | [] => [x]
  | y :: rest => if le x y then x :: l else y :: insertBy le x rest
  end.

(** One order the store may choose: a stable insertion sort on the sort
    value, ascending when [dir] is [1] and descending otherwise.  It is
    the order of the sample store below. *)
Definition sortDocs (sortBy : string) (dir : Z) (l : list Report) : list Report :=
  let le x y :=
    if dir =? 1 then Value_leb (sortKey sortBy x) (sortKey sortBy y)
    else Value_leb (sortKey sortBy y) (sortKey sortBy x) in
  fold_right (insertBy le) [] l.

(** [.skip(skip).limit(limit)] on a list of hits; a limit of zero means no
    limit and a negative limit is taken by its absolute value. *)
Definition slice (skip limit : Z) (l : list Report) : list Report :=
  let rest := skipn (Z.to_nat skip) l in
  if limit =? 0 then rest else firstn (Z.to_nat (Z.abs limit)) rest.

(** ** Requests *)

Record Actor := mkActor { a_id : ObjectId; a_role : string }.

(** [reportIds] of a bulk request body. *)
Inductive IdsParam := NotArray | Ids (l : list string).

(** A query-string parameter as the framework's parser delivers it: one
    string, or an array of strings when the key is repeated. *)
Inductive QParam := QStr (s : string) | QArr (l : list string).

Definition qtruthy (o : option QParam) : bool :=
  match o with
  | Some (QStr s) => str_nonempty s
  | Some (QArr _) => true
  | None => false
  end.

Record ReportsQuery := mkReportsQuery {
  rq_status : option string;
  rq_category : option string;
  rq_priority : option string;
  rq_page : IntParam;
  rq_limit : IntParam;
  rq_sortBy : option string;
  rq_sortOrder : option string
}.

Record SearchQuery := mkSearchQuery {
  sq_page : IntParam;
  sq_limit : IntParam;
  sq_search : option string;
  sq_status : option QParam;
  sq_category : option QParam;
  sq_priority : option QParam;
  sq_assignedTo : option string;
  sq_submittedBy : option string;
  sq_dateFrom : option string;
  sq_dateTo : option string;
  sq_location : option string;
  sq_sortBy : option string;
  sq_sortOrder : option string;
  sq_hasImages : option string;
  sq_hasFeedback : option string
}.

Record RegisterBody := mkRegisterBody {
  rb_firstName : string;
  rb_lastName : string;
  rb_email : string;
  rb_password : string;
  rb_role : option string
}.

(** ** Replies *)

Record ReportsPage := mkReportsPage {
  rp_count : nat;
  rp_total : nat;
  rp_currentPage : Z;
  rp_totalPages : option Z;
  rp_limit : Z;
  rp_reports : list Report
}.

Record BulkBody := mkBulkBody {
  bb_message : string;
  bb_count : nat;
  bb_reportIds : list ObjectId
}.

Record SearchStats := mkSearchStats {
  ss_totalReports : nat;
  ss_statusCounts : list (string * nat);
  ss_categoryCounts : list (string * nat);
  ss_priorityCounts : list (string * nat);
  ss_avgResolutionHours : Q
}.

Record SearchBody := mkSearchBody {
  sb_reports : list Report;
  sb_currentPage : Z;
  sb_totalPages : option Z;
  sb_totalReports : nat;
  sb_hasNextPage : bool;
  sb_hasPrevPage : bool;
  sb_limit : Z;
  sb_statistics : SearchStats
}.

Record Performance := mkPerformance {
  averageResolutionHours : Z;
  minResolutionHours : Z;
  maxResolutionHours : Z;
  totalResolved : nat
}.

Record RegisterReply := mkRegisterReply { rr_token : string; rr_user : User }.

(** ** notification.model.js: markAsRead

    The document as [save()] leaves it.  With [timestamps: true] the
    [updatedAt] field is refreshed whenever a path has changed. *)

Definition markAsRead (now : Date) (n : Notification) : Notification :=
  let changed :=
    negb (isRead n)
    || match readAt n with Some t => negb (t =? now) | None => true end in
  mkNotification (recipient n) (n_type n) (n_title n) (message n) (relatedTo n)
    true (Some now) (n_priority n) (n_createdAt n)
    (if changed then now else n_updatedAt n).

Section Handlers.

Context {mongoose : Mongoose} {mongodb : MongoDB}.

(** Library functions the controllers call. *)
Variable isValid : string -> bool.               (* mongoose.Types.ObjectId.isValid *)
Variable regexMatch : string -> string -> bool.  (* {$regex: pat, $options: 'i'} on a string *)
Variable parseDate : string -> option Date.      (* new Date(s); None for an invalid date *)
Variable generateToken : User -> string.         (* jwt.sign of the id and role *)
Variable userValid : User -> string -> bool.     (* validation of the user schema *)

(** *** Matching *)

Definition evalCond (c : Cond) (vals : list Value) : bool :=
  match c with
  | CEq v => evalEq v vals
  | CIn vs => existsb (fun v => evalEq v vals) vs
  | CRegex pat =>
      existsb (fun v => match v with VStr s => regexMatch pat s | _ => false end) vals
  | CExists b => Bool.eqb b (match vals with [] => false | _ => true end)
  | CRange gte lte =>
      existsb (fun v => match v with VDate d => inRange gte lte d | _ => false end) vals
  end.

Definition matchesFilter (f : Filter) (r : Report) : bool :=
  forallb (fun kc => evalCond (snd kc) (getPath (fst kc) r)) f.

Definition matches (q : Query) (r : Report) : bool :=
  matchesFilter (q_fields q) r
  && match q_or q with
     | None => true
     | Some clauses => existsb (fun f => matchesFilter f r) clauses
     end.

(** *** The cast of a query

    Before [find] and [countDocuments] send their conditions, mongoose
    casts them by the schema: a string given for [_id], [submittedBy] or
    [assignedTo] becomes the [ObjectId] it denotes, in an equality and in
    each member of an [$in], also inside the clauses of an [$or].  One
    string that cannot be cast fails the whole query with a [CastError]. *)

Definition idPaths : list string := ["_id"; "submittedBy"; "assignedTo"].

Fixpoint mapOpt {A B} (f : A -> option B) (l : list A) : option (list B) :=
  match l with
  | [] => Some []
  | x :: rest =>
      match f x, mapOpt f rest with
      | Some y, Some ys => Some (y :: ys)
      | _, _ => None
      end
  end.

Definition castValue (v : Value) : option Value :=
  match v with
  | VStr s => option_map VId (castObjectId s)
  | other => Some other
  end.

Definition castCond (k : string) (c : Cond) : option Cond :=
  if includes idPaths k then
    match c with
    | CEq v => option_map CEq (castValue v)
    | CIn vs => option_map CIn (mapOpt castValue vs)
    | other => Some other
    end
  else Some c.

Definition castFilter (f : Filter) : option Filter :=
  mapOpt (fun kc => option_map (pair (fst kc)) (castCond (fst kc) (snd kc))) f.

Definition castQuery (q : Query) : option Query :=
  match castFilter (q_fields q),
        match q_or q with
        | None => Some None
        | Some clauses => option_map Some (mapOpt castFilter clauses)
        end
  with
  | Some f, Some o => Some (mkQuery f o)
  | _, _ => None
  end.

(** *** Cursors *)

(** [Report.find(q)] *)
Definition findReports (q : Query) : M (list Doc) :=
  match castQuery q with
  | None => throw "CastError"
  | Some cast =>
      logOp ReportFind ;;;
      fun w => (Done (map (fun r => mkDoc r []) (filter (matches cast) (reports w))), w)
  end.

(** [Report.find(q).sort({[sortBy]: dir}).skip(skip).limit(limit)]: the
    server refuses a negative skip. *)
Definition findPage (q : Query) (sortBy : string) (dir skip limit : Z)
    : M (list Report) :=
  match castQuery q with
  | None => throw "CastError"
  | Some cast =>
      logOp ReportFind ;;;
      if skip <? 0 then throw "MongoServerError"
      else fun w =>
        match sortCursor (mkCursor sortBy dir skip limit (oplog w))
                (filter (matches cast) (reports w)) with
        | Some ordered => (Done (slice skip limit ordered), w)
        | None => (Thrown "MongoServerError", w)
        end
  end.

(** [Report.countDocuments(q)] *)
Definition countDocuments (q : Query) : M nat :=
  match castQuery q with
  | None => throw "CastError"
  | Some cast =>
      logOp ReportCount ;;;
      fun w => (Done (length (filter (matches cast) (reports w))), w)
  end.

(** [Report.aggregate([{ $match: q }, ...])]: the stage is sent as it is
    written, without the cast. *)
Definition aggregateMatch (q : Query) : M (list Report) :=
  logOp ReportAggregate ;;;
  fun w => (Done (filter (matches q) (reports w)), w).

Fixpoint forEach {A} (f : A -> M unit) (l : list A) : M unit :=
  match l with
  | [] => ret tt
  | x :: rest => f x ;;; forEach f rest
  end.

(** *** report.controller.js *)

Definition statusMessage (r : Report) (st : string) : string :=
  "Your report " ^^ dquote ^^ title r ^^ dquote ^^ " has been updated to "
  ^^ replace_first "_"%char " "%char st.

(** [report.assignedTo && report.assignedTo.toString() !== req.user._id.toString()] *)
Definition assignedElsewhere (a : option ObjectId) (user : Actor) : bool :=
  match a with
  | Some e => negb (String.eqb e (a_id user))
  | None => false
  end.

(** PATCH /api/reports/:id/status.  [st] is [req.body.status] when the
    body carries a string there.  A body without one is outside this
    definition, as it is outside the types of [status] and [te_status]: on
    the admin branch the handler checks nothing, [addTimelineEvent] pushes
    an entry without a status and unsets the report's, and [status.replace]
    throws only after the save. *)
Definition updateReportStatus (now : Date) (user : Actor) (id : string)
    (st : string) (comment : option string) : M (Reply Report) :=
  found <- findById id ;;
  match found with
  | None => next "Report not found" 404
  | Some report =>
      (if String.eqb (a_role user) "user" then
         if negb (String.eqb st "closed")
            || negb (String.eqb (status (fields report)) "resolved")
         then next "You do not have permission to update this report status" 403
         else ret tt
       else if String.eqb (a_role user) "employee" then
         if assignedElsewhere (assignedTo (fields report)) user
         then next "You do not have permission to update this report" 403
         else if negb (includes ["in_progress"; "resolved"] st)
         then next "You can only update status to in_progress or resolved" 400
         else ret tt
       else ret tt) ;;;
      report' <- addTimelineEvent now st comment (a_id user) report ;;
      createNotification now (submittedBy (fields report')) "report_status"
        "Report Status Updated" (statusMessage (fields report') st)
        (Some ("Report", r_id (fields report'))) None ;;;
      ret (mkReply 200 (fields report'))
  end.

(** Where the handler writes [employeeId] into the report and into the
    notification, mongoose casts the string once more: to the id under
    which [User.findById] found the employee, [employee._id]. *)
Definition assignReport (now : Date) (user : Actor) (id : string)
    (employeeId : string) (comment : option string) : M (Reply Report) :=
  if negb (String.eqb (a_role user) "admin")
  then next "You do not have permission to assign reports" 403
  else
    employee <- findUserById employeeId ;;
    match employee with
    | None => next "Invalid employee ID" 400
    | Some employee =>
        if negb (String.eqb (role employee) "employee")
        then next "Invalid employee ID" 400
        else
          found <- findById id ;;
          match found with
          | None => next "Report not found" 404
          | Some report =>
              let report := set_assignedTo (u_id employee) report in
              let report := set_status "assigned" report in
              report' <- addTimelineEvent now "assigned"
                           (Some (or_else comment "Report assigned to employee"))
                           (a_id user) report ;;
              createNotification now (u_id employee) "assignment" "New Report Assigned"
                ("You have been assigned to report: " ^^ title (fields report'))
                (Some ("Report", r_id (fields report')))
                (Some (if String.eqb (priority (fields report')) "critical"
                       then "high" else "normal")) ;;;
              ret (mkReply 200 (fields report'))
          end
    end.

Definition addFeedback (now : Date) (user : Actor) (id : string)
    (rating : option Z) (comment : option string) : M (Reply Report) :=
  found <- findById id ;;
  match found with
  | None => next "Report not found" 404
  | Some report =>
      if negb (String.eqb (submittedBy (fields report)) (a_id user))
      then next "You can only provide feedback for your own reports" 403
      else if negb (String.eqb (status (fields report)) "resolved")
      then next "You can only provide feedback for resolved reports" 400
      else
        let report := set_feedback (mkFeedback rating comment now) report in
        report' <- addTimelineEvent now "closed"
                     (Some "Feedback provided and report closed") (a_id user) report ;;
        match assignedTo (fields report') with
        | Some a =>
            createNotification now a "feedback" "Feedback Received"
              ("Feedback received for report: " ^^ title (fields report'))
              (Some ("Report", r_id (fields report'))) None
        | None => ret tt
        end ;;;
        ret (mkReply 200 (fields report'))
  end.

(** [if (x) { q = f(x, q) }] for a string-or-undefined [x]. *)
Definition whenStr (o : option string) (f : string -> Query -> Query) (q : Query)
    : Query :=
  match o with
  | Some s => if str_nonempty s then f s q else q
  | None => q
  end.

(** [parseInt(x, 10) || d]: [NaN] and [0] are falsy. *)
Definition intOr (p : IntParam) (d : Z) : Z :=
  match p with
  | PInt n => if n =? 0 then d else n
  | _ => d
  end.

Definition getReportsQuery (user : Actor) (rq : ReportsQuery) : Query :=
  let query := emptyQuery in
  let query := whenStr (rq_status rq) (fun s => setField "status" (CEq (VStr s))) query in
  let query := whenStr (rq_category rq) (fun s => setField "category" (CEq (VStr s))) query in
  let query := whenStr (rq_priority rq) (fun s => setField "priority" (CEq (VStr s))) query in
  if String.eqb (a_role user) "user" then
    setField "submittedBy" (CEq (VId (a_id user))) query
  else if String.eqb (a_role user) "employee" then
    setOr [ [("assignedTo", CEq (VId (a_id user)))];
            [("assignedTo", CEq VNull);
             ("status", CIn [VStr "submitted"; VStr "in_review"])] ] query
  else query.

Definition getReports (user : Actor) (rq : ReportsQuery) : M (Reply ReportsPage) :=
  let query := getReportsQuery user rq in
  let page := intOr (rq_page rq) 1 in
  let limit := intOr (rq_limit rq) 10 in
  let skip := (page - 1) * limit in
  let sortBy := or_else (rq_sortBy rq) "createdAt" in
  let sortOrder :=
    match rq_sortOrder rq with
    | Some o => if String.eqb o "asc" then 1 else -1
    | None => -1
    end in
  docs <- findPage query sortBy sortOrder skip limit ;;
  total <- countDocuments query ;;
  ret (mkReply 200
         (mkReportsPage (length docs) total page
            (ceilDiv (Z.of_nat total) limit) limit docs)).

(** *** admin.controller.js: bulk operations

    [{ _id: { $in: validObjectIds } }] holds the strings of the request;
    [find] casts them.  In [bulkAssignReports] the assignee's id is
    written into the reports and the notifications as the string of the
    request, which mongoose casts to [assignee._id]. *)

Definition idsQuery (ids : list string) : Query :=
  setField "_id" (CIn (map VStr ids)) emptyQuery.

Definition bulkUpdateReportStatus (now : Date) (user : Actor) (reportIds : IdsParam)
    (st : string) (comment : option string) : M (Reply BulkBody) :=
  catch500 "Failed to bulk update reports"
    match reportIds with
    | NotArray => next "reportIds must be a non-empty array" 400
    | Ids ids =>
        if Nat.eqb (length ids) 0
        then next "reportIds must be a non-empty array" 400
        else if negb (includes validStatuses st)
        then next "Invalid status" 400
        else
          let validObjectIds := filter isValid ids in
          if negb (Nat.eqb (length validObjectIds) (length ids))
          then next "All reportIds must be valid ObjectIds" 400
          else
            found <- findReports (idsQuery validObjectIds) ;;
            if Nat.eqb (length found) 0
            then next "No reports found with the provided IDs" 404
            else
              forEach (fun report =>
                  report' <- addTimelineEvent now st
                               (Some (or_else comment ("Bulk status update to " ^^ st)))
                               (a_id user) report ;;
                  if String.eqb st "resolved" then
                    createNotification now (submittedBy (fields report'))
                      "report_status" "Report Resolved"
                      ("Your report " ^^ dquote ^^ title (fields report') ^^ dquote
                       ^^ " has been resolved.")
                      (Some ("Report", r_id (fields report'))) None
                  else ret tt) found ;;;
              ret (mkReply 200
                     (mkBulkBody
                        ("Successfully updated " ^^ showNat (length found)
                         ^^ " reports to status: " ^^ st)
                        (length found) (map (fun d => r_id (fields d)) found)))
    end.

Definition bulkAssignReports (now : Date) (user : Actor) (reportIds : IdsParam)
    (assigneeId : string) : M (Reply BulkBody) :=
  catch500 "Failed to bulk assign reports"
    match reportIds with
    | NotArray => next "reportIds must be a non-empty array" 400
    | Ids ids =>
        if Nat.eqb (length ids) 0
        then next "reportIds must be a non-empty array" 400
        else if negb (isValid assigneeId)
        then next "Invalid assigneeId" 400
        else
          let validObjectIds := filter isValid ids in
          if negb (Nat.eqb (length validObjectIds) (length ids))
          then next "All reportIds must be valid ObjectIds" 400
          else
            assignee <- findUserById assigneeId ;;
            match assignee with
            | None => next "Assignee not found" 404
            | Some assignee =>
                if negb (String.eqb (role assignee) "employee")
                then next "Can only assign reports to employees" 400
                else
                  found <- findReports (idsQuery validObjectIds) ;;
                  if Nat.eqb (length found) 0
                  then next "No reports found with the provided IDs" 404
                  else
                    forEach (fun report =>
                        let report := set_assignedTo (u_id assignee) report in
                        report' <- addTimelineEvent now "assigned"
                                     (Some ("Assigned to " ^^ firstName assignee
                                            ^^ " " ^^ lastName assignee))
                                     (a_id user) report ;;
                        createNotification now (u_id assignee) "assignment"
                          "New Report Assigned"
                          ("You have been assigned a new report: " ^^ dquote
                           ^^ title (fields report') ^^ dquote)
                          (Some ("Report", r_id (fields report'))) None) found ;;;
                    ret (mkReply 200
                           (mkBulkBody
                              ("Successfully assigned " ^^ showNat (length found)
                               ^^ " reports to "
                               ^^ firstName assignee ^^ " " ^^ lastName assignee)
                              (length found) (map (fun d => r_id (fields d)) found)))
            end
    end.

Definition bulkDeleteReports (now : Date) (user : Actor) (reportIds : IdsParam)
    (reason : option string) : M (Reply BulkBody) :=
  catch500 "Failed to bulk close reports"
    match reportIds with
    | NotArray => next "reportIds must be a non-empty array" 400
    | Ids ids =>
        if Nat.eqb (length ids) 0
        then next "reportIds must be a non-empty array" 400
        else
          let validObjectIds := filter isValid ids in
          if negb (Nat.eqb (length validObjectIds) (length ids))
          then next "All reportIds must be valid ObjectIds" 400
          else
            found <- findReports (idsQuery validObjectIds) ;;
            if Nat.eqb (length found) 0
            then next "No reports found with the provided IDs" 404
            else
              forEach (fun report =>
                  report' <- addTimelineEvent now "closed"
                               (Some (or_else reason "Report closed by administrator"))
                               (a_id user) report ;;
                  createNotification now (submittedBy (fields report'))
                    "report_status" "Report Closed"
                    ("Your report " ^^ dquote ^^ title (fields report') ^^ dquote
                     ^^ " has been closed. "
                     ^^ (if truthy reason then "Reason: " ^^ or_else reason EmptyString
                         else EmptyString))
                    (Some ("Report", r_id (fields report'))) None) found ;;;
              ret (mkReply 200
                     (mkBulkBody
                        ("Successfully closed " ^^ showNat (length found) ^^ " reports")
                        (length found) (map (fun d => r_id (fields d)) found)))
    end.

(** *** admin.controller.js: advancedReportSearch *)

(** [if (p) { if (Array.isArray(p)) q[key] = {$in: p}; else q[key] = p; }] *)
Definition whenParam (key : string) (o : option QParam) (q : Query) : Query :=
  match o with
  | Some (QArr l) => setField key (CIn (map VStr l)) q
  | Some (QStr s) => if str_nonempty s then setField key (CEq (VStr s)) q else q
  | None => q
  end.

Definition whenFlag (key : string) (o : option string) (q : Query) : Query :=
  match o with
  | Some s =>
      if String.eqb s "true" then setField key (CExists true) q
      else if String.eqb s "false" then setField key (CExists false) q
      else q
  | None => q
  end.

(** The bound of a date range; the outer [None] is an invalid date, which
    the store refuses to cast. *)
Definition dateBound (o : option string) : option (option Date) :=
  match o with
  | Some s =>
      if str_nonempty s then
        match parseDate s with Some d => Some (Some d) | None => None end
      else Some None
  | None => Some None
  end.

Definition searchQuery (sq : SearchQuery) : option Query :=
  let query := emptyQuery in
  let query :=
    whenStr (sq_search sq)
      (fun s => setOr [ [("title", CRegex s)]; [("description", CRegex s)] ]) query in
  let query := whenParam "status" (sq_status sq) query in
  let query := whenParam "category" (sq_category sq) query in
  let query := whenParam "priority" (sq_priority sq) query in
  let query :=
    whenStr (sq_assignedTo sq)
      (fun a q =>
         if String.eqb a "unassigned" then setField "assignedTo" (CEq VNull) q
         else if isValid a then setField "assignedTo" (CEq (VStr a)) q
         else q) query in
  let query :=
    whenStr (sq_submittedBy sq)
      (fun a q => if isValid a then setField "submittedBy" (CEq (VStr a)) q else q)
      query in
  match
    (if truthy (sq_dateFrom sq) || truthy (sq_dateTo sq) then
       match dateBound (sq_dateFrom sq), dateBound (sq_dateTo sq) with
       | Some lo, Some hi => Some (setField "createdAt" (CRange lo hi) query)
       | _, _ => None
       end
     else Some query)
  with
  | None => None
  | Some query =>
      let query :=
        whenStr (sq_location sq)
          (fun s => setField "location.address.city" (CRegex s)) query in
      let query := whenFlag "images.0" (sq_hasImages sq) query in
      let query := whenFlag "feedback.rating" (sq_hasFeedback sq) query in
      Some query
  end.

(** [parseInt(p)] of a parameter whose destructuring default is [d]; the
    default stands in for a parameter that is [undefined] only. *)
Definition parseIntParam (p : IntParam) (d : Z) : option Z :=
  match p with
  | PAbsent => Some d
  | PNaN => None
  | PInt n => Some n
  end.

Definition sumZ (l : list Z) : Z := fold_right Z.add 0 l.

(** [$avg]: the mean of the non-null values, [null] when there is none. *)
Definition avgOf (l : list (option Z)) : option Q :=
  let xs := flat_map (fun o => match o with Some x => [x] | None => [] end) l in
  match xs with
  | [] => None
  | _ => Some (inject_Z (sumZ xs) / inject_Z (Z.of_nat (length xs)))%Q
  end.

Definition msPerHour : Z := 1000 * 60 * 60.

(** The distinct keys of a pushed array, each with its number of
    occurrences. *)
Definition countsOf (l : list string) : list (string * nat) :=
  map (fun k => (k, count_occ string_dec l k)) (nodup string_dec l).

Definition searchStats (hits : list Report) : SearchStats :=
  match hits with
  | [] => mkSearchStats 0 [] [] [] 0%Q
  | _ =>
      let avgResolutionTime :=
        avgOf (map (fun r =>
                      if String.eqb (status r) "resolved"
                      then Some (updatedAt r - createdAt r) else None) hits) in
      mkSearchStats (length hits)
        (countsOf (map status hits))
        (countsOf (map category hits))
        (countsOf (map priority hits))
        (match avgResolutionTime with
         | Some a => (a / inject_Z msPerHour)%Q
         | None => 0%Q
         end)
  end.

Definition advancedReportSearch (sq : SearchQuery) : M (Reply SearchBody) :=
  catch500 "Failed to perform advanced search"
    match searchQuery sq, parseIntParam (sq_page sq) 1, parseIntParam (sq_limit sq) 20 with
    | Some query, Some page, Some limit =>
        let skip := (page - 1) * limit in
        let sortBy :=
          match sq_sortBy sq with Some s => s | None => "createdAt" end in
        let sortOrder :=
          match sq_sortOrder sq with
          | Some o => if String.eqb o "asc" then 1 else -1
          | None => -1
          end in
        docs <- findPage query sortBy sortOrder skip limit ;;
        totalReports <- countDocuments query ;;
        hits <- aggregateMatch query ;;
        let totalPages := ceilDiv (Z.of_nat totalReports) limit in
        let hasNextPage :=
          match totalPages with
          | Some tp => page <? tp
          | None => negb (Nat.eqb totalReports 0)
          end in
        ret (mkReply 200
               (mkSearchBody docs page totalPages totalReports hasNextPage
                  (1 <? page) limit (searchStats hits)))
    | _, _, _ => throw "CastError"
    end.



(** *** admin.controller.js: resolution time *)

(** [Math.round(x)]: the nearest integer, halves going up. *)
Definition Math_round (x : Q) : Z := Qfloor (x + (1 # 2))%Q.

(** [Math.round(x / (1000 * 60 * 60))] where [x] may be [null], which
    divides as zero. *)
Definition roundHours (x : option Q) : Z :=
  match x with
  | Some a => Math_round (a / inject_Z msPerHour)%Q
  | None => 0
  end.

Definition resolvedQuery : Query :=
  setField "timeline.status" (CEq (VStr "resolved"))
    (setField "status" (CEq (VStr "resolved")) emptyQuery).

(** getSystemStatistics: [$arrayElemAt] at 0 of the [$map] to timestamps of
    the [$filter] of resolved timeline entries, minus [createdAt]. *)
Definition resolutionTime (r : Report) : option Z :=
  match
    nth_error
      (map te_timestamp
         (filter (fun e => String.eqb (te_status e) "resolved") (timeline r))) 0
  with
  | Some t => Some (t - createdAt r)
  | None => None
  end.

Definition somes (l : list (option Z)) : list Z :=
  flat_map (fun o => match o with Some x => [x] | None => [] end) l.

Definition minOf (l : list Z) : option Z :=
  match l with [] => None | x :: rest => Some (fold_right Z.min x rest) end.

Definition maxOf (l : list Z) : option Z :=
  match l with [] => None | x :: rest => Some (fold_right Z.max x rest) end.

(** The [performance] block of the statistics reply; the [$group] stage
    emits no document when nothing matched. *)
Definition performanceOf (all : list Report) : Performance :=
  match filter (matches resolvedQuery) all with
  | [] => mkPerformance 0 0 0 0
  | matched =>
      let times := map resolutionTime matched in
      mkPerformance
        (roundHours (avgOf times))
        (roundHours (option_map inject_Z (minOf (somes times))))
        (roundHours (option_map inject_Z (maxOf (somes times))))
        (length matched)
  end.

Definition getSystemStatistics : M (Reply Performance) :=
  catch500 "Failed to fetch system statistics"
    (logOp ReportAggregate ;;;
     fun w => (Done (mkReply 200 (performanceOf (reports w))), w)).

(** getDashboardAnalytics writes the first operand of [$subtract] as
    [{ $arrayElemAt: [...] }.timestamp]: a property read on an object
    literal whose only key is [$arrayElemAt].  The read is evaluated when
    the pipeline is built. *)
Definition literalGet {A} (obj : list (string * A)) (k : string) : option A :=
  option_map snd (find (fun kv => String.eqb (fst kv) k) obj).

Definition dashboardResolutionTime (r : Report) : option Z :=
  match
    literalGet
      [("$arrayElemAt",
        nth_error (filter (fun e => String.eqb (te_status e) "resolved") (timeline r)) 0)]
      "timestamp"
  with
  | Some (Some e) => Some (te_timestamp e - createdAt r)
  | _ => None
  end.

Definition dashboardAverageResolutionHours (all : list Report) : Z :=
  match filter (matches resolvedQuery) all with
  | [] => 0
  | matched => roundHours (avgOf (map dashboardResolutionTime matched))
  end.

(** *** auth.controller.js: register *)

Definition findUserByEmail (mail : string) : M (option User) :=
  logOp (UserFindOne mail) ;;;
  fun w => (Done (find (fun u => String.eqb (email u) mail) (users w)), w).

Definition createUser (u : User) (password : string) : M User :=
  if userValid u password then
    logOp (UserCreate (email u)) ;;;
    fun w => (Done u, mkWorld (reports w) (users w ++ [u]) (notifications w) (oplog w))
  else throw "ValidationError".

Definition register (newId : ObjectId) (b : RegisterBody) : M (Reply RegisterReply) :=
  existingUser <- findUserByEmail (rb_email b) ;;
  match existingUser with
  | Some _ => next "Email already in use" 400
  | None =>
      user <- createUser
                (mkUser newId (rb_firstName b) (rb_lastName b) (rb_email b)
                   (match rb_role b with
                    | Some r => if String.eqb r "employee" then "employee" else "user"
                    | None => "user"
                    end))
                (rb_password b) ;;
      ret (mkReply 201 (mkRegisterReply (generateToken user) user))
  end.

End Handlers.

(** ** The operations as one family *)

Inductive BulkOp :=
| BulkStatus (st : string) (comment : option string)
| BulkAssign (assigneeId : string)
| BulkDelete (reason : option string).

Definition runBulk {mongoose : Mongoose} (isValid : string -> bool)
    (regexMatch : string -> string -> bool)
    (now : Date) (user : Actor) (op : BulkOp) (reportIds : IdsParam)
    : M (Reply BulkBody) :=
  match op with
  | BulkStatus st comment =>
      bulkUpdateReportStatus isValid regexMatch now user reportIds st comment
  | BulkAssign assigneeId =>
      bulkAssignReports isValid regexMatch now user reportIds assigneeId
  | BulkDelete reason =>
      bulkDeleteReports isValid regexMatch now user reportIds reason
  end.

Inductive Transition :=
| TStatus (id : string) (st : string) (comment : option string)
| TAssign (id : string) (employeeId : string) (comment : option string)
| TFeedback (id : string) (rating : option Z) (comment : option string)
| TBulk (op : BulkOp) (reportIds : IdsParam).

(** The world a transition request leaves behind, whatever the reply. *)
Definition runTransition {mongoose : Mongoose} (isValid : string -> bool)
    (regexMatch : string -> string -> bool)
    (now : Date) (user : Actor) (t : Transition) (w : World) : World :=
  match t with
  | TStatus id st comment => snd (updateReportStatus now user id st comment w)
  | TAssign id employeeId comment => snd (assignReport now user id employeeId comment w)
  | TFeedback id rating comment => snd (addFeedback now user id rating comment w)
  | TBulk op reportIds => snd (runBulk isValid regexMatch now user op reportIds w)
  end.

(** ** Properties in the words of the specification *)

Definition lastTimelineStatus (r : Report) : option string :=
  option_map te_status (hd_error (rev (timeline r))).

(** The status equals the status of the most recent timeline entry. *)
Definition inSync (r : Report) : Prop := lastTimelineStatus r = Some (status r).

(** The visibility scope of a caller: an admin sees all reports, an
    employee those assigned to them and the unassigned ones that are
    submitted or in review, a user their own. *)
Definition visibilityScope (user : Actor) (r : Report) : bool :=
  if String.eqb (a_role user) "admin" then true
  else if String.eqb (a_role user) "employee" then
    match assignedTo r with
    | Some a => String.eqb a (a_id user)
    | None => includes ["submitted"; "in_review"] (status r)
    end
  else String.eqb (submittedBy r) (a_id user).

(** A supplied filter value constrains the field; an omitted or empty one
    does not. *)
Definition optFilter (o : option string) (v : string) : bool :=
  match o with
  | Some s => if str_nonempty s then String.eqb s v else true
  | None => true
  end.

Definition suppliedFilters (rq : ReportsQuery) (r : Report) : bool :=
  optFilter (rq_status rq) (status r)
  && optFilter (rq_category rq) (category r)
  && optFilter (rq_priority rq) (priority r).




(** The first timeline entry whose status is resolved. *)
Definition firstResolved (r : Report) : option TimelineEntry :=
  find (fun e => String.eqb (te_status e) "resolved") (timeline r).

(** Resolution time in the words of the specification: the timestamp of
    the first resolved entry minus the creation timestamp. *)
Definition specResolutionTime (r : Report) : option Z :=
  option_map (fun e => te_timestamp e - createdAt r) (firstResolved r).

(** The average over every report that has a resolved entry, in hours,
    rounded once. *)
Definition specAverageResolutionHours (all : list Report) : Z :=
  roundHours (avgOf (map specResolutionTime all)).

(** The reports the statistics count: currently resolved and with a
    resolved timeline entry. *)
Definition countedAsResolved (r : Report) : bool :=
  String.eqb (status r) "resolved"
  && existsb (fun e => String.eqb (te_status e) "resolved") (timeline r).

(** The report a bulk operation leaves for a found report. *)
Definition bulkTarget (op : BulkOp) : string :=
  match op with
  | BulkStatus st _ => st
  | BulkAssign _ => "assigned"
  | BulkDelete _ => "closed"
  end.

Definition notifiedAbout (id : ObjectId) (n : Notification) : bool :=
  match relatedTo n with
  | Some (m, i) => String.eqb m "Report" && String.eqb i id
  | None => false
  end.

(** Whom a bulk operation notifies about a report, if anyone: the
    submitter, or the user the assignee id denotes. *)
Definition bulkRecipient {mongoose : Mongoose} (op : BulkOp) (r : Report)
    : option ObjectId :=
  match op with
  | BulkStatus st _ => if String.eqb st "resolved" then Some (submittedBy r) else None
  | BulkAssign assigneeId => castObjectId assigneeId
  | BulkDelete _ => Some (submittedBy r)
  end.

Definition registeredRole (requested : option string) : string :=
  match requested with
  | Some r => if String.eqb r "employee" then "employee" else "user"
  | None => "user"
  end.

(** ** Instances and sample data for running the model *)

Definition isHex (c : ascii) : bool :=
  let n := nat_of_ascii c in
  ((48 <=? n) && (n <=? 57) || (97 <=? n) && (n <=? 102)
   || (65 <=? n) && (n <=? 70))%nat.

(** Strings of 24 hexadecimal digits, which [ObjectId.isValid] accepts. *)
Definition hex24 (s : string) : bool :=
  Nat.eqb (String.length s) 24 && forallb isHex (list_ascii_of_string s).

Definition lower (c : ascii) : ascii :=
  let n := nat_of_ascii c in
  if ((65 <=? n) && (n <=? 90))%nat then ascii_of_nat (n + 32) else c.

Fixpoint prefixCI (p s : string) : bool :=
  match p, s with
  | EmptyString, _ => true
  | String a p', String b s' => Ascii.eqb (lower a) (lower b) && prefixCI p' s'
  | _, _ => false
  end.

(** A pattern without metacharacters matches as a case-insensitive
    substring. *)
Fixpoint containsCI (p s : string) : bool :=
  prefixCI p s
  || match s with
     | EmptyString => false
     | String _ s' => containsCI p s'
     end.

Fixpoint lowerString (s : string) : string :=
  match s with
  | EmptyString => EmptyString
  | String c rest => String (lower c) (lowerString rest)
  end.

(** A sample cast: a string of 24 hexadecimal digits denotes the id
    written with its letters in lower case.  Which other spellings mongoose
    takes (the twelve-byte form, in some versions) depends on its version;
    the sample takes none, and no sample below has twelve characters. *)
Definition hexCast (s : string) : option ObjectId :=
  if hex24 s then Some (lowerString s) else None.

Definition sampleMongoose : Mongoose := {| castObjectId := hexCast |}.

(** A sample store: it accepts every sort path and breaks ties by the order
    of insertion.  The three lemmas are its side of the contract. *)
Lemma insertBy_perm le x l : Permutation (insertBy le x l) (x :: l).
Proof.
  induction l as [ | y l IH]; simpl; [reflexivity | ].
  destruct (le x y); [reflexivity | ].
  rewrite IH. apply perm_swap.
Qed.

Lemma sortDocs_perm sortBy dir l : Permutation (sortDocs sortBy dir l) l.
Proof.
  unfold sortDocs. induction l as [ | x l IH]; simpl; [reflexivity | ].
  rewrite insertBy_perm. now constructor.
Qed.

Lemma Value_leb_total a b : Value_leb a b = true \/ Value_leb b a = true.
Proof.
  destruct a, b; cbn;
    try (left; reflexivity); try (right; reflexivity);
    try apply String.leb_total;
    destruct (Z.leb_spec n n0) || destruct (Z.leb_spec d d0);
    try (left; reflexivity); right; apply Z.leb_le; lia.
Qed.

Lemma sortedBefore_total sortBy dir x y :
  sortedBefore sortBy dir x y \/ sortedBefore sortBy dir y x.
Proof.
  unfold sortedBefore. destruct (dir =? 1).
  - apply Value_leb_total.
  - destruct (Value_leb_total (sortKey sortBy x) (sortKey sortBy y)); auto.
Qed.

Lemma sortDocs_sorted sortBy dir l :
  Sorted (sortedBefore sortBy dir) (sortDocs sortBy dir l).
Proof.
  unfold sortDocs.
  set (le := fun x y : Report =>
               if dir =? 1 then Value_leb (sortKey sortBy x) (sortKey sortBy y)
               else Value_leb (sortKey sortBy y) (sortKey sortBy x)).
  assert (Hle : forall x y, le x y = true <-> sortedBefore sortBy dir x y)
    by (intros; reflexivity).
  assert (Hins : forall x m, Sorted (sortedBefore sortBy dir) m ->
                             Sorted (sortedBefore sortBy dir) (insertBy le x m)).
  { intros x m. induction m as [ | y m IH]; intros Hs; cbn [insertBy].
    - repeat constructor.
    - destruct (le x y) eqn:E.
      + constructor; [exact Hs | constructor; now apply Hle].
      + inversion Hs as [ | ? ? Hm Hhd]; subst. constructor; [now apply IH | ].
        assert (Hyx : sortedBefore sortBy dir y x).
        { destruct (sortedBefore_total sortBy dir x y) as [H | H]; [ | exact H].
          apply Hle in H. congruence. }
        destruct m as [ | z m]; cbn [insertBy]; [now constructor | ].
        destruct (le x z); constructor; [exact Hyx | ].
        now inversion Hhd. }
  induction l as [ | x l IH]; cbn [fold_right]; [constructor | now apply Hins].
Qed.

Definition sampleSort (c : Cursor) (hits : list Report) : option (list Report) :=
  Some (sortDocs (c_sortBy c) (c_dir c) hits).

Lemma sampleSort_permutes c hits ordered :
  sampleSort c hits = Some ordered -> Permutation hits ordered.
Proof. intros [= <-]. symmetry. apply sortDocs_perm. Qed.

Lemma sampleSort_sorts c hits ordered :
  sampleSort c hits = Some ordered ->
  includes scalarPaths (c_sortBy c) = true ->
  Sorted (sortedBefore (c_sortBy c) (c_dir c)) ordered.
Proof. intros [= <-] _. apply sortDocs_sorted. Qed.

Lemma sampleSort_accepts c hits :
  includes scalarPaths (c_sortBy c) = true -> sampleSort c hits <> None.
Proof. intros _. discriminate. Qed.

Definition sampleMongoDB : MongoDB :=
  {| sortCursor := sampleSort;
     sortCursor_permutes := sampleSort_permutes;
     sortCursor_sorts := sampleSort_sorts;
     sortCursor_accepts := sampleSort_accepts |}.

(** Two calendar days, as UTC midnights. *)
Definition sampleParseDate (s : string) : option Date :=
  if String.eqb s "2024-01-01" then Some 1704067200000
  else if String.eqb s "2024-01-31" then Some 1706659200000
  else None.

Definition sampleToken (u : User) : string := "token." ^^ u_id u ^^ "." ^^ role u.

Definition sampleUserValid (u : User) (password : string) : bool :=
  str_nonempty (firstName u) && str_nonempty (lastName u)
  && str_nonempty (email u) && (8 <=? String.length password)%nat.

Definition idAlice : ObjectId := "a00000000000000000000001".
Definition idBob : ObjectId := "b00000000000000000000001".
Definition idEve : ObjectId := "b00000000000000000000002".
Definition idCarol : ObjectId := "c00000000000000000000001".
Definition idR1 : ObjectId := "507f1f77bcf86cd799439011".
Definition idR2 : ObjectId := "507f1f77bcf86cd799439012".
Definition idMissing : ObjectId := "507f1f77bcf86cd799439099".

(** The id of the first sample report as a client may spell it. *)
Definition idR1Upper : string := "507F1F77BCF86CD799439011".

Definition alice : Actor := mkActor idAlice "user".
Definition bob : Actor := mkActor idBob "employee".
Definition eve : Actor := mkActor idEve "employee".
Definition carol : Actor := mkActor idCarol "admin".

Definition sampleUsers : list User :=
  [ mkUser idAlice "Alice" "Adams" "alice@example.com" "user";
    mkUser idBob "Bob" "Brown" "bob@example.com" "employee";
    mkUser idEve "Eve" "Evans" "eve@example.com" "employee";
    mkUser idCarol "Carol" "Clark" "carol@example.com" "admin" ].

Definition hours (n : Z) : Z := n * msPerHour.

(** A freshly submitted, unassigned report. *)
Definition reportSubmitted : Report :=
  mkReport idR1 "Pothole" "Deep pothole on Main St" "road_issue" "high"
    "submitted" (Some "Springfield") [] idAlice None
    [mkEntry "submitted" 0 (Some "Report submitted") idAlice] None 0 0.

(** A report assigned to Bob and resolved 48 hours after its creation. *)
Definition reportResolved : Report :=
  mkReport idR2 "Leak" "Water leak at the corner" "water_issue" "medium"
    "resolved" (Some "Springfield") [] idAlice (Some idBob)
    [mkEntry "submitted" 0 (Some "Report submitted") idAlice;
     mkEntry "assigned" (hours 1) None idCarol;
     mkEntry "resolved" (hours 48) None idBob] None 0 (hours 48).

(** The same report after its submitter closed it at 50 hours. *)
Definition reportClosed : Report :=
  mkReport idR2 "Leak" "Water leak at the corner" "water_issue" "medium"
    "closed" (Some "Springfield") [] idAlice (Some idBob)
    [mkEntry "submitted" 0 (Some "Report submitted") idAlice;
     mkEntry "assigned" (hours 1) None idCarol;
     mkEntry "resolved" (hours 48) None idBob;
     mkEntry "closed" (hours 50) (Some "Feedback provided and report closed") idAlice]
    (Some (mkFeedback (Some 5) None (hours 50))) 0 (hours 50).

(** A report resolved at 48 hours to which a photo was added at 60 hours:
    the upload appends a timeline entry that repeats the current status. *)
Definition reportResolvedWithPhoto : Report :=
  mkReport idR2 "Leak" "Water leak at the corner" "water_issue" "medium"
    "resolved" (Some "Springfield")
    [mkImage "https://img.example.com/leak.jpg" EmptyString (hours 60)]
    idAlice (Some idBob)
    [mkEntry "submitted" 0 (Some "Report submitted") idAlice;
     mkEntry "assigned" (hours 1) None idCarol;
     mkEntry "resolved" (hours 48) None idBob;
     mkEntry "resolved" (hours 60) (Some "1 image(s) uploaded") idBob]
    None 0 (hours 60).

Definition sampleWorld : World :=
  mkWorld [reportSubmitted; reportResolved] sampleUsers [] [].

Definition noFilters : ReportsQuery :=
  mkReportsQuery None None None PAbsent PAbsent None None.


Definition noSearchFilters : SearchQuery :=
  mkSearchQuery PAbsent PAbsent None None None None None None None None None
    None None None None.

Definition withStatus (p : QParam) : SearchQuery :=
  mkSearchQuery PAbsent PAbsent None (Some p) None None None None None None None
    None None None None.

Definition sampleNotification : Notification :=
  mkNotification idAlice "report_status" "Report Status Updated"
    "Your report has been updated" (Some ("Report", idR1)) false None "normal" 5 5.

(** ** Auxiliary notions for the proofs *)

(** Every report of the later world is a report of the earlier one or has
    its status equal to its last timeline entry's. *)
Definition keeps (w w' : World) : Prop :=
  forall r, In r (reports w') -> In r (reports w) \/ inSync r.

Definition preserving {A} (m : M A) : Prop := forall w, keeps w (snd (m w)).

(** The stored report after [addTimelineEvent] on a freshly loaded one. *)
Definition eventReport (now : Date) (st : string) (comment : option string)
    (userId : ObjectId) (r : Report) : Report :=
  touch now (fields (set_status st (push_timeline (mkEntry st now comment userId)
                                      (mkDoc r [])))).

Definition withAssignee (a : ObjectId) (r : Report) : Report :=
  fields (set_assignedTo a (mkDoc r [])).

Definition byId (id : ObjectId) (r : Report) : bool := String.eqb (r_id r) id.

Definition byUserId (id : ObjectId) (u : User) : bool := String.eqb (u_id u) id.

Section BulkNotions.

Context {mongoose : Mongoose}.

(** The report and the user that an id of a request denotes: the stored
    document whose [_id] is the cast of the string. *)
Definition reportOf (w : World) (id : string) : option Report :=
  match castObjectId id with
  | Some oid => find (byId oid) (reports w)
  | None => None
  end.

Definition userOf (w : World) (id : string) : option User :=
  match castObjectId id with
  | Some oid => find (byUserId oid) (users w)
  | None => None
  end.

Definition assigneeName (w : World) (assigneeId : string) : string :=
  match userOf w assigneeId with
  | Some u => firstName u ^^ " " ^^ lastName u
  | None => EmptyString
  end.

(** What a bulk operation makes of a found report. *)
Definition bulkResult (w : World) (now : Date) (user : Actor) (op : BulkOp)
    (r : Report) : Report :=
  match op with
  | BulkStatus st comment =>
      eventReport now st (Some (or_else comment ("Bulk status update to " ^^ st)))
        (a_id user) r
  | BulkAssign assigneeId =>
      match castObjectId assigneeId with
      | Some assignee =>
          eventReport now "assigned" (Some ("Assigned to " ^^ assigneeName w assigneeId))
            (a_id user) (withAssignee assignee r)
      | None => r
      end
  | BulkDelete reason =>
      eventReport now "closed" (Some (or_else reason "Report closed by administrator"))
        (a_id user) r
  end.

(** The notifications a bulk operation creates for a found report. *)
Definition bulkNotes (now : Date) (op : BulkOp) (r : Report) : list Notification :=
  match op with
  | BulkStatus st _ =>
      if String.eqb st "resolved" then
        [mkNotification (submittedBy r) "report_status" "Report Resolved"
           ("Your report " ^^ dquote ^^ title r ^^ dquote ^^ " has been resolved.")
           (Some ("Report", r_id r)) false None "normal" now now]
      else []
  | BulkAssign assigneeId =>
      match castObjectId assigneeId with
      | Some assignee =>
          [mkNotification assignee "assignment" "New Report Assigned"
             ("You have been assigned a new report: " ^^ dquote ^^ title r ^^ dquote)
             (Some ("Report", r_id r)) false None "normal" now now]
      | None => []
      end
  | BulkDelete reason =>
      [mkNotification (submittedBy r) "report_status" "Report Closed"
         ("Your report " ^^ dquote ^^ title r ^^ dquote ^^ " has been closed. "
          ^^ (if truthy reason then "Reason: " ^^ or_else reason EmptyString
              else EmptyString))
         (Some ("Report", r_id r)) false None "normal" now now]
  end.

Definition bulkOps (op : BulkOp) (r : Report) : list DbOp :=
  ReportSave (r_id r)
  :: match bulkRecipient op r with
     | Some to => [NotificationCreate to]
     | None => []
     end.

(** The request-level conditions a bulk operation checks besides the id
    list. *)
Definition bulkReady (isValid : string -> bool) (op : BulkOp) (w : World) : Prop :=
  match op with
  | BulkStatus st _ => includes validStatuses st = true
  | BulkAssign assigneeId =>
      isValid assigneeId = true
      /\ exists u, userOf w assigneeId = Some u /\ role u = "employee"
  | BulkDelete _ => True
  end.

(** The operations a bulk request issues before it touches reports. *)
Definition bulkPrelude (op : BulkOp) : list DbOp :=
  match op with
  | BulkAssign assigneeId =>
      match castObjectId assigneeId with
      | Some assignee => [UserFindById assignee; ReportFind]
      | None => []
      end
  | _ => [ReportFind]
  end.

Definition bulkMessage (w : World) (op : BulkOp) (n : nat) : string :=
  match op with
  | BulkStatus st _ =>
      "Successfully updated " ^^ showNat n ^^ " reports to status: " ^^ st
  | BulkAssign assigneeId =>
      "Successfully assigned " ^^ showNat n ^^ " reports to " ^^ assigneeName w assigneeId
  | BulkDelete _ => "Successfully closed " ^^ showNat n ^^ " reports"
  end.

End BulkNotions.

(** One step of a cascade of replacements, seen from a single report. *)
Definition applyAll (f : Report -> Report) (rs : list Report) (x : Report) : Report :=
  fold_left (fun x r => if String.eqb (r_id x) (r_id (f r)) then f r else x) rs x.

(** Requests and runs used to exercise the theorems. *)

Definition bulkResolveRun : Result (Reply BulkBody) * World :=
  runBulk (mongoose := sampleMongoose) hex24 containsCI 99 carol
    (BulkStatus "resolved" None) (Ids [idR1; idMissing]) sampleWorld.

Definition bulkResolveReply : Reply BulkBody :=
  match fst bulkResolveRun with
  | Done rep => rep
  | _ => mkReply 0 (mkBulkBody EmptyString 0 [])
  end.

Definition feedbackRun : Result (Reply Report) * World :=
  addFeedback (mongoose := sampleMongoose) (hours 50) alice idR2 (Some 5) None
    sampleWorld.

Definition feedbackReply : Reply Report :=
  match fst feedbackRun with
  | Done rep => rep
  | _ => mkReply 0 reportResolved
  end.

Definition idNew : ObjectId := "d00000000000000000000001".

Definition adminRequest : RegisterBody :=
  mkRegisterBody "Mallory" "Moore" "mallory@example.com" "correct horse" (Some "admin").


Definition hasKey (k : string) (q : Query) : bool :=
  existsb (fun kc => String.eqb (fst kc) k) (q_fields q).

Definition sortDir (o : option string) : Z :=
  match o with
  | Some s => if String.eqb s "asc" then 1 else -1
  | None => -1
  end.

(** Whether a query constrains the path [k], in its fields or in a clause
    of its [$or]. *)
Definition mentions (k : string) (q : Query) : bool :=
  hasKey k q
  || match q_or q with
     | Some clauses =>
         existsb (existsb (fun kc : string * Cond => String.eqb (fst kc) k)) clauses
     | None => false
     end.

(** Two reports that agree on every path but [k]. *)
Definition agreeExcept (k : string) (r r' : Report) : Prop :=
  forall k', k' <> k -> getPath k' r = getPath k' r'.


(** * Further handlers

    The rest of the report controller, the field worker controller that
    calls [addTimelineEvent], and the user management of the admin
    controller.  The operation log has entries for the operations named in
    [DbOp]; a primitive below that has no entry there leaves the log as it
    is.  An [ApiError] thrown inside a handler is written as the [Next] it
    becomes at the handler's [catch (error) { next(error) }]. *)

(** ** More JavaScript helpers *)

(** White space as [String.prototype.trim] sees it, within ASCII. *)
Definition isSpace (c : ascii) : bool :=
  let n := nat_of_ascii c in
  ((9 <=? n) && (n <=? 13) || (n =? 32))%nat.

Fixpoint trimStart (s : string) : string :=
  match s with
  | EmptyString => EmptyString
  | String c rest => if isSpace c then trimStart rest else s
  end.

Fixpoint trimEnd (s : string) : string :=
  match s with
  | EmptyString => EmptyString
  | String c rest =>
      match trimEnd rest with
      | EmptyString => if isSpace c then EmptyString else String c EmptyString
      | kept => String c kept
      end
  end.

Definition trim (s : string) : string := trimEnd (trimStart s).

(** [s.split(c)] for a separator of length one: the pieces between the
    separators, at least one. *)
Fixpoint splitOn (c : ascii) (s : string) : list string :=
  match s with
  | EmptyString => [EmptyString]
  | String a rest =>
      if Ascii.eqb a c then EmptyString :: splitOn c rest
      else match splitOn c rest with
           | piece :: pieces => String a piece :: pieces
           | [] => [String a EmptyString]
           end
  end.

(** [pieces.join(sep)] *)
Fixpoint joinWith (sep : string) (pieces : list string) : string :=
  match pieces with
  | [] => EmptyString
  | [p] => p
  | p :: rest => p ^^ sep ^^ joinWith sep rest
  end.

(** [s.startsWith(p)] *)
Fixpoint startsWith (p s : string) : bool :=
  match p, s with
  | EmptyString, _ => true
  | String a p', String b s' => Ascii.eqb a b && startsWith p' s'
  | String _ _, EmptyString => false
  end.

(** [a === b] on values that are a string or [undefined]. *)
Definition strictEq (a b : option string) : bool :=
  match a, b with
  | Some x, Some y => String.eqb x y
  | None, None => true
  | _, _ => false
  end.

(** A millisecond count inside a template literal. *)
Definition showDate (d : Date) : string := NilZero.string_of_int (Z.to_int d).

(** ** Requests and replies of the further handlers *)

(** [location.coordinates] of a request body. *)
Inductive Coordinates :=
| CoordsMissing
| CoordsNotArray
| Coords (l : list Q).

Record Location := mkLocation {
  coordinates : Coordinates;
  addressCity : option string
}.

Record ReportBody := mkReportBody {
  cr_title : option string;
  cr_description : option string;
  cr_category : option string;
  cr_priority : option string;
  cr_location : option Location
}.

(** The body of a reply of [createReport]: the report, or a message and the
    fields at fault. *)
Inductive CreateReply :=
| Created (r : Report)
| Invalid (msg : string) (errors : list string).

(** A file as multer hands it over. *)
Record File := mkFile {
  originalname : string;
  mimetype : string;
  size : Z;
  buffer : string
}.

Record ImagesReply := mkImagesReply {
  ir_images : list Image;
  ir_report : Report
}.

(** What [uploadFieldWorkerImages] returns for a file. *)
Record FieldImage := mkFieldImage {
  fi_url : string;
  fi_originalName : string;
  fi_size : Z;
  fi_mimeType : string;
  fi_uploadType : string;
  fi_location : option string;
  fi_reportId : option string;
  fi_description : string;
  fi_uploadedAt : Date
}.

Record FieldReply := mkFieldReply {
  fr_message : string;
  fr_images : list FieldImage;
  fr_count : nat;
  fr_reportStatus : option string
}.

(** A report with the referenced users resolved, as [populate] leaves it. *)
Record PopulatedReport := mkPopulated {
  pr_report : Report;
  pr_submittedBy : option User;
  pr_assignedTo : option User
}.

Definition validCategories : list string :=
  ["road_issue"; "water_issue"; "electricity_issue"; "waste_management";
   "public_safety"; "other"].

Definition validPriorities : list string := ["low"; "medium"; "high"; "critical"].

Definition validRoles : list string := ["user"; "employee"; "admin"].

Section FurtherHandlers.

Context {mongoose : Mongoose}.

(** Services and library functions the further handlers call. *)
Variable geoIndexable : list Q -> bool.
  (* whether the 2dsphere index accepts the point *)
Variable cloud : File -> string -> Date -> option string.
  (* the secure_url Cloudinary answers with; None when the upload fails *)
Variable jsonTruthy : string -> option bool.
  (* JSON.parse: None for a syntax error, else the truthiness of the value *)
Variable userValid : User -> string -> bool.
  (* validation of the user schema *)

(** *** Store primitives *)

Definition withImages (imgs : list Image) (r : Report) : Report :=
  mkReport (r_id r) (title r) (description r) (category r) (priority r)
    (status r) (city r) (images r ++ imgs) (submittedBy r) (assignedTo r)
    (timeline r) (feedback r) (createdAt r) (updatedAt r).

(** [report.images.push(...imgs)] on a loaded document; the schema puts no
    validator on images. *)
Definition push_images (imgs : list Image) (d : Doc) : Doc :=
  mkDoc (withImages imgs (fields d)) (modified d).

(** The validation [Report.create] runs: the fields it objects to. *)
Definition createErrors (ttl desc cat prio : string) : list string :=
  (if str_nonempty (trim ttl) then [] else ["title"])
  ++ (if str_nonempty (trim desc) then [] else ["description"])
  ++ (if includes validCategories cat then [] else ["category"])
  ++ (if includes validPriorities prio then [] else ["priority"]).

(** [Report.create(data)] with the schema's defaults and [trim]s. *)
Definition reportCreate (now : Date) (newId : ObjectId) (ttl desc cat prio : string)
    (point : list Q) (cityName : option string) (submitter : ObjectId) : M Report :=
  match createErrors ttl desc cat prio with
  | _ :: _ => throw "ValidationError"
  | [] =>
      if geoIndexable point then
        logOp (ReportSave newId) ;;;
        fun w =>
          let r := mkReport newId (trim ttl) (trim desc) cat prio "submitted" cityName
                     [] submitter None
                     [mkEntry "submitted" now (Some "Report submitted") submitter]
                     None now now in
          (Done r, mkWorld (reports w ++ [r]) (users w) (notifications w) (oplog w))
      else throw "MongoServerError"
  end.

(** [User.find({ role })] *)
Definition findUsersByRole (r : string) : M (list User) :=
  fun w => (Done (filter (fun u => String.eqb (role u) r) (users w)), w).

Definition replaceUser (u : User) (l : list User) : list User :=
  map (fun u' => if String.eqb (u_id u') (u_id u) then u else u') l.

(** [user.save()] after a change of role. *)
Definition saveUser (u : User) : M User :=
  fun w => (Done u, mkWorld (reports w) (replaceUser u (users w)) (notifications w)
                      (oplog w)).

(** [.populate(path)]: the referenced user, [null] when there is none. *)
Definition populate (o : option ObjectId) (w : World) : option User :=
  match o with
  | Some id => find (fun u => String.eqb (u_id u) id) (users w)
  | None => None
  end.

(** *** report.controller.js: createReport *)

Definition missingFields (b : ReportBody) : list string :=
  (if truthy (cr_title b) then [] else ["title"])
  ++ (if truthy (cr_description b) then [] else ["description"])
  ++ (if truthy (cr_category b) then [] else ["category"]).

(** The point of a location that passes the handler's check. *)
Definition pointOf (loc : option Location) : option (list Q) :=
  match loc with
  | Some l =>
      match coordinates l with
      | Coords p => if Nat.eqb (length p) 2 then Some p else None
      | _ => None
      end
  | None => None
  end.

Definition createReport (now : Date) (newId : ObjectId) (user : Actor) (b : ReportBody)
    : M (Reply CreateReply) :=
  fun w =>
    match
      (if negb (truthy (cr_title b)) || negb (truthy (cr_description b))
          || negb (truthy (cr_category b))
       then ret (mkReply 400 (Invalid "Missing required fields" (missingFields b)))
       else
         match pointOf (cr_location b) with
         | None =>
             ret (mkReply 400 (Invalid "Invalid location data" ["location.coordinates"]))
         | Some point =>
             let ttl := or_else (cr_title b) EmptyString in
             let cat := or_else (cr_category b) EmptyString in
             report <- reportCreate now newId ttl
                         (or_else (cr_description b) EmptyString) cat
                         (or_else (cr_priority b) "medium") point
                         (match cr_location b with
                          | Some l => addressCity l
                          | None => None
                          end)
                         (a_id user) ;;
             admins <- findUsersByRole "admin" ;;
             forEach (fun admin =>
                 createNotification now (u_id admin) "report_status"
                   "New Report Submitted"
                   ("A new " ^^ cat ^^ " report has been submitted: " ^^ ttl)
                   (Some ("Report", r_id report))
                   (Some (if strictEq (cr_priority b) (Some "critical")
                          then "high" else "normal"))) admins ;;;
             ret (mkReply 201 (Created report))
         end) w
    with
    | (Thrown name, w') =>
        if String.eqb name "ValidationError" then
          (Done (mkReply 400
                   (Invalid "Validation failed"
                      (createErrors (or_else (cr_title b) EmptyString)
                         (or_else (cr_description b) EmptyString)
                         (or_else (cr_category b) EmptyString)
                         (or_else (cr_priority b) "medium")))), w')
        else (Thrown name, w')
    | other => other
    end.

(** *** report.controller.js: getReportById *)

Definition populateM (o : option ObjectId) : M (option User) :=
  fun w => (Done (populate o w), w).

Definition getReportById (user : Actor) (id : string) : M (Reply PopulatedReport) :=
  found <- findById id ;;
  match found with
  | None => next "Report not found" 404
  | Some d =>
      let report := fields d in
      submitter <- populateM (Some (submittedBy report)) ;;
      assignee <- populateM (assignedTo report) ;;
      (if String.eqb (a_role user) "user" then
         match submitter with
         | None => throw "TypeError"
         | Some s =>
             if negb (String.eqb (u_id s) (a_id user))
             then next "You do not have permission to view this report" 403
             else ret tt
         end
       else ret tt) ;;;
      if String.eqb (a_role user) "employee"
         && assignedElsewhere (option_map u_id assignee) user
      then next "You do not have permission to view this report" 403
      else ret (mkReply 200 (mkPopulated report submitter assignee))
  end.

(** *** report.controller.js: uploadReportImages *)

(** [uploadToCloudinary(file.buffer, file.originalname, uploadType)] *)
Definition uploadToCloudinary (now : Date) (uploadType : string) (f : File) : M string :=
  match cloud f uploadType now with
  | Some url => ret url
  | None => next "File upload failed" 500
  end.

Fixpoint mapM {A B} (f : A -> M B) (l : list A) : M (list B) :=
  match l with
  | [] => ret []
  | x :: rest => y <- f x ;; ys <- mapM f rest ;; ret (y :: ys)
  end.

Definition uploadReportImages (now : Date) (user : Actor) (id : string)
    (files : list File) (caption : option string) : M (Reply ImagesReply) :=
  found <- findById id ;;
  match found with
  | None => next "Report not found" 404
  | Some report =>
      if String.eqb (a_role user) "user"
         && negb (String.eqb (submittedBy (fields report)) (a_id user))
      then next "You can only upload images to your own reports" 403
      else if String.eqb (a_role user) "employee"
              && assignedElsewhere (assignedTo (fields report)) user
      then next "You can only upload images to reports assigned to you" 403
      else if Nat.eqb (length files) 0
      then next "No images uploaded" 400
      else
        uploadedImages <-
          mapM (fun file =>
                  url <- uploadToCloudinary now "report" file ;;
                  ret (mkImage url (or_else caption EmptyString) now)) files ;;
        report <- save now (push_images uploadedImages report) ;;
        report <- addTimelineEvent now (status (fields report))
                    (Some (showNat (length uploadedImages) ^^ " image(s) uploaded"))
                    (a_id user) report ;;
        ret (mkReply 200 (mkImagesReply uploadedImages (fields report)))
  end.

(** *** upload.service.js: uploadFieldWorkerImages *)

(** [try { ... } catch (error) { throw new ApiError(msg, code) }] *)
Definition rethrowAs {A} (msg : string) (c : Z) (m : M A) : M A :=
  fun w =>
    match m w with
    | (Next _ _, w') => (Next msg c, w')
    | (Thrown _, w') => (Next msg c, w')
    | other => other
    end.

Definition uploadFieldWorkerImages (now : Date) (files : list File)
    (uploadType : string) (loc : option string) (reportId : option string)
    (desc : string) : M (list FieldImage) :=
  rethrowAs "Field worker image upload failed" 500
    (mapM (fun file =>
             downloadURL <- uploadToCloudinary now uploadType file ;;
             ret (mkFieldImage downloadURL (originalname file) (size file)
                    (mimetype file) uploadType loc reportId desc now)) files).

(** [location ? JSON.parse(location) : null], then [metadata.location ||
    null]: the text when it parses to a truthy value. *)
Definition parseLocation (loc : option string) : M (option string) :=
  match loc with
  | Some text =>
      if str_nonempty text then
        match jsonTruthy text with
        | None => throw "SyntaxError"
        | Some true => ret (Some text)
        | Some false => ret None
        end
      else ret None
  | None => ret None
  end.

(** *** fieldworker.controller.js *)

Definition uploadProgressImages (now : Date) (user : Actor) (files : list File)
    (reportId loc desc : option string) : M (Reply FieldReply) :=
  if negb (String.eqb (a_role user) "employee")
  then next "Access denied. Only field workers can upload progress images" 403
  else if Nat.eqb (length files) 0
  then next "No images uploaded" 400
  else
    (if truthy reportId then
       found <- findById (or_else reportId EmptyString) ;;
       match found with
       | None => next "Report not found" 404
       | Some report =>
           if assignedElsewhere (assignedTo (fields report)) user
           then next "You can only upload images for reports assigned to you" 403
           else ret tt
       end
     else ret tt) ;;;
    location <- parseLocation loc ;;
    uploadedImages <-
      uploadFieldWorkerImages now files "progress" location
        (if truthy reportId then reportId else None) (or_else desc "Progress update") ;;
    (if truthy reportId then
       found <- findById (or_else reportId EmptyString) ;;
       match found with
       | None => throw "TypeError"
       | Some report =>
           report <-
             save now
               (push_images
                  (map (fun image =>
                          mkImage (fi_url image) ("Progress: " ^^ fi_description image)
                            (fi_uploadedAt image)) uploadedImages) report) ;;
           addTimelineEvent now "in_progress"
             (Some ("Progress images uploaded: " ^^ showNat (length uploadedImages)
                    ^^ " image(s)"))
             (a_id user) report ;;;
           ret tt
       end
     else ret tt) ;;;
    ret (mkReply 201
           (mkFieldReply "Progress images uploaded successfully" uploadedImages
              (length uploadedImages) None)).

Definition uploadCompletionImages (now : Date) (user : Actor) (files : list File)
    (reportId loc desc markAsResolved : option string) : M (Reply FieldReply) :=
  if negb (String.eqb (a_role user) "employee")
  then next "Access denied. Only field workers can upload completion images" 403
  else if Nat.eqb (length files) 0
  then next "No images uploaded" 400
  else if negb (truthy reportId)
  then next "Report ID is required for completion images" 400
  else
    found <- findById (or_else reportId EmptyString) ;;
    match found with
    | None => next "Report not found" 404
    | Some report =>
        if assignedElsewhere (assignedTo (fields report)) user
        then next "You can only upload completion images for reports assigned to you" 403
        else
          location <- parseLocation loc ;;
          uploadedImages <-
            uploadFieldWorkerImages now files "completion" location reportId
              (or_else desc "Work completed") ;;
          let report :=
            push_images
              (map (fun image =>
                      mkImage (fi_url image) ("Completion: " ^^ fi_description image)
                        (fi_uploadedAt image)) uploadedImages) report in
          report <-
            (if strictEq markAsResolved (Some "true") then
               let report := set_status "resolved" report in
               report <-
                 addTimelineEvent now "resolved"
                   (Some ("Work completed with " ^^ showNat (length uploadedImages)
                          ^^ " completion image(s). " ^^ or_else desc EmptyString))
                   (a_id user) report ;;
               createNotification now (submittedBy (fields report)) "report_status"
                 "Report Resolved"
                 ("Your report " ^^ dquote ^^ title (fields report) ^^ dquote
                  ^^ " has been resolved by our field team.")
                 (Some ("Report", r_id (fields report))) None ;;;
               ret report
             else
               addTimelineEvent now "in_progress"
                 (Some ("Completion images uploaded: "
                        ^^ showNat (length uploadedImages) ^^ " image(s). "
                        ^^ or_else desc EmptyString))
                 (a_id user) report) ;;
          report <- save now report ;;
          ret (mkReply 201
                 (mkFieldReply "Completion images uploaded successfully" uploadedImages
                    (length uploadedImages) (Some (status (fields report)))))
    end.

(** *** admin.controller.js: user management *)

Definition updateUserRole (now : Date) (caller : Actor) (userId : string)
    (newRole : string) : M (Reply User) :=
  catch500 "Failed to update user role"
    (if negb (includes validRoles newRole)
     then next "Invalid role. Must be one of: user, employee, admin" 400
     else
       found <- findUserById userId ;;
       match found with
       | None => next "User not found" 404
       | Some user =>
           if String.eqb (u_id user) (a_id caller)
           then next "You cannot change your own role" 400
           else
             let oldRole := role user in
             user <- saveUser (mkUser (u_id user) (firstName user) (lastName user)
                                 (email user) newRole) ;;
             createNotification now (u_id user) "system" "Role Updated"
               ("Your role has been updated from " ^^ oldRole ^^ " to " ^^ newRole
                ^^ " by an administrator.")
               None (Some "normal") ;;;
             ret (mkReply 200 user)
       end).

(** The catch of [createAdmin] and [getAdmins] answers in JSON itself. *)
Definition catchJson {A} (msg : string) (m : M A) : M A :=
  fun w =>
    match m w with
    | (Thrown _, w') => (Refused msg 500, w')
    | other => other
    end.

Definition createAdmin (newId : ObjectId) (fn ln mail pw : option string)
    : M (Reply User) :=
  catchJson "Failed to create admin user"
    (if negb (truthy fn) || negb (truthy ln) || negb (truthy mail) || negb (truthy pw)
     then refuse "All fields are required" 400
     else
       existingUser <- findUserByEmail (or_else mail EmptyString) ;;
       match existingUser with
       | Some _ => refuse "Email already in use" 400
       | None =>
           admin <- createUser userValid
                      (mkUser newId (or_else fn EmptyString) (or_else ln EmptyString)
                         (or_else mail EmptyString) "admin")
                      (or_else pw EmptyString) ;;
           ret (mkReply 201 admin)
       end).

Definition getAdmins : M (Reply (list User)) :=
  catchJson "Failed to fetch admin users"
    (admins <- findUsersByRole "admin" ;; ret (mkReply 200 admins)).

(** *** admin.routes.js: restrictToTrustedSources *)

Definition isLocalhost (ip : string) : bool :=
  String.eqb ip "127.0.0.1" || String.eqb ip "::1" || String.eqb ip "::ffff:127.0.0.1".

(** [ip] is [req.ip], [header] the request's [admin-creation-token] header
    and [configured] the environment's [ADMIN_CREATION_TOKEN]. *)
Definition restrictToTrustedSources {A} (ip : string) (header configured : option string)
    (handler : M A) : M A :=
  let hasAdminToken := strictEq header configured in
  if isLocalhost ip || hasAdminToken then handler
  else refuse "Access denied. Admin creation is restricted to trusted sources only." 403.

(** POST /api/admin/create *)
Definition createAdminRoute (ip : string) (header configured : option string)
    (newId : ObjectId) (fn ln mail pw : option string) : M (Reply User) :=
  restrictToTrustedSources ip header configured (createAdmin newId fn ln mail pw).

End FurtherHandlers.


(** * Accounts, sessions and the inbox

    The user collection with the fields the session and account handlers
    read ([password], [isActive], [lastLogin], the reset token), and the
    notification collection with its ids.  They are states of their own;
    [acc] is the part of an account the report handlers see. *)

Record Account := mkAccount {
  acc : User;
  password : string;                        (* as stored *)
  isActive : bool;
  lastLogin : option Date;
  resetPasswordToken : option string;       (* hashed *)
  resetPasswordExpires : option Date
}.

Record Mail := mkMail { mailTo : string; mailSubject : string; mailText : string }.

Record Realm := mkRealm {
  accounts : list Account;
  notices : list Notification;
  outbox : list Mail
}.

(** The handler monad over any state. *)
Definition St (S A : Type) := S -> Result A * S.

Definition retS {S A} (a : A) : St S A := fun s => (Done a, s).

Definition bindS {S A B} (m : St S A) (k : A -> St S B) : St S B :=
  fun s =>
    match m s with
    | (Done a, s') => k a s'
    | (Next msg c, s') => (Next msg c, s')
    | (Refused msg c, s') => (Refused msg c, s')
    | (Thrown n, s') => (Thrown n, s')
    end.

Notation "x <~ m ;; k" := (bindS m (fun x => k))
  (at level 61, m at next level, right associativity).
Notation "m ;;~ k" := (bindS m (fun _ => k))
  (at level 61, right associativity).

Definition nextS {S A} (msg : string) (c : Z) : St S A := fun s => (Next msg c, s).
Definition refuseS {S A} (msg : string) (c : Z) : St S A := fun s => (Refused msg c, s).
Definition throwS {S A} (name : string) : St S A := fun s => (Thrown name, s).

(** What [jwt.verify] makes of a token; [Decoded id] is a payload whose
    [id] member is the string [id]. *)
Inductive Verified :=
| Decoded (id : string)
| JsonWebTokenError
| TokenExpiredError
| OtherError.

Record StatusReply := mkStatusReply {
  sr_message : string;
  sr_user : User;
  sr_isActive : bool
}.

Definition byAccountId (id : ObjectId) (a : Account) : bool := String.eqb (u_id (acc a)) id.
Definition byEmail (mail : string) (a : Account) : bool := String.eqb (email (acc a)) mail.

Definition replaceAccount (a : Account) (l : list Account) : list Account :=
  map (fun a' => if String.eqb (u_id (acc a')) (u_id (acc a)) then a else a') l.

(** [user.save()] *)
Definition saveAccount (a : Account) : St Realm Account :=
  fun s => (Done a, mkRealm (replaceAccount a (accounts s)) (notices s) (outbox s)).

(** [User.findById(id)] and [User.findOne({ email })] *)
Definition findAccountById {mongoose : Mongoose} (id : string)
    : St Realm (option Account) :=
  match castObjectId id with
  | None => throwS "CastError"
  | Some oid => fun s => (Done (find (byAccountId oid) (accounts s)), s)
  end.

(** The account a request's id denotes: the stored account whose id is
    the cast of the string. *)
Definition accountOf {mongoose : Mongoose} (s : Realm) (id : string) : option Account :=
  match castObjectId id with
  | None => None
  | Some oid => find (byAccountId oid) (accounts s)
  end.

Definition findAccountByEmail (mail : string) : St Realm (option Account) :=
  fun s => (Done (find (byEmail mail) (accounts s)), s).

(** [Notification.create(data)] *)
Definition notify (now : Date) (to : ObjectId) (ty ttl msg prio : string)
    : St Realm unit :=
  fun s =>
    (Done tt,
     mkRealm (accounts s)
       (notices s ++ [mkNotification to ty ttl msg None false None prio now now])
       (outbox s)).

Definition withActive (b : bool) (a : Account) : Account :=
  mkAccount (acc a) (password a) b (lastLogin a) (resetPasswordToken a)
    (resetPasswordExpires a).

Definition withLastLogin (t : Date) (a : Account) : Account :=
  mkAccount (acc a) (password a) (isActive a) (Some t) (resetPasswordToken a)
    (resetPasswordExpires a).

Definition withReset (tok : option string) (exp : option Date) (a : Account) : Account :=
  mkAccount (acc a) (password a) (isActive a) (lastLogin a) tok exp.

Definition withPassword (pw : string) (a : Account) : Account :=
  mkAccount (acc a) pw (isActive a) (lastLogin a) (resetPasswordToken a)
    (resetPasswordExpires a).

Definition tenMinutes : Z := 10 * 60 * 1000.

Section Sessions.

Context {mongoose : Mongoose}.

Variable comparePassword : string -> string -> bool.
  (* user.comparePassword: the stored password against a candidate *)
Variable generateToken : User -> string.
Variable verify : string -> Verified.
Variable sha256 : string -> string.
Variable sendEmail : Mail -> bool.
  (* whether the mail goes out *)
Variable storedForm : string -> string.
  (* what [save] stores when the password was assigned *)
Variable passwordValid : string -> bool.
  (* validation of the password path on [save] *)

(** *** admin.controller.js: toggleUserStatus *)

(** [isActive] of the body is [None] when it is not a boolean. *)
Definition toggleUserStatus (now : Date) (caller : Actor) (userId : string)
    (active : option bool) : St Realm (Reply StatusReply) :=
  fun s0 =>
    match
      (match active with
       | None => nextS "isActive must be a boolean value" 400
       | Some b =>
           found <~ findAccountById userId ;;
           match found with
           | None => nextS "User not found" 404
           | Some user =>
               if String.eqb (u_id (acc user)) (a_id caller) && negb b
               then nextS "You cannot deactivate your own account" 400
               else
                 user <~ saveAccount (withActive b user) ;;
                 (if negb b then
                    notify now (u_id (acc user)) "system" "Account Deactivated"
                      "Your account has been deactivated by an administrator. Please contact support for assistance."
                      "high"
                  else retS tt) ;;~
                 retS (mkReply 200
                         (mkStatusReply
                            (if b then "User activated successfully"
                             else "User deactivated successfully")
                            (acc user) (isActive user)))
           end
       end) s0
    with
    | (Thrown _, s') => (Next "Failed to update user status" 500, s')
    | other => other
    end.

(** *** auth.controller.js: login *)

Definition login (now : Date) (mail pw : option string) : St Realm (Reply RegisterReply) :=
  if negb (truthy mail) || negb (truthy pw)
  then nextS "Please provide email and password" 400
  else
    found <~ findAccountByEmail (or_else mail EmptyString) ;;
    match found with
    | None => nextS "Incorrect email or password" 401
    | Some user =>
        if negb (comparePassword (password user) (or_else pw EmptyString))
        then nextS "Incorrect email or password" 401
        else if negb (isActive user)
        then nextS "Your account has been deactivated" 403
        else
          user <~ saveAccount (withLastLogin now user) ;;
          retS (mkReply 200 (mkRegisterReply (generateToken (acc user)) (acc user)))
    end.

(** *** auth.middleware.js: authMiddleware

    The result is [req.user] for the handlers that follow. *)
Definition authMiddleware (authorization : option string) : St Realm Account :=
  match authorization with
  | None => refuseS "Authentication required. No token provided." 401
  | Some authHeader =>
      if negb (str_nonempty authHeader) || negb (startsWith "Bearer " authHeader)
      then refuseS "Authentication required. No token provided." 401
      else
        let token := nth 1 (splitOn " "%char authHeader) EmptyString in
        if negb (str_nonempty token)
        then refuseS "Authentication required. Invalid token format." 401
        else
          match verify token with
          | JsonWebTokenError => refuseS "Invalid token. Please log in again." 401
          | TokenExpiredError =>
              refuseS "Your token has expired. Please log in again." 401
          | OtherError => refuseS "Internal server error during authentication." 500
          | Decoded id =>
              fun s =>
                match
                  (found <~ findAccountById id ;;
                   match found with
                   | None =>
                       refuseS "The user belonging to this token no longer exists." 401
                   | Some user =>
                       if negb (isActive user)
                       then refuseS
                              "Your account has been deactivated. Please contact support."
                              403
                       else retS user
                   end) s
                with
                | (Thrown _, s') =>
                    (Refused "Internal server error during authentication." 500, s')
                | other => other
                end
          end
  end.

(** *** auth.controller.js: forgotPassword and resetPassword

    [resetToken] is what [crypto.randomBytes(32).toString('hex')] drew. *)
Definition forgotPassword (now : Date) (resetToken protocol host mail : string)
    : St Realm (Reply string) :=
  found <~ findAccountByEmail mail ;;
  match found with
  | None => nextS "No user found with that email address" 404
  | Some user =>
      user <~ saveAccount (withReset (Some (sha256 resetToken))
                             (Some (now + tenMinutes)) user) ;;
      let resetURL :=
        protocol ^^ "://" ^^ host ^^ "/api/auth/reset-password/" ^^ resetToken in
      let letter :=
        mkMail (email (acc user)) "Your password reset token (valid for 10 minutes)"
          ("Forgot your password? Submit a PATCH request with your new password to: "
           ^^ resetURL ^^ String (ascii_of_nat 10) EmptyString
           ^^ "If you didn't forget your password, please ignore this email.") in
      if sendEmail letter then
        (fun s => (Done tt, mkRealm (accounts s) (notices s) (outbox s ++ [letter]))) ;;~
        retS (mkReply 200 "Token sent to email")
      else
        saveAccount (withReset None None user) ;;~
        nextS "There was an error sending the email. Try again later." 500
  end.

(** [User.findOne({ resetPasswordToken: hashed, resetPasswordExpires: { $gt: now } })] *)
Definition holdsToken (hashed : string) (now : Date) (a : Account) : bool :=
  strictEq (resetPasswordToken a) (Some hashed)
  && match resetPasswordExpires a with
     | Some t => now <? t
     | None => false
     end.

Definition resetPassword (now : Date) (token pw : string) : St Realm (Reply string) :=
  let hashedToken := sha256 token in
  found <~ (fun s => (Done (find (holdsToken hashedToken now) (accounts s)), s)) ;;
  match found with
  | None => nextS "Token is invalid or has expired" 400
  | Some user =>
      if passwordValid pw then
        user <~ saveAccount (withReset None None (withPassword (storedForm pw) user)) ;;
        retS (mkReply 200 (generateToken (acc user)))
      else throwS "ValidationError"
  end.

End Sessions.

(** ** notification.model.js and notification.routes.js *)

Fixpoint insertNewest (n : Notification) (l : list Notification) : list Notification :=
  match l with
  | [] => [n]
  | m :: rest =>
      if n_createdAt m <=? n_createdAt n then n :: l else m :: insertNewest n rest
  end.

(** [.sort({ createdAt: -1 })] *)
Definition sortNewest (l : list Notification) : list Notification :=
  fold_right insertNewest [] l.

(** [Notification.getUnreadByUser(userId)] over the collection. *)
Definition getUnreadByUser (userId : ObjectId) (all : list Notification)
    : list Notification :=
  sortNewest (filter (fun n => String.eqb (recipient n) userId && negb (isRead n)) all).

(** The collection with its ids. *)
Definition Inbox := list (ObjectId * Notification).

(** GET /api/notifications *)
Definition listNotifications (user : Actor) : St Inbox (Reply (list Notification)) :=
  fun s =>
    (Done (mkReply 200
             (sortNewest (filter (fun n => String.eqb (recipient n) (a_id user))
                            (map snd s)))), s).

(** [Notification.findOne({ _id: id, recipient })]: the string given for
    [_id] is cast. *)
Definition findOneNotification {mongoose : Mongoose} (id : string) (to : ObjectId)
    : St Inbox (option (ObjectId * Notification)) :=
  match castObjectId id with
  | None => throwS "CastError"
  | Some oid =>
      fun s =>
        (Done (find (fun e => String.eqb (fst e) oid
                              && String.eqb (recipient (snd e)) to) s), s)
  end.

(** [notification.markAsRead()] on the document found under [oid]. *)
Definition saveRead (now : Date) (oid : ObjectId) (n : Notification)
    : St Inbox Notification :=
  fun s =>
    let saved := markAsRead now n in
    (Done saved, map (fun e => if String.eqb (fst e) oid then (fst e, saved) else e) s).

(** PATCH /api/notifications/:id/read; the route's [catch] answers an
    exception itself. *)
Definition markNotificationRead {mongoose : Mongoose} (now : Date) (user : Actor)
    (id : string) : St Inbox (Reply Notification) :=
  fun s0 =>
    match
      (found <~ findOneNotification id (a_id user) ;;
       match found with
       | None => refuseS "Notification not found" 404
       | Some (oid, notification) =>
           saved <~ saveRead now oid notification ;;
           retS (mkReply 200 saved)
       end) s0
    with
    | (Thrown _, s') => (Refused "Failed to mark notification as read" 500, s')
    | other => other
    end.

(** ** upload.service.js: names *)

(** The folder [uploadToCloudinary] picks for an upload type. *)
Definition cloudFolder (uploadType : string) : string :=
  if String.eqb uploadType "fieldwork" then "civic-connect/fieldwork"
  else if String.eqb uploadType "report" then "civic-connect/reports"
  else if String.eqb uploadType "progress" then "civic-connect/fieldwork/progress"
  else if String.eqb uploadType "completion" then "civic-connect/fieldwork/completion"
  else "civic-connect/uploads".

(** The [public_id] it asks for. *)
Definition uploadPublicId (now : Date) (uploadType fileName : string) : string :=
  cloudFolder uploadType ^^ "/" ^^ showDate now ^^ "-"
  ^^ hd EmptyString (splitOn "."%char fileName).

(** The [public_id] [deleteFromCloudinary] derives from a URL. *)
Definition deletePublicId (fileUrl : string) : string :=
  let urlParts := splitOn "/"%char fileUrl in
  let publicIdWithExtension := last urlParts EmptyString in
  let publicIdParts := splitOn "."%char publicIdWithExtension in
  joinWith "." (removelast publicIdParts).

(** [fileFilter] of the multer configuration: whether the file is let in. *)
Definition fileFilter (f : File) : bool := startsWith "image/" (mimetype f).


(** ** Auxiliary notions for the further handlers *)

(** The collections are as they were (the log may have grown). *)
Definition untouched (w w' : World) : Prop :=
  reports w' = reports w /\ users w' = users w /\ notifications w' = notifications w.

Definition newReportNotice (now : Date) (b : ReportBody) (r : Report) (admin : User)
    : Notification :=
  mkNotification (u_id admin) "report_status" "New Report Submitted"
    ("A new " ^^ or_else (cr_category b) EmptyString
     ^^ " report has been submitted: " ^^ or_else (cr_title b) EmptyString)
    (Some ("Report", r_id r)) false None
    (if strictEq (cr_priority b) (Some "critical") then "high" else "normal") now now.


Definition sampleGeo (point : list Q) : bool := true.

Definition sampleBody : ReportBody :=
  mkReportBody (Some "  Broken lamp ") (Some "The lamp at the corner is out")
    (Some "electricity_issue") (Some "critical")
    (Some (mkLocation (Coords [1 # 1; 2 # 1]) (Some "Springfield"))).

Definition bodyWithoutTitle : ReportBody :=
  mkReportBody None (Some "The lamp at the corner is out") (Some "electricity_issue")
    None (Some (mkLocation (Coords [1 # 1; 2 # 1]) None)).

(** Whether the cloud takes a file, and the URL it answers with. *)
Definition uploaded (cloud : File -> string -> Date -> option string) (now : Date)
    (uploadType : string) (f : File) : bool :=
  match cloud f uploadType now with Some _ => true | None => false end.

Definition urlOf (cloud : File -> string -> Date -> option string) (now : Date)
    (uploadType : string) (f : File) : string :=
  match cloud f uploadType now with Some url => url | None => EmptyString end.

(** The images [uploadReportImages] adds for a list of files. *)
Definition reportImages (cloud : File -> string -> Date -> option string) (now : Date)
    (caption : option string) (files : list File) : list Image :=
  map (fun f => mkImage (urlOf cloud now "report" f) (or_else caption EmptyString) now)
    files.

(** The images the field worker handlers add, captioned with a prefix. *)
Definition fieldImages (cloud : File -> string -> Date -> option string) (now : Date)
    (uploadType pre desc : string) (files : list File) : list Image :=
  map (fun f => mkImage (urlOf cloud now uploadType f) (pre ^^ desc) now) files.

Definition sampleCloud (f : File) (uploadType : string) (now : Date) : option string :=
  if String.eqb (originalname f) "bad.png" then None
  else Some ("https://res.cloudinary.com/demo/" ^^ uploadType ^^ "/" ^^ originalname f).

Definition photo : File := mkFile "lamp.png" "image/png" 1024 "...".
Definition badPhoto : File := mkFile "bad.png" "image/png" 1024 "...".

(** What [parseLocation] makes of the body's location, in any world. *)
Definition parsedLocation (jsonTruthy : string -> option bool) (loc : option string)
    : Result (option string) :=
  match loc with
  | Some text =>
      if str_nonempty text then
        match jsonTruthy text with
        | None => Thrown "SyntaxError"
        | Some true => Done (Some text)
        | Some false => Done None
        end
      else Done None
  | None => Done None
  end.

Definition sampleJson (text : string) : option bool :=
  if String.eqb text "{" then None
  else if String.eqb text "null" then Some false
  else Some true.

(** The records [uploadFieldWorkerImages] returns for a list of files. *)
Definition fieldRecords (cloud : File -> string -> Date -> option string) (now : Date)
    (uploadType : string) (loc : option string) (reportId : option string)
    (desc : string) (files : list File) : list FieldImage :=
  map (fun f => mkFieldImage (urlOf cloud now uploadType f) (originalname f) (size f)
                  (mimetype f) uploadType loc reportId desc now) files.

(** The notification [uploadCompletionImages] sends when it resolves. *)
Definition resolvedNotice (now : Date) (r : Report) : Notification :=
  mkNotification (submittedBy r) "report_status" "Report Resolved"
    ("Your report " ^^ dquote ^^ title r ^^ dquote
     ^^ " has been resolved by our field team.")
    (Some ("Report", r_id r)) false None "normal" now now.

(** Every stored report has its status equal to its last timeline
    entry's. *)
Definition allInSync (w : World) : Prop := forall r, In r (reports w) -> inSync r.

(** A computation that keeps [allInSync] and whose result, when it goes
    on, satisfies [Q]. *)
Definition steady {A} (Q : A -> Prop) (m : M A) : Prop :=
  forall w, allInSync w ->
    allInSync (snd (m w)) /\ forall a, fst (m w) = Done a -> Q a.

(** The handlers outside the status transitions that write reports. *)
Inductive WriteOp :=
| WCreate (newId : ObjectId) (b : ReportBody)
| WImages (id : string) (files : list File) (caption : option string)
| WProgress (files : list File) (reportId loc desc : option string)
| WCompletion (files : list File) (reportId loc desc markAsResolved : option string).

Definition runWrite {mongoose : Mongoose} (geoIndexable : list Q -> bool)
    (cloud : File -> string -> Date -> option string)
    (jsonTruthy : string -> option bool) (now : Date) (user : Actor) (op : WriteOp)
    (w : World) : World :=
  match op with
  | WCreate newId b => snd (createReport geoIndexable now newId user b w)
  | WImages id files caption => snd (uploadReportImages cloud now user id files caption w)
  | WProgress files reportId loc desc =>
      snd (uploadProgressImages cloud jsonTruthy now user files reportId loc desc w)
  | WCompletion files reportId loc desc mark =>
      snd (uploadCompletionImages cloud jsonTruthy now user files reportId loc desc mark w)
  end.

Definition withRole (newRole : string) (u : User) : User :=
  mkUser (u_id u) (firstName u) (lastName u) (email u) newRole.

(** The notification [updateUserRole] sends. *)
Definition roleNotice (now : Date) (u : User) (newRole : string) : Notification :=
  mkNotification (u_id u) "system" "Role Updated"
    ("Your role has been updated from " ^^ role u ^^ " to " ^^ newRole
     ^^ " by an administrator.")
    None false None "normal" now now.

(** ** Auxiliary notions and sample data for the accounts *)

(** The ids of the accounts that are active. *)
Definition activeIds (s : Realm) : list ObjectId :=
  map (fun a => u_id (acc a)) (filter isActive (accounts s)).

(** The notification [toggleUserStatus] sends on a deactivation. *)
Definition deactivationNotice (now : Date) (a : Account) : Notification :=
  mkNotification (u_id (acc a)) "system" "Account Deactivated"
    "Your account has been deactivated by an administrator. Please contact support for assistance."
    None false None "high" now now.

Definition sampleCompare (stored candidate : string) : bool :=
  String.eqb stored ("hash:" ^^ candidate).

Definition sampleStored (pw : string) : string := "hash:" ^^ pw.

Definition sampleVerify (token : string) : Verified :=
  if String.eqb token "token.bob" then Decoded idBob
  else if String.eqb token "token.carol" then Decoded idCarol
  else if String.eqb token "token.old" then TokenExpiredError
  else JsonWebTokenError.

Definition sampleSha (text : string) : string := "sha256:" ^^ text.

Definition sampleMailer (m : Mail) : bool := negb (String.eqb (mailTo m) "eve@example.com").

Definition samplePasswordValid (pw : string) : bool := (8 <=? String.length pw)%nat.

Definition sampleAccounts : list Account :=
  map (fun u => mkAccount u (sampleStored ("pw-" ^^ firstName u)) true None None None)
    sampleUsers.

Definition sampleRealm : Realm := mkRealm sampleAccounts [] [].

(** Whether a character occurs in a string. *)
Fixpoint hasChar (c : ascii) (s : string) : bool :=
  match s with
  | EmptyString => false
  | String a rest => Ascii.eqb a c || hasChar c rest
  end.

(** The mail [forgotPassword] sends. *)
Definition resetLetter (protocol host resetToken : string) (a : Account) : Mail :=
  mkMail (email (acc a)) "Your password reset token (valid for 10 minutes)"
    ("Forgot your password? Submit a PATCH request with your new password to: "
     ^^ (protocol ^^ "://" ^^ host ^^ "/api/auth/reset-password/" ^^ resetToken)
     ^^ String (ascii_of_nat 10) EmptyString
     ^^ "If you didn't forget your password, please ignore this email.").

(** No stored account holds the hash of a token. *)
Definition unissued (hashed : string) (s : Realm) : Prop :=
  forall a, In a (accounts s) -> resetPasswordToken a <> Some hashed.

(** The unread notifications of a user in the collection with ids. *)
Definition unreadOf (userId : ObjectId) (s : Inbox) : list Notification :=
  getUnreadByUser userId (map snd s).

(** The collection after the notification [n] with the id [id] was saved read. *)
Definition readIn (now : Date) (id : ObjectId) (n : Notification) (s : Inbox) : Inbox :=
  map (fun e => if String.eqb (fst e) id then (fst e, markAsRead now n) else e) s.

Definition unreadBy (uid : ObjectId) (m : Notification) : bool :=
  String.eqb (recipient m) uid && negb (isRead m).

Definition idN1 : ObjectId := "e00000000000000000000001".

(** A search for the reports assigned to Bob, and a list request that asks
    for one report per page, ordered by id. *)
Definition assignedToBob : SearchQuery :=
  mkSearchQuery PAbsent PAbsent None None None None (Some "b00000000000000000000001")
    None None None None None None None None.

Definition idN2 : ObjectId := "e00000000000000000000002".

Definition noticeForAlice : Notification :=
  mkNotification idAlice "report_status" "Report Status Updated" "Your report moved"
    (Some ("Report", idR1)) false None "normal" 10 10.

Definition noticeForBob : Notification :=
  mkNotification idBob "assignment" "New Report Assigned" "You have been assigned"
    (Some ("Report", idR2)) false None "high" 20 20.

Definition sampleInbox : Inbox := [(idN1, noticeForAlice); (idN2, noticeForBob)].

(** * user.routes.js: the profile update

    [req.body] is the list of its members, in order; a later member with
    the name of an earlier one replaces it, as in [JSON.parse]. *)

Definition allowedFields : list string :=
  ["firstName"; "lastName"; "phoneNumber"; "address"; "profileImage"].

(** [updateData]: the members of the body whose name is allowed. *)
Definition pickAllowed (body : list (string * string)) : list (string * string) :=
  filter (fun kv => includes allowedFields (fst kv)) body.

(** One [$set] on a user document.  The paths of the schema that are not
    part of [User] leave it as it is. *)
Definition setUserField (u : User) (kv : string * string) : User :=
  if String.eqb (fst kv) "firstName"
  then mkUser (u_id u) (snd kv) (lastName u) (email u) (role u)
  else if String.eqb (fst kv) "lastName"
  then mkUser (u_id u) (firstName u) (snd kv) (email u) (role u)
  else if String.eqb (fst kv) "email"
  then mkUser (u_id u) (firstName u) (lastName u) (snd kv) (role u)
  else if String.eqb (fst kv) "role"
  then mkUser (u_id u) (firstName u) (lastName u) (email u) (snd kv)
  else u.

Section Profile.

Variable updateValid : list (string * string) -> bool.
  (* the validators of the paths an update sets *)

(** [User.findByIdAndUpdate(id, update, { new: true, runValidators: true })]
    for an update that does not name [_id]: [null] when there is no such
    user. *)
Definition findByIdAndUpdate (id : ObjectId) (update : list (string * string))
    : M (option User) :=
  if updateValid update then
    fun w =>
      match find (fun u => String.eqb (u_id u) id) (users w) with
      | None => (Done None, w)
      | Some u =>
          let u' := fold_left setUserField update u in
          (Done (Some u'),
           mkWorld (reports w) (replaceUser u' (users w)) (notifications w) (oplog w))
      end
  else throw "ValidationError".

(** PATCH /api/users/profile *)
Definition updateProfile (user : Actor) (body : list (string * string))
    : M (Reply (option User)) :=
  let updateData := pickAllowed body in
  updatedUser <- findByIdAndUpdate (a_id user) updateData ;;
  ret (mkReply 200 updatedUser).

End Profile.

Definition sampleUpdateValid (update : list (string * string)) : bool :=
  forallb (fun kv => str_nonempty (snd kv)) update.

(** The total of a facet's counts. *)
Definition sumCounts (l : list (string * nat)) : nat := fold_right Nat.add 0%nat (map snd l).



(** The search filters on an account: [assignedTo] or [submittedBy] names
    an id, which the controller puts into the query as the string it is. *)
Definition filtersById (isValid : string -> bool) (sq : SearchQuery) : bool :=
  match sq_assignedTo sq with
  | Some a => str_nonempty a && negb (String.eqb a "unassigned") && isValid a
  | None => false
  end
  || match sq_submittedBy sq with
     | Some a => str_nonempty a && isValid a
     | None => false
     end.

(** A query the cast leaves as it is. *)
Definition castFree {mongoose : Mongoose} (q : Query) : Prop :=
  (forall kc, In kc (q_fields q) -> castCond (fst kc) (snd kc) = Some (snd kc))
  /\ (forall clauses, q_or q = Some clauses ->
      forall f kc, In f clauses -> In kc f -> castCond (fst kc) (snd kc) = Some (snd kc)).

(** A query that compares an account path with a string. *)
Definition idBound (q : Query) : Prop :=
  exists k a,
    In k ["assignedTo"; "submittedBy"] /\ In (k, CEq (VStr a)) (q_fields q).

(** * The ledger contract (UserAuthContract)

    The world state of the channel is a list of keys with their values; a
    transaction that throws writes nothing. *)

Record ChainUser := mkChainUser {
  cu_userId : string;
  cu_firstName : string;
  cu_lastName : string;
  cu_email : string;
  cu_role : string;
  cu_isActive : bool;
  cu_lastLogin : string;
  cu_resetPasswordToken : string;
  cu_resetPasswordExpires : string
}.

Definition hexDigit (n : nat) : string :=
  String (nth n ["0"; "1"; "2"; "3"; "4"; "5"; "6"; "7"; "8"; "9";
                 "a"; "b"; "c"; "d"; "e"; "f"]%char "0"%char) EmptyString.

Definition backslash : string := String (ascii_of_nat 92) EmptyString.

(** One character inside a JSON string, as [JSON.stringify] writes it. *)
Definition jsonChar (c : ascii) : string :=
  let n := nat_of_ascii c in
  if (n =? 34)%nat then backslash ^^ dquote
  else if (n =? 92)%nat then backslash ^^ backslash
  else if (n =? 8)%nat then backslash ^^ "b"
  else if (n =? 9)%nat then backslash ^^ "t"
  else if (n =? 10)%nat then backslash ^^ "n"
  else if (n =? 12)%nat then backslash ^^ "f"
  else if (n =? 13)%nat then backslash ^^ "r"
  else if (n <? 32)%nat
  then backslash ^^ "u00" ^^ hexDigit (n / 16) ^^ hexDigit (n mod 16)
  else String c EmptyString.

Fixpoint jsonChars (s : string) : string :=
  match s with
  | EmptyString => EmptyString
  | String c rest => jsonChar c ^^ jsonChars rest
  end.

Definition jsonString (s : string) : string := dquote ^^ jsonChars s ^^ dquote.

Definition jsonMember (k v : string) : string := jsonString k ^^ ":" ^^ v.

(** [JSON.stringify(user)] for the object [registerUser] builds. *)
Definition stringifyUser (u : ChainUser) : string :=
  "{" ^^ joinWith ","
    [ jsonMember "userId" (jsonString (cu_userId u));
      jsonMember "firstName" (jsonString (cu_firstName u));
      jsonMember "lastName" (jsonString (cu_lastName u));
      jsonMember "email" (jsonString (cu_email u));
      jsonMember "role" (jsonString (cu_role u));
      jsonMember "isActive" (if cu_isActive u then "true" else "false");
      jsonMember "lastLogin" (jsonString (cu_lastLogin u));
      jsonMember "resetPasswordToken" (jsonString (cu_resetPasswordToken u));
      jsonMember "resetPasswordExpires" (jsonString (cu_resetPasswordExpires u)) ]
  ^^ "}".

Definition Ledger := list (string * string).

(** The outcome of a transaction function. *)
Inductive Tx (A : Type) :=
| Returned (a : A)
| Failed (message : string).
Arguments Returned {A} a.
Arguments Failed {A} message.

(** [ctx.stub.getState(key)]: the empty buffer for a key that was never
    written. *)
Definition getState (key : string) (l : Ledger) : string :=
  match find (fun kv => String.eqb (fst kv) key) l with
  | Some kv => snd kv
  | None => EmptyString
  end.

(** [ctx.stub.putState(key, value)] *)
Definition putState (key value : string) (l : Ledger) : Ledger :=
  (key, value) :: filter (fun kv => negb (String.eqb (fst kv) key)) l.

Section Chaincode.

Variable createCompositeKey : string -> list string -> string + string.
  (* ctx.stub.createCompositeKey: the key, or the message of the error it
     throws *)

Definition userExists (userId : string) (l : Ledger) : Tx bool * Ledger :=
  match createCompositeKey "User" [userId] with
  | inr message => (Failed message, l)
  | inl userKey =>
      let userBytes := getState userKey l in
      (Returned (str_nonempty userBytes), l)
  end.

Definition registerUser (userId firstName lastName mail role : string) (l : Ledger)
    : Tx string * Ledger :=
  match createCompositeKey "User" [userId] with
  | inr message => (Failed message, l)
  | inl userKey =>
      match userExists userId l with
      | (Failed message, l') => (Failed message, l')
      | (Returned true, l') =>
          (Failed ("User with ID " ^^ userId ^^ " already exists"), l')
      | (Returned false, l') =>
          let user :=
            mkChainUser userId firstName lastName mail
              (if String.eqb role "employee" then "employee" else "user")
              true EmptyString EmptyString EmptyString in
          (Returned (stringifyUser user), putState userKey (stringifyUser user) l')
      end
  end.

Definition getUserById (userId : string) (l : Ledger) : Tx string * Ledger :=
  match createCompositeKey "User" [userId] with
  | inr message => (Failed message, l)
  | inl userKey =>
      let userBytes := getState userKey l in
      if negb (str_nonempty userBytes)
      then (Failed ("User with ID " ^^ userId ^^ " does not exist"), l)
      else (Returned userBytes, l)
  end.

End Chaincode.

(** A composite key as the shim builds it, refusing an empty part. *)
Definition sampleCompositeKey (objectType : string) (attributes : list string)
    : string + string :=
  if forallb str_nonempty (objectType :: attributes)
  then inl (String zero (objectType ^^ String zero
                           (joinWith (String zero EmptyString) attributes
                            ^^ String zero EmptyString)))
  else inr "object type or attribute not a non-zero length string".

(** * AuthManager.sol

    The contract's storage is its two mappings; a mapping is a total
    function whose value at a key never written is the zero value of the
    type.  A call that fails a [require] reverts: it returns the reason
    and the storage and the event log are as before the call. *)

Definition address := Z.

Record ChainAccount := mkChainAccount {
  ca_firstName : string;
  ca_lastName : string;
  ca_email : string;
  ca_role : string;
  ca_isActive : bool;
  ca_lastLogin : Z;
  ca_userAddress : address
}.

Definition zeroAccount : ChainAccount :=
  mkChainAccount EmptyString EmptyString EmptyString EmptyString false 0 0.

Inductive Event :=
| UserRegistered (user : address) (mail role : string)
| UserLoggedIn (user : address) (timestamp : Z)
| UserDeactivated (user : address)
| UserReactivated (user : address).

Record Contract := mkContract {
  chainUsers : address -> ChainAccount;
  emailToAddress : string -> address;
  emitted : list Event
}.

Definition deployed : Contract := mkContract (fun _ => zeroAccount) (fun _ => 0) [].

Inductive Outcome := Succeeded | Reverted (reason : string).

Definition setAccount (a : address) (u : ChainAccount) (m : address -> ChainAccount)
    : address -> ChainAccount :=
  fun b => if b =? a then u else m b.

Definition setAddress (k : string) (a : address) (m : string -> address)
    : string -> address :=
  fun k' => if String.eqb k' k then a else m k'.

Section AuthManager.

Variable keccak256 : string -> Z.

(** [modifier onlyRegistered] *)
Definition onlyRegistered (sender : address) (body : Contract -> Outcome * Contract)
    (c : Contract) : Outcome * Contract :=
  if negb (negb (Nat.eqb (String.length (ca_email (chainUsers c sender))) 0))
  then (Reverted "User not registered", c)
  else body c.

Definition sol_register (sender : address) (firstName lastName mail role : string)
    (c : Contract) : Outcome * Contract :=
  if negb (Nat.eqb (String.length (ca_email (chainUsers c sender))) 0)
  then (Reverted "Already registered", c)
  else if negb (emailToAddress c mail =? 0)
  then (Reverted "Email already in use", c)
  else if negb ((keccak256 role =? keccak256 "user")
                || (keccak256 role =? keccak256 "employee"))
  then (Reverted "Invalid role", c)
  else
    (Succeeded,
     mkContract
       (setAccount sender (mkChainAccount firstName lastName mail role true 0 sender)
          (chainUsers c))
       (setAddress mail sender (emailToAddress c))
       (emitted c ++ [UserRegistered sender mail role])).

Definition withLogin (t : Z) (u : ChainAccount) : ChainAccount :=
  mkChainAccount (ca_firstName u) (ca_lastName u) (ca_email u) (ca_role u)
    (ca_isActive u) t (ca_userAddress u).

Definition withActivity (b : bool) (u : ChainAccount) : ChainAccount :=
  mkChainAccount (ca_firstName u) (ca_lastName u) (ca_email u) (ca_role u)
    b (ca_lastLogin u) (ca_userAddress u).

(** [timestamp] is [block.timestamp]. *)
Definition sol_login (sender : address) (timestamp : Z) (mail : string)
    : Contract -> Outcome * Contract :=
  onlyRegistered sender (fun c =>
    if negb (keccak256 (ca_email (chainUsers c sender)) =? keccak256 mail)
    then (Reverted "Incorrect email", c)
    else if negb (ca_isActive (chainUsers c sender))
    then (Reverted "Account deactivated", c)
    else
      (Succeeded,
       mkContract
         (setAccount sender (withLogin timestamp (chainUsers c sender)) (chainUsers c))
         (emailToAddress c)
         (emitted c ++ [UserLoggedIn sender timestamp]))).

Definition sol_deactivate (sender : address) : Contract -> Outcome * Contract :=
  onlyRegistered sender (fun c =>
    (Succeeded,
     mkContract
       (setAccount sender (withActivity false (chainUsers c sender)) (chainUsers c))
       (emailToAddress c)
       (emitted c ++ [UserDeactivated sender]))).

Definition sol_reactivate (sender : address) : Contract -> Outcome * Contract :=
  onlyRegistered sender (fun c =>
    (Succeeded,
     mkContract
       (setAccount sender (withActivity true (chainUsers c sender)) (chainUsers c))
       (emailToAddress c)
       (emitted c ++ [UserReactivated sender]))).

Definition getUser (userAddr : address) (c : Contract)
    : string * string * string * string * bool * Z :=
  let u := chainUsers c userAddr in
  (ca_firstName u, ca_lastName u, ca_email u, ca_role u, ca_isActive u, ca_lastLogin u).

(** A transaction: who sends it, the time of its block, and the call. *)
Inductive Call :=
| CallRegister (firstName lastName mail role : string)
| CallLogin (mail : string)
| CallDeactivate
| CallReactivate.

Record Transaction := mkTransaction {
  tx_sender : address;
  tx_timestamp : Z;
  tx_call : Call
}.

Definition execute (t : Transaction) (c : Contract) : Outcome * Contract :=
  match tx_call t with
  | CallRegister fn ln mail role => sol_register (tx_sender t) fn ln mail role c
  | CallLogin mail => sol_login (tx_sender t) (tx_timestamp t) mail c
  | CallDeactivate => sol_deactivate (tx_sender t) c
  | CallReactivate => sol_reactivate (tx_sender t) c
  end.

(** The contract after a sequence of transactions. *)
Definition after (txs : list Transaction) (c : Contract) : Contract :=
  fold_left (fun c t => snd (execute t c)) txs c.

End AuthManager.

(** What holds of every account that has an email address. *)
Definition wellFormed (keccak256 : string -> Z) (c : Contract) : Prop :=
  forall a, ca_email (chainUsers c a) <> EmptyString ->
    emailToAddress c (ca_email (chainUsers c a)) = a
    /\ a <> 0
    /\ ca_userAddress (chainUsers c a) = a
    /\ (keccak256 (ca_role (chainUsers c a)) = keccak256 "user"
        \/ keccak256 (ca_role (chainUsers c a)) = keccak256 "employee").

Definition sampleKeccak (s : string) : Z :=
  fold_left (fun acc ch => acc * 257 + Z.of_nat (nat_of_ascii ch) + 1)
    (list_ascii_of_string s) 0.

Definition sampleTransactions : list Transaction :=
  [ mkTransaction 11 100 (CallRegister "Ann" "Lee" "ann@example.com" "user");
    mkTransaction 12 110 (CallRegister "Bo" "Ray" "ann@example.com" "employee");
    mkTransaction 12 120 (CallRegister "Bo" "Ray" "bo@example.com" "admin");
    mkTransaction 12 130 (CallRegister "Bo" "Ray" "bo@example.com" "employee");
    mkTransaction 11 140 CallDeactivate;
    mkTransaction 11 150 (CallLogin "ann@example.com") ].

Definition bobAccount : Account :=
  mkAccount (mkUser idBob "Bob" "Brown" "bob@example.com" "employee")
    (sampleStored "pw-Bob") true None None None.

Definition remoteAddress : string := "203.0.113.7".

Definition storedUrl : string :=
  "https://res.cloudinary.com/demo/image/upload/v1/civic-connect/reports/77-lamp.png".

(** * Properties *)

Section Properties.

Context {mongoose : Mongoose} {mongodb : MongoDB}.

(** ** The monad *)

Lemma bind_done {A B} (m : M A) (k : A -> M B) w a w' :
  m w = (Done a, w') -> bind m k w = k a w'.
Proof. intros E. unfold bind. rewrite E. reflexivity. Qed.

Lemma bind_next {A B} (m : M A) (k : A -> M B) w msg c w' :
  m w = (Next msg c, w') -> bind m k w = (Next msg c, w').
Proof. intros E. unfold bind. rewrite E. reflexivity. Qed.

Lemma bind_thrown {A B} (m : M A) (k : A -> M B) w n w' :
  m w = (Thrown n, w') -> bind m k w = (Thrown n, w').
Proof. intros E. unfold bind. rewrite E. reflexivity. Qed.

(** ** Status and timeline stay in step *)

Lemma keeps_refl w : keeps w w.
Proof. intros r H. now left. Qed.

Lemma keeps_trans w1 w2 w3 : keeps w1 w2 -> keeps w2 w3 -> keeps w1 w3.
Proof.
  intros H12 H23 r Hr.
  destruct (H23 r Hr) as [H | H]; [apply H12, H | now right].
Qed.

Lemma keeps_same_reports w w' : reports w' = reports w -> keeps w w'.
Proof. intros E r Hr. rewrite E in Hr. now left. Qed.

Lemma preserving_ret {A} (a : A) : preserving (ret a).
Proof. intros w. apply keeps_refl. Qed.

Lemma preserving_next {A} msg c : preserving (@next A msg c).
Proof. intros w. apply keeps_refl. Qed.

Lemma preserving_throw {A} n : preserving (@throw A n).
Proof. intros w. apply keeps_refl. Qed.

Lemma preserving_logOp op : preserving (logOp op).
Proof. intros w. now apply keeps_same_reports. Qed.

Lemma preserving_bind {A B} (m : M A) (k : A -> M B) :
  preserving m -> (forall a, preserving (k a)) -> preserving (bind m k).
Proof.
  intros Hm Hk w. unfold bind. specialize (Hm w).
  destruct (m w) as [[a | msg c | msg c | n] w']; simpl in *; auto.
  eapply keeps_trans; [exact Hm | apply Hk].
Qed.

Lemma preserving_catch500 {A} msg (m : M A) : preserving m -> preserving (catch500 msg m).
Proof.
  intros Hm w. unfold catch500. specialize (Hm w).
  destruct (m w) as [[a | m' c | m' c | n] w']; simpl in *; auto.
Qed.

Lemma preserving_reader {A} (f : World -> A) : preserving (fun w => (Done (f w), w)).
Proof. intros w. apply keeps_refl. Qed.

Lemma preserving_findById id : preserving (findById id).
Proof.
  unfold findById. destruct (castObjectId id) as [oid | ]; [ | apply preserving_throw].
  apply preserving_bind; [apply preserving_logOp | intros _].
  apply (preserving_reader
           (fun w => option_map (fun r => mkDoc r [])
                       (find (fun r => String.eqb (r_id r) oid) (reports w)))).
Qed.

Lemma preserving_findUserById id : preserving (findUserById id).
Proof.
  unfold findUserById. destruct (castObjectId id) as [oid | ]; [ | apply preserving_throw].
  apply preserving_bind; [apply preserving_logOp | intros _].
  apply (preserving_reader (fun w => find (fun u => String.eqb (u_id u) oid) (users w))).
Qed.

Lemma preserving_createNotification now to ty ttl msg rel prio :
  preserving (createNotification now to ty ttl msg rel prio).
Proof.
  unfold createNotification. apply preserving_bind; [apply preserving_logOp | intros _].
  intros w. now apply keeps_same_reports.
Qed.

Lemma inSync_touch now r : inSync r -> inSync (touch now r).
Proof. exact (fun H => H). Qed.

Lemma In_replaceReport r l x :
  In x (replaceReport r l) -> In x l \/ x = r.
Proof.
  unfold replaceReport. rewrite in_map_iff. intros (y & <- & Hy).
  destruct (String.eqb (r_id y) (r_id r)); auto.
Qed.

Lemma preserving_save now d : inSync (fields d) -> preserving (save now d).
Proof.
  intros Hs. unfold save.
  destruct (forallb _ _); [ | apply preserving_throw].
  apply preserving_bind; [apply preserving_logOp | intros _].
  intros w r Hr. simpl in Hr.
  destruct (In_replaceReport _ _ _ Hr) as [H | ->]; [now left | right].
  now apply inSync_touch.
Qed.

Lemma inSync_after_event st e d :
  te_status e = st -> inSync (fields (set_status st (push_timeline e d))).
Proof.
  intros <-. unfold inSync, lastTimelineStatus. simpl.
  now rewrite rev_app_distr.
Qed.

Lemma preserving_addTimelineEvent now st comment userId d :
  preserving (addTimelineEvent now st comment userId d).
Proof.
  unfold addTimelineEvent. apply preserving_save.
  now apply inSync_after_event.
Qed.

Lemma preserving_forEach {A} (f : A -> M unit) l :
  (forall x, preserving (f x)) -> preserving (forEach f l).
Proof.
  intros Hf. induction l as [ | x l IH]; simpl.
  - apply preserving_ret.
  - apply preserving_bind; [apply Hf | intros _; exact IH].
Qed.

Ltac preserve :=
  repeat first
    [ apply preserving_ret | apply preserving_next | apply preserving_throw
    | apply preserving_logOp | apply preserving_findById
    | apply preserving_findUserById | apply preserving_createNotification
    | apply preserving_addTimelineEvent | apply preserving_catch500
    | apply preserving_forEach; intros
    | apply preserving_bind; [ | intros ]
    | match goal with
      | |- preserving (if ?b then _ else _) => destruct b
      | |- preserving (match ?x with _ => _ end) => destruct x
      end ].

Lemma preserving_updateReportStatus now user id st comment :
  preserving (updateReportStatus now user id st comment).
Proof. unfold updateReportStatus. preserve. Qed.

Lemma preserving_assignReport now user id employeeId comment :
  preserving (assignReport now user id employeeId comment).
Proof. unfold assignReport. preserve. Qed.

Lemma preserving_addFeedback now user id rating comment :
  preserving (addFeedback now user id rating comment).
Proof. unfold addFeedback. preserve. Qed.

Section StoreProperties.

Variable isValid : string -> bool.
Variable regexMatch : string -> string -> bool.

Lemma preserving_findReports q : preserving (findReports regexMatch q).
Proof.
  unfold findReports. destruct (castQuery q) as [cast | ]; [ | apply preserving_throw].
  apply preserving_bind; [apply preserving_logOp | intros _].
  apply (preserving_reader
           (fun w => map (fun r => mkDoc r [])
                       (filter (matches regexMatch cast) (reports w)))).
Qed.

Lemma preserving_runBulk now user op ids :
  preserving (runBulk isValid regexMatch now user op ids).
Proof.
  destruct op; simpl;
    [unfold bulkUpdateReportStatus | unfold bulkAssignReports | unfold bulkDeleteReports];
    apply preserving_catch500; destruct ids; preserve;
    try apply preserving_findReports; preserve.
Qed.

(** A status transition whose request names the status as a string
    (single status update, assignment, feedback closing, each of the bulk
    operations): every report that the operation wrote has its status
    equal to the status of the last entry of its timeline, and every
    other report is as it was; so a store in which status and timeline
    agree stays so. *)
Lemma transitions_with_a_status_keep_in_step :
  forall now user t w,
    let w' := runTransition isValid regexMatch now user t w in
    (forall r, In r (reports w') -> In r (reports w) \/ inSync r)
    /\ ((forall r, In r (reports w) -> inSync r) ->
        forall r, In r (reports w') -> inSync r).
Proof.
  intros now user t w w'.
  assert (Hkeeps : keeps w w').
  { unfold w'. destruct t; cbn [runTransition].
    - apply preserving_updateReportStatus.
    - apply preserving_assignReport.
    - apply preserving_addFeedback.
    - apply preserving_runBulk. }
  split; [exact Hkeeps | ].
  intros Hall r Hr. destruct (Hkeeps r Hr) as [H | H]; [now apply Hall | exact H].
Qed.

End StoreProperties.

(** ** Bulk operations, step by step *)

Lemma addTimelineEvent_run now st comment userId d w :
  includes validStatuses st = true ->
  forallb (validPath (fields (set_status st
                                (push_timeline (mkEntry st now comment userId) d))))
          (modified d) = true ->
  let r' := touch now (fields (set_status st
                                 (push_timeline (mkEntry st now comment userId) d))) in
  addTimelineEvent now st comment userId d w
  = (Done (mkDoc r' []),
     mkWorld (replaceReport r' (reports w)) (users w) (notifications w)
       (oplog w ++ [ReportSave (r_id (fields d))])).
Proof.
  intros Hst Hmod r'. unfold addTimelineEvent, save.
  set (d2 := set_status st (push_timeline (mkEntry st now comment userId) d)) in *.
  assert (Hall : forallb (validPath (fields d2)) (modified d2) = true).
  { change (modified d2)
      with ((modified d ++ [PPushed (mkEntry st now comment userId)]) ++ [PStatus]).
    assert (H1 : validPath (fields d2) (PPushed (mkEntry st now comment userId)) = true)
      by exact Hst.
    assert (H2 : validPath (fields d2) PStatus = true) by exact Hst.
    rewrite !forallb_app, Hmod. cbn [forallb]. now rewrite H1, H2. }
  rewrite Hall. reflexivity.
Qed.

Lemma forEach_run (body : Doc -> M unit) (f : Report -> Report)
    (ns : Report -> list Notification) (ops : Report -> list DbOp) :
  (forall r w,
      body (mkDoc r []) w
      = (Done tt, mkWorld (replaceReport (f r) (reports w)) (users w)
                    (notifications w ++ ns r) (oplog w ++ ops r))) ->
  forall rs w,
    forEach body (map (fun r => mkDoc r []) rs) w
    = (Done tt,
       mkWorld (fold_left (fun acc r => replaceReport (f r) acc) rs (reports w))
         (users w) (notifications w ++ flat_map ns rs) (oplog w ++ flat_map ops rs)).
Proof.
  intros Hbody. induction rs as [ | r rs IH]; intros w; simpl.
  - unfold ret. destruct w. simpl. now rewrite !app_nil_r.
  - rewrite (bind_done _ _ _ _ _ (Hbody r w)). rewrite IH. simpl.
    now rewrite <- !app_assoc.
Qed.

Lemma fold_replace_map f rs l :
  fold_left (fun acc r => replaceReport (f r) acc) rs l = map (applyAll f rs) l.
Proof.
  revert l. induction rs as [ | r rs IH]; intros l; simpl.
  - unfold applyAll. simpl. now rewrite map_id.
  - rewrite IH. unfold replaceReport. rewrite map_map. reflexivity.
Qed.

Section Cascade.

Variable f : Report -> Report.
Hypothesis f_id : forall r, r_id (f r) = r_id r.

Lemma applyAll_miss rs x :
  ~ In (r_id x) (map r_id rs) -> applyAll f rs x = x.
Proof.
  revert x. induction rs as [ | r rs IH]; intros x Hx; [reflexivity | ].
  unfold applyAll. simpl. fold (applyAll f rs). rewrite f_id.
  destruct (String.eqb_spec (r_id x) (r_id r)) as [E | _].
  - exfalso. apply Hx. left. now symmetry.
  - apply IH. intros H. apply Hx. now right.
Qed.

Lemma applyAll_hit rs x :
  NoDup (map r_id rs) -> In x rs -> applyAll f rs x = f x.
Proof.
  induction rs as [ | r rs IH]; intros Hnd Hin; [contradiction | ].
  inversion Hnd as [ | ? ? Hnot Hnd']; subst.
  unfold applyAll. simpl. fold (applyAll f rs). rewrite f_id.
  destruct Hin as [-> | Hin].
  - rewrite String.eqb_refl. apply applyAll_miss. now rewrite f_id.
  - destruct (String.eqb_spec (r_id x) (r_id r)) as [E | _].
    + exfalso. apply Hnot. rewrite <- E. now apply in_map.
    + now apply IH.
Qed.

Lemma cascade_on_found (p : ObjectId -> bool) l :
  NoDup (map r_id l) ->
  map (applyAll f (filter (fun r => p (r_id r)) l)) l
  = map (fun r => if p (r_id r) then f r else r) l.
Proof.
  intros Hnd. apply map_ext_in. intros x Hx.
  destruct (p (r_id x)) eqn:Hp.
  - apply applyAll_hit.
    + clear Hx Hp. induction l as [ | y l IH]; simpl; [constructor | ].
      inversion Hnd as [ | ? ? Hnot Hnd']; subst.
      destruct (p (r_id y)); simpl; [ | now apply IH].
      constructor; [ | now apply IH].
      intros H. apply Hnot. rewrite in_map_iff in *.
      destruct H as (z & Ez & Hz). exists z. split; [exact Ez | ].
      now apply filter_In in Hz.
    + apply filter_In. now split.
  - apply applyAll_miss. rewrite in_map_iff. intros (z & Ez & Hz).
    apply filter_In in Hz. destruct Hz as [_ Hz]. rewrite Ez in Hz. congruence.
Qed.

End Cascade.

Lemma includes_In l x : includes l x = true <-> In x l.
Proof.
  unfold includes. rewrite existsb_exists. split.
  - intros (y & Hy & E). apply String.eqb_eq in E. now subst.
  - intros H. exists x. split; [exact H | apply String.eqb_refl].
Qed.

Section BulkProperties.

Variable isValid : string -> bool.
Variable regexMatch : string -> string -> bool.

Lemma castQuery_idsQuery ids :
  castQuery (idsQuery ids)
  = option_map (fun oids => mkQuery [("_id", CIn (map VId oids))] None)
      (mapOpt castObjectId ids).
Proof.
  unfold castQuery, idsQuery, setField, castFilter. cbn.
  assert (E : mapOpt castValue (map VStr ids)
              = option_map (map VId) (mapOpt castObjectId ids)).
  { induction ids as [ | i ids IH]; [reflexivity | ].
    cbn [map mapOpt castValue]. rewrite IH.
    destruct (castObjectId i); [ | reflexivity].
    now destruct (mapOpt castObjectId ids). }
  rewrite E. now destruct (mapOpt castObjectId ids).
Qed.

Lemma matches_ids oids r :
  matches regexMatch (mkQuery [("_id", CIn (map VId oids))] None) r
  = includes oids (r_id r).
Proof.
  unfold matches, matchesFilter, includes. simpl.
  rewrite !andb_true_r. induction oids as [ | i oids IH]; simpl; [reflexivity | ].
  rewrite IH, orb_false_r. now rewrite (String.eqb_sym i).
Qed.

Lemma findReports_ids ids oids w :
  mapOpt castObjectId ids = Some oids ->
  findReports regexMatch (idsQuery ids) w
  = (Done (map (fun r => mkDoc r [])
             (filter (fun r => includes oids (r_id r)) (reports w))),
     mkWorld (reports w) (users w) (notifications w) (oplog w ++ [ReportFind])).
Proof.
  intros Hcast. unfold findReports. rewrite castQuery_idsQuery, Hcast.
  unfold bind, logOp. simpl.
  rewrite (filter_ext _ _ (matches_ids oids)). reflexivity.
Qed.

Lemma findReports_uncastable ids w :
  mapOpt castObjectId ids = None ->
  findReports regexMatch (idsQuery ids) w = (Thrown "CastError", w).
Proof.
  intros Hcast. unfold findReports. now rewrite castQuery_idsQuery, Hcast.
Qed.

Lemma findUserById_run id oid w :
  castObjectId id = Some oid ->
  findUserById id w
  = (Done (find (byUserId oid) (users w)),
     mkWorld (reports w) (users w) (notifications w) (oplog w ++ [UserFindById oid])).
Proof. intros E. unfold findUserById. now rewrite E. Qed.

Lemma find_byUserId oid l u : find (byUserId oid) l = Some u -> In u l /\ u_id u = oid.
Proof.
  intros H. apply find_some in H. destruct H as [Hin E].
  split; [exact Hin | now apply String.eqb_eq].
Qed.

Lemma userOf_cast w id u :
  userOf w id = Some u ->
  exists oid, castObjectId id = Some oid /\ find (byUserId oid) (users w) = Some u
              /\ u_id u = oid.
Proof.
  unfold userOf. destruct (castObjectId id) as [oid | ]; [ | discriminate].
  intros H. exists oid. repeat split; [exact H | ].
  now apply (find_byUserId oid (users w)).
Qed.

Lemma bulk_body_status now user st comment r w :
  includes validStatuses st = true ->
  (report' <- addTimelineEvent now st
                (Some (or_else comment ("Bulk status update to " ^^ st)))
                (a_id user) (mkDoc r []) ;;
   if String.eqb st "resolved" then
     createNotification now (submittedBy (fields report'))
       "report_status" "Report Resolved"
       ("Your report " ^^ dquote ^^ title (fields report') ^^ dquote
        ^^ " has been resolved.")
       (Some ("Report", r_id (fields report'))) None
   else ret tt) w
  = (Done tt,
     mkWorld (replaceReport (bulkResult w now user (BulkStatus st comment) r) (reports w))
       (users w)
       (notifications w ++ bulkNotes now (BulkStatus st comment) r)
       (oplog w ++ bulkOps (BulkStatus st comment) r)).
Proof.
  intros Hst.
  rewrite (bind_done _ _ _ _ _
             (addTimelineEvent_run now st _ (a_id user) (mkDoc r []) w Hst eq_refl)).
  unfold bulkNotes, bulkOps, bulkRecipient.
  destruct (String.eqb st "resolved").
  - unfold createNotification, bind, logOp. simpl. now rewrite <- app_assoc.
  - unfold ret. simpl. now rewrite app_nil_r.
Qed.

Lemma bulk_body_assign now user assigneeId (assignee : User) r w w0 :
  userOf w0 assigneeId = Some assignee ->
  (report' <- addTimelineEvent now "assigned"
                (Some ("Assigned to " ^^ firstName assignee ^^ " " ^^ lastName assignee))
                (a_id user) (set_assignedTo (u_id assignee) (mkDoc r [])) ;;
   createNotification now (u_id assignee) "assignment" "New Report Assigned"
     ("You have been assigned a new report: " ^^ dquote
      ^^ title (fields report') ^^ dquote)
     (Some ("Report", r_id (fields report'))) None) w
  = (Done tt,
     mkWorld (replaceReport (bulkResult w0 now user (BulkAssign assigneeId) r) (reports w))
       (users w)
       (notifications w ++ bulkNotes now (BulkAssign assigneeId) r)
       (oplog w ++ bulkOps (BulkAssign assigneeId) r)).
Proof.
  intros Hu.
  rewrite (bind_done _ _ _ _ _
             (addTimelineEvent_run now "assigned" _ (a_id user)
                (set_assignedTo (u_id assignee) (mkDoc r [])) w eq_refl eq_refl)).
  unfold bulkResult, bulkNotes, bulkOps, bulkRecipient, assigneeName. rewrite Hu.
  destruct (userOf_cast _ _ _ Hu) as (oid & -> & _ & ->).
  unfold createNotification, bind, logOp. simpl. now rewrite <- app_assoc.
Qed.

Lemma bulk_body_delete now user reason r w :
  (report' <- addTimelineEvent now "closed"
                (Some (or_else reason "Report closed by administrator"))
                (a_id user) (mkDoc r []) ;;
   createNotification now (submittedBy (fields report'))
     "report_status" "Report Closed"
     ("Your report " ^^ dquote ^^ title (fields report') ^^ dquote
      ^^ " has been closed. "
      ^^ (if truthy reason then "Reason: " ^^ or_else reason EmptyString
          else EmptyString))
     (Some ("Report", r_id (fields report'))) None) w
  = (Done tt,
     mkWorld (replaceReport (bulkResult w now user (BulkDelete reason) r) (reports w))
       (users w)
       (notifications w ++ bulkNotes now (BulkDelete reason) r)
       (oplog w ++ bulkOps (BulkDelete reason) r)).
Proof.
  rewrite (bind_done _ _ _ _ _
             (addTimelineEvent_run now "closed" _ (a_id user) (mkDoc r []) w
                eq_refl eq_refl)).
  unfold createNotification, bind, logOp. simpl. now rewrite <- app_assoc.
Qed.

Lemma bulk_ids_pass ids :
  ids <> [] -> forallb isValid ids = true ->
  Nat.eqb (length ids) 0 = false
  /\ filter isValid ids = ids.
Proof.
  intros Hne Hall. split.
  - destruct ids; [contradiction | reflexivity].
  - now apply forallb_filter_id.
Qed.

Lemma runBulk_run now user op ids oids w :
  ids <> [] -> forallb isValid ids = true -> bulkReady isValid op w ->
  mapOpt castObjectId ids = Some oids ->
  let found := filter (fun r => includes oids (r_id r)) (reports w) in
  runBulk isValid regexMatch now user op (Ids ids) w
  = match found with
    | [] =>
        (Next "No reports found with the provided IDs" 404,
         mkWorld (reports w) (users w) (notifications w) (oplog w ++ bulkPrelude op))
    | _ :: _ =>
        (Done (mkReply 200
                 (mkBulkBody (bulkMessage w op (length found)) (length found)
                    (map r_id found))),
         mkWorld
           (fold_left (fun acc r => replaceReport (bulkResult w now user op r) acc)
              found (reports w))
           (users w)
           (notifications w ++ flat_map (bulkNotes now op) found)
           (oplog w ++ bulkPrelude op ++ flat_map (bulkOps op) found))
    end.
Proof.
  intros Hne Hall Hready Hcast found.
  destruct (bulk_ids_pass ids Hne Hall) as [Hlen Hfilter].
  destruct op as [st comment | assigneeId | reason]; cbn [bulkReady] in Hready;
    cbn [runBulk].
  - unfold bulkUpdateReportStatus, catch500.
    rewrite Hlen, Hready, Hfilter, Nat.eqb_refl. cbn [negb].
    rewrite (bind_done _ _ _ _ _ (findReports_ids ids oids w Hcast)).
    fold found. rewrite length_map.
    destruct found as [ | r0 rest] eqn:Efound; [reflexivity | ].
    cbn [length Nat.eqb].
    erewrite bind_done;
      [ | apply (forEach_run _ (bulkResult w now user (BulkStatus st comment))
                   (bulkNotes now (BulkStatus st comment))
                   (bulkOps (BulkStatus st comment)));
          intros r w1; apply (bulk_body_status now user st comment r w1 Hready) ].
    unfold ret. cbn [reports users notifications oplog bulkPrelude bulkMessage].
    rewrite ?map_map, ?length_map, <- ?app_assoc. reflexivity.
  - destruct Hready as (Hv & u & Hu & Hrole).
    destruct (userOf_cast _ _ _ Hu) as (assignee & Hassignee & Hfind & Eid).
    unfold bulkAssignReports, catch500.
    rewrite Hlen, Hv, Hfilter, Nat.eqb_refl. cbn [negb].
    rewrite (bind_done _ _ _ _ _ (findUserById_run assigneeId assignee w Hassignee)).
    rewrite Hfind, Hrole.
    rewrite String.eqb_refl. cbn [negb].
    erewrite bind_done; [ | apply (findReports_ids ids oids _ Hcast)].
    cbn [reports users notifications oplog]. fold found. rewrite length_map.
    destruct found as [ | r0 rest] eqn:Efound.
    + cbn [length Nat.eqb bulkPrelude]. rewrite Hassignee. now rewrite <- app_assoc.
    + cbn [length Nat.eqb].
      erewrite bind_done;
        [ | apply (forEach_run _ (bulkResult w now user (BulkAssign assigneeId))
                     (bulkNotes now (BulkAssign assigneeId))
                     (bulkOps (BulkAssign assigneeId)));
            intros r w1;
            apply (bulk_body_assign now user assigneeId u r w1 w Hu) ].
      unfold ret. cbn [reports users notifications oplog bulkPrelude bulkMessage].
      unfold assigneeName. rewrite Hu, Hassignee.
      rewrite ?map_map, ?length_map, <- ?app_assoc. reflexivity.
  - unfold bulkDeleteReports, catch500.
    rewrite Hlen, Hfilter, Nat.eqb_refl. cbn [negb].
    rewrite (bind_done _ _ _ _ _ (findReports_ids ids oids w Hcast)).
    fold found. rewrite length_map.
    destruct found as [ | r0 rest] eqn:Efound; [reflexivity | ].
    cbn [length Nat.eqb].
    erewrite bind_done;
      [ | apply (forEach_run _ (bulkResult w now user (BulkDelete reason))
                   (bulkNotes now (BulkDelete reason))
                   (bulkOps (BulkDelete reason)));
          intros r w1; apply (bulk_body_delete now user reason r w1) ].
    unfold ret. cbn [reports users notifications oplog bulkPrelude bulkMessage].
    rewrite ?map_map, ?length_map, <- ?app_assoc. reflexivity.
Qed.

Lemma forallb_fails {A} (f : A -> bool) l :
  forallb f l = false -> exists x, In x l /\ f x = false.
Proof.
  induction l as [ | a l IH]; simpl; [discriminate | ].
  destruct (f a) eqn:E; simpl.
  - intros H. destruct (IH H) as (x & Hx & Hf). exists x. auto.
  - intros _. exists a. auto.
Qed.

Lemma some_invalid ids bad :
  In bad ids -> isValid bad = false ->
  Nat.eqb (length ids) 0 = false
  /\ Nat.eqb (length (filter isValid ids)) (length ids) = false.
Proof.
  intros Hin Hbad. split.
  - destruct ids; [contradiction | reflexivity].
  - apply Nat.eqb_neq. intros E. apply filter_length_forallb in E.
    rewrite forallb_forall in E. specialize (E bad Hin). congruence.
Qed.

Lemma runBulk_malformed now user op ids bad w :
  In bad ids -> isValid bad = false ->
  exists msg, runBulk isValid regexMatch now user op (Ids ids) w = (Next msg 400, w).
Proof.
  intros Hin Hbad. destruct (some_invalid ids bad Hin Hbad) as [Hlen Hmis].
  destruct op as [st comment | assigneeId | reason]; cbn [runBulk].
  - unfold bulkUpdateReportStatus, catch500. rewrite Hlen, Hmis.
    destruct (includes validStatuses st); cbn [negb]; eexists; reflexivity.
  - unfold bulkAssignReports, catch500. rewrite Hlen, Hmis.
    destruct (isValid assigneeId); cbn [negb]; eexists; reflexivity.
  - unfold bulkDeleteReports, catch500. rewrite Hlen, Hmis.
    cbn [negb]. eexists; reflexivity.
Qed.

(** Ids that pass [isValid] and that mongoose still cannot cast: the
    query fails before anything is written. *)
Lemma runBulk_uncastable now user op ids w :
  ids <> [] -> forallb isValid ids = true -> mapOpt castObjectId ids = None ->
  exists msg c w',
    runBulk isValid regexMatch now user op (Ids ids) w = (Next msg c, w')
    /\ reports w' = reports w /\ users w' = users w
    /\ notifications w' = notifications w.
Proof.
  intros Hne Hall Hcast.
  destruct (bulk_ids_pass ids Hne Hall) as [Hlen Hfilter].
  destruct op as [st comment | assigneeId | reason]; cbn [runBulk].
  - unfold bulkUpdateReportStatus, catch500. rewrite Hlen, Hfilter, Nat.eqb_refl.
    destruct (includes validStatuses st); cbn [negb].
    + rewrite (bind_thrown _ _ _ _ _ (findReports_uncastable ids w Hcast)).
      do 3 eexists. split; [reflexivity | auto].
    + do 3 eexists. split; [reflexivity | auto].
  - unfold bulkAssignReports, catch500. rewrite Hlen, Hfilter, Nat.eqb_refl.
    destruct (isValid assigneeId); cbn [negb];
      [ | do 3 eexists; split; [reflexivity | auto]].
    destruct (castObjectId assigneeId) as [assignee | ] eqn:Ea.
    + rewrite (bind_done _ _ _ _ _ (findUserById_run assigneeId assignee w Ea)).
      destruct (find _ (users w)) as [u | ];
        [ | do 3 eexists; split; [reflexivity | auto]].
      destruct (String.eqb (role u) "employee"); cbn [negb];
        [ | do 3 eexists; split; [reflexivity | auto]].
      erewrite bind_thrown; [ | apply (findReports_uncastable ids _ Hcast)].
      do 3 eexists. split; [reflexivity | auto].
    + unfold findUserById. rewrite Ea. cbn.
      do 3 eexists. split; [reflexivity | auto].
  - unfold bulkDeleteReports, catch500. rewrite Hlen, Hfilter, Nat.eqb_refl.
    cbn [negb].
    rewrite (bind_thrown _ _ _ _ _ (findReports_uncastable ids w Hcast)).
    do 3 eexists. split; [reflexivity | auto].
Qed.

Lemma runBulk_done_inv now user op ids w rep w' :
  runBulk isValid regexMatch now user op (Ids ids) w = (Done rep, w') ->
  ids <> [] /\ forallb isValid ids = true /\ bulkReady isValid op w
  /\ exists oids, mapOpt castObjectId ids = Some oids.
Proof.
  intros Hrun.
  assert (Hne : ids <> []).
  { intros ->. destruct op; discriminate Hrun. }
  assert (Hall : forallb isValid ids = true).
  { destruct (forallb isValid ids) eqn:E; [reflexivity | exfalso].
    apply forallb_fails in E. destruct E as (bad & Hin & Hbad).
    destruct (runBulk_malformed now user op ids bad w Hin Hbad) as [msg Hm].
    rewrite Hm in Hrun. discriminate. }
  assert (Hcast : exists oids, mapOpt castObjectId ids = Some oids).
  { destruct (mapOpt castObjectId ids) as [oids | ] eqn:E; [now exists oids | exfalso].
    destruct (runBulk_uncastable now user op ids w Hne Hall E) as (msg & c & w1 & Hm & _).
    rewrite Hm in Hrun. discriminate. }
  repeat split; auto.
  destruct (bulk_ids_pass ids Hne Hall) as [Hlen Hfilter].
  destruct op as [st comment | assigneeId | reason]; cbn [runBulk bulkReady] in *.
  - unfold bulkUpdateReportStatus, catch500 in Hrun. rewrite Hlen in Hrun.
    destruct (includes validStatuses st); [reflexivity | discriminate].
  - unfold bulkAssignReports, catch500 in Hrun.
    rewrite Hlen, Hfilter, Nat.eqb_refl in Hrun.
    destruct (isValid assigneeId); [ | discriminate]. split; [reflexivity | ].
    cbn [negb] in Hrun. unfold userOf.
    destruct (castObjectId assigneeId) as [assignee | ] eqn:Ea.
    + rewrite (bind_done _ _ _ _ _ (findUserById_run assigneeId assignee w Ea)) in Hrun.
      change (find (byUserId assignee) (users w))
        with (find (fun u => String.eqb (u_id u) assignee) (users w)) in Hrun.
      destruct (find _ (users w)) as [u | ]; [ | discriminate].
      exists u. split; [reflexivity | ].
      destruct (String.eqb_spec (role u) "employee"); [assumption | discriminate].
    + unfold findUserById in Hrun. rewrite Ea in Hrun. discriminate.
  - exact I.
Qed.

Lemma NoDup_ids_filter (p : Report -> bool) l :
  NoDup (map r_id l) -> NoDup (map r_id (filter p l)).
Proof.
  induction l as [ | y l IH]; simpl; intros Hnd; [constructor | ].
  inversion Hnd as [ | ? ? Hnot Hnd']; subst.
  destruct (p y); simpl; [ | now apply IH].
  constructor; [ | now apply IH].
  intros H. apply Hnot. rewrite in_map_iff in *.
  destruct H as (z & Ez & Hz). exists z. split; [exact Ez | ].
  now apply filter_In in Hz.
Qed.

Lemma notes_about now op r id :
  filter (notifiedAbout id) (bulkNotes now op r)
  = if String.eqb (r_id r) id then bulkNotes now op r else [].
Proof.
  destruct op as [st comment | assigneeId | reason]; cbn [bulkNotes].
  - destruct (String.eqb st "resolved"); cbn; [ | now destruct (String.eqb (r_id r) id)].
    now destruct (String.eqb (r_id r) id).
  - destruct (castObjectId assigneeId); cbn; now destruct (String.eqb (r_id r) id).
  - cbn. now destruct (String.eqb (r_id r) id).
Qed.

Lemma notes_about_found now op l r :
  NoDup (map r_id l) -> In r l ->
  filter (notifiedAbout (r_id r)) (flat_map (bulkNotes now op) l) = bulkNotes now op r.
Proof.
  induction l as [ | y l IH]; intros Hnd Hin; [contradiction | ].
  inversion Hnd as [ | ? ? Hnot Hnd']; subst.
  cbn [flat_map]. rewrite filter_app, notes_about.
  destruct Hin as [-> | Hin].
  - rewrite String.eqb_refl.
    assert (E : filter (notifiedAbout (r_id r)) (flat_map (bulkNotes now op) l) = []).
    { clear IH Hnd Hnd'. induction l as [ | z l IHl]; [reflexivity | ].
      cbn [flat_map]. rewrite filter_app, notes_about.
      destruct (String.eqb_spec (r_id z) (r_id r)) as [E | _].
      - exfalso. apply Hnot. left. exact E.
      - apply IHl. intros H. apply Hnot. now right. }
    rewrite E. apply app_nil_r.
  - destruct (String.eqb_spec (r_id y) (r_id r)) as [E | _].
    + exfalso. apply Hnot. rewrite E. now apply in_map.
    + now apply IH.
Qed.

Lemma notes_recipient now op r :
  map recipient (bulkNotes now op r)
  = match bulkRecipient op r with Some to => [to] | None => [] end.
Proof.
  destruct op as [st comment | assigneeId | reason]; cbn [bulkNotes bulkRecipient];
    try reflexivity.
  - now destruct (String.eqb st "resolved").
  - now destruct (castObjectId assigneeId).
Qed.

Lemma bulkResult_id w now user op r : r_id (bulkResult w now user op r) = r_id r.
Proof.
  destruct op as [st comment | assigneeId | reason]; cbn [bulkResult]; try reflexivity.
  now destruct (castObjectId assigneeId).
Qed.

Lemma bulkResult_status w now user op r :
  bulkReady isValid op w -> status (bulkResult w now user op r) = bulkTarget op.
Proof.
  destruct op as [st comment | assigneeId | reason]; cbn [bulkResult bulkReady];
    try reflexivity.
  intros (_ & u & Hu & _). destruct (userOf_cast _ _ _ Hu) as (oid & -> & _).
  reflexivity.
Qed.

(** C5. A bulk operation (status update, assignment, closing) rejects a
    missing or empty id list before it reads anything; rejects the whole batch,
    before any read or write, when some id is not a valid report id; when
    every id is valid it works on the reports that the ids denote once
    mongoose has cast them (whatever their spelling), ignoring ids that
    resolve to nothing, and answers 404 without writing when it finds
    none.  Should an id pass [isValid] and still not be cast, the query
    fails and nothing is written. *)
Theorem C5_bulk_batch_validation :
  forall now user op ids w,
    runBulk isValid regexMatch now user op NotArray w
    = (Next "reportIds must be a non-empty array" 400, w)
    /\ (ids = [] ->
     runBulk isValid regexMatch now user op (Ids ids) w
     = (Next "reportIds must be a non-empty array" 400, w))
    /\ ((exists bad, In bad ids /\ isValid bad = false) ->
        exists msg,
          runBulk isValid regexMatch now user op (Ids ids) w = (Next msg 400, w))
    /\ (ids <> [] -> forallb isValid ids = true ->
        mapOpt castObjectId ids = None ->
        exists msg c w',
          runBulk isValid regexMatch now user op (Ids ids) w = (Next msg c, w')
          /\ reports w' = reports w /\ users w' = users w
          /\ notifications w' = notifications w)
    /\ (forall oids,
        ids <> [] -> forallb isValid ids = true -> bulkReady isValid op w ->
        NoDup (map r_id (reports w)) ->
        mapOpt castObjectId ids = Some oids ->
        let found := filter (fun r => includes oids (r_id r)) (reports w) in
        (found = [] ->
         exists w',
           runBulk isValid regexMatch now user op (Ids ids) w
           = (Next "No reports found with the provided IDs" 404, w')
           /\ reports w' = reports w /\ notifications w' = notifications w)
        /\ (found <> [] ->
            exists rep w',
              runBulk isValid regexMatch now user op (Ids ids) w = (Done rep, w')
              /\ code rep = 200
              /\ bb_count (body rep) = length found
              /\ bb_reportIds (body rep) = map r_id found
              /\ reports w'
                 = map (fun r => if includes oids (r_id r)
                                 then bulkResult w now user op r else r)
                       (reports w))).
Proof.
  intros now user op ids w. split; [ | split; [ | split; [ | split]]].
  - now destruct op.
  - intros ->. now destruct op.
  - intros (bad & Hin & Hbad). now apply runBulk_malformed with (bad := bad).
  - intros Hne Hall Hcast. now apply runBulk_uncastable.
  - intros oids Hne Hall Hready Hnd Hcast found.
    pose proof (runBulk_run now user op ids oids w Hne Hall Hready Hcast) as Hrun.
    cbv zeta in Hrun. fold found in Hrun. split.
    + intros E. rewrite E in Hrun. eexists. split; [exact Hrun | now split].
    + intros Hfound. destruct found as [ | r0 rest] eqn:E; [contradiction | ].
      eexists. eexists. split; [exact Hrun | ].
      cbn [code body bb_count bb_reportIds reports]. repeat split.
      rewrite fold_replace_map. rewrite <- E. unfold found.
      apply (cascade_on_found (bulkResult w now user op)
               (bulkResult_id w now user op) (includes oids) (reports w) Hnd).
Qed.

(** C8, as the code has it. In a bulk status update each report moved to
    resolved triggers exactly one notification, to its submitter, and a
    move to any other status (closed included) triggers none; bulk closing
    triggers exactly one notification per report, to its submitter; bulk
    assignment triggers exactly one per report, to the new assignee. *)
Theorem C8_bulk_notifications_amended :
  forall now user op ids w rep w',
    NoDup (map r_id (reports w)) ->
    runBulk isValid regexMatch now user op (Ids ids) w = (Done rep, w') ->
    exists oids news,
      mapOpt castObjectId ids = Some oids
      /\ notifications w' = notifications w ++ news
      /\ (forall r, In r (reports w) -> includes oids (r_id r) = true ->
          map recipient (filter (notifiedAbout (r_id r)) news)
          = match bulkRecipient op r with Some to => [to] | None => [] end)
      /\ (forall n, In n news ->
          exists r, In r (reports w) /\ includes oids (r_id r) = true
                    /\ notifiedAbout (r_id r) n = true).
Proof.
  intros now user op ids w rep w' Hnd Hrun.
  destruct (runBulk_done_inv now user op ids w rep w' Hrun)
    as (Hne & Hall & Hready & oids & Hcast).
  pose proof (runBulk_run now user op ids oids w Hne Hall Hready Hcast) as Hspec.
  cbv zeta in Hspec. rewrite Hrun in Hspec.
  set (found := filter (fun r => includes oids (r_id r)) (reports w)) in *.
  destruct found as [ | r0 rest] eqn:E; [discriminate | ].
  injection Hspec as _ Hw. subst w'. cbn [notifications].
  exists oids, (flat_map (bulkNotes now op) (r0 :: rest)).
  split; [exact Hcast | split; [reflexivity | split]].
  - intros r Hr Hp. rewrite <- E.
    rewrite notes_about_found.
    + apply notes_recipient.
    + now apply NoDup_ids_filter.
    + apply filter_In. now split.
  - intros n Hn. rewrite <- E in Hn. apply in_flat_map in Hn.
    destruct Hn as (r & Hr & Hn). apply filter_In in Hr. destruct Hr as [Hr Hp].
    exists r. repeat split; auto.
    assert (Hf : In n (filter (notifiedAbout (r_id r)) (bulkNotes now op r))).
    { rewrite notes_about, String.eqb_refl. exact Hn. }
    apply filter_In in Hf. tauto.
Qed.

End BulkProperties.

(** ** Single-report handlers *)

Lemma findById_run id oid w :
  castObjectId id = Some oid ->
  findById id w
  = (Done (option_map (fun r => mkDoc r []) (find (byId oid) (reports w))),
     mkWorld (reports w) (users w) (notifications w) (oplog w ++ [ReportFindById oid])).
Proof. intros E. unfold findById. now rewrite E. Qed.

Lemma findById_uncastable id w :
  castObjectId id = None -> findById id w = (Thrown "CastError", w).
Proof. intros E. unfold findById. now rewrite E. Qed.

Lemma reportOf_found w id oid :
  castObjectId id = Some oid -> reportOf w id = find (byId oid) (reports w).
Proof. intros E. unfold reportOf. now rewrite E. Qed.

Lemma reportOf_uncastable w id : castObjectId id = None -> reportOf w id = None.
Proof. intros E. unfold reportOf. now rewrite E. Qed.

Lemma find_byId id l r : find (byId id) l = Some r -> In r l /\ r_id r = id.
Proof.
  intros H. apply find_some in H. destruct H as [Hin E].
  split; [exact Hin | now apply String.eqb_eq].
Qed.

Lemma find_replaceReport id l r r' :
  find (byId id) l = Some r -> r_id r' = id ->
  find (byId id) (replaceReport r' l) = Some r'.
Proof.
  intros Hfind <-. induction l as [ | y l IH]; [discriminate | ].
  unfold replaceReport in *. cbn [map find] in *. unfold byId in *.
  destruct (String.eqb (r_id y) (r_id r')) eqn:E.
  - now rewrite String.eqb_refl.
  - rewrite E. now apply IH.
Qed.

Lemma reportOf_cast w id r :
  reportOf w id = Some r ->
  exists oid, castObjectId id = Some oid /\ find (byId oid) (reports w) = Some r
              /\ r_id r = oid.
Proof.
  unfold reportOf. destruct (castObjectId id) as [oid | ]; [ | discriminate].
  intros H. exists oid. repeat split; [exact H | ].
  now apply (find_byId oid (reports w)).
Qed.

(** A request that is turned away, or that fails, writes no report and
    creates no notification. *)
Lemma updateReportStatus_rejected now user id st comment w w' :
  (exists msg c, updateReportStatus now user id st comment w = (Next msg c, w'))
  \/ (exists n, updateReportStatus now user id st comment w = (Thrown n, w')) ->
  reports w' = reports w /\ notifications w' = notifications w.
Proof.
  unfold updateReportStatus. destruct (castObjectId id) as [oid | ] eqn:Ecast.
  2: { rewrite (bind_thrown _ _ _ _ _ (findById_uncastable id w Ecast)).
       intros [(msg & c & H) | (n & H)]; inversion H; subst; now split. }
  rewrite (bind_done _ _ _ _ _ (findById_run id oid w Ecast)).
  destruct (find (byId oid) (reports w)) as [r | ]; cbn [option_map].
  2: { intros [(msg & c & H) | (n & H)]; inversion H; subst; now split. }
  set (w1 := mkWorld (reports w) (users w) (notifications w)
               (oplog w ++ [ReportFindById oid])).
  assert (Hguard :
    forall (guard : M unit),
      (guard w1 = (Done tt, w1) \/ exists msg c, guard w1 = (Next msg c, w1)) ->
      (exists msg c,
          (guard ;;;
           report' <- addTimelineEvent now st comment (a_id user) (mkDoc r []) ;;
           createNotification now (submittedBy (fields report')) "report_status"
             "Report Status Updated" (statusMessage (fields report') st)
             (Some ("Report", r_id (fields report'))) None ;;;
           ret (mkReply 200 (fields report'))) w1 = (Next msg c, w'))
      \/ (exists n,
          (guard ;;;
           report' <- addTimelineEvent now st comment (a_id user) (mkDoc r []) ;;
           createNotification now (submittedBy (fields report')) "report_status"
             "Report Status Updated" (statusMessage (fields report') st)
             (Some ("Report", r_id (fields report'))) None ;;;
           ret (mkReply 200 (fields report'))) w1 = (Thrown n, w')) ->
      reports w' = reports w /\ notifications w' = notifications w).
  { intros guard [Hg | (msg & c & Hg)].
    - rewrite (bind_done _ _ _ _ _ Hg).
      unfold addTimelineEvent, save.
      destruct (forallb _ _).
      + intros [(m & c & H) | (n & H)]; discriminate H.
      + intros [(m & c & H) | (n & H)]; inversion H; subst; now split.
    - rewrite (bind_next _ _ _ _ _ _ Hg).
      intros [(m & c' & H) | (n & H)]; inversion H; subst; now split. }
  apply Hguard.
  destruct (String.eqb (a_role user) "user").
  - destruct (negb (String.eqb st "closed")
              || negb (String.eqb (status (fields (mkDoc r []))) "resolved"));
      [right; eexists; eexists; reflexivity | now left].
  - destruct (String.eqb (a_role user) "employee"); [ | now left].
    destruct (assignedElsewhere _ user);
      [right; eexists; eexists; reflexivity | ].
    destruct (negb (includes ["in_progress"; "resolved"] st));
      [right; eexists; eexists; reflexivity | now left].
Qed.

(** A status update that is answered has stored the report it returns:
    the loaded report with one more timeline entry and the requested
    status. *)
Lemma updateReportStatus_done now user id st comment w rep w' :
  updateReportStatus now user id st comment w = (Done rep, w') ->
  exists r,
    reportOf w id = Some r
    /\ body rep = eventReport now st comment (a_id user) r
    /\ reportOf w' id = Some (body rep)
    /\ status (body rep) = st
    /\ timeline (body rep) = timeline r ++ [mkEntry st now comment (a_id user)]
    /\ inSync (body rep).
Proof.
  unfold updateReportStatus. destruct (castObjectId id) as [oid | ] eqn:Ecast.
  2: { now rewrite (bind_thrown _ _ _ _ _ (findById_uncastable id w Ecast)). }
  rewrite (bind_done _ _ _ _ _ (findById_run id oid w Ecast)).
  rewrite !(reportOf_found _ id oid Ecast).
  destruct (find (byId oid) (reports w)) as [r | ] eqn:Hfind; cbn [option_map];
    [ | discriminate].
  set (w1 := mkWorld (reports w) (users w) (notifications w)
               (oplog w ++ [ReportFindById oid])).
  intros Hrun. exists r.
  assert (Hguard :
    forall (guard : M unit),
      (guard w1 = (Done tt, w1) \/ exists msg c, guard w1 = (Next msg c, w1)) ->
      (guard ;;;
       report' <- addTimelineEvent now st comment (a_id user) (mkDoc r []) ;;
       createNotification now (submittedBy (fields report')) "report_status"
         "Report Status Updated" (statusMessage (fields report') st)
         (Some ("Report", r_id (fields report'))) None ;;;
       ret (mkReply 200 (fields report'))) w1 = (Done rep, w') ->
      body rep = eventReport now st comment (a_id user) r
      /\ reports w' = replaceReport (eventReport now st comment (a_id user) r) (reports w)).
  { intros guard [Hg | (msg & c & Hg)].
    - rewrite (bind_done _ _ _ _ _ Hg).
      unfold addTimelineEvent, save.
      destruct (forallb _ _); [ | discriminate].
      unfold createNotification, bind, logOp, ret.
      cbn [reports users notifications oplog fields].
      intros H. inversion H; subst rep w'. split; reflexivity.
    - rewrite (bind_next _ _ _ _ _ _ Hg). discriminate. }
  assert (Hboth : body rep = eventReport now st comment (a_id user) r
                  /\ reports w'
                     = replaceReport (eventReport now st comment (a_id user) r) (reports w)).
  { apply Hguard with (2 := Hrun).
    destruct (String.eqb (a_role user) "user").
    - destruct (negb (String.eqb st "closed")
                || negb (String.eqb (status (fields (mkDoc r []))) "resolved"));
        [right; eexists; eexists; reflexivity | now left].
    - destruct (String.eqb (a_role user) "employee"); [ | now left].
      destruct (assignedElsewhere _ user);
        [right; eexists; eexists; reflexivity | ].
      destruct (negb (includes ["in_progress"; "resolved"] st));
        [right; eexists; eexists; reflexivity | now left]. }
  destruct Hboth as [Hbody Hreports]. rewrite Hbody, Hreports.
  split; [reflexivity | split; [reflexivity | split; [ | split; [reflexivity | split]]]].
  - apply find_replaceReport with (r := r); [exact Hfind | ].
    apply find_byId in Hfind. exact (proj2 Hfind).
  - reflexivity.
  - unfold eventReport. apply inSync_touch. now apply inSync_after_event.
Qed.

(** An employee's request on a report assigned to someone else is refused
    with 403. *)
Lemma employee_assigned_elsewhere_refused now user id st comment w r other :
  a_role user = "employee" ->
  reportOf w id = Some r ->
  assignedTo r = Some other -> other <> a_id user ->
  updateReportStatus now user id st comment w
  = (Next "You do not have permission to update this report" 403,
     mkWorld (reports w) (users w) (notifications w)
       (oplog w ++ [ReportFindById (r_id r)])).
Proof.
  intros Hrole Hfind Hassigned Hother.
  destruct (reportOf_cast _ _ _ Hfind) as (oid & Ecast & Hfind' & ->).
  unfold updateReportStatus.
  rewrite (bind_done _ _ _ _ _ (findById_run id _ w Ecast)).
  rewrite Hfind'. cbn [option_map fields]. rewrite Hrole, Hassigned.
  cbn [assignedElsewhere].
  apply String.eqb_neq in Hother. rewrite Hother. reflexivity.
Qed.

(** An employee can only set in_progress or resolved. *)
Lemma employee_target_restricted now user id st comment w rep w' :
  a_role user = "employee" ->
  updateReportStatus now user id st comment w = (Done rep, w') ->
  st = "in_progress" \/ st = "resolved".
Proof.
  intros Hrole. unfold updateReportStatus.
  destruct (castObjectId id) as [oid | ] eqn:Ecast.
  2: { now rewrite (bind_thrown _ _ _ _ _ (findById_uncastable id w Ecast)). }
  rewrite (bind_done _ _ _ _ _ (findById_run id oid w Ecast)).
  destruct (find (byId oid) (reports w)) as [r | ]; cbn [option_map]; [ | discriminate].
  rewrite Hrole. cbn [String.eqb Ascii.eqb Bool.eqb].
  destruct (assignedElsewhere _ user); [discriminate | ].
  destruct (includes ["in_progress"; "resolved"] st) eqn:E; [ | discriminate].
  intros _. apply includes_In in E. simpl in E. intuition.
Qed.

(** C2, at the input where the code departs from it: Eve, an employee,
    moves a report that is assigned to nobody, and the timeline grows. *)
Theorem C2_employee_updates_unassigned_report :
  a_role eve = "employee"
  /\ find (byId idR1) (reports sampleWorld) = Some reportSubmitted
  /\ assignedTo reportSubmitted = None
  /\ exists rep w',
       updateReportStatus (mongoose := sampleMongoose) 2000 eve idR1 "in_progress" None
         sampleWorld
       = (Done rep, w')
       /\ status (body rep) = "in_progress"
       /\ length (timeline (body rep)) = S (length (timeline reportSubmitted))
       /\ find (byId idR1) (reports w') = Some (body rep).
Proof.
  repeat split. eexists. eexists. split; [vm_compute; reflexivity | ].
  repeat split.
Qed.

(** C3: the second submission goes through once an administrator has
    moved the closed report back to resolved, and replaces the first. *)
Lemma C3_second_feedback_overwrites :
  let w1 := snd (addFeedback (mongoose := sampleMongoose) (hours 50) alice idR2 (Some 5)
                   None sampleWorld) in
  let w2 := snd (updateReportStatus (mongoose := sampleMongoose) (hours 60) carol idR2
                   "resolved" None w1) in
  option_map feedback (find (byId idR2) (reports w2))
  = Some (Some (mkFeedback (Some 5) None (hours 50)))
  /\ exists rep w3,
       addFeedback (mongoose := sampleMongoose) (hours 70) alice idR2 (Some 1)
         (Some "Not fixed") w2
       = (Done rep, w3)
       /\ option_map feedback (find (byId idR2) (reports w3))
          = Some (Some (mkFeedback (Some 1) (Some "Not fixed") (hours 70))).
Proof.
  split; [vm_compute; reflexivity | ].
  eexists. eexists. split; vm_compute; reflexivity.
Qed.

(** C3, as the code has it. Feedback is accepted only from the report's
    submitter and only while the report's status is exactly resolved;
    accepting it stores the feedback and closes the report, so that a
    further submission on the report as it then stands is refused with 400
    and leaves the stored reports, the feedback included, untouched. *)
Theorem C3_feedback_amended :
  forall now user id rating comment w rep w',
    addFeedback now user id rating comment w = (Done rep, w') ->
    (exists r, reportOf w id = Some r
               /\ submittedBy r = a_id user /\ status r = "resolved")
    /\ feedback (body rep) = Some (mkFeedback rating comment now)
    /\ status (body rep) = "closed"
    /\ reportOf w' id = Some (body rep)
    /\ forall now2 rating2 comment2,
         exists w'',
           addFeedback now2 user id rating2 comment2 w'
           = (Next "You can only provide feedback for resolved reports" 400, w'')
           /\ reports w'' = reports w'.
Proof.
  intros now user id rating comment w rep w'. unfold addFeedback at 1.
  destruct (castObjectId id) as [oid | ] eqn:Ecast.
  2: { now rewrite (bind_thrown _ _ _ _ _ (findById_uncastable id w Ecast)). }
  rewrite (bind_done _ _ _ _ _ (findById_run id oid w Ecast)).
  rewrite !(reportOf_found _ id oid Ecast).
  destruct (find (byId oid) (reports w)) as [r | ] eqn:Hfind;
    cbn [option_map fields]; [ | discriminate].
  destruct (String.eqb_spec (submittedBy r) (a_id user)) as [Hsub | ];
    cbn [negb]; [ | discriminate].
  destruct (String.eqb_spec (status r) "resolved") as [Hst | ];
    cbn [negb]; [ | discriminate].
  set (w1 := mkWorld (reports w) (users w) (notifications w)
               (oplog w ++ [ReportFindById oid])).
  set (d := set_feedback (mkFeedback rating comment now) (mkDoc r [])).
  destruct (validRating (Some (mkFeedback rating comment now))) eqn:Hrating.
  2: { unfold addTimelineEvent, save.
       change (modified (set_status "closed" (push_timeline _ d)))
         with ([PFeedback]
               ++ [PPushed (mkEntry "closed" now
                              (Some "Feedback provided and report closed") (a_id user));
                   PStatus]).
       rewrite forallb_app. cbn [forallb validPath].
       change (feedback (fields (set_status "closed" (push_timeline _ d))))
         with (Some (mkFeedback rating comment now)).
       rewrite Hrating. discriminate. }
  assert (Hmod : forallb
            (validPath (fields (set_status "closed"
               (push_timeline (mkEntry "closed" now
                  (Some "Feedback provided and report closed") (a_id user)) d))))
            (modified d) = true).
  { cbn [modified d set_feedback forallb app validPath]. now rewrite andb_true_r. }
  rewrite (bind_done _ _ _ _ _
             (addTimelineEvent_run now "closed"
                (Some "Feedback provided and report closed") (a_id user) d w1
                eq_refl Hmod)).
  set (r' := touch now (fields (set_status "closed" (push_timeline _ d)))).
  set (w2 := mkWorld (replaceReport r' (reports w1)) _ _ _).
  assert (Hfind' : find (byId oid) (reports w2) = Some r').
  { apply find_replaceReport with (r := r); [exact Hfind | ].
    apply find_byId in Hfind. exact (proj2 Hfind). }
  assert (Hagain : forall w3, reports w3 = reports w2 ->
            forall now2 rating2 comment2,
            exists w'',
              addFeedback now2 user id rating2 comment2 w3
              = (Next "You can only provide feedback for resolved reports" 400, w'')
              /\ reports w'' = reports w3).
  { intros w3 E now2 rating2 comment2. unfold addFeedback.
    rewrite (bind_done _ _ _ _ _ (findById_run id oid w3 Ecast)).
    rewrite E, Hfind'. cbn [option_map fields].
    change (submittedBy r') with (submittedBy r). rewrite Hsub, String.eqb_refl.
    cbn [negb]. change (status r') with "closed".
    eexists. split; reflexivity. }
  cbn [fields].
  destruct (assignedTo r') as [a | ] eqn:Ha.
  - unfold createNotification, bind, logOp, ret. cbn [reports users notifications oplog].
    intros H. inversion H; subst rep w'; clear H.
    cbn [body]. repeat split; try reflexivity; try exact Hfind'.
    + exists r. repeat split; auto.
    + apply Hagain. reflexivity.
  - unfold bind, ret. intros H. inversion H; subst rep w'; clear H.
    cbn [body]. repeat split; try reflexivity; try exact Hfind'.
    + exists r. repeat split; auto.
    + apply Hagain. reflexivity.
Qed.

(** ** Resolution time *)

Lemma first_of_filter {A B} (p : A -> bool) (g : A -> B) l :
  nth_error (map g (filter p l)) 0 = option_map g (find p l).
Proof.
  induction l as [ | a l IH]; [reflexivity | ].
  simpl. destruct (p a); [reflexivity | exact IH].
Qed.

(** The pipeline's [$arrayElemAt] of the filtered timeline is the first
    resolved entry. *)
Lemma resolutionTime_first r : resolutionTime r = specResolutionTime r.
Proof.
  unfold resolutionTime, specResolutionTime, firstResolved.
  rewrite first_of_filter.
  now destruct (find _ (timeline r)).
Qed.

Lemma find_after_prefix {A} (p : A -> bool) before e after :
  forallb (fun x => negb (p x)) before = true -> p e = true ->
  find p (before ++ e :: after) = Some e.
Proof.
  intros Hb He. induction before as [ | b before IH]; simpl in *.
  - now rewrite He.
  - apply andb_prop in Hb. destruct Hb as [Hb1 Hb2].
    apply negb_true_iff in Hb1. rewrite Hb1. now apply IH.
Qed.

Section Statistics.

Variable regexMatch : string -> string -> bool.

Lemma matches_resolvedQuery r :
  matches regexMatch resolvedQuery r = countedAsResolved r.
Proof.
  change resolvedQuery
    with (mkQuery [("status", CEq (VStr "resolved"));
                   ("timeline.status", CEq (VStr "resolved"))] None).
  unfold matches, matchesFilter, countedAsResolved.
  cbn [q_fields q_or forallb fst snd evalCond evalEq].
  change (getPath "status" r) with [VStr (status r)].
  change (getPath "timeline.status" r)
    with (map (fun e => VStr (te_status e)) (timeline r)).
  cbn [existsb Value_eqb].
  rewrite !andb_true_r, orb_false_r, (String.eqb_sym "resolved").
  f_equal. induction (timeline r) as [ | e l IH]; [reflexivity | ].
  cbn [map existsb Value_eqb]. now rewrite IH, (String.eqb_sym "resolved").
Qed.

Lemma performanceOf_counted all :
  performanceOf regexMatch all
  = match filter countedAsResolved all with
    | [] => mkPerformance 0 0 0 0
    | _ :: _ =>
        let times := map specResolutionTime (filter countedAsResolved all) in
        mkPerformance (roundHours (avgOf times))
          (roundHours (option_map inject_Z (minOf (somes times))))
          (roundHours (option_map inject_Z (maxOf (somes times))))
          (length (filter countedAsResolved all))
    end.
Proof.
  unfold performanceOf. rewrite (filter_ext _ _ matches_resolvedQuery).
  destruct (filter countedAsResolved all) as [ | r0 rest]; [reflexivity | ].
  cbv zeta. now rewrite (map_ext _ _ resolutionTime_first).
Qed.

Lemma avgOf_none {A} (l : list A) : avgOf (map (fun _ => None) l) = None.
Proof.
  unfold avgOf.
  assert (E : flat_map (fun o : option Z => match o with Some x => [x] | None => [] end)
                (map (fun _ : A => @None Z) l) = []).
  { induction l as [ | a l IH]; [reflexivity | exact IH]. }
  now rewrite E.
Qed.

(** The dashboard's average is zero whatever the reports are: its
    [$subtract] has no first operand. *)
Lemma dashboard_average_is_zero all :
  dashboardAverageResolutionHours regexMatch all = 0.
Proof.
  unfold dashboardAverageResolutionHours.
  destruct (filter _ all) as [ | r0 rest]; [reflexivity | ].
  change (map dashboardResolutionTime (r0 :: rest))
    with (map (fun _ : Report => @None Z) (r0 :: rest)).
  now rewrite avgOf_none.
Qed.

(** C4, as the code has it. In the system statistics the reports counted
    are those whose current status is resolved and that have a resolved
    timeline entry; each contributes the timestamp of its first resolved
    entry minus its creation timestamp; the mean is turned into hours and
    rounded once. Reports that are not currently resolved contribute
    nothing. A counted report created at T0 whose first resolved entry is
    at T0 + 48h contributes exactly 48 hours, whatever else its timeline
    holds. *)
Theorem C4_resolution_time_amended :
  forall all,
    averageResolutionHours (performanceOf regexMatch all)
    = roundHours (avgOf (map specResolutionTime (filter countedAsResolved all)))
    /\ totalResolved (performanceOf regexMatch all)
       = length (filter countedAsResolved all)
    /\ forall r before e after,
         status r = "resolved" ->
         timeline r = before ++ e :: after ->
         forallb (fun x => negb (String.eqb (te_status x) "resolved")) before = true ->
         te_status e = "resolved" ->
         te_timestamp e = createdAt r + hours 48 ->
         countedAsResolved r = true
         /\ resolutionTime r = Some (hours 48)
         /\ averageResolutionHours (performanceOf regexMatch [r]) = 48.
Proof.
  intros all. split; [ | split].
  - rewrite performanceOf_counted.
    now destruct (filter countedAsResolved all).
  - rewrite performanceOf_counted.
    now destruct (filter countedAsResolved all).
  - intros r before e after Hst Htl Hbefore He Hts.
    assert (Hfirst : firstResolved r = Some e).
    { unfold firstResolved. rewrite Htl.
      apply (find_after_prefix (fun x => String.eqb (te_status x) "resolved"));
        [exact Hbefore | now rewrite He]. }
    assert (Htime : specResolutionTime r = Some (hours 48)).
    { unfold specResolutionTime. rewrite Hfirst. cbn [option_map]. f_equal. lia. }
    assert (Hcounted : countedAsResolved r = true).
    { unfold countedAsResolved. rewrite Hst, Htl, existsb_app. cbn [existsb].
      rewrite He. cbn. now rewrite orb_true_r. }
    repeat split.
    + exact Hcounted.
    + now rewrite resolutionTime_first.
    + rewrite performanceOf_counted. cbn [filter]. rewrite Hcounted.
      cbn [map averageResolutionHours]. rewrite Htime. reflexivity.
Qed.

End Statistics.

(** C4 fails on a report that was resolved 48 hours after its creation and
    closed afterwards: it has a resolved entry, yet the statistics count
    nothing. *)
Lemma C4_closed_report_not_counted :
  specResolutionTime reportClosed = Some (hours 48)
  /\ specAverageResolutionHours [reportClosed] = 48
  /\ averageResolutionHours (performanceOf containsCI [reportClosed]) = 0
  /\ totalResolved (performanceOf containsCI [reportClosed]) = 0%nat.
Proof. repeat split. Qed.

(** The search statistics measure something else: the time from creation
    to the last write, unrounded. On a report resolved at 48 hours and
    written again at 60 the system statistics say 48 and the search
    statistics 60. *)
Lemma search_average_uses_updatedAt :
  averageResolutionHours (performanceOf containsCI [reportResolvedWithPhoto]) = 48
  /\ Qeq (ss_avgResolutionHours (searchStats [reportResolvedWithPhoto])) (60 # 1).
Proof. split; reflexivity. Qed.

(** ** Notifications *)

(** C9: marking a notification read a second time, at a later moment,
    moves [readAt]. *)
Lemma C9_second_read_moves_readAt :
  let once := markAsRead 10 sampleNotification in
  isRead once = true
  /\ readAt once = Some 10
  /\ readAt (markAsRead 20 once) = Some 20
  /\ markAsRead 20 once <> once.
Proof. repeat split. discriminate. Qed.

(** C9, as the code has it. Marking a notification read sets [isRead] and
    stamps [readAt] with the time of the call, every time: a later call
    keeps [isRead] true and every other field except [updatedAt], and
    overwrites [readAt] with its own time. Only at an unchanged clock
    reading is the second call without effect. *)
Theorem C9_markAsRead_amended :
  forall t1 t2 n,
    let once := markAsRead t1 n in
    let twice := markAsRead t2 once in
    isRead once = true /\ readAt once = Some t1
    /\ isRead twice = true /\ readAt twice = Some t2
    /\ recipient twice = recipient n /\ n_type twice = n_type n
    /\ n_title twice = n_title n /\ message twice = message n
    /\ relatedTo twice = relatedTo n /\ n_priority twice = n_priority n
    /\ n_createdAt twice = n_createdAt n
    /\ markAsRead t1 once = once.
Proof.
  intros t1 t2 n. repeat split.
  unfold markAsRead. cbn [isRead readAt recipient n_type n_title message relatedTo
                           n_priority n_createdAt n_updatedAt negb orb].
  now rewrite Z.eqb_refl.
Qed.

(** ** Registration *)

Section Registration.

Variable generateToken : User -> string.
Variable userValid : User -> string -> bool.

(** C10. A registration creates the account with role employee exactly
    when the requested role is employee and with role user otherwise; a
    request for role admin is not refused and creates a user. *)
Theorem C10_register_role :
  forall newId b w,
    find (fun u => String.eqb (email u) (rb_email b)) (users w) = None ->
    userValid (mkUser newId (rb_firstName b) (rb_lastName b) (rb_email b)
                 (registeredRole (rb_role b))) (rb_password b) = true ->
    exists u w',
      register generateToken userValid newId b w
      = (Done (mkReply 201 (mkRegisterReply (generateToken u) u)), w')
      /\ users w' = users w ++ [u]
      /\ u_id u = newId /\ email u = rb_email b
      /\ (role u = "employee" <-> rb_role b = Some "employee")
      /\ (rb_role b <> Some "employee" -> role u = "user")
      /\ (rb_role b = Some "admin" -> role u = "user").
Proof.
  intros newId b w Hfree Hvalid.
  exists (mkUser newId (rb_firstName b) (rb_lastName b) (rb_email b)
            (registeredRole (rb_role b))).
  eexists. split; [ | split; [ | split; [ | split]]].
  - unfold register, findUserByEmail, createUser.
    unfold bind at 1. unfold bind at 1. unfold logOp at 1.
    cbn [users reports notifications oplog]. rewrite Hfree.
    fold (registeredRole (rb_role b)). rewrite Hvalid.
    unfold bind, logOp, ret. cbn [users reports notifications oplog]. reflexivity.
  - reflexivity.
  - reflexivity.
  - reflexivity.
  - cbn [role]. unfold registeredRole.
    destruct (rb_role b) as [r | ];
      [destruct (String.eqb_spec r "employee") as [-> | Hne] | ];
      repeat split; intros; try reflexivity; congruence.
Qed.

End Registration.

(** ** Queries *)

Lemma filter_other_keys k (fs : Filter) :
  existsb (fun kc => String.eqb (fst kc) k) fs = false ->
  filter (fun kc => negb (String.eqb (fst kc) k)) fs = fs.
Proof.
  induction fs as [ | kc fs IH]; [reflexivity | ].
  cbn [existsb filter]. intros H. apply orb_false_elim in H. destruct H as [H1 H2].
  rewrite H1. cbn [negb]. now rewrite IH.
Qed.

Lemma hasKey_setField_other k k' c q :
  String.eqb k k' = false -> hasKey k' (setField k c q) = hasKey k' q.
Proof.
  intros Hne. unfold hasKey, setField. cbn [q_fields].
  rewrite existsb_app. cbn [existsb fst]. rewrite Hne. cbn [orb].
  rewrite orb_false_r.
  induction (q_fields q) as [ | kc fs IH]; [reflexivity | ].
  cbn [filter existsb].
  destruct (String.eqb_spec (fst kc) k) as [E | _]; cbn [negb].
  - rewrite IH, E, Hne. reflexivity.
  - cbn [existsb]. now rewrite IH.
Qed.

Section QueryProperties.

Variable regexMatch : string -> string -> bool.

Lemma matchesFilter_app f1 f2 r :
  matchesFilter regexMatch (f1 ++ f2) r
  = matchesFilter regexMatch f1 r && matchesFilter regexMatch f2 r.
Proof. unfold matchesFilter. apply forallb_app. Qed.

Lemma matches_setField_fresh k c q r :
  hasKey k q = false ->
  matches regexMatch (setField k c q) r
  = evalCond regexMatch c (getPath k r) && matches regexMatch q r.
Proof.
  intros Hfresh. unfold matches, setField. cbn [q_fields q_or].
  rewrite (filter_other_keys k (q_fields q) Hfresh), matchesFilter_app.
  unfold matchesFilter at 2. cbn [forallb fst snd].
  rewrite andb_true_r.
  destruct (matchesFilter regexMatch (q_fields q) r), (evalCond regexMatch c (getPath k r));
    reflexivity.
Qed.

Lemma matches_emptyQuery r : matches regexMatch emptyQuery r = true.
Proof. reflexivity. Qed.

(** An equality filter on a string field of a report. *)
Lemma evalCond_eq_single s v :
  evalCond regexMatch (CEq (VStr s)) [VStr v] = String.eqb s v.
Proof. cbn [evalCond evalEq existsb Value_eqb]. apply orb_false_r. Qed.

Lemma evalCond_eq_id a b :
  evalCond regexMatch (CEq (VId a)) [VId b] = String.eqb a b.
Proof. cbn [evalCond evalEq existsb Value_eqb]. apply orb_false_r. Qed.

Lemma evalCond_in_single l v :
  evalCond regexMatch (CIn (map VStr l)) [VStr v] = includes l v.
Proof.
  unfold includes. cbn [evalCond].
  induction l as [ | s l IH]; [reflexivity | ].
  cbn [map existsb evalEq Value_eqb]. now rewrite IH, orb_false_r, String.eqb_sym.
Qed.

(** [whenStr] on a fresh key adds exactly the optional constraint. *)
Lemma matches_whenStr_eq k (field : Report -> string) o q r :
  hasKey k q = false ->
  getPath k r = [VStr (field r)] ->
  matches regexMatch (whenStr o (fun s => setField k (CEq (VStr s))) q) r
  = optFilter o (field r) && matches regexMatch q r.
Proof.
  intros Hfresh Hpath. unfold whenStr, optFilter.
  destruct o as [s | ]; [ | reflexivity].
  destruct (str_nonempty s); [ | reflexivity].
  now rewrite matches_setField_fresh, Hpath, evalCond_eq_single.
Qed.

Lemma hasKey_whenStr_other k k' o q :
  String.eqb k k' = false ->
  hasKey k' (whenStr o (fun s => setField k (CEq (VStr s))) q) = hasKey k' q.
Proof.
  intros Hne. unfold whenStr. destruct o as [s | ]; [ | reflexivity].
  destruct (str_nonempty s); [ | reflexivity].
  now apply hasKey_setField_other.
Qed.

Lemma q_or_whenStr k o q :
  q_or (whenStr o (fun s => setField k (CEq (VStr s))) q) = q_or q.
Proof.
  unfold whenStr. destruct o as [s | ]; [ | reflexivity].
  now destruct (str_nonempty s).
Qed.

(** The query of [getReports] is the caller's visibility scope intersected
    with the supplied filters. *)
Lemma matches_getReportsQuery user rq r :
  In (a_role user) ["admin"; "employee"; "user"] ->
  matches regexMatch (getReportsQuery user rq) r
  = visibilityScope user r && suppliedFilters rq r.
Proof.
  intros Hrole. unfold getReportsQuery.
  set (q1 := whenStr (rq_status rq) _ emptyQuery).
  set (q2 := whenStr (rq_category rq) _ q1).
  set (q3 := whenStr (rq_priority rq) _ q2).
  assert (H3 : matches regexMatch q3 r = suppliedFilters rq r).
  { unfold q3, q2, q1, suppliedFilters.
    rewrite (matches_whenStr_eq "priority" priority);
      [ | rewrite !hasKey_whenStr_other; reflexivity | reflexivity].
    rewrite (matches_whenStr_eq "category" category);
      [ | rewrite !hasKey_whenStr_other; reflexivity | reflexivity].
    rewrite (matches_whenStr_eq "status" status); [ | reflexivity | reflexivity].
    rewrite matches_emptyQuery, andb_true_r.
    destruct (optFilter (rq_status rq) (status r)),
             (optFilter (rq_category rq) (category r)),
             (optFilter (rq_priority rq) (priority r)); reflexivity. }
  assert (Hfresh : hasKey "submittedBy" q3 = false).
  { unfold q3, q2, q1. rewrite !hasKey_whenStr_other; reflexivity. }
  assert (Hor : q_or q3 = None).
  { unfold q3, q2, q1. now rewrite !q_or_whenStr. }
  unfold visibilityScope.
  destruct user as [uid urole]. cbn [a_role a_id] in *.
  destruct Hrole as [<- | [<- | [<- | []]]].
  - change (String.eqb "admin" "user") with false.
    change (String.eqb "admin" "employee") with false.
    change (String.eqb "admin" "admin") with true.
    cbn [orb]. exact H3.
  - change (String.eqb "employee" "user") with false.
    change (String.eqb "employee" "employee") with true.
    change (String.eqb "employee" "admin") with false.
    cbv iota. unfold matches, setOr. cbn [q_fields q_or].
    unfold matches in H3. rewrite Hor, andb_true_r in H3. rewrite H3.
    rewrite andb_comm. f_equal.
    unfold matchesFilter. cbn [existsb forallb fst snd].
    change (getPath "assignedTo" r)
      with [match assignedTo r with Some a => VId a | None => VNull end].
    change (getPath "status" r) with [VStr (status r)].
    change (CIn [VStr "submitted"; VStr "in_review"])
      with (CIn (map VStr ["submitted"; "in_review"])).
    rewrite evalCond_in_single.
    destruct (assignedTo r) as [a | ].
    + rewrite evalCond_eq_id. cbn [evalCond evalEq existsb Value_eqb].
      rewrite String.eqb_sym.
      destruct (String.eqb a uid); reflexivity.
    + cbn [evalCond evalEq existsb Value_eqb].
      destruct (includes ["submitted"; "in_review"] (status r)); reflexivity.
  - change (String.eqb "user" "user") with true.
    change (String.eqb "user" "admin") with false.
    change (String.eqb "user" "employee") with false.
    cbv iota.
    rewrite matches_setField_fresh by exact Hfresh.
    change (getPath "submittedBy" r) with [VId (submittedBy r)].
    now rewrite evalCond_eq_id, H3, String.eqb_sym.
Qed.

(** The query of [getReports] holds the caller's id as an [ObjectId] and no
    string on an id path: the cast leaves it as it is. *)
Lemma mapOpt_id {A} (f : A -> option A) l :
  (forall x, In x l -> f x = Some x) -> mapOpt f l = Some l.
Proof.
  induction l as [ | a l IH]; intros H; [reflexivity | ].
  cbn [mapOpt]. rewrite (H a (or_introl eq_refl)), IH; [reflexivity | ].
  intros x Hx. apply H. now right.
Qed.

Lemma castFilter_stable (f : Filter) :
  (forall kc, In kc f -> castCond (fst kc) (snd kc) = Some (snd kc)) ->
  castFilter f = Some f.
Proof.
  intros H. unfold castFilter. apply mapOpt_id. intros [k c] Hin.
  now rewrite (H (k, c) Hin).
Qed.

Lemma castQuery_stable q :
  (forall kc, In kc (q_fields q) -> castCond (fst kc) (snd kc) = Some (snd kc)) ->
  (forall clauses, q_or q = Some clauses ->
     forall f kc, In f clauses -> In kc f -> castCond (fst kc) (snd kc) = Some (snd kc)) ->
  castQuery q = Some q.
Proof.
  intros Hf Ho. unfold castQuery. rewrite (castFilter_stable _ Hf).
  destruct q as [fs [clauses | ]]; cbn [q_fields q_or] in *; [ | reflexivity].
  rewrite (mapOpt_id castFilter clauses); [reflexivity | ].
  intros f Hin. apply castFilter_stable. intros kc. now apply (Ho clauses eq_refl f).
Qed.

Lemma stable_setField k c q :
  castCond k c = Some c ->
  (forall kc, In kc (q_fields q) -> castCond (fst kc) (snd kc) = Some (snd kc)) ->
  forall kc, In kc (q_fields (setField k c q)) ->
             castCond (fst kc) (snd kc) = Some (snd kc).
Proof.
  intros Hc Hq kc. unfold setField. cbn [q_fields]. rewrite in_app_iff, filter_In.
  intros [[Hin _] | [<- | []]]; [now apply Hq | exact Hc].
Qed.

Lemma stable_whenStr k o q :
  includes idPaths k = false ->
  (forall kc, In kc (q_fields q) -> castCond (fst kc) (snd kc) = Some (snd kc)) ->
  forall kc, In kc (q_fields (whenStr o (fun s => setField k (CEq (VStr s))) q)) ->
             castCond (fst kc) (snd kc) = Some (snd kc).
Proof.
  intros Hk Hq. unfold whenStr. destruct o as [s | ]; [ | exact Hq].
  destruct (str_nonempty s); [ | exact Hq].
  apply stable_setField; [ | exact Hq]. unfold castCond. now rewrite Hk.
Qed.

Lemma castQuery_getReportsQuery user rq :
  castQuery (getReportsQuery user rq) = Some (getReportsQuery user rq).
Proof.
  unfold getReportsQuery.
  set (q1 := whenStr (rq_status rq) _ emptyQuery).
  set (q2 := whenStr (rq_category rq) _ q1).
  set (q3 := whenStr (rq_priority rq) _ q2).
  assert (H3 : forall kc, In kc (q_fields q3) ->
                          castCond (fst kc) (snd kc) = Some (snd kc)).
  { unfold q3, q2, q1. repeat (apply stable_whenStr; [reflexivity | ]).
    intros kc []. }
  assert (Hor : q_or q3 = None).
  { unfold q3, q2, q1. now rewrite !q_or_whenStr. }
  destruct (String.eqb (a_role user) "user").
  - apply castQuery_stable.
    + apply stable_setField; [reflexivity | exact H3].
    + unfold setField. cbn [q_or]. rewrite Hor. discriminate.
  - destruct (String.eqb (a_role user) "employee").
    + apply castQuery_stable; [exact H3 | ].
      unfold setOr. cbn [q_or]. intros clauses [= <-] f kc Hf Hkc.
      destruct Hf as [<- | [<- | []]].
      * destruct Hkc as [<- | []]. reflexivity.
      * destruct Hkc as [<- | [<- | []]]; reflexivity.
    + apply castQuery_stable; [exact H3 | ]. rewrite Hor. discriminate.
Qed.

End QueryProperties.

(** ** Ordering and pagination *)

Lemma slice_page skip limit l :
  1 <= limit ->
  slice skip limit l = firstn (Z.to_nat limit) (skipn (Z.to_nat skip) l).
Proof.
  intros H. unfold slice.
  destruct (Z.eqb_spec limit 0); [lia | ].
  now rewrite Z.abs_eq by lia.
Qed.

(** [Math.ceil(total / limit)] is the number of pages needed. *)
Lemma ceilDiv_pages total limit :
  0 <= total -> 1 <= limit ->
  exists pages, ceilDiv total limit = Some pages
                /\ (pages - 1) * limit < total <= pages * limit.
Proof.
  intros Ht Hl. unfold ceilDiv.
  destruct (Z.eqb_spec limit 0); [lia | ].
  eexists. split; [reflexivity | ].
  pose proof (Z.div_mod (- total) limit ltac:(lia)) as Hdm.
  pose proof (Z.mod_pos_bound (- total) limit ltac:(lia)) as Hb.
  nia.
Qed.


Section SearchProperties.

Variable isValid : string -> bool.
Variable regexMatch : string -> string -> bool.
Variable parseDate : string -> option Date.

Lemma findPage_run q cast sortBy dir skip limit w :
  castQuery q = Some cast -> 0 <= skip ->
  let w1 := mkWorld (reports w) (users w) (notifications w) (oplog w ++ [ReportFind]) in
  findPage regexMatch q sortBy dir skip limit w
  = match sortCursor (mkCursor sortBy dir skip limit (oplog w1))
            (filter (matches regexMatch cast) (reports w)) with
    | Some ordered => (Done (slice skip limit ordered), w1)
    | None => (Thrown "MongoServerError", w1)
    end.
Proof.
  intros Hc Hs w1. unfold findPage. rewrite Hc. unfold bind, logOp.
  destruct (Z.ltb_spec skip 0); [lia | ]. fold w1.
  now destruct (sortCursor _ _).
Qed.

Lemma findPage_negative_skip q cast sortBy dir skip limit w :
  castQuery q = Some cast -> skip < 0 ->
  findPage regexMatch q sortBy dir skip limit w
  = (Thrown "MongoServerError",
     mkWorld (reports w) (users w) (notifications w) (oplog w ++ [ReportFind])).
Proof.
  intros Hc Hs. unfold findPage. rewrite Hc. unfold bind, logOp.
  destruct (Z.ltb_spec skip 0); [reflexivity | lia].
Qed.

Lemma countDocuments_run q cast w :
  castQuery q = Some cast ->
  countDocuments regexMatch q w
  = (Done (length (filter (matches regexMatch cast) (reports w))),
     mkWorld (reports w) (users w) (notifications w) (oplog w ++ [ReportCount])).
Proof. intros Hc. unfold countDocuments. now rewrite Hc. Qed.

(** Every outcome of [getReports] for a page that starts at or after the
    first hit. *)
Lemma getReports_run user rq w :
  let page := intOr (rq_page rq) 1 in
  let limit := intOr (rq_limit rq) 10 in
  let sortBy := or_else (rq_sortBy rq) "createdAt" in
  let hits := filter (matches regexMatch (getReportsQuery user rq)) (reports w) in
  let w1 := mkWorld (reports w) (users w) (notifications w) (oplog w ++ [ReportFind]) in
  0 <= (page - 1) * limit ->
  getReports regexMatch user rq w
  = match sortCursor (mkCursor sortBy (sortDir (rq_sortOrder rq)) ((page - 1) * limit)
                        limit (oplog w1)) hits with
    | Some ordered =>
        let docs := slice ((page - 1) * limit) limit ordered in
        (Done (mkReply 200
                 (mkReportsPage (length docs) (length hits) page
                    (ceilDiv (Z.of_nat (length hits)) limit) limit docs)),
         mkWorld (reports w) (users w) (notifications w)
           (oplog w ++ [ReportFind; ReportCount]))
    | None => (Thrown "MongoServerError", w1)
    end.
Proof.
  intros page limit sortBy hits w1 Hskip. unfold getReports.
  fold page limit sortBy. fold (sortDir (rq_sortOrder rq)).
  pose proof (findPage_run _ _ sortBy (sortDir (rq_sortOrder rq)) _ limit w
                (castQuery_getReportsQuery user rq) Hskip) as Hfind.
  cbv zeta in Hfind. fold hits w1 in Hfind.
  destruct (sortCursor _ hits) as [ordered | ].
  - rewrite (bind_done _ _ _ _ _ Hfind).
    rewrite (bind_done _ _ _ _ _
               (countDocuments_run _ _ w1 (castQuery_getReportsQuery user rq))).
    unfold ret, w1, hits. cbn [reports users notifications oplog].
    rewrite <- app_assoc. reflexivity.
  - now rewrite (bind_thrown _ _ _ _ _ Hfind).
Qed.


(** An array of values is "is any of"; a single string is an equality. *)
Lemma whenParam_array key (field : Report -> string) l r :
  getPath key r = [VStr (field r)] ->
  matches regexMatch (whenParam key (Some (QArr l)) emptyQuery) r = includes l (field r).
Proof.
  intros Hpath. cbn [whenParam].
  rewrite matches_setField_fresh by reflexivity.
  now rewrite Hpath, evalCond_in_single, matches_emptyQuery, andb_true_r.
Qed.

Lemma whenParam_single key (field : Report -> string) s r :
  getPath key r = [VStr (field r)] -> str_nonempty s = true ->
  matches regexMatch (whenParam key (Some (QStr s)) emptyQuery) r
  = String.eqb s (field r).
Proof.
  intros Hpath Hs. cbn [whenParam]. rewrite Hs.
  rewrite matches_setField_fresh by reflexivity.
  now rewrite Hpath, evalCond_eq_single, matches_emptyQuery, andb_true_r.
Qed.

Lemma whenParam_omitted key q : whenParam key None q = q.
Proof. reflexivity. Qed.







End SearchProperties.

(** ** Omitted search parameters *)

Section Omitted.

Variable isValid : string -> bool.
Variable regexMatch : string -> string -> bool.
Variable parseDate : string -> option Date.

Lemma matchesFilter_agree k (fs : Filter) r r' :
  existsb (fun kc => String.eqb (fst kc) k) fs = false ->
  agreeExcept k r r' ->
  matchesFilter regexMatch fs r = matchesFilter regexMatch fs r'.
Proof.
  intros Hk Hagree. unfold matchesFilter.
  induction fs as [ | kc fs IH]; [reflexivity | ].
  cbn [existsb forallb] in *. apply orb_false_elim in Hk. destruct Hk as [H1 H2].
  rewrite (IH H2). rewrite (Hagree (fst kc)); [reflexivity | ].
  now apply String.eqb_neq.
Qed.

(** A query that does not mention a path cannot tell apart two reports
    that differ only there. *)
Lemma matches_unmentioned k q r r' :
  mentions k q = false -> agreeExcept k r r' ->
  matches regexMatch q r = matches regexMatch q r'.
Proof.
  unfold mentions, hasKey, matches. intros H Hagree.
  apply orb_false_elim in H. destruct H as [Hf Ho].
  rewrite (matchesFilter_agree k _ r r' Hf Hagree). f_equal.
  destruct (q_or q) as [clauses | ]; [ | reflexivity].
  induction clauses as [ | cl clauses IH]; [reflexivity | ].
  cbn [existsb] in *. apply orb_false_elim in Ho. destruct Ho as [H1 H2].
  now rewrite (matchesFilter_agree k cl r r' H1 Hagree), (IH H2).
Qed.

Lemma clean_setField k k0 c q :
  String.eqb k0 k = false -> mentions k q = false ->
  mentions k (setField k0 c q) = false.
Proof.
  intros Hne H. unfold mentions in *.
  now rewrite hasKey_setField_other.
Qed.

Lemma clean_whenStr k o (f : string -> Query -> Query) q :
  (forall s, mentions k (f s q) = false) -> mentions k q = false ->
  mentions k (whenStr o f q) = false.
Proof.
  intros Hf H. unfold whenStr. destruct o as [s | ]; [ | exact H].
  destruct (str_nonempty s); [apply Hf | exact H].
Qed.

Lemma clean_whenParam_other k k0 o q :
  String.eqb k0 k = false -> mentions k q = false ->
  mentions k (whenParam k0 o q) = false.
Proof.
  intros Hne H. unfold whenParam. destruct o as [[s | l] | ]; [ | | exact H].
  - destruct (str_nonempty s); [now apply clean_setField | exact H].
  - now apply clean_setField.
Qed.

Lemma whenParam_falsy k o q : qtruthy o = false -> whenParam k o q = q.
Proof.
  unfold qtruthy, whenParam. destruct o as [[s | l] | ]; intros H;
    [now rewrite H | discriminate | reflexivity].
Qed.

Lemma clean_whenFlag k k0 o q :
  String.eqb k0 k = false -> mentions k q = false ->
  mentions k (whenFlag k0 o q) = false.
Proof.
  intros Hne H. unfold whenFlag. destruct o as [s | ]; [ | exact H].
  destruct (String.eqb s "true"); [now apply clean_setField | ].
  destruct (String.eqb s "false"); [now apply clean_setField | exact H].
Qed.

Lemma clean_textSearch k s q :
  String.eqb "title" k = false -> String.eqb "description" k = false ->
  mentions k q = false ->
  mentions k (setOr [ [("title", CRegex s)]; [("description", CRegex s)] ] q) = false.
Proof.
  intros Ht Hd H. unfold mentions in *. cbn [setOr q_or existsb fst].
  apply orb_false_elim in H. destruct H as [Hf _].
  unfold hasKey in *. cbn [q_fields setOr]. now rewrite Hf, Ht, Hd.
Qed.

(** The parameters [status], [category] and [priority], when omitted or
    empty, leave the query without a word on that field. *)
Lemma searchQuery_omitted k (param : SearchQuery -> option QParam) sq q :
  (k = "status" /\ param = sq_status
   \/ k = "category" /\ param = sq_category
   \/ k = "priority" /\ param = sq_priority) ->
  qtruthy (param sq) = false ->
  searchQuery isValid parseDate sq = Some q ->
  mentions k q = false.
Proof.
  intros Hk Hfalsy. unfold searchQuery.
  set (q1 := whenStr (sq_search sq) _ emptyQuery).
  set (q2 := whenParam "status" (sq_status sq) q1).
  set (q3 := whenParam "category" (sq_category sq) q2).
  set (q4 := whenParam "priority" (sq_priority sq) q3).
  set (q5 := whenStr (sq_assignedTo sq) _ q4).
  set (q6 := whenStr (sq_submittedBy sq) _ q5).
  assert (H1 : mentions k q1 = false).
  { apply clean_whenStr; [intros s | reflexivity].
    apply clean_textSearch; [ | | reflexivity];
      destruct Hk as [[-> _] | [[-> _] | [-> _]]]; reflexivity. }
  assert (H4 : mentions k q4 = false).
  { unfold q4, q3, q2.
    destruct Hk as [[-> ->] | [[-> ->] | [-> ->]]].
    - rewrite (whenParam_falsy "status" _ _ Hfalsy).
      now repeat apply clean_whenParam_other.
    - rewrite (whenParam_falsy "category" _ _ Hfalsy).
      now repeat apply clean_whenParam_other.
    - rewrite (whenParam_falsy "priority" _ _ Hfalsy).
      now repeat apply clean_whenParam_other. }
  assert (H5 : mentions k q5 = false).
  { apply clean_whenStr; [intros s | exact H4].
    destruct (String.eqb s "unassigned");
      [ | destruct (isValid s); [ | exact H4]];
      (apply clean_setField; [ | exact H4]);
      destruct Hk as [[-> _] | [[-> _] | [-> _]]]; reflexivity. }
  assert (H6 : mentions k q6 = false).
  { apply clean_whenStr; [intros s | exact H5].
    destruct (isValid s); [ | exact H5].
    apply clean_setField; [ | exact H5].
    destruct Hk as [[-> _] | [[-> _] | [-> _]]]; reflexivity. }
  assert (Hrest : forall q7, mentions k q7 = false ->
            mentions k
              (whenFlag "feedback.rating" (sq_hasFeedback sq)
                 (whenFlag "images.0" (sq_hasImages sq)
                    (whenStr (sq_location sq)
                       (fun s => setField "location.address.city" (CRegex s)) q7)))
            = false).
  { intros q7 H7.
    apply clean_whenFlag;
      [destruct Hk as [[-> _] | [[-> _] | [-> _]]]; reflexivity | ].
    apply clean_whenFlag;
      [destruct Hk as [[-> _] | [[-> _] | [-> _]]]; reflexivity | ].
    apply clean_whenStr; [intros s | exact H7].
    apply clean_setField; [ | exact H7].
    destruct Hk as [[-> _] | [[-> _] | [-> _]]]; reflexivity. }
  destruct (truthy (sq_dateFrom sq) || truthy (sq_dateTo sq)).
  - destruct (dateBound parseDate (sq_dateFrom sq)) as [lo | ]; [ | discriminate].
    destruct (dateBound parseDate (sq_dateTo sq)) as [hi | ]; [ | discriminate].
    intros H. injection H as <-. apply Hrest.
    apply clean_setField; [ | exact H6].
    destruct Hk as [[-> _] | [[-> _] | [-> _]]]; reflexivity.
  - intros H. injection H as <-. now apply Hrest.
Qed.

(** An omitted [status], [category] or [priority] parameter puts no
    constraint on that field: the query treats alike two reports that
    differ only there. *)
Lemma omitted_parameter_no_constraint k (param : SearchQuery -> option QParam) sq q r r' :
  (k = "status" /\ param = sq_status
   \/ k = "category" /\ param = sq_category
   \/ k = "priority" /\ param = sq_priority) ->
  qtruthy (param sq) = false ->
  searchQuery isValid parseDate sq = Some q ->
  agreeExcept k r r' ->
  matches regexMatch q r = matches regexMatch q r'.
Proof.
  intros Hk Hfalsy Hq Hagree.
  apply (matches_unmentioned k); [ | exact Hagree].
  exact (searchQuery_omitted k param sq q Hk Hfalsy Hq).
Qed.

End Omitted.

End Properties.

(** ** On the sample world

    The sample cast and the sample store stand in for the libraries. *)

Section OnTheSampleWorld.

Existing Instance sampleMongoose.
Existing Instance sampleMongoDB.

(** C7, at the input where the code departs from it: a comma-list value of
    the status parameter reaches the handler as one string and is compared
    as such, so no report matches; the same two values as an array match. *)
Theorem C7_comma_list_is_one_value :
  In reportSubmitted (reports sampleWorld)
  /\ status reportSubmitted = "submitted"
  /\ (exists found w',
        advancedReportSearch hex24 containsCI sampleParseDate
          (withStatus (QStr "submitted,in_review")) sampleWorld
        = (Done (mkReply 200 found), w')
        /\ sb_reports found = [] /\ sb_totalReports found = 0%nat)
  /\ (exists found w',
        advancedReportSearch hex24 containsCI sampleParseDate
          (withStatus (QArr ["submitted"; "in_review"])) sampleWorld
        = (Done (mkReply 200 found), w')
        /\ sb_reports found = [reportSubmitted] /\ sb_totalReports found = 1%nat).
Proof.
  split; [now left | split; [reflexivity | split]].
  - eexists. eexists. split; [vm_compute; reflexivity | split; reflexivity].
  - eexists. eexists. split; [vm_compute; reflexivity | split; reflexivity].
Qed.

(** Whenever [register] answers, the account it created has the role the
    request maps to. *)
Lemma register_done_role generateToken userValid newId b w rep w' :
  register generateToken userValid newId b w = (Done rep, w') ->
  role (rr_user (body rep)) = registeredRole (rb_role b).
Proof.
  unfold register, findUserByEmail, createUser.
  unfold bind at 1. unfold bind at 1. unfold logOp at 1.
  cbn [users reports notifications oplog].
  destruct (find _ (users w)); [discriminate | ].
  fold (registeredRole (rb_role b)).
  destruct (userValid _ _); [ | discriminate].
  unfold bind, logOp, ret. cbn [users reports notifications oplog].
  intros H. inversion H; subst. reflexivity.
Qed.

(** ** The theorems at work on the sample world *)

(** The sample reports have distinct ids. *)
Lemma sampleWorld_unique_ids : NoDup (map r_id (reports sampleWorld)).
Proof.
  repeat constructor; simpl; intuition discriminate.
Qed.

(** Alice's feedback on her resolved report closes it; her next attempt is
    refused. *)
Lemma C3_witness :
  addFeedback (hours 50) alice idR2 (Some 5) None sampleWorld
  = (Done feedbackReply, snd feedbackRun)
  /\ feedback (body feedbackReply) = Some (mkFeedback (Some 5) None (hours 50))
  /\ status (body feedbackReply) = "closed"
  /\ exists w'',
       addFeedback (hours 51) alice idR2 (Some 1) None (snd feedbackRun)
       = (Next "You can only provide feedback for resolved reports" 400, w'')
       /\ reports w'' = reports (snd feedbackRun).
Proof.
  assert (H : addFeedback (hours 50) alice idR2 (Some 5) None sampleWorld
              = (Done feedbackReply, snd feedbackRun)) by (vm_compute; reflexivity).
  destruct (C3_feedback_amended (hours 50) alice idR2 (Some 5) None sampleWorld
              feedbackReply (snd feedbackRun) H) as (_ & Hf & Hs & _ & Hagain).
  split; [exact H | split; [exact Hf | split; [exact Hs | ]]].
  exact (Hagain (hours 51) (Some 1) None).
Defined.

(** The sample report resolved at 48 hours counts for 48. *)
Lemma C4_witness :
  status reportResolved = "resolved"
  /\ createdAt reportResolved + hours 48 = hours 48
  /\ countedAsResolved reportResolved = true
  /\ resolutionTime reportResolved = Some (hours 48)
  /\ averageResolutionHours (performanceOf containsCI [reportResolved]) = 48.
Proof.
  split; [reflexivity | split; [reflexivity | ]].
  destruct (C4_resolution_time_amended containsCI [reportResolved]) as (_ & _ & H).
  apply (H reportResolved
           [mkEntry "submitted" 0 (Some "Report submitted") idAlice;
            mkEntry "assigned" (hours 1) None idCarol]
           (mkEntry "resolved" (hours 48) None idBob) []); reflexivity.
Defined.

(** Closing one existing report, named in upper case, and one unknown
    report closes the one found. *)
Lemma C5_witness :
  [idR1Upper; idMissing] <> []
  /\ forallb hex24 [idR1Upper; idMissing] = true
  /\ NoDup (map r_id (reports sampleWorld))
  /\ mapOpt castObjectId [idR1Upper; idMissing] = Some [idR1; idMissing]
  /\ exists rep w',
       runBulk hex24 containsCI 99 carol (BulkDelete None) (Ids [idR1Upper; idMissing])
         sampleWorld
       = (Done rep, w')
       /\ code rep = 200
       /\ bb_count (body rep) = 1%nat
       /\ bb_reportIds (body rep) = [idR1]
       /\ reports w'
          = [bulkResult sampleWorld 99 carol (BulkDelete None) reportSubmitted;
             reportResolved].
Proof.
  assert (Hne : [idR1Upper; idMissing] <> []) by discriminate.
  assert (Hall : forallb hex24 [idR1Upper; idMissing] = true) by reflexivity.
  assert (Hcast : mapOpt castObjectId [idR1Upper; idMissing] = Some [idR1; idMissing])
    by reflexivity.
  split; [exact Hne | split; [exact Hall | split; [exact sampleWorld_unique_ids | ]]].
  split; [exact Hcast | ].
  destruct (C5_bulk_batch_validation hex24 containsCI 99 carol (BulkDelete None)
              [idR1Upper; idMissing] sampleWorld) as (_ & _ & _ & _ & H).
  destruct (H [idR1; idMissing] Hne Hall I sampleWorld_unique_ids Hcast) as (_ & Hfound).
  apply Hfound. discriminate.
Defined.



(** Resolving the pothole report in bulk notifies Alice once. *)
Lemma C8_witness :
  NoDup (map r_id (reports sampleWorld))
  /\ runBulk hex24 containsCI 99 carol (BulkStatus "resolved" None)
       (Ids [idR1; idMissing]) sampleWorld
     = (Done bulkResolveReply, snd bulkResolveRun)
  /\ exists news,
       notifications (snd bulkResolveRun) = notifications sampleWorld ++ news
       /\ map recipient (filter (notifiedAbout idR1) news) = [idAlice].
Proof.
  assert (Hrun : runBulk hex24 containsCI 99 carol (BulkStatus "resolved" None)
                   (Ids [idR1; idMissing]) sampleWorld
                 = (Done bulkResolveReply, snd bulkResolveRun))
    by (vm_compute; reflexivity).
  split; [exact sampleWorld_unique_ids | split; [exact Hrun | ]].
  destruct (C8_bulk_notifications_amended hex24 containsCI 99 carol
              (BulkStatus "resolved" None) [idR1; idMissing] sampleWorld
              bulkResolveReply (snd bulkResolveRun) sampleWorld_unique_ids Hrun)
    as (oids & news & Hcast & Hnews & Hcount & _).
  exists news. split; [exact Hnews | ].
  apply (Hcount reportSubmitted); [now left | ].
  vm_compute in Hcast. injection Hcast as <-. reflexivity.
Defined.

(** A registration asking for the admin role creates a user. *)
Lemma C10_witness :
  find (fun u => String.eqb (email u) (rb_email adminRequest)) (users sampleWorld) = None
  /\ sampleUserValid
       (mkUser idNew (rb_firstName adminRequest) (rb_lastName adminRequest)
          (rb_email adminRequest) (registeredRole (rb_role adminRequest)))
       (rb_password adminRequest) = true
  /\ exists u w',
       register sampleToken sampleUserValid idNew adminRequest sampleWorld
       = (Done (mkReply 201 (mkRegisterReply (sampleToken u) u)), w')
       /\ users w' = users sampleWorld ++ [u]
       /\ role u = "user".
Proof.
  assert (Hfree : find (fun u => String.eqb (email u) (rb_email adminRequest))
                    (users sampleWorld) = None) by reflexivity.
  assert (Hvalid : sampleUserValid
            (mkUser idNew (rb_firstName adminRequest) (rb_lastName adminRequest)
               (rb_email adminRequest) (registeredRole (rb_role adminRequest)))
            (rb_password adminRequest) = true) by reflexivity.
  split; [exact Hfree | split; [exact Hvalid | ]].
  destruct (C10_register_role sampleToken sampleUserValid idNew adminRequest sampleWorld
              Hfree Hvalid) as (u & w' & Hrun & Husers & _ & _ & _ & _ & Hadm).
  exists u, w'. split; [exact Hrun | split; [exact Husers | ]].
  apply Hadm. reflexivity.
Defined.

(** C8 fails for a bulk status update to closed: the report is closed and
    its submitter is told nothing. *)
Lemma C8_bulk_close_notifies_nobody :
  exists rep w',
    bulkUpdateReportStatus hex24 containsCI 99 carol (Ids [idR1]) "closed" None sampleWorld
    = (Done rep, w')
    /\ bb_count (body rep) = 1%nat
    /\ option_map status (find (byId idR1) (reports w')) = Some "closed"
    /\ notifications w' = notifications sampleWorld.
Proof.
  eexists. eexists. split; [vm_compute; reflexivity | repeat split].
Qed.

End OnTheSampleWorld.

(** * Properties of the further handlers *)

Section FurtherProperties.

Context {mongoose : Mongoose} {mongodb : MongoDB}.

(** ** createReport *)

Lemma forEach_notify {A} (body : A -> M unit) (ns : A -> Notification) (ops : A -> DbOp) :
  (forall a w,
      body a w
      = (Done tt, mkWorld (reports w) (users w) (notifications w ++ [ns a])
                    (oplog w ++ [ops a]))) ->
  forall l w,
    forEach body l w
    = (Done tt, mkWorld (reports w) (users w) (notifications w ++ map ns l)
                  (oplog w ++ map ops l)).
Proof.
  intros Hbody. induction l as [ | a l IH]; intros w; simpl.
  - unfold ret. destruct w. simpl. now rewrite !app_nil_r.
  - rewrite (bind_done _ _ _ _ _ (Hbody a w)). rewrite IH. simpl.
    now rewrite <- !app_assoc.
Qed.

Lemma missingFields_nonempty b :
  negb (truthy (cr_title b)) || negb (truthy (cr_description b))
  || negb (truthy (cr_category b)) = true ->
  missingFields b <> [].
Proof.
  unfold missingFields.
  destruct (truthy (cr_title b)); [ | discriminate].
  destruct (truthy (cr_description b)); [ | discriminate].
  destruct (truthy (cr_category b)); discriminate.
Qed.

Section CreateReport.
Variable geoIndexable : list Q -> bool.

Lemma createReport_cases now newId user b w :
  (exists msg errs,
      createReport geoIndexable now newId user b w
      = (Done (mkReply 400 (Invalid msg errs)), w) /\ errs <> [])
  \/ (exists n w', createReport geoIndexable now newId user b w = (Thrown n, w')
                   /\ untouched w w')
  \/ (exists r,
        createReport geoIndexable now newId user b w
        = (Done (mkReply 201 (Created r)),
           mkWorld (reports w ++ [r]) (users w)
             (notifications w
              ++ map (newReportNotice now b r)
                   (filter (fun u => String.eqb (role u) "admin") (users w)))
             (oplog w ++ [ReportSave newId]
              ++ map (fun u => NotificationCreate (u_id u))
                   (filter (fun u => String.eqb (role u) "admin") (users w))))
        /\ r = mkReport newId (trim (or_else (cr_title b) EmptyString))
                 (trim (or_else (cr_description b) EmptyString))
                 (or_else (cr_category b) EmptyString)
                 (or_else (cr_priority b) "medium") "submitted"
                 (match cr_location b with Some l => addressCity l | None => None end)
                 [] (a_id user) None
                 [mkEntry "submitted" now (Some "Report submitted") (a_id user)]
                 None now now
        /\ missingFields b = []
        /\ createErrors (or_else (cr_title b) EmptyString)
             (or_else (cr_description b) EmptyString)
             (or_else (cr_category b) EmptyString)
             (or_else (cr_priority b) "medium") = []).
Proof.
  unfold createReport.
  destruct (negb (truthy (cr_title b)) || negb (truthy (cr_description b))
            || negb (truthy (cr_category b))) eqn:Hmiss.
  - left. eexists. eexists. split; [reflexivity | now apply missingFields_nonempty].
  - destruct (pointOf (cr_location b)) as [point | ] eqn:Hpoint.
    2:{ left. eexists. eexists. split; [reflexivity | discriminate]. }
    unfold reportCreate.
    destruct (createErrors _ _ _ _) as [ | e errs] eqn:Herrs.
    2:{ left. eexists. eexists. split; [reflexivity | discriminate]. }
    destruct (geoIndexable point) eqn:Hgeo.
    2:{ right. left. eexists. eexists. split; [reflexivity | repeat split]. }
    right. right. eexists. split; [ | split; [reflexivity | split; [ | reflexivity]]].
    + unfold bind at 1. unfold bind at 1. unfold logOp at 1.
      cbn [reports users notifications oplog].
      unfold bind at 1. unfold findUsersByRole at 1.
      cbn [reports users notifications oplog].
      unfold bind at 1.
      erewrite forEach_notify.
      2:{ intros a w0. unfold createNotification, bind, logOp.
          cbn [reports users notifications oplog]. reflexivity. }
      cbn [reports users notifications oplog]. unfold ret.
      rewrite <- !app_assoc. reflexivity.
    + unfold missingFields.
      destruct (truthy (cr_title b)); [ | discriminate].
      destruct (truthy (cr_description b)); [ | discriminate].
      destruct (truthy (cr_category b)); [reflexivity | discriminate].
Qed.
End CreateReport.

Lemma createErrors_nil ttl desc cat prio :
  createErrors ttl desc cat prio = [] ->
  str_nonempty (trim ttl) = true /\ str_nonempty (trim desc) = true
  /\ includes validCategories cat = true /\ includes validPriorities prio = true.
Proof.
  unfold createErrors.
  destruct (str_nonempty (trim ttl)); [ | discriminate].
  destruct (str_nonempty (trim desc)); [ | discriminate].
  destruct (includes validCategories cat); [ | discriminate].
  destruct (includes validPriorities prio); [ | discriminate].
  repeat split.
Qed.

(** X1. A report creation that answers, but not with 201, answers 400,
    names at least one field at fault and leaves the store and the log
    exactly as they were. *)
Theorem createReport_rejects_without_writing geoIndexable now newId user b w rep w' :
  createReport geoIndexable now newId user b w = (Done rep, w') ->
  code rep <> 201 ->
  w' = w /\ code rep = 400
  /\ exists msg errs, body rep = Invalid msg errs /\ errs <> [].
Proof.
  intros Hrun Hcode.
  destruct (createReport_cases geoIndexable now newId user b w)
    as [(msg & errs & E & Hne) | [(n & w0 & E & _) | (r & E & _)]];
    rewrite E in Hrun; inversion Hrun; subst.
  - split; [reflexivity | split; [reflexivity | ]]. now exists msg, errs.
  - now contradiction Hcode.
Qed.


(** X2. A report creation that answers 201 has stored exactly one new
    report: submitted by the caller, unassigned, in status submitted with
    the one timeline entry that says so, with a non-blank title and a
    category and priority of the schema; and it has sent one notification
    to each admin, of high priority exactly when the request's priority is
    the string critical. *)
Theorem createReport_created geoIndexable now newId user b w rep w' :
  createReport geoIndexable now newId user b w = (Done rep, w') ->
  code rep = 201 ->
  exists r,
    body rep = Created r
    /\ reports w' = reports w ++ [r]
    /\ users w' = users w
    /\ r_id r = newId /\ submittedBy r = a_id user /\ assignedTo r = None
    /\ status r = "submitted"
    /\ timeline r = [mkEntry "submitted" now (Some "Report submitted") (a_id user)]
    /\ inSync r
    /\ str_nonempty (title r) = true
    /\ includes validCategories (category r) = true
    /\ includes validPriorities (priority r) = true
    /\ notifications w'
       = notifications w
         ++ map (newReportNotice now b r)
              (filter (fun u => String.eqb (role u) "admin") (users w)).
Proof.
  intros Hrun Hcode.
  destruct (createReport_cases geoIndexable now newId user b w)
    as [(msg & errs & E & Hne) | [(n & w0 & E & _) | (r & E & Hr & _ & Herrs)]];
    rewrite E in Hrun; inversion Hrun; subst rep w'; try discriminate.
  apply createErrors_nil in Herrs. destruct Herrs as (Ht & _ & Hc & Hp).
  exists r. rewrite Hr. cbn [body reports users notifications r_id submittedBy
    assignedTo status timeline title category priority].
  repeat split; assumption.
Qed.


(** ** getReportById *)

Lemma populate_id o w u : populate o w = Some u -> o = Some (u_id u).
Proof.
  destruct o as [id | ]; [ | discriminate]. simpl. intros H.
  apply find_some in H. destruct H as [_ H]. apply String.eqb_eq in H. now subst.
Qed.

Lemma getReportById_untouched user id w :
  untouched w (snd (getReportById user id w)).
Proof.
  unfold getReportById. destruct (castObjectId id) as [oid | ] eqn:Ecast.
  2: { rewrite (bind_thrown _ _ _ _ _ (findById_uncastable id w Ecast)). repeat split. }
  rewrite (bind_done _ _ _ _ _ (findById_run id oid w Ecast)).
  destruct (find (byId oid) (reports w)) as [r | ]; [ | repeat split].
  cbn [option_map fields]. unfold populateM, bind.
  destruct (String.eqb (a_role user) "user").
  - destruct (populate (Some (submittedBy r)) _) as [s | ]; [ | repeat split].
    destruct (negb (String.eqb (u_id s) (a_id user))); [repeat split | ].
    cbn [ret]. destruct (_ && _); repeat split.
  - cbn [ret]. destruct (_ && _); repeat split.
Qed.

Lemma getReportById_done user id w rep w' :
  getReportById user id w = (Done rep, w') ->
  exists r,
    reportOf w id = Some r
    /\ rep = mkReply 200 (mkPopulated r (populate (Some (submittedBy r)) w)
                            (populate (assignedTo r) w))
    /\ (a_role user = "user" ->
        option_map u_id (populate (Some (submittedBy r)) w) = Some (a_id user))
    /\ (a_role user = "employee" ->
        forall a, populate (assignedTo r) w = Some a -> u_id a = a_id user).
Proof.
  unfold getReportById. destruct (castObjectId id) as [oid | ] eqn:Ecast.
  2: { now rewrite (bind_thrown _ _ _ _ _ (findById_uncastable id w Ecast)). }
  rewrite (bind_done _ _ _ _ _ (findById_run id oid w Ecast)).
  rewrite (reportOf_found _ id oid Ecast).
  destruct (find (byId oid) (reports w)) as [r | ]; [ | discriminate].
  cbn [option_map fields]. unfold populateM, bind.
  change (populate ?o (mkWorld (reports w) (users w) ?n ?l)) with (populate o w).
  intros H. exists r. split; [reflexivity | ].
  destruct (String.eqb (a_role user) "user") eqn:Huser.
  - destruct (populate (Some (submittedBy r)) w) as [s | ] eqn:Hs; [ | discriminate].
    destruct (String.eqb (u_id s) (a_id user)) eqn:Hown; [ | discriminate].
    cbn [negb ret] in H. apply String.eqb_eq in Huser, Hown.
    rewrite Huser in H. change (String.eqb "user" "employee") with false in H.
    cbn [andb] in H. inversion H; subst rep w'; clear H.
    split; [reflexivity | split].
    + intros _. simpl. now rewrite Hown.
    + rewrite Huser. discriminate.
  - cbn [ret] in H.
    destruct (String.eqb (a_role user) "employee") eqn:Hemp.
    + cbn [andb] in H.
      destruct (assignedElsewhere _ user) eqn:Helse; [discriminate | ].
      inversion H; subst rep w'; clear H.
      split; [reflexivity | split].
      * intros E. rewrite E in Huser. discriminate.
      * intros _ a Ha. rewrite Ha in Helse. simpl in Helse.
        apply negb_false_iff in Helse. apply String.eqb_eq in Helse. exact Helse.
    + cbn [andb] in H. inversion H; subst rep w'; clear H.
      split; [reflexivity | split].
      * intros E. rewrite E in Huser. discriminate.
      * intros E. rewrite E in Hemp. discriminate.
Qed.

Lemma getReportById_allowed user id w r :
  reportOf w id = Some r ->
  (a_role user = "user" ->
   option_map u_id (populate (Some (submittedBy r)) w) = Some (a_id user)) ->
  (a_role user = "employee" ->
   forall a, populate (assignedTo r) w = Some a -> u_id a = a_id user) ->
  getReportById user id w
  = (Done (mkReply 200 (mkPopulated r (populate (Some (submittedBy r)) w)
                          (populate (assignedTo r) w))),
     mkWorld (reports w) (users w) (notifications w)
       (oplog w ++ [ReportFindById (r_id r)])).
Proof.
  intros Hfind Huser Hemp.
  destruct (reportOf_cast _ _ _ Hfind) as (oid & Ecast & Hfind' & <-).
  unfold getReportById. rewrite (bind_done _ _ _ _ _ (findById_run id _ w Ecast)).
  rewrite Hfind'. cbn [option_map fields]. unfold populateM, bind.
  change (populate ?o (mkWorld (reports w) (users w) ?n ?l)) with (populate o w).
  assert (Hnot : String.eqb (a_role user) "employee"
                 && assignedElsewhere
                      (option_map u_id (populate (assignedTo r) w)) user = false).
  { destruct (String.eqb (a_role user) "employee") eqn:E; [ | reflexivity].
    apply String.eqb_eq in E. specialize (Hemp E).
    destruct (populate (assignedTo r) w) as [a | ]; [ | reflexivity].
    simpl. rewrite (Hemp a eq_refl). now rewrite String.eqb_refl. }
  destruct (String.eqb (a_role user) "user") eqn:E.
  - apply String.eqb_eq in E. specialize (Huser E).
    destruct (populate (Some (submittedBy r)) w) as [s | ]; [ | discriminate].
    simpl in Huser. injection Huser as Huser. rewrite Huser, String.eqb_refl.
    cbn [negb ret]. now rewrite Hnot.
  - cbn [ret]. now rewrite Hnot.
Qed.

Lemma find_byId_unique l r :
  NoDup (map r_id l) -> In r l -> find (byId (r_id r)) l = Some r.
Proof.
  induction l as [ | y l IH]; simpl; intros Hnd Hin; [contradiction | ].
  inversion Hnd as [ | ? ? Hnot Hnd']; subst. unfold byId at 1.
  destruct Hin as [-> | Hin]; [now rewrite String.eqb_refl | ].
  destruct (String.eqb (r_id y) (r_id r)) eqn:E; [ | now apply IH].
  apply String.eqb_eq in E. exfalso. apply Hnot. rewrite E. now apply in_map.
Qed.

Lemma In_firstn {A} n (l : list A) x : In x (firstn n l) -> In x l.
Proof.
  revert l. induction n as [ | n IH]; intros [ | y l]; simpl; try contradiction.
  intros [-> | H]; [now left | right; now apply IH].
Qed.

Lemma In_skipn {A} n (l : list A) x : In x (skipn n l) -> In x l.
Proof.
  revert l. induction n as [ | n IH]; intros [ | y l]; simpl; try contradiction; auto.
Qed.

Lemma find_account_exists (id : ObjectId) (l : list User) :
  (exists u, In u l /\ u_id u = id) ->
  exists s, find (fun u => String.eqb (u_id u) id) l = Some s /\ u_id s = id.
Proof.
  intros (u & Hin & Hid).
  destruct (find (fun u => String.eqb (u_id u) id) l) as [s | ] eqn:E.
  - exists s. split; [reflexivity | ].
    apply find_some in E. now apply String.eqb_eq.
  - exfalso. apply (find_none _ _ E) in Hin. rewrite Hid, String.eqb_refl in Hin.
    discriminate.
Qed.

(** X3. Who may read a report by its id.  The id of the request denotes
    the stored report whose [_id] is the cast of the string, whatever its
    spelling.  The handler answers (always 200, with the stored report and
    its references resolved) exactly when the id denotes a report and, for
    a caller of role user, the submitter's account exists and is the
    caller's, and, for a caller of role employee, the assignee's account,
    if there is one, is the caller's.  An id that cannot be cast makes the
    handler fail with a [CastError].  Whatever it answers, it writes
    nothing. *)
Theorem getReportById_access user id w :
  ((exists rep w', getReportById user id w = (Done rep, w'))
   <-> exists r,
         reportOf w id = Some r
         /\ (a_role user = "user" ->
             option_map u_id (populate (Some (submittedBy r)) w) = Some (a_id user))
         /\ (a_role user = "employee" ->
             forall a, populate (assignedTo r) w = Some a -> u_id a = a_id user))
  /\ (forall rep w',
        getReportById user id w = (Done rep, w') ->
        code rep = 200 /\ reportOf w id = Some (pr_report (body rep)))
  /\ (castObjectId id = None -> getReportById user id w = (Thrown "CastError", w))
  /\ untouched w (snd (getReportById user id w)).
Proof.
  split; [split | split; [ | split]].
  - intros (rep & w' & H). apply getReportById_done in H.
    destruct H as (r & Hf & _ & Hu & He). now exists r.
  - intros (r & Hf & Hu & He). eexists. eexists.
    now apply (getReportById_allowed user id w r).
  - intros rep w' H. apply getReportById_done in H.
    destruct H as (r & Hf & -> & _). split; [reflexivity | exact Hf].
  - intros Ecast. unfold getReportById.
    now rewrite (bind_thrown _ _ _ _ _ (findById_uncastable id w Ecast)).
  - apply getReportById_untouched.
Qed.

Section ListedAndFetched.

Variable regexMatch : string -> string -> bool.

Lemma In_slice skip limit (l : list Report) x : In x (slice skip limit l) -> In x l.
Proof.
  unfold slice. destruct (limit =? 0); intros H.
  - now apply In_skipn in H.
  - now apply In_firstn, In_skipn in H.
Qed.

Lemma getReports_negative_skip user rq w :
  (intOr (rq_page rq) 1 - 1) * intOr (rq_limit rq) 10 < 0 ->
  getReports regexMatch user rq w
  = (Thrown "MongoServerError",
     mkWorld (reports w) (users w) (notifications w) (oplog w ++ [ReportFind])).
Proof.
  intros Hskip. unfold getReports.
  now rewrite (bind_thrown _ _ _ _ _
                 (findPage_negative_skip regexMatch _ _ _ _ _ _ w
                    (castQuery_getReportsQuery user rq) Hskip)).
Qed.

Lemma listed_in_scope user rq w rep w1 r :
  getReports regexMatch user rq w = (Done rep, w1) ->
  In r (rp_reports (body rep)) ->
  In r (reports w)
  /\ matches regexMatch (getReportsQuery user rq) r = true
  /\ reports w1 = reports w /\ users w1 = users w.
Proof.
  intros Hrun Hin.
  destruct (Z.ltb_spec ((intOr (rq_page rq) 1 - 1) * intOr (rq_limit rq) 10) 0)
    as [Hneg | Hskip].
  { rewrite (getReports_negative_skip user rq w Hneg) in Hrun. discriminate. }
  rewrite (getReports_run regexMatch user rq w Hskip) in Hrun.
  destruct (sortCursor _ _) as [ordered | ] eqn:Hsort; [ | discriminate].
  inversion Hrun; subst rep w1; clear Hrun. cbn [body rp_reports] in Hin.
  apply In_slice in Hin.
  apply (Permutation_in _ (Permutation_sym (sortCursor_permutes _ _ _ Hsort))) in Hin.
  apply filter_In in Hin. destruct Hin as [Hin Hm].
  repeat split; assumption.
Qed.

(** X4. Whatever the report list shows a caller, the caller can fetch by
    its id: a report on any page of [getReports] is answered by
    [getReportById] with 200 and the same report, for every string that
    mongoose casts to the report's id, provided report ids are unique and
    the caller has an account. *)
Theorem listed_report_can_be_fetched user rq w rep w1 r id :
  NoDup (map r_id (reports w)) ->
  (exists u, In u (users w) /\ u_id u = a_id user) ->
  getReports regexMatch user rq w = (Done rep, w1) ->
  In r (rp_reports (body rep)) ->
  castObjectId id = Some (r_id r) ->
  exists fetched w2,
    getReportById user id w1 = (Done (mkReply 200 fetched), w2)
    /\ pr_report fetched = r.
Proof.
  intros Hnd Hacc Hrun Hin Hid.
  destruct (listed_in_scope user rq w rep w1 r Hrun Hin)
    as (Hr & Hm & Hreps & Husers).
  assert (Hfind : reportOf w1 id = Some r).
  { rewrite (reportOf_found _ _ _ Hid), Hreps. now apply find_byId_unique. }
  eexists. eexists. split.
  - apply (getReportById_allowed user id w1 r Hfind).
    + intros Hrole.
      assert (Hrole' : In (a_role user) ["admin"; "employee"; "user"])
        by (rewrite Hrole; right; right; now left).
      rewrite (matches_getReportsQuery regexMatch user rq r Hrole') in Hm.
      apply andb_prop in Hm. destruct Hm as [Hv _].
      unfold visibilityScope in Hv. rewrite Hrole in Hv.
      change (String.eqb "user" "admin") with false in Hv.
      change (String.eqb "user" "employee") with false in Hv.
      cbn iota in Hv. apply String.eqb_eq in Hv.
      unfold populate. rewrite Husers, Hv.
      destruct (find_account_exists (a_id user) (users w) Hacc) as (s & -> & Hs).
      simpl. now rewrite Hs.
    + intros Hrole a Ha.
      assert (Hrole' : In (a_role user) ["admin"; "employee"; "user"])
        by (rewrite Hrole; right; now left).
      rewrite (matches_getReportsQuery regexMatch user rq r Hrole') in Hm.
      apply andb_prop in Hm. destruct Hm as [Hv _].
      unfold visibilityScope in Hv. rewrite Hrole in Hv.
      change (String.eqb "employee" "admin") with false in Hv.
      change (String.eqb "employee" "employee") with true in Hv.
      cbn iota in Hv. apply populate_id in Ha. rewrite Ha in Hv.
      now apply String.eqb_eq in Hv.
  - reflexivity.
Qed.

End ListedAndFetched.


(** ** Uploads *)

Lemma replaceReport_twice r1 r2 l :
  r_id r1 = r_id r2 -> replaceReport r2 (replaceReport r1 l) = replaceReport r2 l.
Proof.
  intros E. unfold replaceReport. rewrite map_map. apply map_ext. intros y.
  rewrite <- E. destruct (String.eqb (r_id y) (r_id r1)) eqn:Ey; [ | now rewrite Ey].
  now rewrite String.eqb_refl.
Qed.

Lemma addTimelineEvent_invalid now st comment userId d w :
  includes validStatuses st = false ->
  addTimelineEvent now st comment userId d w = (Thrown "ValidationError", w).
Proof.
  intros Hst. unfold addTimelineEvent, save.
  set (d2 := set_status st (push_timeline (mkEntry st now comment userId) d)).
  assert (Hall : forallb (validPath (fields d2)) (modified d2) = false).
  { change (modified d2)
      with ((modified d ++ [PPushed (mkEntry st now comment userId)]) ++ [PStatus]).
    assert (H2 : validPath (fields d2) PStatus = false) by exact Hst.
    rewrite !forallb_app. cbn [forallb]. rewrite H2. cbn [andb].
    apply andb_false_r. }
  now rewrite Hall.
Qed.

Lemma save_fresh_run now r w :
  save now (mkDoc r []) w
  = (Done (mkDoc (touch now r) []),
     mkWorld (replaceReport (touch now r) (reports w)) (users w) (notifications w)
       (oplog w ++ [ReportSave (r_id r)])).
Proof. reflexivity. Qed.

Section Uploads.

Variable cloud : File -> string -> Date -> option string.

Lemma mapM_upload_ok {B} now ty (g : string -> File -> B) files w :
  forallb (uploaded cloud now ty) files = true ->
  mapM (fun file => url <- uploadToCloudinary cloud now ty file ;; ret (g url file))
    files w
  = (Done (map (fun f => g (urlOf cloud now ty f) f) files), w).
Proof.
  induction files as [ | f files IH]; [reflexivity | ].
  cbn [forallb mapM map]. intros H. apply andb_prop in H. destruct H as [Hf Hrest].
  unfold uploaded in Hf. unfold urlOf at 1. unfold bind at 1. unfold bind at 1.
  unfold uploadToCloudinary at 1.
  destruct (cloud f ty now) as [url | ]; [ | discriminate].
  cbn [ret]. rewrite (bind_done _ _ _ _ _ (IH Hrest)). reflexivity.
Qed.

Lemma mapM_upload_fail {B} now ty (g : string -> File -> B) files w :
  forallb (uploaded cloud now ty) files = false ->
  mapM (fun file => url <- uploadToCloudinary cloud now ty file ;; ret (g url file))
    files w
  = (Next "File upload failed" 500, w).
Proof.
  induction files as [ | f files IH]; [discriminate | ].
  cbn [forallb mapM]. intros H. unfold bind at 1. unfold bind at 1.
  unfold uploadToCloudinary at 1. unfold uploaded at 1 in H.
  destruct (cloud f ty now) as [url | ]; [ | reflexivity].
  cbn [ret andb] in *. now rewrite (bind_next _ _ _ _ _ _ (IH H)).
Qed.

Lemma uploadReportImages_uncastable now user id files caption w :
  castObjectId id = None ->
  uploadReportImages cloud now user id files caption w = (Thrown "CastError", w).
Proof.
  intros Ecast. unfold uploadReportImages.
  now rewrite (bind_thrown _ _ _ _ _ (findById_uncastable id w Ecast)).
Qed.

(** Every outcome of [uploadReportImages] for an id that is cast to [oid]. *)
Lemma uploadReportImages_run now user id oid files caption w :
  castObjectId id = Some oid ->
  let logged := mkWorld (reports w) (users w) (notifications w)
                  (oplog w ++ [ReportFindById oid]) in
  uploadReportImages cloud now user id files caption w
  = match find (byId oid) (reports w) with
    | None => (Next "Report not found" 404, logged)
    | Some r =>
        if String.eqb (a_role user) "user"
           && negb (String.eqb (submittedBy r) (a_id user))
        then (Next "You can only upload images to your own reports" 403, logged)
        else if String.eqb (a_role user) "employee"
                && assignedElsewhere (assignedTo r) user
        then (Next "You can only upload images to reports assigned to you" 403, logged)
        else if Nat.eqb (length files) 0
        then (Next "No images uploaded" 400, logged)
        else if forallb (uploaded cloud now "report") files then
          let imgs := reportImages cloud now caption files in
          let r1 := touch now (withImages imgs r) in
          let r2 := eventReport now (status r)
                      (Some (showNat (length files) ^^ " image(s) uploaded"))
                      (a_id user) r1 in
          if includes validStatuses (status r) then
            (Done (mkReply 200 (mkImagesReply imgs r2)),
             mkWorld (replaceReport r2 (reports w)) (users w) (notifications w)
               (oplog w ++ [ReportFindById oid; ReportSave (r_id r); ReportSave (r_id r)]))
          else
            (Thrown "ValidationError",
             mkWorld (replaceReport r1 (reports w)) (users w) (notifications w)
               (oplog w ++ [ReportFindById oid; ReportSave (r_id r)]))
        else (Next "File upload failed" 500, logged)
    end.
Proof.
  intros Ecast logged. unfold uploadReportImages.
  rewrite (bind_done _ _ _ _ _ (findById_run id oid w Ecast)). fold logged.
  destruct (find (byId oid) (reports w)) as [r | ]; [ | reflexivity].
  cbn [option_map fields].
  destruct (_ && _); [reflexivity | ].
  destruct (_ && _); [reflexivity | ].
  destruct (Nat.eqb (length files) 0); [reflexivity | ].
  destruct (forallb (uploaded cloud now "report") files) eqn:Hup.
  - rewrite (bind_done _ _ _ _ _
               (mapM_upload_ok now "report"
                  (fun url _ => mkImage url (or_else caption EmptyString) now)
                  files logged Hup)).
    fold (reportImages cloud now caption files).
    set (imgs := reportImages cloud now caption files).
    assert (Hlen : length imgs = length files) by (unfold imgs, reportImages; apply length_map).
    rewrite Hlen.
    change (push_images imgs (mkDoc r [])) with (mkDoc (withImages imgs r) []).
    rewrite (bind_done _ _ _ _ _ (save_fresh_run now (withImages imgs r) logged)).
    cbn [fields]. change (status (touch now (withImages imgs r))) with (status r).
    destruct (includes validStatuses (status r)) eqn:Hst.
    + rewrite (bind_done _ _ _ _ _
                 (addTimelineEvent_run now (status r) _ (a_id user)
                    (mkDoc (touch now (withImages imgs r)) []) _ Hst eq_refl)).
      unfold ret. cbn [reports users notifications oplog fields logged].
      rewrite replaceReport_twice by reflexivity.
      rewrite <- !app_assoc. reflexivity.
    + rewrite (bind_thrown _ _ _ _ _
                 (addTimelineEvent_invalid now (status r) _ (a_id user) _ _ Hst)).
      cbn [reports users notifications oplog fields logged].
      rewrite <- !app_assoc. reflexivity.
  - now rewrite (bind_next _ _ _ _ _ _
                   (mapM_upload_fail now "report"
                      (fun url _ => mkImage url (or_else caption EmptyString) now)
                      files logged Hup)).
Qed.

End Uploads.

(** X5. What a successful image upload to a report does: the report
    keeps its status and gains one image per file, captioned as asked and
    stamped with the time of the call, and one timeline entry that repeats
    the current status; the caller is the submitter if a user, and not
    shut out by another assignee if an employee; no other report changes
    and nobody is notified. *)
Theorem uploadReportImages_effect cloud now user id files caption w rep w' :
  uploadReportImages cloud now user id files caption w = (Done rep, w') ->
  exists r,
    reportOf w id = Some r
    /\ (a_role user = "user" -> submittedBy r = a_id user)
    /\ (a_role user = "employee" ->
        assignedTo r = None \/ assignedTo r = Some (a_id user))
    /\ files <> []
    /\ code rep = 200
    /\ ir_images (body rep) = reportImages cloud now caption files
    /\ status (ir_report (body rep)) = status r
    /\ images (ir_report (body rep)) = images r ++ reportImages cloud now caption files
    /\ timeline (ir_report (body rep))
       = timeline r
         ++ [mkEntry (status r) now
               (Some (showNat (length files) ^^ " image(s) uploaded")) (a_id user)]
    /\ inSync (ir_report (body rep))
    /\ reports w' = replaceReport (ir_report (body rep)) (reports w)
    /\ notifications w' = notifications w.
Proof.
  destruct (castObjectId id) as [oid | ] eqn:Ecast.
  2: { now rewrite (uploadReportImages_uncastable _ _ _ _ _ _ _ Ecast). }
  rewrite (uploadReportImages_run _ _ _ _ oid _ _ _ Ecast). cbv zeta.
  rewrite (reportOf_found _ id oid Ecast).
  destruct (find (byId oid) (reports w)) as [r | ]; [ | discriminate].
  destruct (String.eqb (a_role user) "user"
            && negb (String.eqb (submittedBy r) (a_id user))) eqn:Hu; [discriminate | ].
  destruct (String.eqb (a_role user) "employee"
            && assignedElsewhere (assignedTo r) user) eqn:He; [discriminate | ].
  destruct (Nat.eqb (length files) 0) eqn:Hn; [discriminate | ].
  destruct (forallb _ files); [ | discriminate].
  destruct (includes validStatuses (status r)); [ | discriminate].
  intros H. inversion H; subst rep w'; clear H.
  exists r. cbn [body code ir_images ir_report reports notifications].
  split; [reflexivity | split; [ | split; [ | split]]].
  - intros Hrole. rewrite Hrole in Hu. cbn [String.eqb Ascii.eqb Bool.eqb andb] in Hu.
    apply negb_false_iff, String.eqb_eq in Hu. exact Hu.
  - intros Hrole. rewrite Hrole in He. cbn [String.eqb Ascii.eqb Bool.eqb andb] in He.
    destruct (assignedTo r) as [a | ]; [right | now left].
    simpl in He. apply negb_false_iff, String.eqb_eq in He. now subst.
  - intros ->. discriminate.
  - repeat split. unfold inSync, lastTimelineStatus. simpl. now rewrite rev_app_distr.
Qed.


(** X6. One file the cloud turns down fails the whole upload: the answer
    is an error (an error reply, or the [CastError] of an id that cannot
    be cast) and no image, timeline entry or notification is written,
    however many files before it were accepted. *)
Theorem uploadReportImages_all_or_nothing cloud now user id files caption w :
  forallb (uploaded cloud now "report") files = false ->
  exists w',
    ((exists msg c,
        uploadReportImages cloud now user id files caption w = (Next msg c, w'))
     \/ (castObjectId id = None
         /\ uploadReportImages cloud now user id files caption w
            = (Thrown "CastError", w')))
    /\ untouched w w'.
Proof.
  intros Hup. destruct (castObjectId id) as [oid | ] eqn:Ecast.
  2: { exists w. split; [right; split; [reflexivity | ] | repeat split].
       now apply uploadReportImages_uncastable. }
  rewrite (uploadReportImages_run _ _ _ _ oid _ _ _ Ecast). cbv zeta. rewrite Hup.
  destruct (find (byId oid) (reports w)) as [r | ].
  2:{ eexists. split; [left; eexists; eexists; reflexivity | repeat split]. }
  destruct (_ && _); [eexists; split; [left; eexists; eexists; reflexivity | repeat split] | ].
  destruct (_ && _); [eexists; split; [left; eexists; eexists; reflexivity | repeat split] | ].
  destruct (Nat.eqb _ _); eexists; (split; [left; eexists; eexists; reflexivity | repeat split]).
Qed.


Section FieldWork.

Variable cloud : File -> string -> Date -> option string.
Variable jsonTruthy : string -> option bool.

Lemma parseLocation_run loc w :
  parseLocation jsonTruthy loc w = (parsedLocation jsonTruthy loc, w).
Proof.
  unfold parseLocation, parsedLocation.
  destruct loc as [text | ]; [ | reflexivity].
  destruct (str_nonempty text); [ | reflexivity].
  destruct (jsonTruthy text) as [[ | ] | ]; reflexivity.
Qed.

Lemma uploadFieldWorkerImages_run now files ty loc rid desc w :
  uploadFieldWorkerImages cloud now files ty loc rid desc w
  = if forallb (uploaded cloud now ty) files
    then (Done (fieldRecords cloud now ty loc rid desc files), w)
    else (Next "Field worker image upload failed" 500, w).
Proof.
  unfold uploadFieldWorkerImages, rethrowAs.
  destruct (forallb (uploaded cloud now ty) files) eqn:Hup.
  - now rewrite (mapM_upload_ok cloud now ty
                   (fun url file => mkFieldImage url (originalname file) (size file)
                                      (mimetype file) ty loc rid desc now) files w Hup).
  - now rewrite (mapM_upload_fail cloud now ty
                   (fun url file => mkFieldImage url (originalname file) (size file)
                                      (mimetype file) ty loc rid desc now) files w Hup).
Qed.

Lemma captions_of_records now ty pre loc rid desc files :
  map (fun image => mkImage (fi_url image) (pre ^^ fi_description image)
                      (fi_uploadedAt image))
    (fieldRecords cloud now ty loc rid desc files)
  = fieldImages cloud now ty pre desc files.
Proof. unfold fieldRecords, fieldImages. now rewrite map_map. Qed.

Lemma find_after_log id w ops :
  find (byId id) (reports (mkWorld (reports w) (users w) (notifications w) ops))
  = find (byId id) (reports w).
Proof. reflexivity. Qed.

(** X7. A progress upload for a report puts the report in progress
    whatever its status was, resolved and closed included: the caller is
    an employee whom no other assignee shuts out, the report gains the
    images, captioned as progress, and a timeline entry in_progress, and
    nobody is notified. *)
Theorem progress_upload_sets_in_progress now user files id loc desc w rep w' :
  str_nonempty id = true ->
  uploadProgressImages cloud jsonTruthy now user files (Some id) loc desc w
  = (Done rep, w') ->
  exists r r',
    reportOf w id = Some r
    /\ a_role user = "employee"
    /\ (assignedTo r = None \/ assignedTo r = Some (a_id user))
    /\ code rep = 201
    /\ fr_count (body rep) = length files
    /\ reports w' = replaceReport r' (reports w)
    /\ reportOf w' id = Some r'
    /\ status r' = "in_progress"
    /\ images r'
       = images r
         ++ fieldImages cloud now "progress" "Progress: " (or_else desc "Progress update")
              files
    /\ timeline r'
       = timeline r
         ++ [mkEntry "in_progress" now
               (Some ("Progress images uploaded: " ^^ showNat (length files)
                      ^^ " image(s)")) (a_id user)]
    /\ notifications w' = notifications w.
Proof.
  intros Hid. unfold uploadProgressImages.
  destruct (String.eqb (a_role user) "employee") eqn:Hrole; [ | discriminate].
  cbn [negb]. destruct (Nat.eqb (length files) 0); [discriminate | ].
  assert (Ht : truthy (Some id) = true) by exact Hid.
  assert (Hor : or_else (Some id) EmptyString = id) by (simpl; now rewrite Hid).
  rewrite Ht, Hor.
  destruct (castObjectId id) as [oid | ] eqn:Ecast.
  2: { unfold bind at 1.
       now rewrite (bind_thrown _ _ _ _ _ (findById_uncastable id w Ecast)). }
  rewrite !(reportOf_found _ id oid Ecast).
  unfold bind at 1. rewrite (bind_done _ _ _ _ _ (findById_run id oid w Ecast)).
  destruct (find (byId oid) (reports w)) as [r | ] eqn:Hfind; [ | discriminate].
  cbn [option_map fields].
  destruct (assignedElsewhere (assignedTo r) user) eqn:Helse; [discriminate | ].
  cbn [ret]. unfold bind at 1. rewrite parseLocation_run.
  destruct (parsedLocation jsonTruthy loc) as [location | | | ]; try discriminate.
  unfold bind at 1. rewrite uploadFieldWorkerImages_run.
  destruct (forallb _ files); [ | discriminate].
  unfold bind at 1. unfold bind at 1. rewrite (findById_run id oid _ Ecast).
  cbn [reports users notifications oplog]. rewrite Hfind.
  cbn [option_map]. rewrite captions_of_records.
  set (imgs := fieldImages cloud now "progress" "Progress: "
                 (or_else desc "Progress update") files).
  change (push_images imgs (mkDoc r [])) with (mkDoc (withImages imgs r) []).
  unfold bind at 1. rewrite save_fresh_run.
  unfold bind at 1.
  rewrite (addTimelineEvent_run now "in_progress" _ (a_id user)
             (mkDoc (touch now (withImages imgs r)) []) _ eq_refl eq_refl).
  cbn [ret reports users notifications oplog fields].
  rewrite replaceReport_twice by reflexivity.
  intros H. inversion H; subst rep w'; clear H.
  eexists. eexists.
  split; [reflexivity | split; [now apply String.eqb_eq | split]].
  { destruct (assignedTo r) as [a | ]; [right | now left].
    simpl in Helse. apply negb_false_iff, String.eqb_eq in Helse. now subst. }
  cbn [code body fr_count reports notifications].
  split; [reflexivity | split].
  { unfold fieldRecords. apply length_map. }
  split; [reflexivity | split].
  { apply (find_replaceReport oid _ r); [exact Hfind | ].
    apply find_byId in Hfind. exact (proj2 Hfind). }
  unfold fieldRecords. rewrite length_map. repeat split.
Qed.

End FieldWork.


Section Completion.

Variable cloud : File -> string -> Date -> option string.
Variable jsonTruthy : string -> option bool.

(** X8. A completion upload resolves the report and tells its submitter
    exactly when [markAsResolved] is the string true; with any other
    value, or none, it puts the report in progress and tells nobody.
    Either way the reply's status is the stored one and the images are
    added, captioned as completion. *)
Theorem completion_upload_effect now user files reportId loc desc mark w rep w' :
  uploadCompletionImages cloud jsonTruthy now user files reportId loc desc mark w
  = (Done rep, w') ->
  exists id r r',
    reportId = Some id
    /\ reportOf w id = Some r
    /\ a_role user = "employee"
    /\ (assignedTo r = None \/ assignedTo r = Some (a_id user))
    /\ code rep = 201
    /\ reports w' = replaceReport r' (reports w)
    /\ reportOf w' id = Some r'
    /\ status r' = (if strictEq mark (Some "true") then "resolved" else "in_progress")
    /\ fr_reportStatus (body rep) = Some (status r')
    /\ inSync r'
    /\ images r'
       = images r
         ++ fieldImages cloud now "completion" "Completion: "
              (or_else desc "Work completed") files
    /\ notifications w'
       = notifications w
         ++ (if strictEq mark (Some "true") then [resolvedNotice now r] else []).
Proof.
  unfold uploadCompletionImages.
  destruct (String.eqb (a_role user) "employee") eqn:Hrole; [ | discriminate].
  cbn [negb]. destruct (Nat.eqb (length files) 0); [discriminate | ].
  destruct reportId as [id | ]; [ | discriminate].
  destruct (truthy (Some id)) eqn:Ht; [ | discriminate]. cbn [negb].
  assert (Hor : or_else (Some id) EmptyString = id).
  { simpl in *. now rewrite Ht. }
  rewrite Hor. destruct (castObjectId id) as [oid | ] eqn:Ecast.
  2: { now rewrite (bind_thrown _ _ _ _ _ (findById_uncastable id w Ecast)). }
  rewrite (bind_done _ _ _ _ _ (findById_run id oid w Ecast)).
  destruct (find (byId oid) (reports w)) as [r | ] eqn:Hfind; [ | discriminate].
  cbn [option_map fields].
  destruct (assignedElsewhere (assignedTo r) user) eqn:Helse; [discriminate | ].
  unfold bind at 1. rewrite parseLocation_run.
  destruct (parsedLocation jsonTruthy loc) as [location | | | ]; try discriminate.
  unfold bind at 1. rewrite uploadFieldWorkerImages_run.
  destruct (forallb _ files); [ | discriminate].
  rewrite captions_of_records.
  set (imgs := fieldImages cloud now "completion" "Completion: "
                 (or_else desc "Work completed") files).
  assert (Hassigned : assignedTo r = None \/ assignedTo r = Some (a_id user)).
  { destruct (assignedTo r) as [a | ]; [right | now left].
    simpl in Helse. apply negb_false_iff, String.eqb_eq in Helse. now subst. }
  assert (Hrid : r_id r = oid) by (apply find_byId in Hfind; exact (proj2 Hfind)).
  assert (Hof : reportOf w id = Some r) by now rewrite (reportOf_found _ id oid Ecast).
  destruct (strictEq mark (Some "true")).
  - unfold bind at 1. unfold bind at 1.
    rewrite (addTimelineEvent_run now "resolved" _ (a_id user)
               (set_status "resolved" (push_images imgs (mkDoc r []))) _ eq_refl eq_refl).
    unfold bind at 1. unfold createNotification at 1. unfold bind at 1.
    unfold logOp at 1. cbn [ret reports users notifications oplog fields].
    unfold bind at 1. rewrite save_fresh_run.
    cbn [ret reports users notifications oplog fields].
    rewrite replaceReport_twice by reflexivity.
    intros H. inversion H; subst rep w'; clear H.
    exists id. eexists. eexists.
    cbn [code body fr_reportStatus reports notifications].
    split; [reflexivity | split; [exact Hof | split; [now apply String.eqb_eq | ]]].
    split; [exact Hassigned | split; [reflexivity | split; [reflexivity | split]]].
    { rewrite (reportOf_found _ id oid Ecast).
      apply (find_replaceReport oid _ r); [exact Hfind | exact Hrid]. }
    repeat split. unfold inSync, lastTimelineStatus. simpl. now rewrite rev_app_distr.
  - unfold bind at 1.
    rewrite (addTimelineEvent_run now "in_progress" _ (a_id user)
               (push_images imgs (mkDoc r [])) _ eq_refl eq_refl).
    unfold bind at 1. rewrite save_fresh_run.
    cbn [ret reports users notifications oplog fields].
    rewrite replaceReport_twice by reflexivity.
    intros H. inversion H; subst rep w'; clear H.
    exists id. eexists. eexists.
    cbn [code body fr_reportStatus reports notifications].
    split; [reflexivity | split; [exact Hof | split; [now apply String.eqb_eq | ]]].
    split; [exact Hassigned | split; [reflexivity | split; [reflexivity | split]]].
    { rewrite (reportOf_found _ id oid Ecast).
      apply (find_replaceReport oid _ r); [exact Hfind | exact Hrid]. }
    rewrite app_nil_r.
    repeat split. unfold inSync, lastTimelineStatus. simpl. now rewrite rev_app_distr.
Qed.

End Completion.


(** ** Status and timeline stay in step under the other writers *)

Lemma steady_ret {A} (Q : A -> Prop) a : Q a -> steady Q (ret a).
Proof.
  intros H w Hw. split; [exact Hw | ]. simpl. intros a' E.
  injection E as <-. exact H.
Qed.

Lemma steady_next {A} (Q : A -> Prop) msg c : steady Q (next msg c).
Proof. intros w Hw. split; [exact Hw | discriminate]. Qed.

Lemma steady_throw {A} (Q : A -> Prop) n : steady Q (throw n).
Proof. intros w Hw. split; [exact Hw | discriminate]. Qed.

Lemma steady_bind {A B} (P : A -> Prop) (Q : B -> Prop) (m : M A) (k : A -> M B) :
  steady P m -> (forall a, P a -> steady Q (k a)) -> steady Q (bind m k).
Proof.
  intros Hm Hk w Hw. unfold bind. destruct (Hm w Hw) as [Hw' Ha].
  destruct (m w) as [[a | msg c | msg c | n] w']; simpl in *;
    try (split; [exact Hw' | discriminate]).
  apply (Hk a (Ha a eq_refl) w' Hw').
Qed.

Lemma steady_weaken {A} (P Q : A -> Prop) (m : M A) :
  (forall a, P a -> Q a) -> steady P m -> steady Q m.
Proof.
  intros HPQ Hm w Hw. destruct (Hm w Hw) as [Hw' Ha].
  split; [exact Hw' | auto].
Qed.

Lemma steady_same {A} (m : M A) :
  (forall w, reports (snd (m w)) = reports w) -> steady (fun _ => True) m.
Proof.
  intros Hsame w Hw. split; [ | trivial].
  intros r Hr. rewrite Hsame in Hr. now apply Hw.
Qed.

Lemma steady_findById id :
  steady (fun o => forall d, o = Some d -> inSync (fields d)) (findById id).
Proof.
  intros w Hw. destruct (castObjectId id) as [oid | ] eqn:Ecast.
  2: { rewrite (findById_uncastable id w Ecast). split; [exact Hw | discriminate]. }
  rewrite (findById_run id oid w Ecast). split; [exact Hw | ].
  cbn [fst]. intros a E d ->. injection E as E.
  destruct (find (byId oid) (reports w)) as [r | ] eqn:Hf; [ | discriminate].
  injection E as <-. apply Hw. apply find_byId in Hf. exact (proj1 Hf).
Qed.

Lemma steady_save now d :
  inSync (fields d) -> steady (fun d' => inSync (fields d')) (save now d).
Proof.
  intros Hd w Hw. split.
  - intros r Hr. destruct (preserving_save now d Hd w r Hr) as [H | H]; [now apply Hw | exact H].
  - unfold save. destruct (forallb _ _); [ | discriminate].
    unfold bind, logOp. cbn [fst]. intros a E. injection E as <-. exact Hd.
Qed.

Lemma steady_addTimelineEvent now st comment userId d :
  steady (fun d' => inSync (fields d')) (addTimelineEvent now st comment userId d).
Proof.
  unfold addTimelineEvent. apply steady_save. now apply inSync_after_event.
Qed.

Lemma steady_createNotification now to ty ttl msg rel prio :
  steady (fun _ => True) (createNotification now to ty ttl msg rel prio).
Proof. apply steady_same. reflexivity. Qed.

Lemma steady_forEach {A} (f : A -> M unit) l :
  (forall x, steady (fun _ => True) (f x)) -> steady (fun _ => True) (forEach f l).
Proof.
  intros Hf. induction l as [ | x l IH]; simpl.
  - now apply steady_ret.
  - apply (steady_bind (fun _ => True)); [apply Hf | intros _ _; exact IH].
Qed.

Section Writers.

Variable geoIndexable : list Q -> bool.
Variable cloud : File -> string -> Date -> option string.
Variable jsonTruthy : string -> option bool.

Lemma steady_uploads {B} now ty (g : string -> File -> B) files :
  steady (fun _ => True)
    (mapM (fun file => url <- uploadToCloudinary cloud now ty file ;; ret (g url file))
       files).
Proof.
  apply steady_same. intros w.
  destruct (forallb (uploaded cloud now ty) files) eqn:Hup.
  - now rewrite (mapM_upload_ok cloud now ty g files w Hup).
  - now rewrite (mapM_upload_fail cloud now ty g files w Hup).
Qed.

Lemma steady_uploadFieldWorkerImages now files ty loc rid desc :
  steady (fun _ => True) (uploadFieldWorkerImages cloud now files ty loc rid desc).
Proof.
  apply steady_same. intros w. rewrite uploadFieldWorkerImages_run.
  now destruct (forallb _ _).
Qed.

Lemma steady_parseLocation loc :
  steady (fun _ => True) (parseLocation jsonTruthy loc).
Proof. apply steady_same. intros w. now rewrite parseLocation_run. Qed.

Lemma steady_uploadReportImages now user id files caption :
  steady (fun _ => True) (uploadReportImages cloud now user id files caption).
Proof.
  unfold uploadReportImages.
  eapply steady_bind; [apply steady_findById | ]. intros [d | ] Hd; [ | apply steady_next].
  specialize (Hd d eq_refl).
  destruct (_ && _); [apply steady_next | ].
  destruct (_ && _); [apply steady_next | ].
  destruct (Nat.eqb _ _); [apply steady_next | ].
  eapply steady_bind; [apply steady_uploads | ]. intros imgs _.
  eapply steady_bind; [apply steady_save; exact Hd | ]. intros d1 _.
  eapply steady_bind; [apply steady_addTimelineEvent | ]. intros d2 _.
  now apply steady_ret.
Qed.

Lemma steady_uploadProgressImages now user files reportId loc desc :
  steady (fun _ => True)
    (uploadProgressImages cloud jsonTruthy now user files reportId loc desc).
Proof.
  unfold uploadProgressImages.
  destruct (negb _); [apply steady_next | ].
  destruct (Nat.eqb _ _); [apply steady_next | ].
  apply (steady_bind (fun _ => True)).
  { destruct (truthy reportId); [ | now apply steady_ret].
    eapply steady_bind; [apply steady_findById | ].
    intros [d | ] _; [ | apply steady_next].
    destruct (assignedElsewhere _ _); [apply steady_next | now apply steady_ret]. }
  intros _ _.
  eapply steady_bind; [apply steady_parseLocation | ]. intros location _.
  eapply steady_bind; [apply steady_uploadFieldWorkerImages | ]. intros imgs _.
  apply (steady_bind (fun _ => True)); [ | intros _ _; now apply steady_ret].
  destruct (truthy reportId); [ | now apply steady_ret].
  eapply steady_bind; [apply steady_findById | ].
  intros [d | ] Hd; [ | apply steady_throw].
  specialize (Hd d eq_refl).
  eapply steady_bind; [apply steady_save; exact Hd | ]. intros d1 _.
  eapply steady_bind; [apply steady_addTimelineEvent | ]. intros d2 _.
  now apply steady_ret.
Qed.

Lemma steady_uploadCompletionImages now user files reportId loc desc mark :
  steady (fun _ => True)
    (uploadCompletionImages cloud jsonTruthy now user files reportId loc desc mark).
Proof.
  unfold uploadCompletionImages.
  destruct (negb _); [apply steady_next | ].
  destruct (Nat.eqb _ _); [apply steady_next | ].
  destruct (negb _); [apply steady_next | ].
  eapply steady_bind; [apply steady_findById | ].
  intros [d | ] _; [ | apply steady_next].
  destruct (assignedElsewhere _ _); [apply steady_next | ].
  eapply steady_bind; [apply steady_parseLocation | ]. intros location _.
  eapply steady_bind; [apply steady_uploadFieldWorkerImages | ]. intros imgs _.
  apply (steady_bind (fun d' => inSync (fields d'))).
  - destruct (strictEq mark (Some "true")).
    + eapply steady_bind; [apply steady_addTimelineEvent | ]. intros d1 Hd1.
      eapply steady_bind; [apply steady_createNotification | ]. intros _ _.
      now apply steady_ret.
    + apply steady_addTimelineEvent.
  - intros d1 Hd1.
    eapply steady_bind; [apply steady_save; exact Hd1 | ]. intros d2 _.
    now apply steady_ret.
Qed.

Lemma allInSync_createReport now newId user b w :
  allInSync w -> allInSync (snd (createReport geoIndexable now newId user b w)).
Proof.
  intros Hw.
  destruct (createReport_cases geoIndexable now newId user b w)
    as [(msg & errs & E & _) | [(n & w0 & E & Hsame & _) | (r & E & Hr & _)]];
    rewrite E; cbn [snd]; [exact Hw | | ].
  - intros x Hx. rewrite Hsame in Hx. now apply Hw.
  - intros x Hx. cbn [reports] in Hx. apply in_app_or in Hx.
    destruct Hx as [Hx | [<- | []]]; [now apply Hw | ]. now rewrite Hr.
Qed.

(** X9. Report creation and the three image uploads keep status and
    timeline in step: if every stored report has its status equal to its
    last timeline entry's before one of them runs, so has every stored
    report afterwards, whatever the outcome of the call. *)
Theorem writers_keep_status_and_timeline_in_step now user op w :
  allInSync w ->
  allInSync (runWrite geoIndexable cloud jsonTruthy now user op w).
Proof.
  intros Hw. destruct op; cbn [runWrite].
  - now apply allInSync_createReport.
  - exact (proj1 (steady_uploadReportImages now user id files caption w Hw)).
  - exact (proj1 (steady_uploadProgressImages now user files reportId loc desc w Hw)).
  - exact (proj1 (steady_uploadCompletionImages now user files reportId loc desc
                    markAsResolved w Hw)).
Qed.

End Writers.

Lemma sampleWorld_in_sync : allInSync sampleWorld.
Proof.
  intros r [<- | [<- | []]]; reflexivity.
Qed.


(** ** User management *)

(** Every outcome of [updateUserRole]. *)
Lemma updateUserRole_run now caller userId newRole w :
  updateUserRole now caller userId newRole w
  = if negb (includes validRoles newRole)
    then (Next "Invalid role. Must be one of: user, employee, admin" 400, w)
    else
      match castObjectId userId with
      | None => (Next "Failed to update user role" 500, w)
      | Some oid =>
          let logged := mkWorld (reports w) (users w) (notifications w)
                          (oplog w ++ [UserFindById oid]) in
          match find (byUserId oid) (users w) with
          | None => (Next "User not found" 404, logged)
          | Some user =>
              if String.eqb (u_id user) (a_id caller)
              then (Next "You cannot change your own role" 400, logged)
              else
                (Done (mkReply 200 (withRole newRole user)),
                 mkWorld (reports w) (replaceUser (withRole newRole user) (users w))
                   (notifications w ++ [roleNotice now user newRole])
                   (oplog w ++ [UserFindById oid; NotificationCreate (u_id user)]))
          end
      end.
Proof.
  unfold updateUserRole, catch500.
  destruct (negb (includes validRoles newRole)); [reflexivity | ].
  destruct (castObjectId userId) as [oid | ] eqn:Ecast.
  2: { unfold findUserById. now rewrite Ecast. }
  rewrite (bind_done _ _ _ _ _ (findUserById_run userId oid w Ecast)). cbv zeta.
  destruct (find (byUserId oid) (users w)) as [user | ]; [ | reflexivity].
  destruct (String.eqb (u_id user) (a_id caller)); [reflexivity | ].
  unfold saveUser, createNotification, bind, logOp, ret.
  cbn [reports users notifications oplog u_id]. rewrite <- ?app_assoc. reflexivity.
Qed.

Lemma userOf_found w id oid :
  castObjectId id = Some oid -> userOf w id = find (byUserId oid) (users w).
Proof. intros E. unfold userOf. now rewrite E. Qed.

Lemma find_replaceUser id l u u' :
  find (byUserId id) l = Some u -> u_id u' = id ->
  find (byUserId id) (replaceUser u' l) = Some u'.
Proof.
  intros Hfind <-. induction l as [ | y l IH]; [discriminate | ].
  unfold replaceUser in *. cbn [map find] in *. unfold byUserId in *.
  destruct (String.eqb (u_id y) (u_id u')) eqn:E.
  - now rewrite String.eqb_refl.
  - rewrite E. now apply IH.
Qed.

Lemma replaceUser_others u l p :
  (forall x, u_id x = u_id u -> p x = false) -> p u = false ->
  filter p (replaceUser u l) = filter p l.
Proof.
  intros Hp Hu. induction l as [ | y l IH]; [reflexivity | ].
  unfold replaceUser in *. cbn [map filter].
  destruct (String.eqb (u_id y) (u_id u)) eqn:E.
  - apply String.eqb_eq in E. now rewrite Hu, (Hp y E).
  - now rewrite IH.
Qed.

(** X10. What a role update that goes through does: the role asked for
    is one of user, employee and admin, the id denotes an account (the
    stored account whose id is the cast of the string) and that account is
    not the caller's, every account with the target's id now has that role
    and no other account or field changes, no report changes, and the
    target is sent one notice naming the old and the new role. *)
Theorem updateUserRole_effect now caller userId newRole w rep w' :
  updateUserRole now caller userId newRole w = (Done rep, w') ->
  exists user,
    userOf w userId = Some user
    /\ u_id user <> a_id caller
    /\ In newRole ["user"; "employee"; "admin"]
    /\ rep = mkReply 200 (withRole newRole user)
    /\ users w' = replaceUser (withRole newRole user) (users w)
    /\ userOf w' userId = Some (withRole newRole user)
    /\ (forall u, u_id u <> u_id user -> In u (users w) <-> In u (users w'))
    /\ reports w' = reports w
    /\ notifications w' = notifications w ++ [roleNotice now user newRole].
Proof.
  rewrite updateUserRole_run.
  destruct (includes validRoles newRole) eqn:Hrole; [ | discriminate]. cbn [negb].
  destruct (castObjectId userId) as [oid | ] eqn:Ecast; [ | discriminate]. cbv zeta.
  rewrite !(userOf_found _ userId oid Ecast).
  destruct (find (byUserId oid) (users w)) as [user | ] eqn:Hfind; [ | discriminate].
  destruct (String.eqb (u_id user) (a_id caller)) eqn:Hself; [discriminate | ].
  intros H. inversion H; subst rep w'; clear H.
  destruct (find_byUserId _ _ _ Hfind) as [Hin Hid].
  exists user. cbn [users reports notifications].
  split; [reflexivity | split; [ | split; [ | split; [reflexivity | split; [reflexivity | ]]]]].
  - intros E. rewrite E, String.eqb_refl in Hself. discriminate.
  - apply includes_In in Hrole. exact Hrole.
  - split; [now apply (find_replaceUser oid _ user) | split; [ | split; reflexivity]].
    intros u Hu. unfold replaceUser. rewrite in_map_iff. split.
    + intros Hinu. exists u. split; [ | exact Hinu].
      destruct (String.eqb (u_id u) (u_id (withRole newRole user))) eqn:E; [ | reflexivity].
      apply String.eqb_eq in E. simpl in E. congruence.
    + intros (y & Ey & Hy).
      destruct (String.eqb (u_id y) (u_id (withRole newRole user))) eqn:E.
      * subst u. simpl in Hu. congruence.
      * now subst y.
Qed.


(** X11. A role update never changes the caller's own account, whatever
    is asked and whatever the outcome. *)
Theorem updateUserRole_spares_caller now caller userId newRole w :
  filter (byUserId (a_id caller)) (users (snd (updateUserRole now caller userId newRole w)))
  = filter (byUserId (a_id caller)) (users w).
Proof.
  rewrite updateUserRole_run.
  destruct (negb (includes validRoles newRole)); [reflexivity | ].
  destruct (castObjectId userId) as [oid | ]; [ | reflexivity]. cbv zeta.
  destruct (find (byUserId oid) (users w)) as [user | ] eqn:Hfind; [ | reflexivity].
  destruct (String.eqb (u_id user) (a_id caller)) eqn:Hself; [reflexivity | ].
  cbn [snd users]. apply replaceUser_others.
  - intros x Hx. unfold byUserId. simpl in Hx. now rewrite Hx.
  - exact Hself.
Qed.

(** X12. A role update decides who can be given reports afterwards, and
    leaves the reports alone: once it has gone through, an admin's
    assignment of an existing report to that account (named by the same
    string) succeeds exactly when the new role is employee, and then the
    report is assigned to the id the string denotes; reports that were
    assigned to the account before stay assigned to it. *)
Theorem role_update_then_assignment now caller userId newRole w rep w1 :
  updateUserRole now caller userId newRole w = (Done rep, w1) ->
  reports w1 = reports w
  /\ forall later admin id comment,
       a_role admin = "admin" ->
       (exists r, reportOf w1 id = Some r) ->
       ((exists rep2 w2,
           assignReport later admin id userId comment w1 = (Done rep2, w2)
           /\ assignedTo (body rep2) = castObjectId userId)
        <-> newRole = "employee").
Proof.
  intros Hrun.
  assert (Hdone : exists oid user,
             castObjectId userId = Some oid
             /\ find (byUserId oid) (users w1) = Some (withRole newRole user)
             /\ u_id user = oid
             /\ reports w1 = reports w).
  { rewrite updateUserRole_run in Hrun.
    destruct (negb (includes validRoles newRole)); [discriminate | ].
    destruct (castObjectId userId) as [oid | ] eqn:Ecast; [ | discriminate].
    cbv zeta in Hrun.
    destruct (find (byUserId oid) (users w)) as [user | ] eqn:Hf; [ | discriminate].
    destruct (String.eqb (u_id user) (a_id caller)); [discriminate | ].
    inversion Hrun; subst rep w1; clear Hrun. exists oid, user. cbn [users reports].
    split; [reflexivity | split; [ | split; [ | reflexivity]]].
    - apply (find_replaceUser oid _ user); [exact Hf | ].
      apply find_byUserId in Hf. exact (proj2 Hf).
    - apply find_byUserId in Hf. exact (proj2 Hf). }
  destruct Hdone as (oid & user & Ecast & Hfind & Huid & Hreps).
  split; [exact Hreps | ].
  intros later admin id comment Hadmin (r & Hr).
  destruct (reportOf_cast _ _ _ Hr) as (rid & Erid & Hr' & _).
  unfold assignReport. rewrite Hadmin. change (negb (String.eqb "admin" "admin")) with false.
  cbv iota. rewrite (bind_done _ _ _ _ _ (findUserById_run userId oid w1 Ecast)).
  rewrite Hfind. cbn [role withRole].
  destruct (String.eqb newRole "employee") eqn:E.
  - apply String.eqb_eq in E. split; [intros _; exact E | intros _].
    cbn [negb]. unfold bind at 1. rewrite (findById_run id rid _ Erid).
    cbn [reports users notifications oplog]. rewrite Hr'. cbn [option_map].
    unfold bind at 1.
    rewrite (addTimelineEvent_run later "assigned" _ (a_id admin)
               (set_status "assigned" (set_assignedTo (u_id user) (mkDoc r []))) _
               eq_refl eq_refl).
    unfold createNotification, bind, logOp, ret.
    cbn [reports users notifications oplog fields u_id].
    eexists. eexists. split; [reflexivity | ]. cbn [body assignedTo]. now rewrite Huid.
  - split.
    + intros (rep2 & w2 & H & _). discriminate.
    + intros ->. discriminate.
Qed.


Section Accounts.

Variable generateToken : User -> string.
Variable userValid : User -> string -> bool.

Lemma find_email_none mail l :
  find (fun u => String.eqb (email u) mail) l = None -> ~ In mail (map email l).
Proof.
  intros Hnone Hin. rewrite in_map_iff in Hin. destruct Hin as (u & E & Hu).
  apply (find_none _ _ Hnone) in Hu. rewrite E, String.eqb_refl in Hu. discriminate.
Qed.

Lemma NoDup_snoc {A} (l : list A) x : NoDup l -> ~ In x l -> NoDup (l ++ [x]).
Proof.
  intros Hl Hx. apply NoDup_rev in Hl. rewrite <- (rev_involutive (l ++ [x])).
  apply NoDup_rev. rewrite rev_app_distr. simpl. constructor; [ | exact Hl].
  now rewrite <- in_rev.
Qed.

Lemma register_run newId b w :
  let logged := mkWorld (reports w) (users w) (notifications w)
                  (oplog w ++ [UserFindOne (rb_email b)]) in
  let u := mkUser newId (rb_firstName b) (rb_lastName b) (rb_email b)
             (match rb_role b with
              | Some r => if String.eqb r "employee" then "employee" else "user"
              | None => "user"
              end) in
  register generateToken userValid newId b w
  = match find (fun u => String.eqb (email u) (rb_email b)) (users w) with
    | Some _ => (Next "Email already in use" 400, logged)
    | None =>
        if userValid u (rb_password b) then
          (Done (mkReply 201 (mkRegisterReply (generateToken u) u)),
           mkWorld (reports w) (users w ++ [u]) (notifications w)
             (oplog w ++ [UserFindOne (rb_email b); UserCreate (rb_email b)]))
        else (Thrown "ValidationError", logged)
    end.
Proof.
  intros logged u. unfold register, findUserByEmail, createUser.
  unfold bind at 1. unfold bind at 1. unfold logOp at 1.
  cbn [users reports notifications oplog]. fold logged. fold u.
  destruct (find _ (users w)); [reflexivity | ].
  destruct (userValid u (rb_password b)); [ | reflexivity].
  unfold bind, logOp, ret. cbn [users reports notifications oplog email u logged].
  rewrite <- ?app_assoc. reflexivity.
Qed.

Lemma createAdmin_run newId fn ln mail pw w :
  let logged := mkWorld (reports w) (users w) (notifications w)
                  (oplog w ++ [UserFindOne (or_else mail EmptyString)]) in
  let u := mkUser newId (or_else fn EmptyString) (or_else ln EmptyString)
             (or_else mail EmptyString) "admin" in
  createAdmin userValid newId fn ln mail pw w
  = if negb (truthy fn) || negb (truthy ln) || negb (truthy mail) || negb (truthy pw)
    then (Refused "All fields are required" 400, w)
    else
      match find (fun u => String.eqb (email u) (or_else mail EmptyString)) (users w) with
      | Some _ => (Refused "Email already in use" 400, logged)
      | None =>
          if userValid u (or_else pw EmptyString) then
            (Done (mkReply 201 u),
             mkWorld (reports w) (users w ++ [u]) (notifications w)
               (oplog w ++ [UserFindOne (or_else mail EmptyString);
                            UserCreate (or_else mail EmptyString)]))
          else (Refused "Failed to create admin user" 500, logged)
      end.
Proof.
  intros logged u. unfold createAdmin, catchJson.
  destruct (_ || _); [reflexivity | ].
  unfold findUserByEmail, createUser.
  unfold bind at 1. unfold bind at 1. unfold logOp at 1.
  cbn [users reports notifications oplog]. fold logged. fold u.
  destruct (find _ (users w)); [reflexivity | ].
  destruct (userValid u (or_else pw EmptyString)); [ | reflexivity].
  unfold bind, logOp, ret. cbn [users reports notifications oplog email u logged].
  rewrite <- ?app_assoc. reflexivity.
Qed.

Lemma register_users newId b w :
  users (snd (register generateToken userValid newId b w)) = users w
  \/ (find (fun u => String.eqb (email u) (rb_email b)) (users w) = None
      /\ exists u, email u = rb_email b
                   /\ users (snd (register generateToken userValid newId b w))
                      = users w ++ [u]).
Proof.
  rewrite register_run. cbv zeta.
  destruct (find _ (users w)) eqn:Hfind; [now left | ].
  destruct (userValid _ _); [ | now left].
  right. split; [reflexivity | ]. eexists. split; [ | reflexivity]. reflexivity.
Qed.

Lemma createAdmin_users newId fn ln mail pw w :
  users (snd (createAdmin userValid newId fn ln mail pw w)) = users w
  \/ (find (fun u => String.eqb (email u) (or_else mail EmptyString)) (users w) = None
      /\ exists u, email u = or_else mail EmptyString /\ role u = "admin"
                   /\ createAdmin userValid newId fn ln mail pw w
                      = (Done (mkReply 201 u),
                         mkWorld (reports w) (users w ++ [u]) (notifications w)
                           (oplog w ++ [UserFindOne (or_else mail EmptyString);
                                        UserCreate (or_else mail EmptyString)]))).
Proof.
  rewrite createAdmin_run. cbv zeta.
  destruct (_ || _); [now left | ].
  destruct (find _ (users w)) eqn:Hfind; [now left | ].
  destruct (userValid _ _); [ | now left].
  right. split; [reflexivity | ]. eexists.
  split; [ | split; [ | reflexivity]]; reflexivity.
Qed.

(** X13. No two accounts share an email address: if that holds before a
    registration or an admin creation, it holds after it, whatever the
    request and its outcome. *)
Theorem emails_stay_unique newId w :
  NoDup (map email (users w)) ->
  (forall b, NoDup (map email (users (snd (register generateToken userValid newId b w)))))
  /\ (forall ip header configured fn ln mail pw,
        NoDup (map email
                 (users (snd (createAdminRoute userValid ip header configured newId
                                fn ln mail pw w))))).
Proof.
  intros Hnd. split.
  - intros b. destruct (register_users newId b w) as [-> | (Hnone & u & Hu & ->)];
      [exact Hnd | ].
    rewrite map_app. simpl. apply NoDup_snoc; [exact Hnd | ].
    rewrite Hu. now apply find_email_none.
  - intros ip header configured fn ln mail pw.
    unfold createAdminRoute, restrictToTrustedSources. cbv zeta.
    destruct (_ || _); [ | exact Hnd].
    destruct (createAdmin_users newId fn ln mail pw w)
      as [-> | (Hnone & u & Hu & _ & ->)]; [exact Hnd | ].
    cbn [snd users]. rewrite map_app. simpl. apply NoDup_snoc; [exact Hnd | ].
    rewrite Hu. now apply find_email_none.
Qed.

(** X14. An admin creation that answers 201 has appended one account of
    role admin with the address asked for, which was not in use, and the
    admin list shown next contains it; any other outcome adds no
    account. *)
Theorem createAdmin_then_getAdmins newId fn ln mail pw w :
  (forall rep w',
      createAdmin userValid newId fn ln mail pw w = (Done rep, w') ->
      code rep = 201
      /\ role (body rep) = "admin"
      /\ email (body rep) = or_else mail EmptyString
      /\ ~ In (email (body rep)) (map email (users w))
      /\ users w' = users w ++ [body rep]
      /\ exists listed,
           getAdmins w' = (Done (mkReply 200 listed), w') /\ In (body rep) listed)
  /\ ((forall rep w', createAdmin userValid newId fn ln mail pw w <> (Done rep, w')) ->
      users (snd (createAdmin userValid newId fn ln mail pw w)) = users w).
Proof.
  destruct (createAdmin_users newId fn ln mail pw w)
    as [Hsame | (Hnone & u & Hu & Hrole & Hrun)].
  - split; [ | intros _; exact Hsame].
    intros rep w' H. exfalso. revert H Hsame.
    rewrite createAdmin_run. cbv zeta.
    destruct (_ || _); [discriminate | ].
    destruct (find _ (users w)); [discriminate | ].
    destruct (userValid _ _); [ | discriminate].
    cbn [users snd]. intros _ H. apply (f_equal (@length User)) in H.
    rewrite length_app in H. simpl in H. lia.
  - split.
    + intros rep w' H. rewrite Hrun in H. inversion H; subst rep w'; clear H.
      cbn [code body users].
      split; [reflexivity | split; [exact Hrole | split; [exact Hu | split]]].
      { rewrite Hu. now apply find_email_none. }
      split; [reflexivity | ].
      eexists. split; [reflexivity | ].
      cbn [users]. apply filter_In. split; [ | now rewrite Hrole].
      apply in_or_app. right. now left.
    + intros Hno. exfalso. exact (Hno _ _ Hrun).
Qed.

(** X15. The guard of the admin creation route.  A request from an
    address other than the loopback ones is let through exactly when its
    [admin-creation-token] header is strictly equal to the configured
    token, and a refused request writes nothing.  Where no token is
    configured, a request that carries no such header is let through from
    any address: with the four fields given, the address not in use and
    the account valid, it creates an admin. *)
Theorem admin_creation_guard ip header configured newId fn ln mail pw w :
  (isLocalhost ip = false ->
   (strictEq header configured = false ->
    createAdminRoute userValid ip header configured newId fn ln mail pw w
    = (Refused "Access denied. Admin creation is restricted to trusted sources only." 403,
       w))
   /\ (strictEq header configured = true ->
       createAdminRoute userValid ip header configured newId fn ln mail pw w
       = createAdmin userValid newId fn ln mail pw w))
  /\ createAdminRoute userValid ip None None newId fn ln mail pw w
     = createAdmin userValid newId fn ln mail pw w
  /\ (truthy fn = true -> truthy ln = true -> truthy mail = true -> truthy pw = true ->
      find (fun u => String.eqb (email u) (or_else mail EmptyString)) (users w) = None ->
      let admin := mkUser newId (or_else fn EmptyString) (or_else ln EmptyString)
                     (or_else mail EmptyString) "admin" in
      userValid admin (or_else pw EmptyString) = true ->
      exists w',
        createAdminRoute userValid ip None None newId fn ln mail pw w
        = (Done (mkReply 201 admin), w')
        /\ users w' = users w ++ [admin]).
Proof.
  unfold createAdminRoute, restrictToTrustedSources. cbv zeta.
  split; [ | split].
  - intros ->. split; intros ->; reflexivity.
  - cbn [strictEq]. now rewrite orb_true_r.
  - intros Hfn Hln Hmail Hpw Hfree Hvalid. cbn [strictEq]. rewrite orb_true_r.
    rewrite createAdmin_run. cbv zeta. rewrite Hfn, Hln, Hmail, Hpw. cbn [negb orb].
    rewrite Hfree, Hvalid. eexists. split; reflexivity.
Qed.

End Accounts.


(** * Accounts and sessions *)

Section SessionProperties.

Variable comparePassword : string -> string -> bool.
Variable generateToken : User -> string.
Variable verify : string -> Verified.

(** Every outcome of [toggleUserStatus]. *)
Lemma toggleUserStatus_run now caller userId active s :
  toggleUserStatus now caller userId active s
  = match active with
    | None => (Next "isActive must be a boolean value" 400, s)
    | Some b =>
        match castObjectId userId with
        | None => (Next "Failed to update user status" 500, s)
        | Some oid =>
            match find (byAccountId oid) (accounts s) with
            | None => (Next "User not found" 404, s)
            | Some user =>
                if String.eqb (u_id (acc user)) (a_id caller) && negb b
                then (Next "You cannot deactivate your own account" 400, s)
                else
                  (Done (mkReply 200
                           (mkStatusReply
                              (if b then "User activated successfully"
                               else "User deactivated successfully") (acc user) b)),
                   mkRealm (replaceAccount (withActive b user) (accounts s))
                     (notices s ++ (if b then [] else [deactivationNotice now user]))
                     (outbox s))
            end
        end
    end.
Proof.
  unfold toggleUserStatus.
  destruct active as [b | ]; [ | reflexivity].
  unfold bindS at 1. unfold findAccountById at 1.
  destruct (castObjectId userId) as [oid | ]; [ | reflexivity].
  destruct (find (byAccountId oid) (accounts s)) as [user | ]; [ | reflexivity].
  destruct (String.eqb (u_id (acc user)) (a_id caller) && negb b); [reflexivity | ].
  destruct b; unfold bindS, saveAccount, notify, retS;
    cbn [accounts notices outbox negb acc isActive withActive].
  - now rewrite app_nil_r.
  - reflexivity.
Qed.

(** Every outcome of [login]. *)
Lemma login_run now mail pw s :
  login comparePassword generateToken now mail pw s
  = if negb (truthy mail) || negb (truthy pw)
    then (Next "Please provide email and password" 400, s)
    else
      match find (byEmail (or_else mail EmptyString)) (accounts s) with
      | None => (Next "Incorrect email or password" 401, s)
      | Some user =>
          if negb (comparePassword (password user) (or_else pw EmptyString))
          then (Next "Incorrect email or password" 401, s)
          else if negb (isActive user)
          then (Next "Your account has been deactivated" 403, s)
          else
            (Done (mkReply 200 (mkRegisterReply (generateToken (acc user)) (acc user))),
             mkRealm (replaceAccount (withLastLogin now user) (accounts s))
               (notices s) (outbox s))
      end.
Proof.
  unfold login. destruct (_ || _); [reflexivity | ].
  unfold bindS at 1. unfold findAccountByEmail at 1.
  destruct (find _ (accounts s)) as [user | ]; [ | reflexivity].
  destruct (negb (comparePassword _ _)); [reflexivity | ].
  destruct (negb (isActive user)); reflexivity.
Qed.

Lemma find_byAccountId id l a :
  find (byAccountId id) l = Some a -> In a l /\ u_id (acc a) = id.
Proof.
  intros H. apply find_some in H. destruct H as [Hin E].
  split; [exact Hin | now apply String.eqb_eq].
Qed.

Lemma In_replaceAccount a l x :
  In x (replaceAccount a l) ->
  (In x l /\ u_id (acc x) <> u_id (acc a)) \/ (x = a /\ exists y, In y l /\ u_id (acc y) = u_id (acc a)).
Proof.
  unfold replaceAccount. rewrite in_map_iff. intros (y & E & Hy).
  destruct (String.eqb (u_id (acc y)) (u_id (acc a))) eqn:Ey.
  - right. split; [now subst | ]. exists y. split; [exact Hy | now apply String.eqb_eq].
  - left. subst x. split; [exact Hy | ]. intros E. rewrite E, String.eqb_refl in Ey.
    discriminate.
Qed.

Lemma replaceAccount_In a l x :
  In x l -> u_id (acc x) <> u_id (acc a) -> In x (replaceAccount a l).
Proof.
  intros Hx Hne. unfold replaceAccount. rewrite in_map_iff. exists x.
  split; [ | exact Hx].
  destruct (String.eqb (u_id (acc x)) (u_id (acc a))) eqn:E; [ | reflexivity].
  apply String.eqb_eq in E. contradiction.
Qed.

Lemma In_activeIds id s :
  In id (activeIds s) <-> exists a, In a (accounts s) /\ isActive a = true /\ u_id (acc a) = id.
Proof.
  unfold activeIds. rewrite in_map_iff. split.
  - intros (a & E & Ha). apply filter_In in Ha. destruct Ha as [Hin Hact]. now exists a.
  - intros (a & Hin & Hact & E). exists a. split; [exact E | ].
    apply filter_In. now split.
Qed.

Lemma find_replaceAccount id l a a' :
  find (byAccountId id) l = Some a -> u_id (acc a') = id ->
  find (byAccountId id) (replaceAccount a' l) = Some a'.
Proof.
  intros Hfind <-. induction l as [ | y l IH]; [discriminate | ].
  unfold replaceAccount in *. cbn [map find] in *. unfold byAccountId in *.
  destruct (String.eqb (u_id (acc y)) (u_id (acc a'))) eqn:E.
  - now rewrite String.eqb_refl.
  - rewrite E. now apply IH.
Qed.

Lemma replaced_is_stored a l y :
  In y l -> u_id (acc y) = u_id (acc a) -> In a (replaceAccount a l).
Proof.
  intros Hy E. unfold replaceAccount. rewrite in_map_iff. exists y.
  split; [ | exact Hy]. now rewrite E, String.eqb_refl.
Qed.

Lemma replaceAccount_others a l x :
  u_id (acc x) <> u_id (acc a) -> In x (replaceAccount a l) <-> In x l.
Proof.
  intros Hne. split.
  - intros H. destruct (In_replaceAccount _ _ _ H) as [[Hin _] | [-> _]];
      [exact Hin | contradiction].
  - intros H. now apply replaceAccount_In.
Qed.

(** X16. What [toggleUserStatus] does.  When it goes through, the id
    denotes a stored account (the one whose id is the cast of the string),
    every account with that id has the flag asked for and no other account
    changes; the target is sent one high-priority notice on a deactivation
    and none on an activation.  And whatever is asked, a caller whose
    account is active is still active afterwards. *)
Theorem toggleUserStatus_effect now caller userId active s :
  (forall rep s',
      toggleUserStatus now caller userId active s = (Done rep, s') ->
      exists b user,
        active = Some b
        /\ accountOf s userId = Some user
        /\ (b = false -> u_id (acc user) <> a_id caller)
        /\ sr_isActive (body rep) = b /\ sr_user (body rep) = acc user
        /\ accounts s' = replaceAccount (withActive b user) (accounts s)
        /\ accountOf s' userId = Some (withActive b user)
        /\ (forall x, u_id (acc x) <> u_id (acc user) ->
            In x (accounts s') <-> In x (accounts s))
        /\ notices s'
           = notices s ++ (if b then [] else [deactivationNotice now user]))
  /\ (In (a_id caller) (activeIds s) ->
      In (a_id caller) (activeIds (snd (toggleUserStatus now caller userId active s)))).
Proof.
  rewrite toggleUserStatus_run. unfold accountOf. split.
  - intros rep s'. destruct active as [b | ]; [ | discriminate].
    destruct (castObjectId userId) as [oid | ]; [ | discriminate].
    destruct (find (byAccountId oid) (accounts s)) as [user | ] eqn:Hfind;
      [ | discriminate].
    destruct (String.eqb (u_id (acc user)) (a_id caller) && negb b) eqn:Hself;
      [discriminate | ].
    intros H. inversion H; subst rep s'; clear H.
    destruct (find_byAccountId _ _ _ Hfind) as [Hin Hid].
    exists b, user. cbn [body sr_isActive sr_user accounts notices].
    split; [reflexivity | split; [reflexivity | split]].
    { intros -> E. rewrite E, String.eqb_refl in Hself. discriminate. }
    split; [reflexivity | split; [reflexivity | split; [reflexivity | split]]].
    { now apply (find_replaceAccount oid _ user). }
    split; [ | reflexivity].
    intros x Hx. apply replaceAccount_others. simpl. exact Hx.
  - intros Hact. destruct active as [b | ]; [ | exact Hact].
    destruct (castObjectId userId) as [oid | ]; [ | exact Hact].
    destruct (find (byAccountId oid) (accounts s)) as [user | ] eqn:Hfind;
      [ | exact Hact].
    destruct (String.eqb (u_id (acc user)) (a_id caller) && negb b) eqn:Hself;
      [exact Hact | ].
    cbn [snd]. destruct (find_byAccountId _ _ _ Hfind) as [Hin Hid].
    apply In_activeIds in Hact. destruct Hact as (a & Ha & Hon & Hcaller).
    apply In_activeIds. cbn [accounts].
    destruct (String.eqb (u_id (acc user)) (a_id caller)) eqn:E.
    + destruct b; [ | discriminate]. apply String.eqb_eq in E.
      exists (withActive true user). split; [ | split; [reflexivity | exact E]].
      now apply (replaced_is_stored _ _ user).
    + exists a. split; [ | split; [exact Hon | exact Hcaller]].
      apply replaceAccount_In; [exact Ha | ]. simpl. rewrite Hcaller. intros Eq.
      rewrite <- Eq, String.eqb_refl in E. discriminate.
Qed.

(** X17. A deactivated account is locked out.  Once a deactivation has
    gone through, no login, whatever the credentials, and no bearer
    token, whatever the header, yields the account the id denotes; only a
    later activation can change that. *)
Theorem deactivated_account_is_locked_out now caller userId s rep s1 :
  toggleUserStatus now caller userId (Some false) s = (Done rep, s1) ->
  (forall later mail pw rep2 s2,
      login comparePassword generateToken later mail pw s1 = (Done rep2, s2) ->
      castObjectId userId <> Some (u_id (rr_user (body rep2))))
  /\ (forall header a s2,
        authMiddleware verify header s1 = (Done a, s2) ->
        castObjectId userId <> Some (u_id (acc a))).
Proof.
  intros Hrun.
  assert (Hoff : forall a, In a (accounts s1) ->
                           castObjectId userId = Some (u_id (acc a)) -> isActive a = false).
  { rewrite toggleUserStatus_run in Hrun.
    destruct (castObjectId userId) as [oid | ]; [ | discriminate].
    destruct (find (byAccountId oid) (accounts s)) as [user | ] eqn:Hfind;
      [ | discriminate].
    destruct (_ && _); [discriminate | ].
    inversion Hrun; subst rep s1; clear Hrun. cbn [accounts].
    destruct (find_byAccountId _ _ _ Hfind) as [_ Hid].
    intros a Ha E. destruct (In_replaceAccount _ _ _ Ha) as [[_ Hne] | [-> _]];
      [ | reflexivity].
    simpl in Hne. congruence. }
  split.
  - intros later mail pw rep2 s2. rewrite login_run.
    destruct (_ || _); [discriminate | ].
    destruct (find _ (accounts s1)) as [user | ] eqn:Hfind; [ | discriminate].
    destruct (negb (comparePassword _ _)); [discriminate | ].
    destruct (isActive user) eqn:Hon; [ | discriminate].
    cbn [negb]. intros H. inversion H; subst rep2 s2; clear H. cbn [body rr_user].
    intros E. apply find_some in Hfind. destruct Hfind as [Hin _].
    rewrite (Hoff user Hin E) in Hon. discriminate.
  - intros header a s2. unfold authMiddleware.
    destruct header as [authHeader | ]; [ | discriminate].
    destruct (_ || _); [discriminate | ].
    destruct (negb (str_nonempty _)); [discriminate | ].
    destruct (verify _) as [id | | | ]; try discriminate.
    unfold bindS, findAccountById.
    destruct (castObjectId id) as [oid | ]; [ | discriminate].
    destruct (find (byAccountId oid) (accounts s1)) as [user | ] eqn:Hfind;
      [ | discriminate].
    destruct (isActive user) eqn:Hon; [ | discriminate].
    cbn [negb retS]. intros H. inversion H; subst a s2; clear H.
    intros E. apply find_some in Hfind. destruct Hfind as [Hin _].
    rewrite (Hoff user Hin E) in Hon. discriminate.
Qed.

End SessionProperties.


(** ** Logging in and the bearer token *)

Lemma startsWith_append p s : startsWith p s = true -> exists t, s = p ^^ t.
Proof.
  revert s. induction p as [ | a p IH]; intros s H; [now exists s | ].
  destruct s as [ | b s]; [discriminate | ]. simpl in H.
  apply andb_prop in H. destruct H as [Hab Hrest].
  apply Ascii.eqb_eq in Hab. subst b.
  destruct (IH s Hrest) as (t & ->). now exists t.
Qed.

(** The first piece of a split is the text up to the first separator. *)
Lemma splitOn_first c s :
  exists piece pieces rest,
    splitOn c s = piece :: pieces
    /\ s = piece ^^ rest
    /\ hasChar c piece = false
    /\ (rest = EmptyString \/ exists r, rest = String c r).
Proof.
  induction s as [ | a s (piece & pieces & rest & Hs & Eq & Hno & Hrest)].
  - exists EmptyString, [], EmptyString. repeat split. now left.
  - cbn [splitOn]. destruct (Ascii.eqb a c) eqn:E.
    + apply Ascii.eqb_eq in E. subst a.
      exists EmptyString, (splitOn c s), (String c s).
      repeat split. right. now exists s.
    + rewrite Hs. exists (String a piece), pieces, rest.
      split; [reflexivity | split; [simpl; now rewrite <- Eq | split; [ | exact Hrest]]].
      simpl. now rewrite E.
Qed.

Section Bearer.

Variable comparePassword : string -> string -> bool.
Variable generateToken : User -> string.
Variable verify : string -> Verified.

(** X18. Logging in.  A login that goes through found an active account
    under the address given whose stored password the candidate matches;
    the reply carries that account and its token, and the only change is
    the account's [lastLogin].  A login that does not go through changes
    nothing.  An unknown address and a wrong password get the same
    answer. *)
Theorem login_effect now mail pw s :
  (forall rep s',
      login comparePassword generateToken now mail pw s = (Done rep, s') ->
      exists m p user,
        mail = Some m /\ pw = Some p
        /\ find (byEmail m) (accounts s) = Some user
        /\ comparePassword (password user) p = true
        /\ isActive user = true
        /\ rep = mkReply 200 (mkRegisterReply (generateToken (acc user)) (acc user))
        /\ s' = mkRealm (replaceAccount (withLastLogin now user) (accounts s))
                  (notices s) (outbox s))
  /\ (forall msg c s',
        login comparePassword generateToken now mail pw s = (Next msg c, s') -> s' = s)
  /\ (forall m p,
        mail = Some m -> pw = Some p -> str_nonempty m = true -> str_nonempty p = true ->
        match find (byEmail m) (accounts s) with
        | None => True
        | Some user => comparePassword (password user) p = false
        end ->
        login comparePassword generateToken now mail pw s
        = (Next "Incorrect email or password" 401, s)).
Proof.
  rewrite login_run. split; [ | split].
  - intros rep s'.
    destruct mail as [m | ]; [ | discriminate].
    destruct pw as [p | ]; [ | simpl; rewrite orb_true_r; discriminate].
    cbn [truthy or_else].
    destruct (str_nonempty m); [ | discriminate].
    destruct (str_nonempty p); [ | discriminate]. cbn [negb orb].
    destruct (find (byEmail m) (accounts s)) as [user | ] eqn:Hfind; [ | discriminate].
    destruct (comparePassword (password user) p) eqn:Hpw; [ | discriminate].
    destruct (isActive user) eqn:Hon; [ | discriminate].
    cbn [negb]. intros H. inversion H; subst rep s'; clear H.
    exists m, p, user. repeat split; assumption.
  - intros msg c s'.
    destruct (_ || _); [intros H; now inversion H | ].
    destruct (find _ (accounts s)) as [user | ]; [ | intros H; now inversion H].
    destruct (negb (comparePassword _ _)); [intros H; now inversion H | ].
    destruct (negb (isActive user)); [intros H; now inversion H | discriminate].
  - intros m p -> -> Hm Hp Hfind. cbn [truthy or_else]. rewrite Hm, Hp. cbn [negb orb].
    destruct (find (byEmail m) (accounts s)) as [user | ]; [ | reflexivity].
    now rewrite Hfind.
Qed.

(** X19. Who passes [authMiddleware].  A request passes only with a
    header that reads [Bearer], one space, a non-empty token without a
    space, and then nothing or a space and anything; the token verifies
    to an id that casts to the id of a stored account that is active, and
    that account becomes [req.user].  The middleware writes nothing,
    whatever the outcome. *)
Theorem authMiddleware_pass header s :
  (forall a s',
      authMiddleware verify header s = (Done a, s') ->
      In a (accounts s) /\ isActive a = true
      /\ exists token rest,
           header = Some ("Bearer " ^^ token ^^ rest)
           /\ token <> EmptyString
           /\ hasChar " "%char token = false
           /\ (rest = EmptyString \/ exists r, rest = String " "%char r)
           /\ exists id,
                verify token = Decoded id /\ castObjectId id = Some (u_id (acc a)))
  /\ snd (authMiddleware verify header s) = s.
Proof.
  unfold authMiddleware. split.
  - intros a s'. destruct header as [authHeader | ]; [ | discriminate].
    destruct (str_nonempty authHeader); [ | discriminate]. cbn [negb orb].
    destruct (startsWith "Bearer " authHeader) eqn:Hstart; [ | discriminate].
    cbn [negb]. apply startsWith_append in Hstart. destruct Hstart as (t & ->).
    destruct (splitOn_first " "%char t) as (token & pieces & rest & Hs & Et & Hno & Hrest).
    assert (Htok : nth 1 (splitOn " "%char ("Bearer " ^^ t)) EmptyString = token).
    { cbn [String.append splitOn Ascii.eqb Bool.eqb]. now rewrite Hs. }
    rewrite Htok.
    destruct (str_nonempty token) eqn:Hne; [ | discriminate]. cbn [negb].
    destruct (verify token) as [id | | | ] eqn:Hv; try discriminate.
    unfold bindS, findAccountById.
    destruct (castObjectId id) as [oid | ] eqn:Ecast; [ | discriminate].
    destruct (find (byAccountId oid) (accounts s)) as [user | ] eqn:Hfind;
      [ | discriminate].
    destruct (isActive user) eqn:Hon; [ | discriminate].
    cbn [negb retS]. intros H. inversion H; subst a s'; clear H.
    destruct (find_byAccountId _ _ _ Hfind) as [Hin Hid].
    split; [exact Hin | split; [exact Hon | ]].
    exists token, rest. rewrite Et.
    split; [reflexivity | split; [ | split; [assumption | split; [assumption | ]]]].
    + intros ->. discriminate.
    + exists id. split; [exact Hv | now rewrite Hid].
  - destruct header as [authHeader | ]; [ | reflexivity].
    destruct (_ || _); [reflexivity | ].
    destruct (negb (str_nonempty _)); [reflexivity | ].
    destruct (verify _) as [id | | | ]; try reflexivity.
    unfold bindS, findAccountById.
    destruct (castObjectId id) as [oid | ]; [ | reflexivity].
    destruct (find (byAccountId oid) (accounts s)) as [user | ]; [ | reflexivity].
    now destruct (negb (isActive user)).
Qed.

End Bearer.

(** ** Password reset *)

Section PasswordReset.

Variable generateToken : User -> string.
Variable sha256 : string -> string.
Variable sendEmail : Mail -> bool.
Variable storedForm : string -> string.
Variable passwordValid : string -> bool.

(** Every outcome of [forgotPassword]. *)
Lemma forgotPassword_run now resetToken protocol host mail s :
  forgotPassword sha256 sendEmail now resetToken protocol host mail s
  = match find (byEmail mail) (accounts s) with
    | None => (Next "No user found with that email address" 404, s)
    | Some user =>
        let issued := withReset (Some (sha256 resetToken)) (Some (now + tenMinutes)) user in
        if sendEmail (resetLetter protocol host resetToken user) then
          (Done (mkReply 200 "Token sent to email"),
           mkRealm (replaceAccount issued (accounts s)) (notices s)
             (outbox s ++ [resetLetter protocol host resetToken user]))
        else
          (Next "There was an error sending the email. Try again later." 500,
           mkRealm (replaceAccount (withReset None None user) (accounts s)) (notices s)
             (outbox s))
    end.
Proof.
  unfold forgotPassword. unfold bindS at 1. unfold findAccountByEmail at 1.
  destruct (find (byEmail mail) (accounts s)) as [user | ]; [ | reflexivity].
  unfold bindS at 1. unfold saveAccount at 1. cbv zeta.
  cbn [acc withReset accounts notices outbox].
  fold (resetLetter protocol host resetToken user).
  destruct (sendEmail (resetLetter protocol host resetToken user)).
  - reflexivity.
  - unfold bindS, saveAccount, nextS. cbn [accounts notices outbox].
    f_equal. f_equal. unfold replaceAccount. rewrite map_map. apply map_ext.
    intros y. cbn [acc withReset].
    destruct (String.eqb (u_id (acc y)) (u_id (acc user))) eqn:E; cbn [acc].
    + now rewrite String.eqb_refl.
    + now rewrite E.
Qed.

(** Every outcome of [resetPassword]. *)
Lemma resetPassword_run now token pw s :
  resetPassword generateToken sha256 storedForm passwordValid now token pw s
  = match find (holdsToken (sha256 token) now) (accounts s) with
    | None => (Next "Token is invalid or has expired" 400, s)
    | Some user =>
        if passwordValid pw then
          (Done (mkReply 200 (generateToken (acc user))),
           mkRealm (replaceAccount
                      (withReset None None (withPassword (storedForm pw) user))
                      (accounts s)) (notices s) (outbox s))
        else (Thrown "ValidationError", s)
    end.
Proof.
  unfold resetPassword. cbv zeta. unfold bindS at 1.
  destruct (find _ (accounts s)) as [user | ]; [ | reflexivity].
  destruct (passwordValid pw); reflexivity.
Qed.

Lemma find_in_replaced (p : Account -> bool) a l y :
  In y l -> u_id (acc y) = u_id (acc a) -> p a = true ->
  (forall x, In x l -> u_id (acc x) <> u_id (acc a) -> p x = false) ->
  find p (replaceAccount a l) = Some a.
Proof.
  intros Hy Eid Hpa Hothers. induction l as [ | z l IH]; [contradiction | ].
  unfold replaceAccount in *. cbn [map find].
  destruct (String.eqb (u_id (acc z)) (u_id (acc a))) eqn:E.
  - now rewrite Hpa.
  - rewrite (Hothers z (or_introl eq_refl)).
    + destruct Hy as [-> | Hy]; [rewrite Eid, String.eqb_refl in E; discriminate | ].
      apply IH; [exact Hy | ]. intros x Hx. apply Hothers. now right.
    + intros Eq. rewrite Eq, String.eqb_refl in E. discriminate.
Qed.

Lemma find_none_replaced (p : Account -> bool) a l :
  p a = false -> (forall x, In x l -> u_id (acc x) <> u_id (acc a) -> p x = false) ->
  find p (replaceAccount a l) = None.
Proof.
  intros Hpa Hothers.
  destruct (find p (replaceAccount a l)) as [x | ] eqn:E; [ | reflexivity].
  apply find_some in E. destruct E as [Hin Hp].
  destruct (In_replaceAccount _ _ _ Hin) as [[Hx Hne] | [-> _]].
  - rewrite (Hothers x Hx Hne) in Hp. discriminate.
  - rewrite Hpa in Hp. discriminate.
Qed.

Lemma replaceAccount_twice a1 a2 l :
  u_id (acc a1) = u_id (acc a2) ->
  replaceAccount a2 (replaceAccount a1 l) = replaceAccount a2 l.
Proof.
  intros E. unfold replaceAccount. rewrite map_map. apply map_ext. intros y.
  rewrite <- E. destruct (String.eqb (u_id (acc y)) (u_id (acc a1))) eqn:Ey;
    [ | now rewrite Ey].
  now rewrite String.eqb_refl.
Qed.

Lemma unissued_off hashed now s a :
  unissued hashed s -> In a (accounts s) -> holdsToken hashed now a = false.
Proof.
  intros Hfresh Ha. unfold holdsToken.
  destruct (resetPasswordToken a) as [t | ] eqn:Et; [ | reflexivity].
  simpl. destruct (String.eqb t hashed) eqn:E; [ | reflexivity].
  apply String.eqb_eq in E. subst t. now apply Hfresh in Ha.
Qed.

(** X20. The reset round trip.  After [forgotPassword] has gone through
    for a token no account held before, the letter with that token went
    to the account's address, and within ten minutes the token resets
    that account's password: [resetPassword] answers 200 with the
    account's session token, stores the new password and clears the reset
    fields, and changes no other account.  The token works once: a second
    use is turned down and changes nothing. *)
Theorem reset_round_trip now resetToken protocol host mail s rep s1 later pw :
  unissued (sha256 resetToken) s ->
  forgotPassword sha256 sendEmail now resetToken protocol host mail s = (Done rep, s1) ->
  later < now + tenMinutes ->
  passwordValid pw = true ->
  exists user,
    find (byEmail mail) (accounts s) = Some user
    /\ outbox s1 = outbox s ++ [resetLetter protocol host resetToken user]
    /\ let renewed :=
         mkAccount (acc user) (storedForm pw) (isActive user) (lastLogin user) None None in
       let s2 := mkRealm (replaceAccount renewed (accounts s)) (notices s) (outbox s1) in
       resetPassword generateToken sha256 storedForm passwordValid later resetToken pw s1
       = (Done (mkReply 200 (generateToken (acc user))), s2)
       /\ (forall x, u_id (acc x) <> u_id (acc user) ->
           In x (accounts s2) <-> In x (accounts s))
       /\ forall again pw',
            resetPassword generateToken sha256 storedForm passwordValid again resetToken
              pw' s2
            = (Next "Token is invalid or has expired" 400, s2).
Proof.
  intros Hfresh Hrun Hlater Hvalid. rewrite forgotPassword_run in Hrun.
  destruct (find (byEmail mail) (accounts s)) as [user | ] eqn:Hfind; [ | discriminate].
  cbv zeta in Hrun. destruct (sendEmail _); [ | discriminate].
  inversion Hrun; subst rep s1; clear Hrun.
  apply find_some in Hfind. destruct Hfind as [Hin _].
  exists user. split; [reflexivity | split; [reflexivity | ]]. cbv zeta.
  set (issued := withReset (Some (sha256 resetToken)) (Some (now + tenMinutes)) user).
  assert (Hfound : find (holdsToken (sha256 resetToken) later)
                     (replaceAccount issued (accounts s)) = Some issued).
  { apply (find_in_replaced _ issued _ user Hin eq_refl).
    - unfold holdsToken, issued. cbn [resetPasswordToken resetPasswordExpires withReset
        strictEq]. rewrite String.eqb_refl. cbn [andb]. now apply Z.ltb_lt.
    - intros x Hx _. now apply (unissued_off _ _ s). }
  split; [ | split].
  - rewrite resetPassword_run. cbn [accounts notices outbox]. rewrite Hfound, Hvalid.
    rewrite replaceAccount_twice by reflexivity. reflexivity.
  - intros x Hx. cbn [accounts]. now apply replaceAccount_others.
  - intros again pw'. rewrite resetPassword_run. cbn [accounts].
    rewrite find_none_replaced; [reflexivity | reflexivity | ].
    intros x Hx _. now apply (unissued_off _ _ s).
Qed.

(** X21. A reset token dies.  Ten minutes after [forgotPassword] issued
    it, the token is turned down and nothing changes; and when the letter
    could not be sent, the call answers 500 and the token it had stored is
    wiped with it, so it resets nothing either. *)
Theorem reset_token_dies now resetToken protocol host mail s res s1 later pw :
  unissued (sha256 resetToken) s ->
  forgotPassword sha256 sendEmail now resetToken protocol host mail s = (res, s1) ->
  now + tenMinutes <= later \/ (forall rep, res <> Done rep) ->
  resetPassword generateToken sha256 storedForm passwordValid later resetToken pw s1
  = (Next "Token is invalid or has expired" 400, s1).
Proof.
  intros Hfresh Hrun Hdead. rewrite forgotPassword_run in Hrun.
  rewrite resetPassword_run.
  destruct (find (byEmail mail) (accounts s)) as [user | ] eqn:Hfind.
  2:{ inversion Hrun; subst res s1; clear Hrun.
      destruct (find (holdsToken _ _) (accounts s)) as [a | ] eqn:E; [ | reflexivity].
      apply find_some in E. destruct E as [Ha Hp].
      rewrite (unissued_off _ later s a Hfresh Ha) in Hp. discriminate. }
  cbv zeta in Hrun. destruct (sendEmail _).
  - inversion Hrun; subst res s1; clear Hrun.
    destruct Hdead as [Hlate | Hno]; [ | now contradiction (Hno (mkReply 200 "Token sent to email"))].
    cbn [accounts]. rewrite find_none_replaced; [reflexivity | | ].
    + unfold holdsToken. cbn [resetPasswordToken resetPasswordExpires withReset strictEq].
      rewrite String.eqb_refl. cbn [andb]. apply Z.ltb_ge. exact Hlate.
    + intros x Hx _. now apply (unissued_off _ _ s).
  - inversion Hrun; subst res s1; clear Hrun. cbn [accounts].
    rewrite find_none_replaced; [reflexivity | reflexivity | ].
    intros x Hx _. now apply (unissued_off _ _ s).
Qed.

End PasswordReset.

Lemma sampleRealm_unissued token : unissued (sampleSha token) sampleRealm.
Proof.
  intros a Ha. simpl in Ha.
  destruct Ha as [<- | [<- | [<- | [<- | []]]]]; discriminate.
Qed.


(** * The inbox *)

Lemma insertNewest_perm n l : Permutation (insertNewest n l) (n :: l).
Proof.
  induction l as [ | m l IH]; simpl; [reflexivity | ].
  destruct (n_createdAt m <=? n_createdAt n); [reflexivity | ].
  rewrite IH. apply perm_swap.
Qed.

Lemma sortNewest_perm l : Permutation (sortNewest l) l.
Proof.
  unfold sortNewest. induction l as [ | n l IH]; simpl; [reflexivity | ].
  rewrite insertNewest_perm. now constructor.
Qed.

Lemma unique_entry (s : Inbox) id n e :
  NoDup (map fst s) -> In (id, n) s -> In e s -> fst e = id -> e = (id, n).
Proof.
  induction s as [ | x s IH]; simpl; intros Hnd Hn He Hid; [contradiction | ].
  inversion Hnd as [ | ? ? Hnot Hnd']; subst.
  destruct He as [Hex | He].
  - subst x. destruct Hn as [Hnx | Hn]; [exact Hnx | ].
    exfalso. apply Hnot. apply (in_map fst) in Hn. exact Hn.
  - destruct Hn as [Hnx | Hn]; [ | now apply IH].
    subst x. exfalso. apply Hnot. apply (in_map fst) in He. exact He.
Qed.

(** Every outcome of [markNotificationRead]. *)
Lemma markNotificationRead_run now user id s :
  markNotificationRead now user id s
  = match castObjectId id with
    | None => (Refused "Failed to mark notification as read" 500, s)
    | Some oid =>
        match find (fun e => String.eqb (fst e) oid
                             && String.eqb (recipient (snd e)) (a_id user)) s with
        | None => (Refused "Notification not found" 404, s)
        | Some e => (Done (mkReply 200 (markAsRead now (snd e))),
                     readIn now (fst e) (snd e) s)
        end
    end.
Proof.
  unfold markNotificationRead, bindS, findOneNotification.
  destruct (castObjectId id) as [oid | ]; [ | reflexivity].
  destruct (find _ _) as [[i n] | ]; reflexivity.
Qed.

(** X22. Only its recipient can mark a notification read.  The id in the
    path is cast to an ObjectId.  For a caller who is not the recipient of
    the notification the id denotes, or when there is none, the answer is
    404 and the collection is as it was; for a string that is no ObjectId
    the lookup throws, the route answers 500, and the collection is as it
    was.  When the call goes through, the notification is the caller's, it
    comes back read and stamped with the time of the call, and with unique
    ids no other notification changes. *)
Theorem markNotificationRead_recipient_only now user id s :
  (forall oid,
      castObjectId id = Some oid ->
      (forall e, In e s -> fst e = oid -> recipient (snd e) <> a_id user) ->
      markNotificationRead now user id s = (Refused "Notification not found" 404, s))
  /\ (castObjectId id = None ->
      markNotificationRead now user id s
      = (Refused "Failed to mark notification as read" 500, s))
  /\ (forall rep s',
        markNotificationRead now user id s = (Done rep, s') ->
        exists oid n,
          castObjectId id = Some oid
          /\ In (oid, n) s /\ recipient n = a_id user
          /\ rep = mkReply 200 (markAsRead now n)
          /\ isRead (body rep) = true /\ readAt (body rep) = Some now
          /\ recipient (body rep) = a_id user
          /\ map fst s' = map fst s
          /\ (NoDup (map fst s) ->
              forall e,
                In e s' <-> (In e s /\ fst e <> oid) \/ e = (oid, markAsRead now n))).
Proof.
  rewrite markNotificationRead_run. split; [ | split].
  - intros oid -> Hnot.
    destruct (find _ _) as [[i n] | ] eqn:Hfind; [ | reflexivity].
    apply find_some in Hfind. destruct Hfind as [Hin Hp]. apply andb_prop in Hp.
    destruct Hp as [Hi Hr]. apply String.eqb_eq in Hi, Hr.
    exfalso. exact (Hnot (i, n) Hin Hi Hr).
  - now intros ->.
  - intros rep s'.
    destruct (castObjectId id) as [oid | ]; [ | discriminate].
    destruct (find _ _) as [[i n] | ] eqn:Hfind; [ | discriminate].
    apply find_some in Hfind. destruct Hfind as [Hin Hp]. apply andb_prop in Hp.
    destruct Hp as [Hi Hr]. apply String.eqb_eq in Hi, Hr. simpl in Hi, Hr. subst i.
    cbn [fst snd]. intros H. inversion H; subst rep s'; clear H.
    exists oid, n. cbn [body]. unfold readIn.
    split; [reflexivity | ].
    split; [exact Hin | split; [exact Hr | split; [reflexivity | ]]].
    split; [reflexivity | split; [reflexivity | split; [exact Hr | split]]].
    + rewrite map_map. apply map_ext. intros e.
      destruct (String.eqb _ _); reflexivity.
    + intros Hnd e. rewrite in_map_iff. split.
      * intros (x & <- & Hx). destruct (String.eqb (fst x) oid) eqn:E.
        -- right. apply String.eqb_eq in E. now rewrite E.
        -- left. split; [exact Hx | ]. apply String.eqb_neq in E. exact E.
      * intros [[He Hne] | ->].
        -- exists e. split; [ | exact He].
           destruct (String.eqb _ _) eqn:E; [ | reflexivity].
           apply String.eqb_eq in E. exfalso. exact (Hne E).
        -- exists (oid, n). split; [ | exact Hin]. cbn [fst]. now rewrite String.eqb_refl.
Qed.

Lemma readIn_cons now id n e s :
  readIn now id n (e :: s)
  = (if String.eqb (fst e) id then (fst e, markAsRead now n) else e) :: readIn now id n s.
Proof. reflexivity. Qed.

Lemma readIn_absent now id n s : ~ In id (map fst s) -> readIn now id n s = s.
Proof.
  intros Hnot. induction s as [ | e s IH]; [reflexivity | ].
  rewrite readIn_cons. destruct (String.eqb (fst e) id) eqn:E.
  - apply String.eqb_eq in E. exfalso. apply Hnot. left. exact E.
  - rewrite IH; [reflexivity | ]. intros H. apply Hnot. now right.
Qed.

Lemma unread_after_read now uid id n (s : Inbox) :
  NoDup (map fst s) -> In (id, n) s -> recipient n = uid ->
  Permutation (filter (unreadBy uid) (map snd s))
    ((if isRead n then [] else [n])
     ++ filter (unreadBy uid) (map snd (readIn now id n s))).
Proof.
  intros Hnd Hin Hr. induction s as [ | [i m] s IH]; [contradiction | ].
  inversion Hnd as [ | ? ? Hnot Hnd']; subst.
  rewrite readIn_cons. cbn [map fst snd filter].
  destruct Hin as [E | Hin].
  - injection E as -> ->. rewrite String.eqb_refl. cbn [snd].
    rewrite (readIn_absent now id n s Hnot).
    assert (H1 : unreadBy (recipient n) (markAsRead now n) = false).
    { unfold unreadBy. change (isRead (markAsRead now n)) with true. apply andb_false_r. }
    assert (H2 : unreadBy (recipient n) n = negb (isRead n)).
    { unfold unreadBy. now rewrite String.eqb_refl. }
    rewrite H1, H2. destruct (isRead n); reflexivity.
  - destruct (String.eqb i id) eqn:E.
    + apply String.eqb_eq in E. subst i. exfalso. apply Hnot.
      apply (in_map fst) in Hin. exact Hin.
    + cbn [snd]. specialize (IH Hnd' Hin).
      destruct (unreadBy (recipient n) m).
      * rewrite IH. apply Permutation_middle.
      * exact IH.
Qed.

Lemma unread_of_others now uid id n (s : Inbox) :
  recipient n <> uid ->
  (forall e, In e s -> fst e = id -> recipient (snd e) = recipient n) ->
  filter (unreadBy uid) (map snd (readIn now id n s)) = filter (unreadBy uid) (map snd s).
Proof.
  intros Hother Hown. induction s as [ | e s IH]; [reflexivity | ].
  rewrite readIn_cons. cbn [map filter].
  rewrite IH by (intros x Hx; apply Hown; now right).
  destruct (String.eqb (fst e) id) eqn:E; [ | reflexivity].
  apply String.eqb_eq in E. cbn [snd].
  assert (H1 : unreadBy uid (markAsRead now n) = false).
  { unfold unreadBy. change (isRead (markAsRead now n)) with true. apply andb_false_r. }
  assert (H2 : unreadBy uid (snd e) = false).
  { unfold unreadBy. rewrite (Hown e (or_introl eq_refl) E).
    destruct (String.eqb (recipient n) uid) eqn:Er; [ | reflexivity].
    apply String.eqb_eq in Er. contradiction. }
  now rewrite H1, H2.
Qed.

(** X23. Reading a notification takes it off its recipient's unread
    list and off nothing else: with unique ids, after the recipient has
    marked one read, their unread list is the one before without that
    notification, and every other user's unread list is unchanged. *)
Theorem read_notification_leaves_unread_list now user id s rep s' :
  NoDup (map fst s) ->
  markNotificationRead now user id s = (Done rep, s') ->
  exists oid n,
    castObjectId id = Some oid
    /\ In (oid, n) s
    /\ Permutation (unreadOf (a_id user) s)
         ((if isRead n then [] else [n]) ++ unreadOf (a_id user) s')
    /\ forall other, other <> a_id user -> unreadOf other s' = unreadOf other s.
Proof.
  intros Hnd Hrun. rewrite markNotificationRead_run in Hrun.
  destruct (castObjectId id) as [oid | ]; [ | discriminate].
  destruct (find _ _) as [[i n] | ] eqn:Hfind; [ | discriminate].
  apply find_some in Hfind. destruct Hfind as [Hin Hp]. apply andb_prop in Hp.
  destruct Hp as [Hi Hr]. apply String.eqb_eq in Hi, Hr. simpl in Hi, Hr. subst i.
  cbn [fst snd] in Hrun. inversion Hrun; subst rep s'; clear Hrun.
  exists oid, n. split; [reflexivity | split; [exact Hin | split]].
  - unfold unreadOf, getUnreadByUser. rewrite !sortNewest_perm.
    now apply unread_after_read.
  - intros other Hother. unfold unreadOf, getUnreadByUser. f_equal.
    apply (unread_of_others now other oid n s).
    + rewrite Hr. intros E. now apply Hother.
    + intros e He Hid. now rewrite (unique_entry s oid n e Hnd Hin He Hid).
Qed.


(** * The profile update *)

Lemma setUserField_allowed u kv :
  includes allowedFields (fst kv) = true ->
  u_id (setUserField u kv) = u_id u
  /\ email (setUserField u kv) = email u
  /\ role (setUserField u kv) = role u.
Proof.
  intros H. apply includes_In in H. unfold setUserField.
  destruct (String.eqb (fst kv) "firstName"); [repeat split | ].
  destruct (String.eqb (fst kv) "lastName"); [repeat split | ].
  destruct (String.eqb (fst kv) "email") eqn:E1.
  { apply String.eqb_eq in E1. rewrite E1 in H. simpl in H.
    repeat (destruct H as [H | H]; [discriminate | ]). contradiction. }
  destruct (String.eqb (fst kv) "role") eqn:E2; [ | repeat split].
  apply String.eqb_eq in E2. rewrite E2 in H. simpl in H.
  repeat (destruct H as [H | H]; [discriminate | ]). contradiction.
Qed.

Lemma fold_allowed update u :
  forallb (fun kv => includes allowedFields (fst kv)) update = true ->
  u_id (fold_left setUserField update u) = u_id u
  /\ email (fold_left setUserField update u) = email u
  /\ role (fold_left setUserField update u) = role u.
Proof.
  revert u. induction update as [ | kv update IH]; intros u H; [repeat split | ].
  cbn [forallb] in H. apply andb_prop in H. destruct H as [Hkv Hrest].
  cbn [fold_left]. destruct (IH (setUserField u kv) Hrest) as (H1 & H2 & H3).
  destruct (setUserField_allowed u kv Hkv) as (G1 & G2 & G3).
  rewrite H1, H2, H3. now rewrite G1, G2, G3.
Qed.

Lemma pickAllowed_allowed body :
  forallb (fun kv => includes allowedFields (fst kv)) (pickAllowed body) = true.
Proof.
  unfold pickAllowed. induction body as [ | kv body IH]; [reflexivity | ].
  cbn [filter]. destruct (includes allowedFields (fst kv)) eqn:E; [ | exact IH].
  cbn [forallb]. now rewrite E, IH.
Qed.

Lemma replaceUser_keys u l :
  (forall y, In y l -> u_id y = u_id u -> email y = email u /\ role y = role u) ->
  map (fun x => (u_id x, email x, role x)) (replaceUser u l)
  = map (fun x => (u_id x, email x, role x)) l.
Proof.
  intros H. unfold replaceUser. rewrite map_map. apply map_ext_in. intros y Hy.
  destruct (String.eqb (u_id y) (u_id u)) eqn:E; [ | reflexivity].
  apply String.eqb_eq in E. destruct (H y Hy E) as [-> ->]. now rewrite E.
Qed.

Section ProfileProperties.

Variable updateValid : list (string * string) -> bool.

(** X24. A profile update cannot change who an account is or what it
    may do.  Whatever members the body has (a role, an email, an id
    included) and whatever the outcome, afterwards every account has the
    id, the email address and the role it had, accounts other than the
    caller's are untouched, and reports and notifications are as they
    were; given unique account ids. *)
Theorem profile_update_keeps_identity_and_role user body w :
  NoDup (map u_id (users w)) ->
  let w' := snd (updateProfile updateValid user body w) in
  map (fun x => (u_id x, email x, role x)) (users w')
  = map (fun x => (u_id x, email x, role x)) (users w)
  /\ (forall u, u_id u <> a_id user -> In u (users w') <-> In u (users w))
  /\ reports w' = reports w /\ notifications w' = notifications w.
Proof.
  intros Hnd. unfold updateProfile, findByIdAndUpdate. cbv zeta.
  destruct (updateValid (pickAllowed body)); [ | repeat split; auto].
  unfold bind.
  destruct (find (fun u => String.eqb (u_id u) (a_id user)) (users w)) as [u | ] eqn:Hfind;
    [ | repeat split; auto].
  cbn [ret snd users reports notifications].
  destruct (fold_allowed (pickAllowed body) u (pickAllowed_allowed body))
    as (Hid & Hmail & Hrole).
  apply find_some in Hfind. destruct Hfind as [Hin Hu]. apply String.eqb_eq in Hu.
  split; [ | split; [ | split; reflexivity]].
  - apply replaceUser_keys. intros y Hy Ey. rewrite Hid in Ey.
    assert (y = u); [ | subst y; now rewrite Hmail, Hrole].
    clear - Hnd Hin Hy Ey. induction (users w) as [ | z l IH]; [contradiction | ].
    simpl in Hnd. inversion Hnd as [ | ? ? Hnot Hnd']; subst.
    destruct Hy as [-> | Hy], Hin as [-> | Hin]; try reflexivity.
    + exfalso. apply Hnot. rewrite Ey. now apply in_map.
    + exfalso. apply Hnot. rewrite <- Ey. now apply in_map.
    + now apply IH.
  - intros x Hx. unfold replaceUser. rewrite in_map_iff. split.
    + intros (y & Ey & Hy).
      destruct (String.eqb (u_id y) (u_id (fold_left setUserField (pickAllowed body) u)))
        eqn:E.
      * subst x. rewrite Hid, Hu in Hx. contradiction.
      * now subst y.
    + intros Hin'. exists x. split; [ | exact Hin'].
      destruct (String.eqb (u_id x) (u_id (fold_left setUserField (pickAllowed body) u)))
        eqn:E; [ | reflexivity].
      apply String.eqb_eq in E. rewrite Hid, Hu in E. contradiction.
Qed.

End ProfileProperties.


(** * upload.service.js: the names of uploaded files *)

Lemma hasChar_append c a b : hasChar c (a ^^ b) = hasChar c a || hasChar c b.
Proof.
  induction a as [ | x a IH]; [reflexivity | ].
  simpl. rewrite IH. now rewrite orb_assoc.
Qed.

(** No piece of a split contains the separator. *)
Lemma splitOn_pieces c s : Forall (fun p => hasChar c p = false) (splitOn c s).
Proof.
  induction s as [ | a s IH]; [repeat constructor | ].
  cbn [splitOn]. destruct (Ascii.eqb a c) eqn:E.
  - constructor; [reflexivity | exact IH].
  - destruct (splitOn c s) as [ | piece pieces]; [repeat constructor; simpl; now rewrite E | ].
    inversion IH as [ | ? ? Hp Hps]; subst.
    constructor; [simpl; now rewrite E, Hp | exact Hps].
Qed.

(** A character that is not in a string is in none of its pieces. *)
Lemma splitOn_without d c s :
  hasChar d s = false -> Forall (fun p => hasChar d p = false) (splitOn c s).
Proof.
  induction s as [ | a s IH]; intros H; [repeat constructor | ].
  simpl in H. apply orb_false_elim in H. destruct H as [Ha Hs].
  specialize (IH Hs). cbn [splitOn]. destruct (Ascii.eqb a c).
  - constructor; [reflexivity | exact IH].
  - destruct (splitOn c s) as [ | piece pieces]; [repeat constructor; simpl; now rewrite Ha | ].
    inversion IH as [ | ? ? Hp Hps]; subst.
    constructor; [simpl; now rewrite Ha, Hp | exact Hps].
Qed.

Lemma splitOn_cons c s : exists piece pieces, splitOn c s = piece :: pieces.
Proof.
  destruct s as [ | a s]; [now exists EmptyString, [] | ].
  cbn [splitOn]. destruct (Ascii.eqb a c); [now eexists; eexists | ].
  destruct (splitOn c s); now eexists; eexists.
Qed.

Lemma Forall_last {A} (P : A -> Prop) l d : P d -> Forall P l -> P (last l d).
Proof.
  intros Hd H. induction H as [ | x l Hx Hl IH]; [exact Hd | ].
  destruct l; [exact Hx | exact IH].
Qed.

Lemma Forall_removelast {A} (P : A -> Prop) l : Forall P l -> Forall P (removelast l).
Proof.
  intros H. induction H as [ | x l Hx Hl IH]; [constructor | ].
  destruct l; [constructor | ]. cbn [removelast]. constructor; assumption.
Qed.

Lemma joinWith_without d sep pieces :
  hasChar d sep = false -> Forall (fun p => hasChar d p = false) pieces ->
  hasChar d (joinWith sep pieces) = false.
Proof.
  intros Hsep H. induction H as [ | p l Hp Hl IH]; [reflexivity | ].
  destruct l as [ | q l]; [exact Hp | ].
  change (joinWith sep (p :: q :: l)) with (p ^^ sep ^^ joinWith sep (q :: l)).
  now rewrite !hasChar_append, Hp, Hsep, IH.
Qed.

(** X25. The id by which a file is deleted is never the id under which
    one was uploaded.  The [public_id] that [uploadToCloudinary] asks for
    always contains a slash (it starts with the folder) and its file-name
    part stops at the first dot of the name; the id that
    [deleteFromCloudinary] derives from a URL never contains a slash (it
    is cut out of the last segment of the path), and is empty when that
    segment has no dot. *)
Theorem delete_id_is_never_an_upload_id now uploadType fileName fileUrl :
  hasChar "/"%char (uploadPublicId now uploadType fileName) = true
  /\ hasChar "."%char (hd EmptyString (splitOn "."%char fileName)) = false
  /\ hasChar "/"%char (deletePublicId fileUrl) = false
  /\ deletePublicId fileUrl <> uploadPublicId now uploadType fileName
  /\ (hasChar "."%char (last (splitOn "/"%char fileUrl) EmptyString) = false ->
      deletePublicId fileUrl = EmptyString).
Proof.
  assert (Hup : hasChar "/"%char (uploadPublicId now uploadType fileName) = true).
  { unfold uploadPublicId. rewrite hasChar_append.
    assert (Hf : hasChar "/"%char (cloudFolder uploadType) = true).
    { unfold cloudFolder. repeat destruct (String.eqb uploadType _); reflexivity. }
    now rewrite Hf. }
  assert (Hdel : hasChar "/"%char (deletePublicId fileUrl) = false).
  { unfold deletePublicId. cbv zeta. apply joinWith_without; [reflexivity | ].
    apply Forall_removelast. apply splitOn_without.
    apply (Forall_last (fun p => hasChar "/"%char p = false)); [reflexivity | ].
    apply splitOn_pieces. }
  split; [exact Hup | split; [ | split; [exact Hdel | split]]].
  - destruct (splitOn_cons "."%char fileName) as (piece & pieces & E).
    pose proof (splitOn_pieces "."%char fileName) as H. rewrite E in H.
    rewrite E. inversion H; subst. assumption.
  - intros E. rewrite E, Hup in Hdel. discriminate.
  - intros Hno. unfold deletePublicId. cbv zeta.
    set (seg := last (splitOn "/"%char fileUrl) EmptyString) in *.
    assert (Hone : splitOn "."%char seg = [seg]).
    { clear - Hno. induction seg as [ | a seg IH]; [reflexivity | ].
      simpl in Hno. apply orb_false_elim in Hno. destruct Hno as [Ha Hs].
      cbn [splitOn]. rewrite Ha. now rewrite (IH Hs). }
    now rewrite Hone.
Qed.

(** * Paging and search statistics *)

Lemma ones_for_key (a : string) keys :
  NoDup keys -> In a keys ->
  fold_right Nat.add 0%nat (map (fun k => if string_dec a k then 1%nat else 0%nat) keys)
  = 1%nat.
Proof.
  induction keys as [ | k keys IH]; intros Hnd Hin; [contradiction | ].
  inversion Hnd as [ | ? ? Hnot Hnd']; subst. cbn [map fold_right].
  destruct (string_dec a k) as [-> | Hne].
  - assert (H0 : fold_right Nat.add 0%nat
                   (map (fun k' => if string_dec k k' then 1%nat else 0%nat) keys) = 0%nat).
    { clear - Hnot. induction keys as [ | x keys IH]; [reflexivity | ].
      cbn [map fold_right]. destruct (string_dec k x) as [-> | _].
      - exfalso. apply Hnot. now left.
      - rewrite IH; [reflexivity | ]. intros H. apply Hnot. now right. }
    now rewrite H0.
  - destruct Hin as [-> | Hin]; [contradiction | ]. now rewrite IH.
Qed.

Lemma counts_over_keys l keys :
  NoDup keys -> (forall x, In x l -> In x keys) ->
  fold_right Nat.add 0%nat (map (fun k => count_occ string_dec l k) keys) = length l.
Proof.
  intros Hnd. induction l as [ | a l IH]; intros Hin.
  - cbn [count_occ length]. clear. induction keys; [reflexivity | simpl; assumption].
  - assert (Hsplit : forall ks,
              fold_right Nat.add 0%nat (map (fun k => count_occ string_dec (a :: l) k) ks)
              = (fold_right Nat.add 0%nat
                   (map (fun k => if string_dec a k then 1%nat else 0%nat) ks)
                 + fold_right Nat.add 0%nat (map (fun k => count_occ string_dec l k) ks))%nat).
    { induction ks as [ | k ks IHk]; [reflexivity | ].
      cbn [map fold_right]. rewrite IHk. cbn [count_occ].
      destruct (string_dec a k); lia. }
    rewrite Hsplit, ones_for_key; [ | exact Hnd | apply Hin; now left].
    rewrite IH; [reflexivity | ]. intros x Hx. apply Hin. now right.
Qed.

(** The counts of a facet add up to the number of values counted. *)
Lemma countsOf_total l :
  sumCounts (countsOf l) = length l /\ NoDup (map fst (countsOf l)).
Proof.
  unfold sumCounts, countsOf. rewrite !map_map. cbn [fst snd]. split.
  - apply counts_over_keys; [apply NoDup_nodup | ].
    intros x Hx. now apply nodup_In.
  - rewrite map_id. apply NoDup_nodup.
Qed.

Lemma length_page {A} L S (l : list A) :
  length (firstn L (skipn S l)) = Nat.min L (length l - S).
Proof. now rewrite length_firstn, length_skipn. Qed.

Lemma filter_all_false {A} (p : A -> bool) l :
  (forall x, p x = false) -> filter p l = [].
Proof.
  intros H. induction l as [ | a l IH]; [reflexivity | ].
  cbn [filter]. now rewrite H.
Qed.

Lemma castFree_cast q : castFree q -> castQuery q = Some q.
Proof. intros [Hf Ho]. now apply castQuery_stable. Qed.

Lemma castFree_setField k c q :
  castCond k c = Some c -> castFree q -> castFree (setField k c q).
Proof.
  intros Hc [Hf Ho]. split; [now apply stable_setField | exact Ho].
Qed.

Lemma castFree_whenParam key o q :
  includes idPaths key = false -> castFree q -> castFree (whenParam key o q).
Proof.
  intros Hk Hq. unfold whenParam. destruct o as [[s | l] | ]; [ | | exact Hq].
  - destruct (str_nonempty s); [ | exact Hq].
    apply castFree_setField; [ | exact Hq]. unfold castCond. now rewrite Hk.
  - apply castFree_setField; [ | exact Hq]. unfold castCond. now rewrite Hk.
Qed.

Lemma castFree_whenFlag key o q :
  includes idPaths key = false -> castFree q -> castFree (whenFlag key o q).
Proof.
  intros Hk Hq. unfold whenFlag. destruct o as [s | ]; [ | exact Hq].
  destruct (String.eqb s "true");
    [apply castFree_setField; [unfold castCond; now rewrite Hk | exact Hq] | ].
  destruct (String.eqb s "false"); [ | exact Hq].
  apply castFree_setField; [unfold castCond; now rewrite Hk | exact Hq].
Qed.

Lemma idBound_setField k c q :
  includes ["assignedTo"; "submittedBy"] k = false -> idBound q ->
  idBound (setField k c q).
Proof.
  intros Hk (k0 & a & Hk0 & Hin). exists k0, a. split; [exact Hk0 | ].
  unfold setField. cbn [q_fields]. apply in_or_app. left. apply filter_In.
  split; [exact Hin | ]. cbn [fst]. apply negb_true_iff, String.eqb_neq.
  intros ->. apply includes_In in Hk0. rewrite Hk0 in Hk. discriminate.
Qed.

Lemma idBound_new k a q :
  In k ["assignedTo"; "submittedBy"] -> idBound (setField k (CEq (VStr a)) q).
Proof.
  intros Hk. exists k, a. split; [exact Hk | ].
  unfold setField. cbn [q_fields]. apply in_or_app. right. now left.
Qed.

Lemma idBound_whenParam key o q :
  includes ["assignedTo"; "submittedBy"] key = false -> idBound q ->
  idBound (whenParam key o q).
Proof.
  intros Hk Hq. unfold whenParam. destruct o as [[s | l] | ]; [ | | exact Hq].
  - destruct (str_nonempty s); [now apply idBound_setField | exact Hq].
  - now apply idBound_setField.
Qed.

Lemma idBound_whenFlag key o q :
  includes ["assignedTo"; "submittedBy"] key = false -> idBound q ->
  idBound (whenFlag key o q).
Proof.
  intros Hk Hq. unfold whenFlag. destruct o as [s | ]; [ | exact Hq].
  destruct (String.eqb s "true"); [now apply idBound_setField | ].
  destruct (String.eqb s "false"); [now apply idBound_setField | exact Hq].
Qed.

Section SearchReply.

Variable isValid : string -> bool.
Variable regexMatch : string -> string -> bool.
Variable parseDate : string -> option Date.

(** No stored report matches a string on an account path: the stored
    value is an [ObjectId] or [null]. *)
Lemma idBound_no_match q r : idBound q -> matches regexMatch q r = false.
Proof.
  intros (k & a & Hk & Hin). unfold matches.
  assert (Hf : matchesFilter regexMatch (q_fields q) r = false); [ | now rewrite Hf].
  unfold matchesFilter.
  destruct (forallb _ (q_fields q)) eqn:E; [ | reflexivity].
  rewrite forallb_forall in E. specialize (E _ Hin). cbn [fst snd] in E.
  destruct Hk as [<- | [<- | []]].
  - change (getPath "assignedTo" r)
      with [match assignedTo r with Some x => VId x | None => VNull end] in E.
    destruct (assignedTo r); discriminate.
  - change (getPath "submittedBy" r) with [VId (submittedBy r)] in E. discriminate.
Qed.

(** What the query of a search is to the cast. *)
Lemma searchQuery_cast sq query :
  searchQuery isValid parseDate sq = Some query ->
  if filtersById isValid sq then idBound query else castFree query.
Proof.
  unfold searchQuery, filtersById.
  set (q1 := whenStr (sq_search sq) _ emptyQuery).
  set (q2 := whenParam "status" (sq_status sq) q1).
  set (q3 := whenParam "category" (sq_category sq) q2).
  set (q4 := whenParam "priority" (sq_priority sq) q3).
  assert (H4 : castFree q4).
  { unfold q4, q3, q2. repeat (apply castFree_whenParam; [reflexivity | ]).
    unfold q1, whenStr. destruct (sq_search sq) as [s | ]; [ | now split].
    destruct (str_nonempty s); [ | now split].
    split; [intros kc [] | ].
    unfold setOr. cbn [q_or]. intros clauses [= <-] f kc Hf Hkc.
    destruct Hf as [<- | [<- | []]]; destruct Hkc as [<- | []]; reflexivity. }
  set (q5 := whenStr (sq_assignedTo sq) _ q4).
  set (q6 := whenStr (sq_submittedBy sq) _ q5).
  set (byAssignee :=
         match sq_assignedTo sq with
         | Some a => str_nonempty a && negb (String.eqb a "unassigned") && isValid a
         | None => false
         end).
  set (bySubmitter :=
         match sq_submittedBy sq with
         | Some a => str_nonempty a && isValid a
         | None => false
         end).
  assert (H5 : if byAssignee then idBound q5 else castFree q5).
  { unfold byAssignee, q5, whenStr. destruct (sq_assignedTo sq) as [a | ]; [ | exact H4].
    destruct (str_nonempty a); [ | exact H4]. cbn [andb].
    destruct (String.eqb a "unassigned"); cbn [negb andb].
    - now apply castFree_setField.
    - destruct (isValid a); [ | exact H4]. apply idBound_new. now left. }
  assert (H6 : if byAssignee || bySubmitter then idBound q6 else castFree q6).
  { unfold bySubmitter, q6, whenStr. destruct (sq_submittedBy sq) as [a | ].
    2: { rewrite orb_false_r. exact H5. }
    destruct (str_nonempty a); [ | rewrite orb_false_r; exact H5]. cbn [andb].
    destruct (isValid a); [ | rewrite orb_false_r; exact H5].
    rewrite orb_true_r. apply idBound_new. right. now left. }
  clearbody q6. clear H4 H5. revert H6.
  destruct (byAssignee || bySubmitter); intros H6 H.
  - assert (Hlater : forall q, idBound q ->
              idBound (whenFlag "feedback.rating" (sq_hasFeedback sq)
                         (whenFlag "images.0" (sq_hasImages sq)
                            (whenStr (sq_location sq)
                               (fun s => setField "location.address.city" (CRegex s)) q)))).
    { intros q Hq. repeat (apply idBound_whenFlag; [reflexivity | ]).
      unfold whenStr. destruct (sq_location sq) as [s | ]; [ | exact Hq].
      destruct (str_nonempty s); [now apply idBound_setField | exact Hq]. }
    destruct (truthy (sq_dateFrom sq) || truthy (sq_dateTo sq)).
    + destruct (dateBound parseDate (sq_dateFrom sq)) as [lo | ]; [ | discriminate].
      destruct (dateBound parseDate (sq_dateTo sq)) as [hi | ]; [ | discriminate].
      injection H as <-. apply Hlater. now apply idBound_setField.
    + injection H as <-. now apply Hlater.
  - assert (Hlater : forall q, castFree q ->
              castFree (whenFlag "feedback.rating" (sq_hasFeedback sq)
                          (whenFlag "images.0" (sq_hasImages sq)
                             (whenStr (sq_location sq)
                                (fun s => setField "location.address.city" (CRegex s)) q)))).
    { intros q Hq. repeat (apply castFree_whenFlag; [reflexivity | ]).
      unfold whenStr. destruct (sq_location sq) as [s | ]; [ | exact Hq].
      destruct (str_nonempty s); [now apply castFree_setField | exact Hq]. }
    destruct (truthy (sq_dateFrom sq) || truthy (sq_dateTo sq)).
    + destruct (dateBound parseDate (sq_dateFrom sq)) as [lo | ]; [ | discriminate].
      destruct (dateBound parseDate (sq_dateTo sq)) as [hi | ]; [ | discriminate].
      injection H as <-. apply Hlater. now apply castFree_setField.
    + injection H as <-. now apply Hlater.
Qed.

(** A search that answers: the listing and its total come from the cast
    query, the statistics from the query as it was written. *)
Lemma advancedReportSearch_done sq w rep w' :
  advancedReportSearch isValid regexMatch parseDate sq w = (Done rep, w') ->
  exists query cast page limit ordered,
    searchQuery isValid parseDate sq = Some query
    /\ castQuery query = Some cast
    /\ 0 <= (page - 1) * limit
    /\ Permutation (filter (matches regexMatch cast) (reports w)) ordered
    /\ (let total := length (filter (matches regexMatch cast) (reports w)) in
        let totalPages := ceilDiv (Z.of_nat total) limit in
        rep = mkReply 200
                (mkSearchBody (slice ((page - 1) * limit) limit ordered) page totalPages
                   total
                   match totalPages with
                   | Some tp => page <? tp
                   | None => negb (Nat.eqb total 0)
                   end
                   (1 <? page) limit
                   (searchStats (filter (matches regexMatch query) (reports w)))))
    /\ untouched w w'.
Proof.
  unfold advancedReportSearch, catch500.
  destruct (searchQuery isValid parseDate sq) as [query | ]; [ | discriminate].
  destruct (parseIntParam (sq_page sq) 1) as [page | ]; [ | discriminate].
  destruct (parseIntParam (sq_limit sq) 20) as [limit | ]; [ | discriminate].
  cbv zeta. fold (sortDir (sq_sortOrder sq)).
  set (path := match sq_sortBy sq with Some s => s | None => "createdAt" end).
  destruct (castQuery query) as [cast | ] eqn:Hcast.
  2: { unfold bind at 1. unfold findPage. rewrite Hcast. discriminate. }
  destruct (Z.ltb_spec ((page - 1) * limit) 0) as [Hneg | Hskip].
  { rewrite (bind_thrown _ _ _ _ _
               (findPage_negative_skip regexMatch query cast path _ _ limit w Hcast Hneg)).
    discriminate. }
  pose proof (findPage_run regexMatch query cast path (sortDir (sq_sortOrder sq)) _ limit w
                Hcast Hskip) as Hfind.
  cbv zeta in Hfind.
  destruct (sortCursor _ _) as [ordered | ] eqn:Hsort.
  2: { rewrite (bind_thrown _ _ _ _ _ Hfind). discriminate. }
  rewrite (bind_done _ _ _ _ _ Hfind).
  rewrite (bind_done _ _ _ _ _ (countDocuments_run regexMatch query cast _ Hcast)).
  unfold aggregateMatch, bind, logOp, ret. cbn [reports users notifications oplog].
  intros H. inversion H; subst rep w'; clear H.
  exists query, cast, page, limit, ordered.
  split; [reflexivity | split; [exact Hcast | split; [exact Hskip | split]]].
  - exact (sortCursor_permutes _ _ _ Hsort).
  - split; [reflexivity | repeat split].
Qed.

(** X26. The parts of a search reply, when the search answers with a
    limit of at least one.  The listing and its total are computed by
    [find] and [countDocuments], which cast the query; the statistics by
    [aggregate], which does not.  So the statistics count the same reports
    as the listing's total when the search names no account; when it
    filters on an assignee's or a submitter's id, the statistics are those
    of no report at all, whatever the listing holds.  Either way each of
    the three facets has distinct keys whose counts add up to the
    statistics' own total, the page holds [min limit (total - skip)]
    reports, [hasNextPage] says exactly whether reports remain beyond this
    page and [hasPrevPage] whether the page is not the first; and the
    search writes nothing. *)
Theorem search_reply_is_consistent sq w rep w' :
  advancedReportSearch isValid regexMatch parseDate sq w = (Done rep, w') ->
  1 <= sb_limit (body rep) ->
  let b := body rep in
  let total := sb_totalReports b in
  let stats := sb_statistics b in
  (filtersById isValid sq = false -> ss_totalReports stats = total)
  /\ (filtersById isValid sq = true -> stats = mkSearchStats 0 [] [] [] 0%Q)
  /\ sumCounts (ss_statusCounts stats) = ss_totalReports stats
  /\ sumCounts (ss_categoryCounts stats) = ss_totalReports stats
  /\ sumCounts (ss_priorityCounts stats) = ss_totalReports stats
  /\ NoDup (map fst (ss_statusCounts stats))
  /\ NoDup (map fst (ss_categoryCounts stats))
  /\ NoDup (map fst (ss_priorityCounts stats))
  /\ 1 <= sb_currentPage b
  /\ length (sb_reports b)
     = Nat.min (Z.to_nat (sb_limit b))
         (total - Z.to_nat ((sb_currentPage b - 1) * sb_limit b))
  /\ (sb_hasNextPage b = true <-> sb_currentPage b * sb_limit b < Z.of_nat total)
  /\ (sb_hasPrevPage b = true <-> 1 < sb_currentPage b)
  /\ untouched w w'.
Proof.
  intros Hrun.
  destruct (advancedReportSearch_done _ _ _ _ Hrun)
    as (query & cast & page & limit & ordered & Hq & Hcast & Hskip & Hperm & Hrep & Hun).
  cbv zeta in Hrep. subst rep.
  cbn [body sb_reports sb_currentPage sb_totalPages sb_totalReports sb_hasNextPage
       sb_hasPrevPage sb_limit sb_statistics].
  intros Hl. cbv zeta.
  set (hits := filter (matches regexMatch cast) (reports w)) in *.
  set (counted := filter (matches regexMatch query) (reports w)).
  assert (Hpage : 1 <= page) by nia.
  pose proof (searchQuery_cast sq query Hq) as Hkind.
  assert (Hstats : ss_totalReports (searchStats counted) = length counted
                   /\ ss_statusCounts (searchStats counted) = countsOf (map status counted)
                   /\ ss_categoryCounts (searchStats counted)
                      = countsOf (map category counted)
                   /\ ss_priorityCounts (searchStats counted)
                      = countsOf (map priority counted)).
  { unfold searchStats. destruct counted; repeat split. }
  destruct Hstats as (E0 & E1 & E2 & E3).
  destruct (countsOf_total (map status counted)) as [S1 N1].
  destruct (countsOf_total (map category counted)) as [S2 N2].
  destruct (countsOf_total (map priority counted)) as [S3 N3].
  rewrite length_map in S1, S2, S3.
  split; [ | split].
  { intros Hno. rewrite Hno in Hkind. apply castFree_cast in Hkind.
    rewrite Hkind in Hcast. injection Hcast as <-. exact E0. }
  { intros Hyes. rewrite Hyes in Hkind.
    assert (Hnone : counted = []).
    { unfold counted. apply filter_all_false. intros r.
      exact (idBound_no_match query r Hkind). }
    now rewrite Hnone. }
  rewrite E0, E1, E2, E3.
  repeat (split; [assumption | ]).
  split; [ | split; [ | split; [ | exact Hun]]].
  - rewrite slice_page by exact Hl. rewrite length_page.
    now rewrite <- (Permutation_length Hperm).
  - destruct (ceilDiv_pages (Z.of_nat (length hits)) limit ltac:(lia) Hl)
      as (pages & -> & Hlo & Hhi).
    rewrite Z.ltb_lt. split; intros H; nia.
  - now rewrite Z.ltb_lt.
Qed.












End SearchReply.


(** * The ledger contract *)

Lemma stringifyUser_nonempty u : str_nonempty (stringifyUser u) = true.
Proof. reflexivity. Qed.

Lemma getState_putState key value l : getState key (putState key value l) = value.
Proof. unfold getState, putState. cbn [find fst]. now rewrite String.eqb_refl. Qed.

Lemma getState_putState_other key key' value l :
  key' <> key -> getState key' (putState key value l) = getState key' l.
Proof.
  intros Hne. unfold getState, putState. cbn [find fst].
  destruct (String.eqb key key') eqn:E.
  { apply String.eqb_eq in E. now contradiction Hne. }
  f_equal. induction l as [ | kv l IH]; [reflexivity | ].
  cbn [filter find]. destruct (String.eqb (fst kv) key) eqn:Ek; cbn [negb find].
  - apply String.eqb_eq in Ek. rewrite Ek.
    destruct (String.eqb key key'); [discriminate | exact IH].
  - destruct (String.eqb (fst kv) key'); [reflexivity | exact IH].
Qed.

Section ChaincodeProperties.

Variable createCompositeKey : string -> list string -> string + string.

(** X28. Registering a user on the ledger.  When [registerUser] returns,
    it returns the JSON text of the new user, whose role is employee if
    that was asked for and user otherwise and who is active; the ledger
    then answers [getUserById] with that very text and [userExists] with
    true; a second registration under the same id fails and writes
    nothing; and, composite keys being distinct for distinct ids, every
    other id is answered as before.  A registration that fails writes
    nothing. *)
Theorem ledger_register_then_get userId firstName lastName mail role l :
  (forall a b k, createCompositeKey "User" [a] = inl k ->
                 createCompositeKey "User" [b] = inl k -> a = b) ->
  let run := registerUser createCompositeKey userId firstName lastName mail role l in
  (forall text l',
      run = (Returned text, l') ->
      text = stringifyUser
               (mkChainUser userId firstName lastName mail
                  (if String.eqb role "employee" then "employee" else "user")
                  true EmptyString EmptyString EmptyString)
      /\ userExists createCompositeKey userId l = (Returned false, l)
      /\ getUserById createCompositeKey userId l' = (Returned text, l')
      /\ userExists createCompositeKey userId l' = (Returned true, l')
      /\ (forall fn2 ln2 mail2 role2,
            registerUser createCompositeKey userId fn2 ln2 mail2 role2 l'
            = (Failed ("User with ID " ^^ userId ^^ " already exists"), l'))
      /\ (forall other, other <> userId ->
            fst (getUserById createCompositeKey other l')
            = fst (getUserById createCompositeKey other l)))
  /\ (forall message l', run = (Failed message, l') -> l' = l).
Proof.
  intros Hinj run. unfold run, registerUser, userExists, getUserById. split.
  - intros text l'.
    destruct (createCompositeKey "User" [userId]) as [userKey | message] eqn:Hkey;
      [ | discriminate].
    cbv zeta. destruct (str_nonempty (getState userKey l)) eqn:Hfree; [discriminate | ].
    intros H. inversion H; subst text l'; clear H.
    rewrite getState_putState, stringifyUser_nonempty. cbn [negb].
    repeat split.
    intros other Hother.
    destruct (createCompositeKey "User" [other]) as [otherKey | message] eqn:Hk;
      [ | reflexivity].
    rewrite getState_putState_other; [now destruct (negb _) | ].
    intros E. subst otherKey. apply Hother. exact (Hinj other userId userKey Hk Hkey).
  - intros message l'.
    destruct (createCompositeKey "User" [userId]) as [userKey | m];
      [ | intros H; now inversion H].
    cbv zeta. destruct (str_nonempty (getState userKey l));
      [intros H; now inversion H | discriminate].
Qed.

End ChaincodeProperties.

Lemma sampleCompositeKey_distinct a b k :
  sampleCompositeKey "User" [a] = inl k -> sampleCompositeKey "User" [b] = inl k -> a = b.
Proof.
  unfold sampleCompositeKey. cbn [forallb str_nonempty andb joinWith].
  destruct (str_nonempty a), (str_nonempty b); try discriminate.
  cbn [andb]. intros H1 H2. rewrite <- H2 in H1. clear H2.
  injection H1 as H. revert b H.
  induction a as [ | x a IH]; intros [ | y b] H; try discriminate; try reflexivity.
  - simpl in H. injection H as Hx Hrest. destruct b; discriminate.
  - simpl in H. injection H as Hx Hrest. destruct a; discriminate.
  - simpl in H. injection H as Hx Hrest. subst y. f_equal. now apply IH.
Qed.


(** * The AuthManager contract *)

Lemma email_empty_iff s : Nat.eqb (String.length s) 0 = true <-> s = EmptyString.
Proof. destruct s; simpl; split; intros H; try reflexivity; discriminate. Qed.

Section AuthManagerProperties.

Variable keccak256 : string -> Z.

Lemma onlyRegistered_cases sender body c :
  (ca_email (chainUsers c sender) = EmptyString
   /\ onlyRegistered sender body c = (Reverted "User not registered", c))
  \/ (ca_email (chainUsers c sender) <> EmptyString
      /\ onlyRegistered sender body c = body c).
Proof.
  unfold onlyRegistered.
  destruct (Nat.eqb (String.length (ca_email (chainUsers c sender))) 0) eqn:E.
  - left. split; [now apply email_empty_iff | reflexivity].
  - right. split; [ | reflexivity]. intros H. apply email_empty_iff in H. congruence.
Qed.

Lemma wellFormed_same_identity c c' :
  emailToAddress c' = emailToAddress c ->
  (forall a, ca_email (chainUsers c' a) = ca_email (chainUsers c a)
             /\ ca_role (chainUsers c' a) = ca_role (chainUsers c a)
             /\ ca_userAddress (chainUsers c' a) = ca_userAddress (chainUsers c a)) ->
  wellFormed keccak256 c -> wellFormed keccak256 c'.
Proof.
  intros Hidx Hsame Hwf a Ha. destruct (Hsame a) as (He & Hr & Hu).
  rewrite He in *. rewrite Hr, Hu, Hidx. now apply Hwf.
Qed.

Lemma setAccount_identity sender f c a :
  (forall u, ca_email (f u) = ca_email u /\ ca_role (f u) = ca_role u
             /\ ca_userAddress (f u) = ca_userAddress u) ->
  ca_email (setAccount sender (f (chainUsers c sender)) (chainUsers c) a)
  = ca_email (chainUsers c a)
  /\ ca_role (setAccount sender (f (chainUsers c sender)) (chainUsers c) a)
     = ca_role (chainUsers c a)
  /\ ca_userAddress (setAccount sender (f (chainUsers c sender)) (chainUsers c) a)
     = ca_userAddress (chainUsers c a).
Proof.
  intros Hf. unfold setAccount. destruct (Z.eqb_spec a sender) as [-> | _].
  - apply Hf.
  - repeat split.
Qed.

Lemma execute_keeps_wellFormed t c :
  tx_sender t <> 0 -> wellFormed keccak256 c ->
  wellFormed keccak256 (snd (execute keccak256 t c)).
Proof.
  intros Hsender Hwf. unfold execute. destruct (tx_call t) as [fn ln mail role | mail | | ].
  - unfold sol_register.
    destruct (Nat.eqb (String.length (ca_email (chainUsers c (tx_sender t)))) 0) eqn:Hnew;
      [ | exact Hwf].
    cbn [negb]. destruct (Z.eqb_spec (emailToAddress c mail) 0) as [Hfree | _];
      [ | exact Hwf].
    cbn [negb].
    destruct ((keccak256 role =? keccak256 "user")
              || (keccak256 role =? keccak256 "employee")) eqn:Hrole; [ | exact Hwf].
    cbn [negb snd]. apply email_empty_iff in Hnew.
    intros a. cbn [chainUsers emailToAddress]. unfold setAccount, setAddress.
    destruct (Z.eqb_spec a (tx_sender t)) as [-> | Hother].
    + cbn [ca_email ca_role ca_userAddress]. intros _. rewrite String.eqb_refl.
      split; [reflexivity | split; [exact Hsender | split; [reflexivity | ]]].
      apply orb_prop in Hrole. destruct Hrole as [H | H]; apply Z.eqb_eq in H; auto.
    + intros Ha. destruct (Hwf a Ha) as (Hidx & Hz & Hu & Hr).
      destruct (String.eqb (ca_email (chainUsers c a)) mail) eqn:E.
      * apply String.eqb_eq in E. rewrite E in Hidx. congruence.
      * repeat split; assumption.
  - unfold sol_login.
    destruct (onlyRegistered_cases (tx_sender t)
                (fun c0 =>
                   if negb (keccak256 (ca_email (chainUsers c0 (tx_sender t)))
                            =? keccak256 mail)
                   then (Reverted "Incorrect email", c0)
                   else if negb (ca_isActive (chainUsers c0 (tx_sender t)))
                   then (Reverted "Account deactivated", c0)
                   else
                     (Succeeded,
                      mkContract
                        (setAccount (tx_sender t)
                           (withLogin (tx_timestamp t) (chainUsers c0 (tx_sender t)))
                           (chainUsers c0))
                        (emailToAddress c0)
                        (emitted c0 ++ [UserLoggedIn (tx_sender t) (tx_timestamp t)]))) c)
      as [[_ ->] | [_ ->]]; [exact Hwf | ].
    destruct (negb _); [exact Hwf | ]. destruct (negb _); [exact Hwf | ].
    cbn [snd]. apply (wellFormed_same_identity c); [reflexivity | | exact Hwf].
    intros a. cbn [chainUsers].
    apply (setAccount_identity (tx_sender t) (withLogin (tx_timestamp t))).
    intros u. repeat split.
  - unfold sol_deactivate.
    destruct (onlyRegistered_cases (tx_sender t)
                (fun c0 =>
                   (Succeeded,
                    mkContract
                      (setAccount (tx_sender t)
                         (withActivity false (chainUsers c0 (tx_sender t)))
                         (chainUsers c0))
                      (emailToAddress c0)
                      (emitted c0 ++ [UserDeactivated (tx_sender t)]))) c)
      as [[_ ->] | [_ ->]]; [exact Hwf | ].
    cbn [snd]. apply (wellFormed_same_identity c); [reflexivity | | exact Hwf].
    intros a. cbn [chainUsers].
    apply (setAccount_identity (tx_sender t) (withActivity false)).
    intros u. repeat split.
  - unfold sol_reactivate.
    destruct (onlyRegistered_cases (tx_sender t)
                (fun c0 =>
                   (Succeeded,
                    mkContract
                      (setAccount (tx_sender t)
                         (withActivity true (chainUsers c0 (tx_sender t)))
                         (chainUsers c0))
                      (emailToAddress c0)
                      (emitted c0 ++ [UserReactivated (tx_sender t)]))) c)
      as [[_ ->] | [_ ->]]; [exact Hwf | ].
    cbn [snd]. apply (wellFormed_same_identity c); [reflexivity | | exact Hwf].
    intros a. cbn [chainUsers].
    apply (setAccount_identity (tx_sender t) (withActivity true)).
    intros u. repeat split.
Qed.

(** X29. On the chain no two addresses share an email address.  After
    any sequence of transactions on the freshly deployed contract, none
    sent from the zero address: two addresses whose accounts have the same
    non-empty email address are one address; each such account is the
    one [emailToAddress] leads to from its email address, records its
    own address, and has a role whose hash is that of user or of
    employee. *)
Theorem emails_are_unique_on_chain txs :
  Forall (fun t => tx_sender t <> 0) txs ->
  let c := after keccak256 txs deployed in
  wellFormed keccak256 c
  /\ forall a b,
       ca_email (chainUsers c a) <> EmptyString ->
       ca_email (chainUsers c a) = ca_email (chainUsers c b) ->
       a = b.
Proof.
  intros Hsenders c.
  assert (Hwf : wellFormed keccak256 c).
  { unfold c, after.
    assert (H0 : wellFormed keccak256 deployed) by (intros a Ha; now contradiction Ha).
    revert H0. generalize deployed as c0.
    induction Hsenders as [ | t txs Ht _ IH]; intros c0 H0; [exact H0 | ].
    cbn [fold_left]. apply IH. now apply execute_keeps_wellFormed. }
  split; [exact Hwf | ].
  intros a b Ha E. destruct (Hwf a Ha) as (Hia & _).
  rewrite E in Ha. destruct (Hwf b Ha) as (Hib & _). rewrite <- E in Hib. congruence.
Qed.

(** X30. An account on the chain answers to its own address only.  No
    transaction changes the account of an address other than its sender,
    and a call that reverts changes nothing at all.  After its owner has
    deactivated an account, every login of the owner reverts, whatever
    the email address given; after the owner has reactivated it, a login
    with the account's email address succeeds and records the time of
    the block. *)
Theorem account_answers_to_its_owner t c :
  (forall b, b <> tx_sender t ->
     chainUsers (snd (execute keccak256 t c)) b = chainUsers c b)
  /\ (forall reason c', execute keccak256 t c = (Reverted reason, c') -> c' = c)
  /\ (forall c1,
        sol_deactivate (tx_sender t) c = (Succeeded, c1) ->
        forall later mail,
        exists reason, sol_login keccak256 (tx_sender t) later mail c1 = (Reverted reason, c1))
  /\ (forall c1,
        sol_reactivate (tx_sender t) c = (Succeeded, c1) ->
        forall later,
        exists c2,
          sol_login keccak256 (tx_sender t) later (ca_email (chainUsers c (tx_sender t))) c1
          = (Succeeded, c2)
          /\ getUser (tx_sender t) c2
             = (ca_firstName (chainUsers c (tx_sender t)),
                ca_lastName (chainUsers c (tx_sender t)),
                ca_email (chainUsers c (tx_sender t)),
                ca_role (chainUsers c (tx_sender t)), true, later)).
Proof.
  split; [ | split; [ | split]].
  - intros b Hb. unfold execute, sol_register, sol_login, sol_deactivate, sol_reactivate,
      onlyRegistered.
    destruct (tx_call t); repeat (destruct (negb _); [reflexivity | ]);
      cbn [snd chainUsers]; unfold setAccount;
      destruct (Z.eqb_spec b (tx_sender t)); try reflexivity; contradiction.
  - intros reason c'. unfold execute, sol_register, sol_login, sol_deactivate,
      sol_reactivate, onlyRegistered.
    destruct (tx_call t);
      repeat (destruct (negb _); [intros H; now inversion H | ]); discriminate.
  - intros c1 Hd later mail. unfold sol_deactivate, onlyRegistered in Hd.
    destruct (Nat.eqb (String.length (ca_email (chainUsers c (tx_sender t)))) 0) eqn:E;
      [discriminate | ].
    cbn [negb] in Hd. inversion Hd; subst c1; clear Hd.
    unfold sol_login, onlyRegistered. cbn [chainUsers]. unfold setAccount.
    rewrite Z.eqb_refl. cbn [ca_email withActivity ca_isActive]. rewrite E. cbn [negb].
    destruct (negb (keccak256 _ =? keccak256 mail)); eexists; reflexivity.
  - intros c1 Hr later. unfold sol_reactivate, onlyRegistered in Hr.
    destruct (Nat.eqb (String.length (ca_email (chainUsers c (tx_sender t)))) 0) eqn:E;
      [discriminate | ].
    cbn [negb] in Hr. inversion Hr; subst c1; clear Hr.
    unfold sol_login, onlyRegistered, getUser. cbn [chainUsers]. unfold setAccount.
    rewrite Z.eqb_refl. cbn [ca_email withActivity ca_isActive]. rewrite E, Z.eqb_refl.
    cbn [negb]. eexists. split; [reflexivity | ].
    cbn [chainUsers]. rewrite Z.eqb_refl. reflexivity.
Qed.

End AuthManagerProperties.


End FurtherProperties.

(** * The theorems at work on the sample data *)

Section OnTheSampleData.

Existing Instance sampleMongoose.
Existing Instance sampleMongoDB.

(** Eve, an employee, reads the unassigned report, also under the
    upper-case spelling of its id, and is kept from the one assigned to
    Bob. *)
Lemma getReportById_access_witness :
  (exists rep w', getReportById eve idR1 sampleWorld = (Done rep, w'))
  /\ (exists rep w', getReportById eve idR1Upper sampleWorld = (Done rep, w'))
  /\ ~ (exists rep w', getReportById eve idR2 sampleWorld = (Done rep, w')).
Proof.
  split; [ | split].
  - apply (proj1 (getReportById_access eve idR1 sampleWorld)).
    exists reportSubmitted. split; [reflexivity | split].
    + intros H. discriminate H.
    + intros _ a H. discriminate H.
  - apply (proj1 (getReportById_access eve idR1Upper sampleWorld)).
    exists reportSubmitted. split; [reflexivity | split].
    + intros H. discriminate H.
    + intros _ a H. discriminate H.
  - intros H. apply (proj1 (getReportById_access eve idR2 sampleWorld)) in H.
    destruct H as (r & Hf & _ & He). vm_compute in Hf. injection Hf as <-.
    specialize (He eq_refl _ eq_refl). discriminate He.
Defined.

(** A remote request creates an admin where no token is configured, and
    the admin list shows the new account. *)
Lemma admin_creation_guard_witness :
  exists w',
    createAdminRoute sampleUserValid remoteAddress None None idNew (Some "Mallory")
      (Some "Moore") (Some "mallory@example.com") (Some "correct horse") sampleWorld
    = (Done (mkReply 201 (mkUser idNew "Mallory" "Moore" "mallory@example.com" "admin")),
       w')
    /\ users w'
       = users sampleWorld ++ [mkUser idNew "Mallory" "Moore" "mallory@example.com" "admin"].
Proof.
  exact (proj2 (proj2 (admin_creation_guard sampleUserValid remoteAddress None None idNew
                         (Some "Mallory") (Some "Moore") (Some "mallory@example.com")
                         (Some "correct horse") sampleWorld))
           eq_refl eq_refl eq_refl eq_refl eq_refl eq_refl).
Defined.

Lemma createAdmin_then_getAdmins_witness :
  exists rep w' listed,
    createAdmin sampleUserValid idNew (Some "Mallory") (Some "Moore")
      (Some "mallory@example.com") (Some "correct horse") sampleWorld = (Done rep, w')
    /\ getAdmins w' = (Done (mkReply 200 listed), w')
    /\ map u_id listed = [idCarol; idNew].
Proof.
  eexists. eexists.
  assert (Hrun : createAdmin sampleUserValid idNew (Some "Mallory") (Some "Moore")
                   (Some "mallory@example.com") (Some "correct horse") sampleWorld
                 = (Done _, _)) by (vm_compute; reflexivity).
  destruct (proj1 (createAdmin_then_getAdmins sampleUserValid idNew (Some "Mallory")
                     (Some "Moore") (Some "mallory@example.com") (Some "correct horse")
                     sampleWorld) _ _ Hrun)
    as (_ & _ & _ & _ & _ & listed & Hlist & _).
  exists listed. split; [exact Hrun | split; [exact Hlist | ]].
  vm_compute in Hlist. injection Hlist as <-. reflexivity.
Defined.

(** Carol deactivates Bob and cannot deactivate herself. *)
Lemma toggleUserStatus_effect_witness :
  In idCarol (activeIds (snd (toggleUserStatus 50 carol idCarol (Some false) sampleRealm)))
  /\ exists rep s',
       toggleUserStatus 50 carol idBob (Some false) sampleRealm = (Done rep, s')
       /\ sr_isActive (body rep) = false
       /\ map recipient (notices s') = [idBob].
Proof.
  destruct (toggleUserStatus_effect 50 carol idCarol (Some false) sampleRealm)
    as (_ & Hstay).
  split; [apply Hstay; vm_compute; auto | ].
  eexists. eexists.
  assert (Hrun : toggleUserStatus 50 carol idBob (Some false) sampleRealm = (Done _, _))
    by (vm_compute; reflexivity).
  split; [exact Hrun | ].
  destruct (proj1 (toggleUserStatus_effect 50 carol idBob (Some false) sampleRealm)
              _ _ Hrun) as (b & user & Hb & _ & _ & Hact & _).
  injection Hb as <-. split; [exact Hact | reflexivity].
Defined.

Lemma login_effect_witness :
  login sampleCompare sampleToken 60 (Some "nobody@example.com") (Some "pw-Bob") sampleRealm
  = (Next "Incorrect email or password" 401, sampleRealm)
  /\ login sampleCompare sampleToken 60 (Some "bob@example.com") (Some "guess") sampleRealm
     = (Next "Incorrect email or password" 401, sampleRealm).
Proof.
  destruct (login_effect sampleCompare sampleToken 60 (Some "nobody@example.com")
              (Some "pw-Bob") sampleRealm) as (_ & _ & H1).
  destruct (login_effect sampleCompare sampleToken 60 (Some "bob@example.com")
              (Some "guess") sampleRealm) as (_ & _ & H2).
  split.
  - apply (H1 "nobody@example.com" "pw-Bob"); reflexivity || exact I.
  - apply (H2 "bob@example.com" "guess"); reflexivity.
Defined.

(** What follows the token in the header is ignored. *)
Lemma authMiddleware_pass_witness :
  authMiddleware sampleVerify (Some "Bearer token.bob and more") sampleRealm
  = (Done bobAccount, sampleRealm)
  /\ exists token rest,
       "Bearer token.bob and more" = "Bearer " ^^ token ^^ rest
       /\ exists id, sampleVerify token = Decoded id /\ castObjectId id = Some idBob.
Proof.
  assert (Hrun : authMiddleware sampleVerify (Some "Bearer token.bob and more") sampleRealm
                 = (Done bobAccount, sampleRealm)) by (vm_compute; reflexivity).
  split; [exact Hrun | ].
  destruct (proj1 (authMiddleware_pass sampleVerify (Some "Bearer token.bob and more")
                     sampleRealm) _ _ Hrun)
    as (_ & _ & token & rest & Hh & _ & _ & _ & Hv).
  exists token, rest. injection Hh as Hh.
  split; [cbn [String.append]; now rewrite <- Hh | exact Hv].
Defined.

(** Bob cannot mark Alice's notification read, and an id that is no
    ObjectId is answered with the route's 500. *)
Lemma markNotificationRead_recipient_only_witness :
  markNotificationRead 30 bob idN1 sampleInbox
  = (Refused "Notification not found" 404, sampleInbox)
  /\ markNotificationRead 30 bob "first" sampleInbox
     = (Refused "Failed to mark notification as read" 500, sampleInbox).
Proof.
  split.
  - apply (proj1 (markNotificationRead_recipient_only 30 bob idN1 sampleInbox) idN1);
      [reflexivity | ].
    intros e [<- | [<- | []]]; simpl; intros H; discriminate.
  - apply (proj1 (proj2 (markNotificationRead_recipient_only 30 bob "first" sampleInbox))).
    reflexivity.
Defined.

Lemma delete_id_is_never_an_upload_id_witness :
  uploadPublicId 77 "report" "lamp.png" = "civic-connect/reports/77-lamp"
  /\ deletePublicId storedUrl = "77-lamp"
  /\ deletePublicId storedUrl <> uploadPublicId 77 "report" "lamp.png".
Proof.
  split; [reflexivity | split; [reflexivity | ]].
  exact (proj1 (proj2 (proj2 (proj2
           (delete_id_is_never_an_upload_id 77 "report" "lamp.png" storedUrl))))).
Defined.

Lemma account_answers_to_its_owner_witness :
  let c := after sampleKeccak sampleTransactions deployed in
  exists c1 c2,
    sol_reactivate 11 c = (Succeeded, c1)
    /\ sol_login sampleKeccak 11 160 "ann@example.com" c1 = (Succeeded, c2)
    /\ getUser 11 c2 = ("Ann", "Lee", "ann@example.com", "user", true, 160).
Proof.
  intros c. eexists.
  assert (Hre : sol_reactivate 11 c = (Succeeded, _)) by (vm_compute; reflexivity).
  destruct (proj2 (proj2 (proj2
              (account_answers_to_its_owner sampleKeccak (mkTransaction 11 160 CallReactivate)
                 c))) _ Hre 160) as (c2 & Hlogin & Hget).
  exists c2. split; [exact Hre | split; [exact Hlogin | exact Hget]].
Defined.

Lemma createReport_rejects_without_writing_witness :
  exists rep,
    createReport sampleGeo 5 idMissing alice bodyWithoutTitle sampleWorld
    = (Done rep, sampleWorld)
    /\ code rep = 400
    /\ body rep = Invalid "Missing required fields" ["title"].
Proof.
  assert (Hrun : createReport sampleGeo 5 idMissing alice bodyWithoutTitle sampleWorld
                 = (Done (mkReply 400 (Invalid "Missing required fields" ["title"])),
                    sampleWorld)) by (vm_compute; reflexivity).
  eexists. split; [exact Hrun | ].
  destruct (createReport_rejects_without_writing sampleGeo 5 idMissing alice
              bodyWithoutTitle sampleWorld _ _ Hrun) as (_ & Hc & _).
  - simpl. discriminate.
  - split; [exact Hc | reflexivity].
Defined.

Lemma createReport_created_witness :
  exists r w',
    createReport sampleGeo 5 idMissing alice sampleBody sampleWorld
    = (Done (mkReply 201 (Created r)), w')
    /\ title r = "Broken lamp"
    /\ reports w' = reports sampleWorld ++ [r]
    /\ map recipient (notifications w') = [idCarol]
    /\ map n_priority (notifications w') = ["high"].
Proof.
  eexists. eexists.
  assert (Hrun : createReport sampleGeo 5 idMissing alice sampleBody sampleWorld
                 = (Done (mkReply 201 (Created _)), _)) by (vm_compute; reflexivity).
  split; [exact Hrun | ].
  destruct (createReport_created sampleGeo 5 idMissing alice sampleBody sampleWorld
              _ _ Hrun eq_refl) as (r & Hb & Hrep & _ & _ & _ & _ & _ & _ & _ & _ & _ & _ & Hn).
  injection Hb as <-.
  split; [reflexivity | split; [exact Hrep | ]].
  rewrite Hn. split; reflexivity.
Defined.

Lemma listed_report_can_be_fetched_witness :
  exists fetched w2,
    getReportById bob idR2 (snd (getReports containsCI bob noFilters sampleWorld))
    = (Done (mkReply 200 fetched), w2)
    /\ pr_report fetched = reportResolved.
Proof.
  assert (Hrun : getReports containsCI bob noFilters sampleWorld
                 = (Done (mkReply 200
                            (mkReportsPage 2 2 1 (Some 1) 10
                               [reportSubmitted; reportResolved])),
                    snd (getReports containsCI bob noFilters sampleWorld)))
    by (vm_compute; reflexivity).
  assert (Hnd : NoDup (map r_id (reports sampleWorld)))
    by (repeat constructor; simpl; intuition discriminate).
  assert (Hacc : exists u, In u (users sampleWorld) /\ u_id u = a_id bob)
    by (eexists; split; [right; left; reflexivity | reflexivity]).
  apply (listed_report_can_be_fetched containsCI bob noFilters sampleWorld _ _
           reportResolved idR2 Hnd Hacc Hrun).
  - simpl. right. left. reflexivity.
  - reflexivity.
Defined.

Lemma uploadReportImages_effect_witness :
  exists rep w',
    uploadReportImages sampleCloud 77 alice idR2 [photo] (Some "The lamp") sampleWorld
    = (Done rep, w')
    /\ status (ir_report (body rep)) = "resolved"
    /\ length (images (ir_report (body rep))) = 1%nat
    /\ length (timeline (ir_report (body rep))) = 4%nat.
Proof.
  eexists. eexists.
  assert (Hrun : uploadReportImages sampleCloud 77 alice idR2 [photo] (Some "The lamp")
                   sampleWorld = (Done _, _)) by (vm_compute; reflexivity).
  split; [exact Hrun | ].
  destruct (uploadReportImages_effect sampleCloud 77 alice idR2 [photo] (Some "The lamp")
              sampleWorld _ _ Hrun)
    as (r & Hf & _ & _ & _ & _ & _ & Hs & Hi & Ht & _).
  injection Hf as <-.
  split; [exact Hs | split; [now rewrite Hi | now rewrite Ht]].
Defined.

Lemma uploadReportImages_all_or_nothing_witness :
  exists w',
    uploadReportImages sampleCloud 77 alice idR2 [photo; badPhoto] None sampleWorld
    = (Next "File upload failed" 500, w')
    /\ untouched sampleWorld w'.
Proof.
  destruct (uploadReportImages_all_or_nothing sampleCloud 77 alice idR2 [photo; badPhoto]
              None sampleWorld eq_refl) as (w' & [(msg & c & Hrun) | (Hcast & _)] & Hsame).
  - exists w'. split; [ | exact Hsame].
    rewrite Hrun. vm_compute in Hrun. now inversion Hrun.
  - vm_compute in Hcast. discriminate Hcast.
Defined.

Lemma progress_upload_sets_in_progress_witness :
  exists rep w',
    uploadProgressImages sampleCloud sampleJson 77 bob [photo] (Some idR2) None None
      sampleWorld = (Done rep, w')
    /\ option_map status (reportOf sampleWorld idR2) = Some "resolved"
    /\ option_map status (reportOf w' idR2) = Some "in_progress".
Proof.
  eexists. eexists.
  assert (Hrun : uploadProgressImages sampleCloud sampleJson 77 bob [photo] (Some idR2)
                   None None sampleWorld = (Done _, _)) by (vm_compute; reflexivity).
  split; [exact Hrun | split; [reflexivity | ]].
  destruct (progress_upload_sets_in_progress sampleCloud sampleJson 77 bob [photo] idR2
              None None sampleWorld _ _ eq_refl Hrun)
    as (r & r' & _ & _ & _ & _ & _ & _ & Hf & Hs & _).
  rewrite Hf. simpl. now rewrite Hs.
Defined.

Lemma completion_upload_effect_witness :
  exists rep w',
    uploadCompletionImages sampleCloud sampleJson 77 bob [photo] (Some idR1) None None
      (Some "true") sampleWorld = (Done rep, w')
    /\ fr_reportStatus (body rep) = Some "resolved"
    /\ map recipient (notifications w') = [idAlice].
Proof.
  eexists. eexists.
  assert (Hrun : uploadCompletionImages sampleCloud sampleJson 77 bob [photo] (Some idR1)
                   None None (Some "true") sampleWorld = (Done _, _))
    by (vm_compute; reflexivity).
  split; [exact Hrun | ].
  destruct (completion_upload_effect sampleCloud sampleJson 77 bob [photo] (Some idR1)
              None None (Some "true") sampleWorld _ _ Hrun)
    as (id & r & r' & Hid & Hf & _ & _ & _ & _ & _ & Hs & Hrs & _ & _ & Hn).
  injection Hid as <-. vm_compute in Hf. injection Hf as <-.
  split; [now rewrite Hrs, Hs | now rewrite Hn].
Defined.

Lemma writers_keep_status_and_timeline_in_step_witness :
  allInSync (runWrite sampleGeo sampleCloud sampleJson 77 bob
               (WProgress [photo] (Some idR2) None None) sampleWorld).
Proof.
  exact (writers_keep_status_and_timeline_in_step sampleGeo sampleCloud sampleJson 77 bob
           (WProgress [photo] (Some idR2) None None) sampleWorld sampleWorld_in_sync).
Defined.

Lemma updateUserRole_effect_witness :
  exists w',
    updateUserRole 88 carol idBob "user" sampleWorld
    = (Done (mkReply 200 (mkUser idBob "Bob" "Brown" "bob@example.com" "user")), w')
    /\ map role (users w') = ["user"; "user"; "employee"; "admin"]
    /\ map recipient (notifications w') = [idBob].
Proof.
  eexists.
  assert (Hrun : updateUserRole 88 carol idBob "user" sampleWorld
                 = (Done (mkReply 200 (mkUser idBob "Bob" "Brown" "bob@example.com" "user")),
                    _)) by (vm_compute; reflexivity).
  split; [exact Hrun | ].
  destruct (updateUserRole_effect 88 carol idBob "user" sampleWorld _ _ Hrun)
    as (user & Hf & _ & _ & _ & Hu & _ & _ & _ & Hn).
  vm_compute in Hf. injection Hf as <-.
  split; [now rewrite Hu | now rewrite Hn].
Defined.

Lemma role_update_then_assignment_witness :
  exists w1,
    snd (updateUserRole 88 carol idBob "user" sampleWorld) = w1
    /\ option_map assignedTo (find (byId idR2) (reports w1)) = Some (Some idBob)
    /\ exists msg c w2,
         assignReport 99 carol idR1 idBob None w1 = (Next msg c, w2).
Proof.
  eexists. split; [reflexivity | ].
  assert (Hrun : updateUserRole 88 carol idBob "user" sampleWorld
                 = (Done (mkReply 200 (mkUser idBob "Bob" "Brown" "bob@example.com" "user")),
                    snd (updateUserRole 88 carol idBob "user" sampleWorld)))
    by (vm_compute; reflexivity).
  destruct (role_update_then_assignment 88 carol idBob "user" sampleWorld _ _ Hrun)
    as (Hreps & _).
  split; [now rewrite Hreps | ].
  eexists. eexists. eexists. vm_compute. reflexivity.
Defined.

Lemma emails_stay_unique_witness :
  NoDup (map email (users (snd (register sampleToken sampleUserValid idNew adminRequest
                                  sampleWorld)))).
Proof.
  assert (Hnd : NoDup (map email (users sampleWorld)))
    by (repeat constructor; simpl; intuition discriminate).
  exact (proj1 (emails_stay_unique sampleToken sampleUserValid idNew sampleWorld Hnd)
           adminRequest).
Defined.

Lemma deactivated_account_is_locked_out_witness :
  exists rep s1,
    toggleUserStatus 50 carol idBob (Some false) sampleRealm = (Done rep, s1)
    /\ fst (login sampleCompare sampleToken 60 (Some "bob@example.com") (Some "pw-Bob")
              sampleRealm)
       = Done (mkReply 200
                 (mkRegisterReply "token.b00000000000000000000001.employee"
                    (mkUser idBob "Bob" "Brown" "bob@example.com" "employee")))
    /\ fst (login sampleCompare sampleToken 60 (Some "bob@example.com") (Some "pw-Bob") s1)
       = Next "Your account has been deactivated" 403
    /\ forall header a s2,
         authMiddleware sampleVerify header s1 = (Done a, s2) ->
         castObjectId idBob <> Some (u_id (acc a)).
Proof.
  eexists. eexists.
  assert (Hrun : toggleUserStatus 50 carol idBob (Some false) sampleRealm = (Done _, _))
    by (vm_compute; reflexivity).
  split; [exact Hrun | split; [vm_compute; reflexivity | split; [vm_compute; reflexivity | ]]].
  exact (proj2 (deactivated_account_is_locked_out sampleCompare sampleToken sampleVerify
                  50 carol idBob sampleRealm _ _ Hrun)).
Defined.

Lemma reset_round_trip_witness :
  exists s1 s2,
    forgotPassword sampleSha sampleMailer 0 "r4nd0m" "https" "civic.example"
      "alice@example.com" sampleRealm
    = (Done (mkReply 200 "Token sent to email"), s1)
    /\ resetPassword sampleToken sampleSha sampleStored samplePasswordValid 599999
         "r4nd0m" "new password" s1
       = (Done (mkReply 200 "token.a00000000000000000000001.user"), s2)
    /\ option_map password (find (byAccountId idAlice) (accounts s2))
       = Some "hash:new password".
Proof.
  eexists. eexists.
  assert (Hrun : forgotPassword sampleSha sampleMailer 0 "r4nd0m" "https" "civic.example"
                   "alice@example.com" sampleRealm
                 = (Done (mkReply 200 "Token sent to email"), _))
    by (vm_compute; reflexivity).
  split; [exact Hrun | ].
  destruct (reset_round_trip sampleToken sampleSha sampleMailer sampleStored
              samplePasswordValid 0 "r4nd0m" "https" "civic.example" "alice@example.com"
              sampleRealm _ _ 599999 "new password" (sampleRealm_unissued "r4nd0m") Hrun
              eq_refl eq_refl) as (user & Hf & _ & Hreset & _).
  vm_compute in Hf. injection Hf as <-.
  split; [exact Hreset | reflexivity].
Defined.

Lemma reset_token_dies_witness :
  exists s1,
    forgotPassword sampleSha sampleMailer 0 "r4nd0m" "https" "civic.example"
      "alice@example.com" sampleRealm
    = (Done (mkReply 200 "Token sent to email"), s1)
    /\ resetPassword sampleToken sampleSha sampleStored samplePasswordValid 600000
         "r4nd0m" "new password" s1
       = (Next "Token is invalid or has expired" 400, s1).
Proof.
  eexists.
  assert (Hrun : forgotPassword sampleSha sampleMailer 0 "r4nd0m" "https" "civic.example"
                   "alice@example.com" sampleRealm
                 = (Done (mkReply 200 "Token sent to email"), _))
    by (vm_compute; reflexivity).
  split; [exact Hrun | ].
  apply (reset_token_dies sampleToken sampleSha sampleMailer sampleStored
           samplePasswordValid 0 "r4nd0m" "https" "civic.example" "alice@example.com"
           sampleRealm _ _ 600000 "new password" (sampleRealm_unissued "r4nd0m") Hrun).
  left. vm_compute. discriminate.
Defined.

Lemma read_notification_leaves_unread_list_witness :
  markNotificationRead 30 bob idN1 sampleInbox
  = (Refused "Notification not found" 404, sampleInbox)
  /\ exists s',
       markNotificationRead 30 alice idN1 sampleInbox
       = (Done (mkReply 200 (markAsRead 30 noticeForAlice)), s')
       /\ unreadOf idAlice s' = []
       /\ unreadOf idBob s' = [noticeForBob].
Proof.
  split; [vm_compute; reflexivity | ].
  eexists.
  assert (Hrun : markNotificationRead 30 alice idN1 sampleInbox
                 = (Done (mkReply 200 (markAsRead 30 noticeForAlice)), _))
    by (vm_compute; reflexivity).
  assert (Hnd : NoDup (map fst sampleInbox))
    by (repeat constructor; simpl; intuition discriminate).
  split; [exact Hrun | ].
  destruct (read_notification_leaves_unread_list 30 alice idN1 sampleInbox _ _ Hnd Hrun)
    as (oid & n & _ & _ & _ & Hothers).
  split; [reflexivity | ].
  rewrite (Hothers idBob); [reflexivity | discriminate].
Defined.

Lemma profile_update_keeps_identity_and_role_witness :
  exists w',
    updateProfile sampleUpdateValid alice
      [("firstName", "Alicia"); ("role", "admin"); ("email", "root@example.com")]
      sampleWorld
    = (Done (mkReply 200 (Some (mkUser idAlice "Alicia" "Adams" "alice@example.com" "user"))),
       w')
    /\ map role (users w') = map role (users sampleWorld).
Proof.
  eexists. split; [vm_compute; reflexivity | ].
  assert (Hnd : NoDup (map u_id (users sampleWorld)))
    by (repeat constructor; simpl; intuition discriminate).
  destruct (profile_update_keeps_identity_and_role sampleUpdateValid alice
              [("firstName", "Alicia"); ("role", "admin"); ("email", "root@example.com")]
              sampleWorld Hnd) as (Hkeys & _).
  apply (f_equal (map (fun t : string * string * string => snd t))) in Hkeys.
  rewrite !map_map in Hkeys. exact Hkeys.
Defined.

(** A search for Bob's reports lists the one assigned to him, and its
    statistics count none. *)
Lemma search_reply_is_consistent_witness :
  exists rep w',
    advancedReportSearch hex24 containsCI sampleParseDate assignedToBob sampleWorld
    = (Done rep, w')
    /\ sb_reports (body rep) = [reportResolved]
    /\ sb_totalReports (body rep) = 1%nat
    /\ sb_statistics (body rep) = mkSearchStats 0 [] [] [] 0%Q.
Proof.
  eexists. eexists.
  assert (Hrun : advancedReportSearch hex24 containsCI sampleParseDate assignedToBob
                   sampleWorld = (Done _, _)) by (vm_compute; reflexivity).
  split; [exact Hrun | ].
  destruct (search_reply_is_consistent hex24 containsCI sampleParseDate assignedToBob
              sampleWorld _ _ Hrun) as (_ & Hzero & _).
  - vm_compute. discriminate.
  - split; [reflexivity | split; [reflexivity | ]]. apply Hzero. reflexivity.
Defined.


Lemma ledger_register_then_get_witness :
  exists text l',
    registerUser sampleCompositeKey "u1" "Ann" "Lee" "ann@example.com" "admin" []
    = (Returned text, l')
    /\ getUserById sampleCompositeKey "u1" l' = (Returned text, l')
    /\ registerUser sampleCompositeKey "u1" "Eve" "Lee" "eve@example.com" "employee" l'
       = (Failed "User with ID u1 already exists", l').
Proof.
  eexists. eexists.
  assert (Hrun : registerUser sampleCompositeKey "u1" "Ann" "Lee" "ann@example.com" "admin" []
                 = (Returned _, _)) by (vm_compute; reflexivity).
  split; [exact Hrun | ].
  destruct (ledger_register_then_get sampleCompositeKey "u1" "Ann" "Lee" "ann@example.com"
              "admin" [] sampleCompositeKey_distinct) as (Hok & _).
  destruct (Hok _ _ Hrun) as (_ & _ & Hget & _ & Hagain & _).
  split; [exact Hget | exact (Hagain "Eve" "Lee" "eve@example.com" "employee")].
Defined.

Lemma emails_are_unique_on_chain_witness :
  let c := after sampleKeccak sampleTransactions deployed in
  getUser 11 c = ("Ann", "Lee", "ann@example.com", "user", false, 0)
  /\ getUser 12 c = ("Bo", "Ray", "bo@example.com", "employee", true, 0)
  /\ forall a b,
       ca_email (chainUsers c a) <> EmptyString ->
       ca_email (chainUsers c a) = ca_email (chainUsers c b) -> a = b.
Proof.
  split; [vm_compute; reflexivity | split; [vm_compute; reflexivity | ]].
  apply (emails_are_unique_on_chain sampleKeccak sampleTransactions).
  unfold sampleTransactions. repeat constructor; simpl; discriminate.
Defined.

End OnTheSampleData.
